(** * MTRDevice: the per-node device shadow of the Darwin Matter framework

    A shallow embedding of [src/darwin/Framework/CHIP/MTRDevice.mm]: the
    expected-value cache, the cluster data store, report ingestion, the
    subscription back-off, and the read / write / invoke work items, followed
    by the properties the specification states about them.

    Conventions of the embedding.
    - An [NSDate] is an integer count of milliseconds; an [NSTimeInterval]
      is a difference of two such counts.  All clock reads made while one
      method runs return the instant passed to the model of that method.
    - A method running under [_lock] is a computation in the monad [M]: it
      reads and updates the [MTRDevice] record and emits the blocks it
      dispatches ([Effect]) in program order.
    - [uint32_t] and [uint64_t] ivars are integers with the wrap-around
      written out.
    - The model is the release build: code under [#ifdef DEBUG] is left out. *)

From stdpp Require Import gmap strings list fin_maps.
From Stdlib Require Import ZArith Lia.

Set Warnings "-register-all".

Open Scope Z_scope.

(** ** Paths *)

Record MTRClusterPath : Type := mkClusterPath {
  cp_endpoint : Z;
  cp_cluster : Z
}.

Record MTRAttributePath : Type := mkAttributePath {
  endpoint : Z;
  cluster : Z;
  attribute : Z
}.

Record MTREventPath : Type := mkEventPath {
  ep_endpoint : Z;
  ep_cluster : Z;
  ep_event : Z
}.

(** [MTRAttributeRequestPath requestPathWithEndpointID:clusterID:attributeID:] *)
Record MTRAttributeRequestPath : Type := mkRequestPath {
  rp_endpoint : Z;
  rp_cluster : Z;
  rp_attribute : Z
}.

#[global] Instance MTRClusterPath_eq_dec : EqDecision MTRClusterPath.
Proof. solve_decision. Defined.

#[global] Instance MTRAttributePath_eq_dec : EqDecision MTRAttributePath.
Proof. solve_decision. Defined.

#[global] Instance MTRAttributeRequestPath_eq_dec : EqDecision MTRAttributeRequestPath.
Proof. solve_decision. Defined.

#[global] Instance MTRClusterPath_countable : Countable MTRClusterPath.
Proof.
  refine (inj_countable' (fun p => (cp_endpoint p, cp_cluster p))
                         (fun t => mkClusterPath t.1 t.2) _).
  by intros [].
Defined.

#[global] Instance MTRAttributePath_countable : Countable MTRAttributePath.
Proof.
  refine (inj_countable' (fun p => (endpoint p, cluster p, attribute p))
                         (fun t => mkAttributePath t.1.1 t.1.2 t.2) _).
  by intros [].
Defined.

(** [[MTRClusterPath clusterPathWithEndpointID:path.endpoint clusterID:path.cluster]] *)
Definition clusterPathOf (path : MTRAttributePath) : MTRClusterPath :=
  mkClusterPath (endpoint path) (cluster path).

(** ** Data values *)

(** The type tags a data-value dictionary carries under [MTRTypeKey]. *)
Inductive MTRValueType : Type :=
| MTRSignedIntegerValueType
| MTRUnsignedIntegerValueType
| MTRBooleanValueType
| MTRUTF8StringValueType
| MTROctetStringValueType
| MTRFloatValueType
| MTRDoubleValueType
| MTRNullValueType
| MTRStructureValueType
| MTRArrayValueType.

#[global] Instance MTRValueType_eq_dec : EqDecision MTRValueType.
Proof. solve_decision. Defined.

(** Foundation objects as the device code sees them.  A dictionary is
    restricted to the keys this file reads and writes; a key that is absent
    reads as [None] (Objective-C [nil]).  The arrays of the data-value
    format hold dictionaries, and the code iterates them as such. *)
Inductive NSObject : Type :=
| NSNumber (n : Z)
| NSString (s : string)
| NSData (bytes : list Z)
| NSArray (items : list NSDictionary)
| NSDictionaryObject (d : NSDictionary)
with NSDictionary : Type :=
| mkDictionary (type : option MTRValueType) (value : option NSObject)
               (data : option NSObject) (contextTag : option Z)
               (dataVersion : option Z).

(** [d[MTRTypeKey]], [d[MTRValueKey]], [d[MTRDataKey]], [d[MTRDataVersionKey]] *)
Definition MTRTypeKey (d : NSDictionary) : option MTRValueType :=
  match d with mkDictionary t _ _ _ _ => t end.

Definition MTRValueKey (d : NSDictionary) : option NSObject :=
  match d with mkDictionary _ v _ _ _ => v end.

Definition MTRDataKey (d : NSDictionary) : option NSObject :=
  match d with mkDictionary _ _ x _ _ => x end.

Definition MTRDataVersionKey (d : NSDictionary) : option Z :=
  match d with mkDictionary _ _ _ _ v => v end.

(** The data-value dictionary [@{ MTRTypeKey : t, MTRValueKey : v }]. *)
Definition dataValue (t : MTRValueType) (v : option NSObject) : NSDictionary :=
  mkDictionary (Some t) v None None None.

(** An attribute value as decoded from a report: a data value that may
    carry the cluster data version. *)
Definition MTRDeviceDataValueDictionary : Type := NSDictionary.

(** [-isEqual:] on Foundation objects: structural comparison. *)
Fixpoint isEqual (a b : NSObject) {struct a} : bool :=
  match a, b with
  | NSNumber n, NSNumber m => bool_decide (n = m)
  | NSString s, NSString t => bool_decide (s = t)
  | NSData x, NSData y => bool_decide (x = y)
  | NSArray l, NSArray r =>
      (fix all2 (l r : list NSDictionary) {struct l} : bool :=
         match l, r with
         | [], [] => true
         | x :: l', y :: r' => isEqualToDictionary x y && all2 l' r'
         | _, _ => false
         end) l r
  | NSDictionaryObject d, NSDictionaryObject e => isEqualToDictionary d e
  | _, _ => false
  end
with isEqualToDictionary (d e : NSDictionary) {struct d} : bool :=
  match d, e with
  | mkDictionary t v x c dv, mkDictionary t' v' x' c' dv' =>
      bool_decide (t = t')
      && match v, v' with
         | Some a, Some b => isEqual a b
         | None, None => true
         | _, _ => false
         end
      && match x, x' with
         | Some a, Some b => isEqual a b
         | None, None => true
         | _, _ => false
         end
      && bool_decide (c = c')
      && bool_decide (dv = dv')
  end.

(** [[a isEqual:b]] where either side may be [nil]: a message to [nil]
    answers [NO], and the argument [nil] equals no object. *)
Definition msg_isEqual {A : Type} (eq : A -> A -> bool) (a b : option A) : bool :=
  match a, b with
  | Some x, Some y => eq x y
  | _, _ => false
  end.

(** Pointer equality [a == b] as far as the model can see it: two [nil]s. *)
Definition both_nil {A : Type} (a b : option A) : bool :=
  match a, b with
  | None, None => true
  | _, _ => false
  end.

(** ** Errors *)

(** Interaction-model status codes the device code names. *)
Inductive Status : Type :=
| Status_Success
| Status_Busy
| Status_Timeout
| Status_Other (code : Z).

Inductive NSError : Type :=
| MTRInteractionError (s : Status)   (* domain MTRInteractionErrorDomain *)
| MTRCHIPError (code : Z).           (* domain MTRErrorDomain *)

(** ** Report entries *)

(** A response-value dictionary of an attribute report:
    [MTRAttributePathKey], [MTRDataKey], [MTRErrorKey], [MTRPreviousDataKey]. *)
Record MTRAttributeResponseValue : Type := mkResponseValue {
  MTRAttributePathKey : MTRAttributePath;
  rv_data : option MTRDeviceDataValueDictionary;
  MTRErrorKey : option NSError;
  MTRPreviousDataKey : option MTRDeviceDataValueDictionary
}.

(** An event-report dictionary. *)
Record MTREventReport : Type := mkEventReport {
  MTREventPathKey : MTREventPath;
  ev_data : option NSDictionary;
  MTREventTimeTypeKey : option Z;
  MTREventSystemUpTimeKey : option Z;      (* seconds *)
  MTREventIsHistoricalKey : option bool
}.

Definition NSDate : Type := Z.

(** ** Constants and tables declared outside this file

    [MTRClusterConstants.h], [MTRAttributeSpecifiedCheck.h],
    [MTRCommandTimedCheck.h] and the core headers declare the identifiers
    below; the device code only names them, so the embedding takes them as
    parameters.  [changesOmittedAttributes] is the table behind the nested
    [switch] of [AttributeHasChangesOmittedQuality]: cluster id, then the
    attribute ids listed under it. *)
Class MTRConstants : Type := {
  kRootEndpointId : Z;
  MTRClusterIDTypeDescriptorID : Z;
  MTRAttributeIDTypeClusterDescriptorAttributePartsListID : Z;
  MTRAttributeIDTypeClusterDescriptorAttributeServerListID : Z;
  MTRAttributeIDTypeClusterDescriptorAttributeDeviceTypeListID : Z;
  MTRAttributeIDTypeGlobalAttributeAcceptedCommandListID : Z;
  MTRAttributeIDTypeGlobalAttributeAttributeListID : Z;
  MTRAttributeIDTypeGlobalAttributeClusterRevisionID : Z;
  MTRAttributeIDTypeGlobalAttributeFeatureMapID : Z;
  MTRClusterGeneralDiagnosticsID : Z;
  MTRClusterGeneralDiagnosticsAttributeUpTimeID : Z;
  MTRClusterIDTypeBasicInformationID : Z;
  MTREventIDTypeClusterBasicInformationEventStartUpID : Z;
  MTREventTimeTypeSystemUpTime : Z;
  changesOmittedAttributes : list (Z * list Z);
  MTRAttributeIsSpecified : Z -> Z -> bool;
  MTRCommandNeedsTimedInvoke : Z -> Z -> bool;
  MTR_DEFAULT_TIMED_INTERACTION_TIMEOUT_MS : Z
}.

Definition UINT16_MAX : Z := 65535.
Definition UINT32_MAX : Z := 4294967295.

(** Arithmetic on [uint32_t] and [uint64_t] ivars. *)
Definition wrap32 (z : Z) : Z := z mod 2 ^ 32.
Definition wrap64 (z : Z) : Z := z mod 2 ^ 64.

(** ** Device state *)

Inductive MTRDeviceState : Type :=
| MTRDeviceStateUnknown
| MTRDeviceStateReachable
| MTRDeviceStateUnreachable.

#[global] Instance MTRDeviceState_eq_dec : EqDecision MTRDeviceState.
Proof. solve_decision. Defined.

Inductive MTRInternalDeviceState : Type :=
| MTRInternalDeviceStateUnsubscribed
| MTRInternalDeviceStateSubscribing
| MTRInternalDeviceStateInitalSubscriptionEstablished.

Definition internalStateValue (s : MTRInternalDeviceState) : Z :=
  match s with
  | MTRInternalDeviceStateUnsubscribed => 0
  | MTRInternalDeviceStateSubscribing => 1
  | MTRInternalDeviceStateInitalSubscriptionEstablished => 2
  end.

Definition HadSubscriptionEstablishedOnce (s : MTRInternalDeviceState) : bool :=
  internalStateValue s >=? internalStateValue MTRInternalDeviceStateInitalSubscriptionEstablished.

Definition NeedToStartSubscriptionSetup (s : MTRInternalDeviceState) : bool :=
  internalStateValue s <=? internalStateValue MTRInternalDeviceStateUnsubscribed.

(** [MTRDeviceClusterData]: the data version and the attribute values of
    one cluster. *)
Record MTRDeviceClusterData : Type := mkClusterData {
  cd_dataVersion : option Z;
  attributes : gmap Z MTRDeviceDataValueDictionary
}.

(** An entry of [_expectedValueCache]:
    [@[ expirationTime, expectedAttributeValue, @(expectedValueID) ]]. *)
Record ExpectedValue : Type := mkExpectedValue {
  MTRDeviceExpectedValueFieldExpirationTimeIndex : NSDate;
  MTRDeviceExpectedValueFieldValueIndex : MTRDeviceDataValueDictionary;
  MTRDeviceExpectedValueFieldIDIndex : Z
}.

(** *** Work items *)

(** Modelled from the spec: [MTRReadParams] is declared in another file;
    the specification only says that read params are compared structurally. *)
Record MTRReadParams : Type := mkReadParams {
  filterByFabric : bool;
  minEventNumber : option Z;
  assumeUnknownAttributesReportable : bool
}.

#[global] Instance MTRReadParams_eq_dec : EqDecision MTRReadParams.
Proof. solve_decision. Defined.

(** [@[ readRequestPath, params ?: [NSNull null] ]] *)
Record ReadRequest : Type := mkReadRequest {
  MTRDeviceReadRequestFieldPathIndex : MTRAttributeRequestPath;
  MTRDeviceReadRequestFieldParamsIndex : option MTRReadParams
}.

#[global] Instance ReadRequest_eq_dec : EqDecision ReadRequest.
Proof. solve_decision. Defined.

(** [@[ attributePath, [value copy], timeout ?: [NSNull null], @(expectedValueID) ]] *)
Record WriteRequest : Type := mkWriteRequest {
  MTRDeviceWriteRequestFieldPathIndex : MTRAttributePath;
  MTRDeviceWriteRequestFieldValueIndex : NSDictionary;
  MTRDeviceWriteRequestFieldTimeoutIndex : option Z;
  MTRDeviceWriteRequestFieldExpectedValueIDIndex : Z
}.

(** What an invoke work item captures when it is created. *)
Record InvokeRequest : Type := mkInvokeRequest {
  inv_endpointID : Z;
  inv_clusterID : Z;
  inv_commandID : Z;
  inv_commandFields : NSDictionary;
  inv_expectedValues : option (list MTRAttributeResponseValue);
  inv_attributePaths : option (list MTRAttributePath);
  inv_expectedValueID : Z;
  inv_timeout : option Z;                  (* milliseconds *)
  inv_cutoffTime : option NSDate;
  inv_serverSideProcessingTimeout : option Z
}.

(** A work item with the mutable request array its three handlers share. *)
Inductive MTRAsyncWorkItem : Type :=
| ReadWorkItem (readRequests : list ReadRequest)
| WriteWorkItem (attributePath : MTRAttributePath) (useValueAsExpectedValue : bool)
                (writeRequests : list WriteRequest)
| InvokeWorkItem (request : InvokeRequest).

Record MTRDevice : Type := mkMTRDevice {
  weakDelegate : bool;   (* [_weakDelegate.strongObject != nil] *)
  state : MTRDeviceState;
  internalDeviceState : MTRInternalDeviceState;
  receivingReport : bool;
  receivingPrimingReport : bool;
  unreportedEvents : option (list MTREventReport);
  lastSubscriptionAttemptWait : Z;   (* uint32_t, seconds *)
  reattemptingSubscription : bool;
  lastSubscriptionFailureTime : option NSDate;
  connectivityMonitor : bool;
  expectedValueCache : gmap MTRAttributePath ExpectedValue;
  expectedValueNextID : Z;   (* uint64_t *)
  expirationCheckScheduled : bool;
  timeUpdateScheduled : bool;
  estimatedStartTime : option NSDate;
  estimatedStartTimeFromGeneralDiagnosticsUpTime : option NSDate;
  delegateDeviceCachePrimedCalled : bool;
  persistedClusterData : option (gmap MTRClusterPath MTRDeviceClusterData);   (* NSCache; nil without persistence *)
  clusterDataToPersist : option (gmap MTRClusterPath MTRDeviceClusterData);   (* the dirty clusters; nil when none *)
  persistedClusters : gset MTRClusterPath;
  deviceConfigurationChanged : bool;
  asyncWorkQueue : list MTRAsyncWorkItem;   (* items of [_asyncWorkQueue], oldest first *)
  controllerDataStore : option (gmap MTRClusterPath MTRDeviceClusterData);   (* [_deviceController.controllerDataStore] and what it holds for this node *)
  controllerIsOverXPC : bool   (* [_deviceController isKindOfClass:MTRDeviceControllerOverXPC.class] *)
}.

(** Assignment to one ivar. *)
Definition set_weakDelegate (v : bool) (d : MTRDevice) : MTRDevice :=
  mkMTRDevice v (state d) (internalDeviceState d) (receivingReport d)
    (receivingPrimingReport d) (unreportedEvents d) (lastSubscriptionAttemptWait d)
    (reattemptingSubscription d) (lastSubscriptionFailureTime d) (connectivityMonitor d)
    (expectedValueCache d) (expectedValueNextID d) (expirationCheckScheduled d)
    (timeUpdateScheduled d) (estimatedStartTime d)
    (estimatedStartTimeFromGeneralDiagnosticsUpTime d) (delegateDeviceCachePrimedCalled d)
    (persistedClusterData d) (clusterDataToPersist d) (persistedClusters d)
    (deviceConfigurationChanged d) (asyncWorkQueue d) (controllerDataStore d)
    (controllerIsOverXPC d).

Definition set_state (v : MTRDeviceState) (d : MTRDevice) : MTRDevice :=
  mkMTRDevice (weakDelegate d) v (internalDeviceState d) (receivingReport d)
    (receivingPrimingReport d) (unreportedEvents d) (lastSubscriptionAttemptWait d)
    (reattemptingSubscription d) (lastSubscriptionFailureTime d) (connectivityMonitor d)
    (expectedValueCache d) (expectedValueNextID d) (expirationCheckScheduled d)
    (timeUpdateScheduled d) (estimatedStartTime d)
    (estimatedStartTimeFromGeneralDiagnosticsUpTime d) (delegateDeviceCachePrimedCalled d)
    (persistedClusterData d) (clusterDataToPersist d) (persistedClusters d)
    (deviceConfigurationChanged d) (asyncWorkQueue d) (controllerDataStore d)
    (controllerIsOverXPC d).

Definition set_internalDeviceState (v : MTRInternalDeviceState) (d : MTRDevice) : MTRDevice :=
  mkMTRDevice (weakDelegate d) (state d) v (receivingReport d) (receivingPrimingReport d)
    (unreportedEvents d) (lastSubscriptionAttemptWait d) (reattemptingSubscription d)
    (lastSubscriptionFailureTime d) (connectivityMonitor d) (expectedValueCache d)
    (expectedValueNextID d) (expirationCheckScheduled d) (timeUpdateScheduled d)
    (estimatedStartTime d) (estimatedStartTimeFromGeneralDiagnosticsUpTime d)
    (delegateDeviceCachePrimedCalled d) (persistedClusterData d) (clusterDataToPersist d)
    (persistedClusters d) (deviceConfigurationChanged d) (asyncWorkQueue d)
    (controllerDataStore d) (controllerIsOverXPC d).

Definition set_receivingReport (v : bool) (d : MTRDevice) : MTRDevice :=
  mkMTRDevice (weakDelegate d) (state d) (internalDeviceState d) v
    (receivingPrimingReport d) (unreportedEvents d) (lastSubscriptionAttemptWait d)
    (reattemptingSubscription d) (lastSubscriptionFailureTime d) (connectivityMonitor d)
    (expectedValueCache d) (expectedValueNextID d) (expirationCheckScheduled d)
    (timeUpdateScheduled d) (estimatedStartTime d)
    (estimatedStartTimeFromGeneralDiagnosticsUpTime d) (delegateDeviceCachePrimedCalled d)
    (persistedClusterData d) (clusterDataToPersist d) (persistedClusters d)
    (deviceConfigurationChanged d) (asyncWorkQueue d) (controllerDataStore d)
    (controllerIsOverXPC d).

Definition set_receivingPrimingReport (v : bool) (d : MTRDevice) : MTRDevice :=
  mkMTRDevice (weakDelegate d) (state d) (internalDeviceState d) (receivingReport d) v
    (unreportedEvents d) (lastSubscriptionAttemptWait d) (reattemptingSubscription d)
    (lastSubscriptionFailureTime d) (connectivityMonitor d) (expectedValueCache d)
    (expectedValueNextID d) (expirationCheckScheduled d) (timeUpdateScheduled d)
    (estimatedStartTime d) (estimatedStartTimeFromGeneralDiagnosticsUpTime d)
    (delegateDeviceCachePrimedCalled d) (persistedClusterData d) (clusterDataToPersist d)
    (persistedClusters d) (deviceConfigurationChanged d) (asyncWorkQueue d)
    (controllerDataStore d) (controllerIsOverXPC d).

Definition set_unreportedEvents (v : option (list MTREventReport)) (d : MTRDevice) : MTRDevice :=
  mkMTRDevice (weakDelegate d) (state d) (internalDeviceState d) (receivingReport d)
    (receivingPrimingReport d) v (lastSubscriptionAttemptWait d)
    (reattemptingSubscription d) (lastSubscriptionFailureTime d) (connectivityMonitor d)
    (expectedValueCache d) (expectedValueNextID d) (expirationCheckScheduled d)
    (timeUpdateScheduled d) (estimatedStartTime d)
    (estimatedStartTimeFromGeneralDiagnosticsUpTime d) (delegateDeviceCachePrimedCalled d)
    (persistedClusterData d) (clusterDataToPersist d) (persistedClusters d)
    (deviceConfigurationChanged d) (asyncWorkQueue d) (controllerDataStore d)
    (controllerIsOverXPC d).

Definition set_lastSubscriptionAttemptWait (v : Z) (d : MTRDevice) : MTRDevice :=
  mkMTRDevice (weakDelegate d) (state d) (internalDeviceState d) (receivingReport d)
    (receivingPrimingReport d) (unreportedEvents d) v (reattemptingSubscription d)
    (lastSubscriptionFailureTime d) (connectivityMonitor d) (expectedValueCache d)
    (expectedValueNextID d) (expirationCheckScheduled d) (timeUpdateScheduled d)
    (estimatedStartTime d) (estimatedStartTimeFromGeneralDiagnosticsUpTime d)
    (delegateDeviceCachePrimedCalled d) (persistedClusterData d) (clusterDataToPersist d)
    (persistedClusters d) (deviceConfigurationChanged d) (asyncWorkQueue d)
    (controllerDataStore d) (controllerIsOverXPC d).

Definition set_reattemptingSubscription (v : bool) (d : MTRDevice) : MTRDevice :=
  mkMTRDevice (weakDelegate d) (state d) (internalDeviceState d) (receivingReport d)
    (receivingPrimingReport d) (unreportedEvents d) (lastSubscriptionAttemptWait d) v
    (lastSubscriptionFailureTime d) (connectivityMonitor d) (expectedValueCache d)
    (expectedValueNextID d) (expirationCheckScheduled d) (timeUpdateScheduled d)
    (estimatedStartTime d) (estimatedStartTimeFromGeneralDiagnosticsUpTime d)
    (delegateDeviceCachePrimedCalled d) (persistedClusterData d) (clusterDataToPersist d)
    (persistedClusters d) (deviceConfigurationChanged d) (asyncWorkQueue d)
    (controllerDataStore d) (controllerIsOverXPC d).

Definition set_lastSubscriptionFailureTime (v : option NSDate) (d : MTRDevice) : MTRDevice :=
  mkMTRDevice (weakDelegate d) (state d) (internalDeviceState d) (receivingReport d)
    (receivingPrimingReport d) (unreportedEvents d) (lastSubscriptionAttemptWait d)
    (reattemptingSubscription d) v (connectivityMonitor d) (expectedValueCache d)
    (expectedValueNextID d) (expirationCheckScheduled d) (timeUpdateScheduled d)
    (estimatedStartTime d) (estimatedStartTimeFromGeneralDiagnosticsUpTime d)
    (delegateDeviceCachePrimedCalled d) (persistedClusterData d) (clusterDataToPersist d)
    (persistedClusters d) (deviceConfigurationChanged d) (asyncWorkQueue d)
    (controllerDataStore d) (controllerIsOverXPC d).

Definition set_connectivityMonitor (v : bool) (d : MTRDevice) : MTRDevice :=
  mkMTRDevice (weakDelegate d) (state d) (internalDeviceState d) (receivingReport d)
    (receivingPrimingReport d) (unreportedEvents d) (lastSubscriptionAttemptWait d)
    (reattemptingSubscription d) (lastSubscriptionFailureTime d) v (expectedValueCache d)
    (expectedValueNextID d) (expirationCheckScheduled d) (timeUpdateScheduled d)
    (estimatedStartTime d) (estimatedStartTimeFromGeneralDiagnosticsUpTime d)
    (delegateDeviceCachePrimedCalled d) (persistedClusterData d) (clusterDataToPersist d)
    (persistedClusters d) (deviceConfigurationChanged d) (asyncWorkQueue d)
    (controllerDataStore d) (controllerIsOverXPC d).

Definition set_expectedValueCache (v : gmap MTRAttributePath ExpectedValue) (d : MTRDevice) : MTRDevice :=
  mkMTRDevice (weakDelegate d) (state d) (internalDeviceState d) (receivingReport d)
    (receivingPrimingReport d) (unreportedEvents d) (lastSubscriptionAttemptWait d)
    (reattemptingSubscription d) (lastSubscriptionFailureTime d) (connectivityMonitor d) v
    (expectedValueNextID d) (expirationCheckScheduled d) (timeUpdateScheduled d)
    (estimatedStartTime d) (estimatedStartTimeFromGeneralDiagnosticsUpTime d)
    (delegateDeviceCachePrimedCalled d) (persistedClusterData d) (clusterDataToPersist d)
    (persistedClusters d) (deviceConfigurationChanged d) (asyncWorkQueue d)
    (controllerDataStore d) (controllerIsOverXPC d).

Definition set_expectedValueNextID (v : Z) (d : MTRDevice) : MTRDevice :=
  mkMTRDevice (weakDelegate d) (state d) (internalDeviceState d) (receivingReport d)
    (receivingPrimingReport d) (unreportedEvents d) (lastSubscriptionAttemptWait d)
    (reattemptingSubscription d) (lastSubscriptionFailureTime d) (connectivityMonitor d)
    (expectedValueCache d) v (expirationCheckScheduled d) (timeUpdateScheduled d)
    (estimatedStartTime d) (estimatedStartTimeFromGeneralDiagnosticsUpTime d)
    (delegateDeviceCachePrimedCalled d) (persistedClusterData d) (clusterDataToPersist d)
    (persistedClusters d) (deviceConfigurationChanged d) (asyncWorkQueue d)
    (controllerDataStore d) (controllerIsOverXPC d).

Definition set_expirationCheckScheduled (v : bool) (d : MTRDevice) : MTRDevice :=
  mkMTRDevice (weakDelegate d) (state d) (internalDeviceState d) (receivingReport d)
    (receivingPrimingReport d) (unreportedEvents d) (lastSubscriptionAttemptWait d)
    (reattemptingSubscription d) (lastSubscriptionFailureTime d) (connectivityMonitor d)
    (expectedValueCache d) (expectedValueNextID d) v (timeUpdateScheduled d)
    (estimatedStartTime d) (estimatedStartTimeFromGeneralDiagnosticsUpTime d)
    (delegateDeviceCachePrimedCalled d) (persistedClusterData d) (clusterDataToPersist d)
    (persistedClusters d) (deviceConfigurationChanged d) (asyncWorkQueue d)
    (controllerDataStore d) (controllerIsOverXPC d).

Definition set_timeUpdateScheduled (v : bool) (d : MTRDevice) : MTRDevice :=
  mkMTRDevice (weakDelegate d) (state d) (internalDeviceState d) (receivingReport d)
    (receivingPrimingReport d) (unreportedEvents d) (lastSubscriptionAttemptWait d)
    (reattemptingSubscription d) (lastSubscriptionFailureTime d) (connectivityMonitor d)
    (expectedValueCache d) (expectedValueNextID d) (expirationCheckScheduled d) v
    (estimatedStartTime d) (estimatedStartTimeFromGeneralDiagnosticsUpTime d)
    (delegateDeviceCachePrimedCalled d) (persistedClusterData d) (clusterDataToPersist d)
    (persistedClusters d) (deviceConfigurationChanged d) (asyncWorkQueue d)
    (controllerDataStore d) (controllerIsOverXPC d).

Definition set_estimatedStartTime (v : option NSDate) (d : MTRDevice) : MTRDevice :=
  mkMTRDevice (weakDelegate d) (state d) (internalDeviceState d) (receivingReport d)
    (receivingPrimingReport d) (unreportedEvents d) (lastSubscriptionAttemptWait d)
    (reattemptingSubscription d) (lastSubscriptionFailureTime d) (connectivityMonitor d)
    (expectedValueCache d) (expectedValueNextID d) (expirationCheckScheduled d)
    (timeUpdateScheduled d) v (estimatedStartTimeFromGeneralDiagnosticsUpTime d)
    (delegateDeviceCachePrimedCalled d) (persistedClusterData d) (clusterDataToPersist d)
    (persistedClusters d) (deviceConfigurationChanged d) (asyncWorkQueue d)
    (controllerDataStore d) (controllerIsOverXPC d).

Definition set_estimatedStartTimeFromGeneralDiagnosticsUpTime (v : option NSDate) (d : MTRDevice) : MTRDevice :=
  mkMTRDevice (weakDelegate d) (state d) (internalDeviceState d) (receivingReport d)
    (receivingPrimingReport d) (unreportedEvents d) (lastSubscriptionAttemptWait d)
    (reattemptingSubscription d) (lastSubscriptionFailureTime d) (connectivityMonitor d)
    (expectedValueCache d) (expectedValueNextID d) (expirationCheckScheduled d)
    (timeUpdateScheduled d) (estimatedStartTime d) v (delegateDeviceCachePrimedCalled d)
    (persistedClusterData d) (clusterDataToPersist d) (persistedClusters d)
    (deviceConfigurationChanged d) (asyncWorkQueue d) (controllerDataStore d)
    (controllerIsOverXPC d).

Definition set_delegateDeviceCachePrimedCalled (v : bool) (d : MTRDevice) : MTRDevice :=
  mkMTRDevice (weakDelegate d) (state d) (internalDeviceState d) (receivingReport d)
    (receivingPrimingReport d) (unreportedEvents d) (lastSubscriptionAttemptWait d)
    (reattemptingSubscription d) (lastSubscriptionFailureTime d) (connectivityMonitor d)
    (expectedValueCache d) (expectedValueNextID d) (expirationCheckScheduled d)
    (timeUpdateScheduled d) (estimatedStartTime d)
    (estimatedStartTimeFromGeneralDiagnosticsUpTime d) v (persistedClusterData d)
    (clusterDataToPersist d) (persistedClusters d) (deviceConfigurationChanged d)
    (asyncWorkQueue d) (controllerDataStore d) (controllerIsOverXPC d).

Definition set_persistedClusterData (v : option (gmap MTRClusterPath MTRDeviceClusterData)) (d : MTRDevice) : MTRDevice :=
  mkMTRDevice (weakDelegate d) (state d) (internalDeviceState d) (receivingReport d)
    (receivingPrimingReport d) (unreportedEvents d) (lastSubscriptionAttemptWait d)
    (reattemptingSubscription d) (lastSubscriptionFailureTime d) (connectivityMonitor d)
    (expectedValueCache d) (expectedValueNextID d) (expirationCheckScheduled d)
    (timeUpdateScheduled d) (estimatedStartTime d)
    (estimatedStartTimeFromGeneralDiagnosticsUpTime d) (delegateDeviceCachePrimedCalled d)
    v (clusterDataToPersist d) (persistedClusters d) (deviceConfigurationChanged d)
    (asyncWorkQueue d) (controllerDataStore d) (controllerIsOverXPC d).

Definition set_clusterDataToPersist (v : option (gmap MTRClusterPath MTRDeviceClusterData)) (d : MTRDevice) : MTRDevice :=
  mkMTRDevice (weakDelegate d) (state d) (internalDeviceState d) (receivingReport d)
    (receivingPrimingReport d) (unreportedEvents d) (lastSubscriptionAttemptWait d)
    (reattemptingSubscription d) (lastSubscriptionFailureTime d) (connectivityMonitor d)
    (expectedValueCache d) (expectedValueNextID d) (expirationCheckScheduled d)
    (timeUpdateScheduled d) (estimatedStartTime d)
    (estimatedStartTimeFromGeneralDiagnosticsUpTime d) (delegateDeviceCachePrimedCalled d)
    (persistedClusterData d) v (persistedClusters d) (deviceConfigurationChanged d)
    (asyncWorkQueue d) (controllerDataStore d) (controllerIsOverXPC d).

Definition set_persistedClusters (v : gset MTRClusterPath) (d : MTRDevice) : MTRDevice :=
  mkMTRDevice (weakDelegate d) (state d) (internalDeviceState d) (receivingReport d)
    (receivingPrimingReport d) (unreportedEvents d) (lastSubscriptionAttemptWait d)
    (reattemptingSubscription d) (lastSubscriptionFailureTime d) (connectivityMonitor d)
    (expectedValueCache d) (expectedValueNextID d) (expirationCheckScheduled d)
    (timeUpdateScheduled d) (estimatedStartTime d)
    (estimatedStartTimeFromGeneralDiagnosticsUpTime d) (delegateDeviceCachePrimedCalled d)
    (persistedClusterData d) (clusterDataToPersist d) v (deviceConfigurationChanged d)
    (asyncWorkQueue d) (controllerDataStore d) (controllerIsOverXPC d).

Definition set_deviceConfigurationChanged (v : bool) (d : MTRDevice) : MTRDevice :=
  mkMTRDevice (weakDelegate d) (state d) (internalDeviceState d) (receivingReport d)
    (receivingPrimingReport d) (unreportedEvents d) (lastSubscriptionAttemptWait d)
    (reattemptingSubscription d) (lastSubscriptionFailureTime d) (connectivityMonitor d)
    (expectedValueCache d) (expectedValueNextID d) (expirationCheckScheduled d)
    (timeUpdateScheduled d) (estimatedStartTime d)
    (estimatedStartTimeFromGeneralDiagnosticsUpTime d) (delegateDeviceCachePrimedCalled d)
    (persistedClusterData d) (clusterDataToPersist d) (persistedClusters d) v
    (asyncWorkQueue d) (controllerDataStore d) (controllerIsOverXPC d).

Definition set_asyncWorkQueue (v : list MTRAsyncWorkItem) (d : MTRDevice) : MTRDevice :=
  mkMTRDevice (weakDelegate d) (state d) (internalDeviceState d) (receivingReport d)
    (receivingPrimingReport d) (unreportedEvents d) (lastSubscriptionAttemptWait d)
    (reattemptingSubscription d) (lastSubscriptionFailureTime d) (connectivityMonitor d)
    (expectedValueCache d) (expectedValueNextID d) (expirationCheckScheduled d)
    (timeUpdateScheduled d) (estimatedStartTime d)
    (estimatedStartTimeFromGeneralDiagnosticsUpTime d) (delegateDeviceCachePrimedCalled d)
    (persistedClusterData d) (clusterDataToPersist d) (persistedClusters d)
    (deviceConfigurationChanged d) v (controllerDataStore d) (controllerIsOverXPC d).

Definition set_controllerDataStore (v : option (gmap MTRClusterPath MTRDeviceClusterData)) (d : MTRDevice) : MTRDevice :=
  mkMTRDevice (weakDelegate d) (state d) (internalDeviceState d) (receivingReport d)
    (receivingPrimingReport d) (unreportedEvents d) (lastSubscriptionAttemptWait d)
    (reattemptingSubscription d) (lastSubscriptionFailureTime d) (connectivityMonitor d)
    (expectedValueCache d) (expectedValueNextID d) (expirationCheckScheduled d)
    (timeUpdateScheduled d) (estimatedStartTime d)
    (estimatedStartTimeFromGeneralDiagnosticsUpTime d) (delegateDeviceCachePrimedCalled d)
    (persistedClusterData d) (clusterDataToPersist d) (persistedClusters d)
    (deviceConfigurationChanged d) (asyncWorkQueue d) v (controllerIsOverXPC d).
(** The setters unfold under [cbn] and [simpl], so that a projection of an
    updated record reduces. *)
#[global] Arguments set_weakDelegate _ _ /.
#[global] Arguments set_state _ _ /.
#[global] Arguments set_internalDeviceState _ _ /.
#[global] Arguments set_receivingReport _ _ /.
#[global] Arguments set_receivingPrimingReport _ _ /.
#[global] Arguments set_unreportedEvents _ _ /.
#[global] Arguments set_lastSubscriptionAttemptWait _ _ /.
#[global] Arguments set_reattemptingSubscription _ _ /.
#[global] Arguments set_lastSubscriptionFailureTime _ _ /.
#[global] Arguments set_connectivityMonitor _ _ /.
#[global] Arguments set_expectedValueCache _ _ /.
#[global] Arguments set_expectedValueNextID _ _ /.
#[global] Arguments set_expirationCheckScheduled _ _ /.
#[global] Arguments set_timeUpdateScheduled _ _ /.
#[global] Arguments set_estimatedStartTime _ _ /.
#[global] Arguments set_estimatedStartTimeFromGeneralDiagnosticsUpTime _ _ /.
#[global] Arguments set_delegateDeviceCachePrimedCalled _ _ /.
#[global] Arguments set_persistedClusterData _ _ /.
#[global] Arguments set_clusterDataToPersist _ _ /.
#[global] Arguments set_persistedClusters _ _ /.
#[global] Arguments set_deviceConfigurationChanged _ _ /.
#[global] Arguments set_asyncWorkQueue _ _ /.
#[global] Arguments set_controllerDataStore _ _ /.

(** ** Dispatched blocks *)

(** Calls made on the delegate queue. *)
Inductive DelegateCallback : Type :=
| device_stateChanged (s : MTRDeviceState)
| device_receivedAttributeReport (report : list MTRAttributeResponseValue)
| device_receivedEventReport (report : list MTREventReport)
| deviceCachePrimed
| deviceConfigurationChanged_
| deviceBecameActive.

(** Blocks the device puts on its own queue, on the Matter queue, or hands
    to the controller and to [MTRBaseDevice]. *)
Inductive Block : Type :=
| reattemptSubscriptionNowIfNeeded_block
| markDeviceAsUnreachableIfNeverSubscribed_block
| performScheduledExpirationCheck_block
| performScheduledTimeUpdate_block
| setupConnectivityMonitor_block
| triggerResubscribe_block (nodeLikelyReachable : bool)
| getSessionForNode_block.

Inductive MTRAsyncWorkOutcome : Type :=
| MTRAsyncWorkComplete
| MTRAsyncWorkNeedsRetry.

Inductive Effect : Type :=
| dispatch_async_delegateQueue (c : DelegateCallback)
| dispatch_after (milliseconds : Z) (b : Block)
| dispatch_async (b : Block)
| baseDevice_readAttributePaths (paths : list MTRAttributeRequestPath)
                                (params : option MTRReadParams)
| baseDevice_writeAttribute (path : MTRAttributePath) (value : NSDictionary)
                            (timedWriteTimeout : option Z)
| baseDevice_invokeCommand (endpointID clusterID commandID : Z)
                           (commandFields : NSDictionary)
                           (timedInvokeTimeout : option Z)
                           (serverSideProcessingTimeout : option Z)
| client_completion (values : option (list MTRAttributeResponseValue))
                    (error : option NSError)
| workCompletion (outcome : MTRAsyncWorkOutcome).

(** ** The device monad: state of one [MTRDevice] plus emitted effects *)

Definition M (A : Type) : Type := MTRDevice -> A * MTRDevice * list Effect.

Definition ret {A : Type} (a : A) : M A := fun d => (a, d, []).

Definition bind {A B : Type} (m : M A) (k : A -> M B) : M B :=
  fun d =>
    match m d with
    | (a, d1, out1) =>
        match k a d1 with
        | (b, d2, out2) => (b, d2, out1 ++ out2)
        end
    end.

Notation "x <- m ;; k" := (bind m (fun x => k))
  (at level 100, m at next level, right associativity).
Notation "m ;;; k" := (bind m (fun _ => k))
  (at level 100, right associativity).

Definition get {A : Type} (f : MTRDevice -> A) : M A := fun d => (f d, d, []).
Definition modify (f : MTRDevice -> MTRDevice) : M unit := fun d => (tt, f d, []).
Definition emit (e : Effect) : M unit := fun d => (tt, d, [e]).
Definition when (b : bool) (m : M unit) : M unit := if b then m else ret tt.

(** [for (x in l) { body }] *)
Fixpoint for_each {A : Type} (l : list A) (body : A -> M unit) : M unit :=
  match l with
  | [] => ret tt
  | x :: l' => body x ;;; for_each l' body
  end.

(** Running a method: the resulting device, the value, the effects. *)
Definition result {A : Type} (r : A * MTRDevice * list Effect) : A := r.1.1.
Definition device_after {A : Type} (r : A * MTRDevice * list Effect) : MTRDevice := r.1.2.
Definition effects {A : Type} (r : A * MTRDevice * list Effect) : list Effect := r.2.

(** [-initWithNodeID:controller:] *)
Definition initWithNodeID (dataStore : option (gmap MTRClusterPath MTRDeviceClusterData))
    (overXPC : bool) : MTRDevice :=
  {| weakDelegate := false;
     state := MTRDeviceStateUnknown;
     internalDeviceState := MTRInternalDeviceStateUnsubscribed;
     receivingReport := false;
     receivingPrimingReport := false;
     unreportedEvents := None;
     lastSubscriptionAttemptWait := 0;
     reattemptingSubscription := false;
     lastSubscriptionFailureTime := None;
     connectivityMonitor := false;
     expectedValueCache := ∅;
     expectedValueNextID := 0;
     expirationCheckScheduled := false;
     timeUpdateScheduled := false;
     estimatedStartTime := None;
     estimatedStartTimeFromGeneralDiagnosticsUpTime := None;
     delegateDeviceCachePrimedCalled := false;
     persistedClusterData := match dataStore with Some _ => Some ∅ | None => None end;
     clusterDataToPersist := None;
     persistedClusters := ∅;
     deviceConfigurationChanged := false;
     asyncWorkQueue := [];
     controllerDataStore := dataStore;
     controllerIsOverXPC := overXPC |}.

(** ** Cluster data store *)

(** [-_clusterDataForPath:] dirty values first, then the persisted cache,
    then storage for a cluster known to be persisted (the value paged in is
    put into the persisted cache). *)
Definition _clusterDataForPath (clusterPath : MTRClusterPath) : M (option MTRDeviceClusterData) :=
  fun d =>
    match clusterDataToPersist d ≫= (.!! clusterPath) with
    | Some data => (Some data, d, [])
    | None =>
        match persistedClusterData d ≫= (.!! clusterPath) with
        | Some data => (Some data, d, [])
        | None =>
            if bool_decide (clusterPath ∈ persistedClusters d) then
              match controllerDataStore d ≫= (.!! clusterPath) with
              | Some data =>
                  (Some data,
                   set_persistedClusterData
                     (Some (<[clusterPath := data]> (default ∅ (persistedClusterData d)))) d,
                   [])
              | None => (None, d, [])
              end
            else (None, d, [])
        end
    end.

(** [-_cachedAttributeValueForPath:] *)
Definition _cachedAttributeValueForPath (path : MTRAttributePath)
    : M (option MTRDeviceDataValueDictionary) :=
  clusterData <- _clusterDataForPath (clusterPathOf path) ;;
  match clusterData with
  | None => ret None
  | Some clusterData => ret (attributes clusterData !! attribute path)
  end.

(** [-storeValue:forAttribute:]: assigning [nil] to a subscript of an
    [NSMutableDictionary] removes the key. *)
Definition storeValue (value : option MTRDeviceDataValueDictionary) (attributeID : Z)
    (clusterData : MTRDeviceClusterData) : MTRDeviceClusterData :=
  mkClusterData (cd_dataVersion clusterData)
    (match value with
     | Some v => <[attributeID := v]> (attributes clusterData)
     | None => delete attributeID (attributes clusterData)
     end).

(** [_clusterDataToPersist[clusterPath] = clusterData], creating the
    dictionary when it is [nil]. *)
Definition markClusterDataToPersist (clusterPath : MTRClusterPath)
    (clusterData : MTRDeviceClusterData) : M unit :=
  modify (fun d =>
    set_clusterDataToPersist
      (Some (<[clusterPath := clusterData]> (default ∅ (clusterDataToPersist d)))) d).

(** [-_setCachedAttributeValue:forPath:] *)
Definition _setCachedAttributeValue (value : option MTRDeviceDataValueDictionary)
    (path : MTRAttributePath) : M unit :=
  clusterData <- _clusterDataForPath (clusterPathOf path) ;;
  match clusterData, value with
  | None, None => ret tt
  | _, _ =>
      let clusterData := default (mkClusterData None ∅) clusterData in
      markClusterDataToPersist (clusterPathOf path)
        (storeValue value (attribute path) clusterData)
  end.

(** [-_noteDataVersion:forClusterPath:] *)
Definition _noteDataVersion (dataVersion : Z) (clusterPath : MTRClusterPath) : M unit :=
  clusterData <- _clusterDataForPath clusterPath ;;
  match clusterData with
  | None => markClusterDataToPersist clusterPath (mkClusterData (Some dataVersion) ∅)
  | Some clusterData =>
      if negb (msg_isEqual Z.eqb (cd_dataVersion clusterData) (Some dataVersion)) then
        markClusterDataToPersist clusterPath
          (mkClusterData (Some dataVersion) (attributes clusterData))
      else ret tt
  end.

(** [-_attributeDataValue:isEqualToDataValue:] *)
Definition _attributeDataValue_isEqualToDataValue
    (one theOther : option NSDictionary) : bool :=
  match one, theOther with
  | None, None => true
  | None, Some _ | Some _, None => false
  | Some one, Some theOther =>
      msg_isEqual (fun a b : MTRValueType => bool_decide (a = b))
                  (MTRTypeKey one) (MTRTypeKey theOther)
      && (both_nil (MTRValueKey one) (MTRValueKey theOther)
          || msg_isEqual isEqual (MTRValueKey one) (MTRValueKey theOther))
  end.

(** [-_dataValueWithoutDataVersion:] *)
Definition _dataValueWithoutDataVersion (attributeValue : NSDictionary) : NSDictionary :=
  match MTRTypeKey attributeValue with
  | None => attributeValue
  | Some t =>
      match MTRValueKey attributeValue with
      | Some v => mkDictionary (Some t) (Some v) None None None
      | None => mkDictionary (Some t) None None None None
      end
  end.

(** ** Delegate notification and reachability *)

(** [-_reportAttributes:] *)
Definition _reportAttributes (attributes : list MTRAttributeResponseValue) : M unit :=
  match attributes with
  | [] => ret tt
  | _ :: _ =>
      delegate <- get weakDelegate ;;
      when delegate (emit (dispatch_async_delegateQueue (device_receivedAttributeReport attributes)))
  end.

(** [-_callDelegateWithBlock:] *)
Definition _callDelegateWithBlock (block : DelegateCallback) : M bool :=
  delegate <- get weakDelegate ;;
  if delegate then emit (dispatch_async_delegateQueue block) ;;; ret true
  else ret false.

(** [-_callDelegateDeviceCachePrimed] *)
Definition _callDelegateDeviceCachePrimed : M unit :=
  called <- _callDelegateWithBlock deviceCachePrimed ;;
  modify (set_delegateDeviceCachePrimedCalled called).

(** [-_changeState:] *)
Definition _changeState (newState : MTRDeviceState) : M unit :=
  lastState <- get state ;;
  modify (set_state newState) ;;;
  if negb (bool_decide (lastState = newState)) then
    when (negb (bool_decide (newState = MTRDeviceStateReachable)))
      (modify (set_estimatedStartTime None) ;;;
       modify (set_estimatedStartTimeFromGeneralDiagnosticsUpTime None)) ;;;
    delegate <- get weakDelegate ;;
    when delegate (emit (dispatch_async_delegateQueue (device_stateChanged newState)))
  else ret tt.

(** ** Expected-value cache *)

Definition MTR_DEVICE_EXPIRATION_CHECK_TIMER_MINIMUM_WAIT_TIME : Z := 100.

(** [[a compare:b] == NSOrderedDescending] on dates. *)
Definition NSOrderedDescending (a b : NSDate) : bool := b <? a.

(** [[a compare:b] == NSOrderedAscending] on dates. *)
Definition NSOrderedAscending (a b : NSDate) : bool := a <? b.

(** The first loop of [-_checkExpiredExpectedValues]: the expired
    [path, value] pairs of a cache listing. *)
Definition attributeInfoToRemove (now : NSDate)
    (entries : list (MTRAttributePath * ExpectedValue))
    : list (MTRAttributePath * MTRDeviceDataValueDictionary) :=
  omap (fun e : MTRAttributePath * ExpectedValue =>
          if NSOrderedDescending now (MTRDeviceExpectedValueFieldExpirationTimeIndex e.2)
          then Some (e.1, MTRDeviceExpectedValueFieldValueIndex e.2)
          else None) entries.

(** The same loop's [nextExpirationDate]: the earliest expiration among
    the entries that have not expired. *)
Definition nextExpirationDate (now : NSDate)
    (entries : list (MTRAttributePath * ExpectedValue)) : option NSDate :=
  foldl (fun (next : option NSDate) (e : MTRAttributePath * ExpectedValue) =>
           let attributeExpirationDate := MTRDeviceExpectedValueFieldExpirationTimeIndex e.2 in
           if NSOrderedDescending now attributeExpirationDate then next
           else match next with
                | None => Some attributeExpirationDate
                | Some n => if NSOrderedDescending n attributeExpirationDate
                            then Some attributeExpirationDate else next
                end)
        None entries.

(** The second loop of [-_checkExpiredExpectedValues]: drop each expired
    entry and collect a report where the read cache holds another value. *)
Fixpoint removeExpired (infos : list (MTRAttributePath * MTRDeviceDataValueDictionary))
    : M (list MTRAttributeResponseValue) :=
  match infos with
  | [] => ret []
  | (attributePath, attributeDataValue) :: rest =>
      cachedAttributeDataValue <- _cachedAttributeValueForPath attributePath ;;
      let report :=
        match cachedAttributeDataValue with
        | Some cached =>
            if negb (_attributeDataValue_isEqualToDataValue
                       (Some attributeDataValue) (Some cached))
            then [mkResponseValue attributePath (Some cached) None (Some attributeDataValue)]
            else []
        | None => []
        end in
      modify (fun d => set_expectedValueCache (delete attributePath (expectedValueCache d)) d) ;;;
      reports <- removeExpired rest ;;
      ret (report ++ reports)
  end.

(** [-_checkExpiredExpectedValues] *)
Definition _checkExpiredExpectedValues (now : NSDate) : M unit :=
  entries <- get (fun d => map_to_list (expectedValueCache d)) ;;
  attributesToReport <- removeExpired (attributeInfoToRemove now entries) ;;
  _reportAttributes attributesToReport ;;;
  remaining <- get (fun d => size (expectedValueCache d)) ;;
  scheduled <- get expirationCheckScheduled ;;
  match nextExpirationDate now entries with
  | Some next =>
      when (negb (bool_decide (remaining = 0%nat)) && negb scheduled)
        (let waitTime := next - now in
         let waitTime :=
           if waitTime <? MTR_DEVICE_EXPIRATION_CHECK_TIMER_MINIMUM_WAIT_TIME
           then MTR_DEVICE_EXPIRATION_CHECK_TIMER_MINIMUM_WAIT_TIME else waitTime in
         emit (dispatch_after waitTime performScheduledExpirationCheck_block))
  | None => ret tt
  end.

(** [-_performScheduledExpirationCheck] *)
Definition _performScheduledExpirationCheck (now : NSDate) : M unit :=
  modify (set_expirationCheckScheduled false) ;;;
  _checkExpiredExpectedValues now.

(** [-_attributeValueDictionaryForAttributePath:] *)
Definition _attributeValueDictionaryForAttributePath (attributePath : MTRAttributePath)
    (now : NSDate) : M (option MTRDeviceDataValueDictionary) :=
  expectedValue <- get (fun d => expectedValueCache d !! attributePath) ;;
  let fromReadCache := _cachedAttributeValueForPath attributePath in
  match expectedValue with
  | Some expectedValue =>
      if NSOrderedDescending now (MTRDeviceExpectedValueFieldExpirationTimeIndex expectedValue)
      then
        (* expired - purge and fall through *)
        modify (fun d => set_expectedValueCache (delete attributePath (expectedValueCache d)) d) ;;;
        fromReadCache
      else ret (Some (MTRDeviceExpectedValueFieldValueIndex expectedValue))
  | None => fromReadCache
  end.

(** What [-_setExpectedValue:...] hands back through its out-parameters. *)
Record SetExpectedValueOut : Type := mkSetExpectedValueOut {
  shouldReportValue : bool;
  attributeValueToReport : option MTRDeviceDataValueDictionary;
  previousValue : option MTRDeviceDataValueDictionary
}.

(** [-_setExpectedValue:attributePath:expirationTime:shouldReportValue:
      attributeValueToReport:expectedValueID:previousValue:]
    A non-nil value is associated with [expectedValueID]; a nil value asks
    for the removal of the entry carrying [expectedValueID]. *)
Definition _setExpectedValue (expectedAttributeValue : option MTRDeviceDataValueDictionary)
    (attributePath : MTRAttributePath) (expirationTime : NSDate) (expectedValueID : Z)
    : M SetExpectedValueOut :=
  previousExpectedValue <- get (fun d => expectedValueCache d !! attributePath) ;;
  out <-
    match previousExpectedValue with
    | Some previousExpectedValue =>
        let previous := MTRDeviceExpectedValueFieldValueIndex previousExpectedValue in
        match expectedAttributeValue with
        | Some expected =>
            if negb (_attributeDataValue_isEqualToDataValue (Some expected) (Some previous))
            then ret (mkSetExpectedValueOut true (Some expected) (Some previous))
            else ret (mkSetExpectedValueOut false None None)
        | None =>
            if bool_decide (MTRDeviceExpectedValueFieldIDIndex previousExpectedValue
                            = expectedValueID)
            then
              cachedValue <- _cachedAttributeValueForPath attributePath ;;
              if negb (_attributeDataValue_isEqualToDataValue (Some previous) cachedValue)
              then
                modify (fun d =>
                  set_expectedValueCache (delete attributePath (expectedValueCache d)) d) ;;;
                ret (mkSetExpectedValueOut true cachedValue (Some previous))
              else ret (mkSetExpectedValueOut false None None)
            else ret (mkSetExpectedValueOut false None None)
        end
    | None =>
        cachedValue <- _cachedAttributeValueForPath attributePath ;;
        match expectedAttributeValue with
        | Some expected =>
            if negb (_attributeDataValue_isEqualToDataValue (Some expected) cachedValue)
            then ret (mkSetExpectedValueOut true (Some expected) cachedValue)
            else ret (mkSetExpectedValueOut false None None)
        | None => ret (mkSetExpectedValueOut false None None)
        end
    end ;;
  match expectedAttributeValue with
  | Some expected =>
      modify (fun d =>
        set_expectedValueCache
          (<[attributePath := mkExpectedValue expirationTime expected expectedValueID]>
             (expectedValueCache d)) d)
  | None => ret tt
  end ;;;
  ret out.

(** The loop of [-_getAttributesToReportWithNewExpectedValues:...]. *)
Fixpoint setExpectedValuesLoop (expectedAttributeValues : list MTRAttributeResponseValue)
    (expirationTime : NSDate) (expectedValueID : Z) : M (list MTRAttributeResponseValue) :=
  match expectedAttributeValues with
  | [] => ret []
  | attributeResponseValue :: rest =>
      let attributePath := MTRAttributePathKey attributeResponseValue in
      out <- _setExpectedValue (rv_data attributeResponseValue) attributePath
               expirationTime expectedValueID ;;
      let report :=
        if shouldReportValue out
        then [mkResponseValue attributePath (attributeValueToReport out) None (previousValue out)]
        else [] in
      reports <- setExpectedValuesLoop rest expirationTime expectedValueID ;;
      ret (report ++ reports)
  end.

(** [-_getAttributesToReportWithNewExpectedValues:expirationTime:expectedValueID:]
    returns the reports and the id handed out. *)
Definition _getAttributesToReportWithNewExpectedValues
    (expectedAttributeValues : list MTRAttributeResponseValue) (expirationTime : NSDate)
    : M (list MTRAttributeResponseValue * Z) :=
  expectedValueIDToReturn <- get expectedValueNextID ;;
  modify (set_expectedValueNextID (wrap64 (expectedValueIDToReturn + 1))) ;;;
  attributesToReport <- setExpectedValuesLoop expectedAttributeValues expirationTime
                          expectedValueIDToReturn ;;
  ret (attributesToReport, expectedValueIDToReturn).

(** [-setExpectedValues:expectedValueInterval:expectedValueID:]; the
    interval is in milliseconds. *)
Definition setExpectedValues (values : list MTRAttributeResponseValue)
    (expectedValueInterval : Z) (now : NSDate) : M Z :=
  let expirationTime := now + expectedValueInterval in
  r <- _getAttributesToReportWithNewExpectedValues values expirationTime ;;
  _reportAttributes r.1 ;;;
  _checkExpiredExpectedValues now ;;;
  ret r.2.

(** [-_removeExpectedValueForAttributePath:expectedValueID:] *)
Definition _removeExpectedValueForAttributePath (attributePath : MTRAttributePath)
    (expectedValueID : Z) : M unit :=
  out <- _setExpectedValue None attributePath 0 expectedValueID ;;
  when (shouldReportValue out)
    (_reportAttributes
       [mkResponseValue attributePath (attributeValueToReport out) None (previousValue out)]).

(** [-removeExpectedValueForAttributePath:expectedValueID:] *)
Definition removeExpectedValueForAttributePath (attributePath : MTRAttributePath)
    (expectedValueID : Z) : M unit :=
  _removeExpectedValueForAttributePath attributePath expectedValueID.

(** [-removeExpectedValuesForAttributePaths:expectedValueID:] *)
Definition removeExpectedValuesForAttributePaths (attributePaths : list MTRAttributePath)
    (expectedValueID : Z) : M unit :=
  for_each attributePaths
    (fun attributePath => _removeExpectedValueForAttributePath attributePath expectedValueID).

(** ** Subscription life cycle *)

Definition kSecondsToWaitBeforeMarkingUnreachableAfterSettingUpSubscription : Z := 10.
Definition MTRDEVICE_SUBSCRIPTION_ATTEMPT_MIN_WAIT_SECONDS : Z := 1.
Definition MTRDEVICE_SUBSCRIPTION_ATTEMPT_MAX_WAIT_SECONDS : Z := 3600.
Definition MTR_DEVICE_TIME_UPDATE_INITIAL_WAIT_TIME_SEC : Z := 60 * 2.
Definition MTRDEVICE_MIN_RESUBSCRIBE_DUE_TO_READ_INTERVAL_SECONDS : Z := 10 * 60.
Definition MSEC_PER_SEC : Z := 1000.

(** Delay argument of [dispatch_after] for a wait given in seconds. *)
Definition seconds (s : Z) : Z := s * MSEC_PER_SEC.

(** [-_setupConnectivityMonitoring]: the work is dispatched to the device
    queue. *)
Definition _setupConnectivityMonitoring : M unit :=
  emit (dispatch_async setupConnectivityMonitor_block).

(** [-_stopConnectivityMonitoring] *)
Definition _stopConnectivityMonitoring : M unit :=
  modify (set_connectivityMonitor false).

(** [-_setupSubscription]: up to the request for a session; the completion
    of that request arrives later as one of the handlers below. *)
Definition _setupSubscription : M unit :=
  internal <- get internalDeviceState ;;
  if negb (NeedToStartSubscriptionSetup internal) then ret tt
  else
    modify (set_internalDeviceState MTRInternalDeviceStateSubscribing) ;;;
    emit (dispatch_after
            (seconds kSecondsToWaitBeforeMarkingUnreachableAfterSettingUpSubscription)
            markDeviceAsUnreachableIfNeverSubscribed_block) ;;;
    emit (dispatch_async getSessionForNode_block) ;;;
    _setupConnectivityMonitoring.

(** [-_scheduleNextUpdate:] *)
Definition _scheduleNextUpdate (nextUpdateInSeconds : Z) : M unit :=
  emit (dispatch_after (seconds nextUpdateInSeconds) performScheduledTimeUpdate_block) ;;;
  modify (set_timeUpdateScheduled true).

(** [-_handleSubscriptionEstablished] *)
Definition _handleSubscriptionEstablished : M unit :=
  (* reset subscription attempt wait time when subscription succeeds *)
  modify (set_lastSubscriptionAttemptWait 0) ;;;
  modify (set_internalDeviceState MTRInternalDeviceStateInitalSubscriptionEstablished) ;;;
  called <- get delegateDeviceCachePrimedCalled ;;
  when (negb called) _callDelegateDeviceCachePrimed ;;;
  _changeState MTRDeviceStateReachable ;;;
  _stopConnectivityMonitoring ;;;
  scheduled <- get timeUpdateScheduled ;;
  when (negb scheduled) (_scheduleNextUpdate MTR_DEVICE_TIME_UPDATE_INITIAL_WAIT_TIME_SEC).

(** [-_handleSubscriptionError:] *)
Definition _handleSubscriptionError : M unit :=
  modify (set_internalDeviceState MTRInternalDeviceStateUnsubscribed) ;;;
  modify (set_unreportedEvents None) ;;;
  _changeState MTRDeviceStateUnreachable.

(** [-_handleResubscriptionNeeded] *)
Definition _handleResubscriptionNeeded (now : NSDate) : M unit :=
  _changeState MTRDeviceStateUnknown ;;;
  modify (set_lastSubscriptionFailureTime (Some now)) ;;;
  _setupConnectivityMonitoring.

(** [-_handleSubscriptionReset:]; [retryDelay] is the server-provided delay
    in seconds, when there is one. *)
Definition _handleSubscriptionReset (retryDelay : option Z) (now : NSDate) : M unit :=
  modify (set_lastSubscriptionFailureTime (Some now)) ;;;
  delegate <- get weakDelegate ;;
  (* if there is no delegate then also do not retry *)
  if negb delegate then ret tt
  else
    reattempting <- get reattemptingSubscription ;;
    (* don't schedule multiple retries *)
    if reattempting then ret tt
    else
      modify (set_reattemptingSubscription true) ;;;
      wait <- get lastSubscriptionAttemptWait ;;
      secondsToWait <-
        (if wait <? MTRDEVICE_SUBSCRIPTION_ATTEMPT_MIN_WAIT_SECONDS then
           modify (set_lastSubscriptionAttemptWait
                     MTRDEVICE_SUBSCRIPTION_ATTEMPT_MIN_WAIT_SECONDS) ;;;
           ret MTRDEVICE_SUBSCRIPTION_ATTEMPT_MIN_WAIT_SECONDS
         else
           match retryDelay with
           | Some retryDelay =>
               modify (set_lastSubscriptionAttemptWait 0) ;;;
               ret retryDelay
           | None =>
               let doubled := wrap32 (wait * 2) in
               let clamped :=
                 if MTRDEVICE_SUBSCRIPTION_ATTEMPT_MAX_WAIT_SECONDS <? doubled
                 then MTRDEVICE_SUBSCRIPTION_ATTEMPT_MAX_WAIT_SECONDS else doubled in
               modify (set_lastSubscriptionAttemptWait clamped) ;;;
               ret clamped
           end) ;;
      emit (dispatch_after (seconds secondsToWait) reattemptSubscriptionNowIfNeeded_block).

(** [-_reattemptSubscriptionNowIfNeeded] *)
Definition _reattemptSubscriptionNowIfNeeded : M unit :=
  reattempting <- get reattemptingSubscription ;;
  if negb reattempting then ret tt
  else
    modify (set_reattemptingSubscription false) ;;;
    _setupSubscription.

(** [-_handleUnsolicitedMessageFromPublisher] *)
Definition _handleUnsolicitedMessageFromPublisher : M unit :=
  _changeState MTRDeviceStateReachable ;;;
  delegate <- get weakDelegate ;;
  when delegate (emit (dispatch_async_delegateQueue deviceBecameActive)) ;;;
  _reattemptSubscriptionNowIfNeeded.

(** [-_markDeviceAsUnreachableIfNeverSubscribed] *)
Definition _markDeviceAsUnreachableIfNeverSubscribed : M unit :=
  internal <- get internalDeviceState ;;
  if HadSubscriptionEstablishedOnce internal then ret tt
  else _changeState MTRDeviceStateUnreachable.

(** The block a failed [getSessionForNode] or a failed
    [SendAutoResubscribeRequest] puts on the device queue:
    [_handleSubscriptionError:] then [_handleSubscriptionReset:]. *)
Definition subscriptionAttemptFailed (retryDelay : option Z) (now : NSDate) : M unit :=
  _handleSubscriptionError ;;;
  _handleSubscriptionReset retryDelay now.

(** [-_handleReportBegin] *)
Definition _handleReportBegin : M unit :=
  modify (set_receivingReport true) ;;;
  st <- get state ;;
  if negb (bool_decide (st = MTRDeviceStateReachable)) then
    modify (set_receivingPrimingReport true) ;;;
    _changeState MTRDeviceStateReachable
  else modify (set_receivingPrimingReport false).

(** [-_handleReportEnd]; [storeClusterData:forNodeID:] is taken to
    succeed. *)
Definition _handleReportEnd : M unit :=
  modify (set_receivingReport false) ;;;
  modify (set_receivingPrimingReport false) ;;;
  modify (set_estimatedStartTimeFromGeneralDiagnosticsUpTime None) ;;;
  modify (fun d =>
    match controllerDataStore d, clusterDataToPersist d with
    | Some stored, Some dirty =>
        if bool_decide (size dirty = 0%nat) then d
        else
          set_clusterDataToPersist None
            (set_persistedClusters (dom dirty ∪ persistedClusters d)
               (set_persistedClusterData ((dirty ∪.) <$> persistedClusterData d)
                  (set_controllerDataStore (Some (dirty ∪ stored)) d)))
    | _, _ => d
    end) ;;;
  changed <- get deviceConfigurationChanged ;;
  when changed
    (delegate <- get weakDelegate ;;
     when delegate (emit (dispatch_async_delegateQueue deviceConfigurationChanged_)) ;;;
     modify (set_deviceConfigurationChanged false)).

(** Modelled from the spec: [-[MTRAsyncWorkQueue invalidate]] is defined in
    another file; the specification has it halt the execution of work items,
    which the model renders by dropping the queued items. *)
Definition asyncWorkQueue_invalidate : M unit :=
  modify (set_asyncWorkQueue []).

(** [-invalidate] *)
Definition invalidate : M unit :=
  asyncWorkQueue_invalidate ;;;
  modify (set_timeUpdateScheduled false) ;;;
  modify (set_state MTRDeviceStateUnknown) ;;;
  modify (set_weakDelegate false) ;;;
  modify (set_reattemptingSubscription false) ;;;
  _stopConnectivityMonitoring.

(** [-_subscriptionAbleToReport] *)
Definition _subscriptionAbleToReport : M bool :=
  delegate <- get weakDelegate ;;
  if negb delegate then ret false
  else
    overXPC <- get controllerIsOverXPC ;;
    if overXPC then ret false else ret true.

(** [-_readThroughSkipped] *)
Definition _readThroughSkipped (now : NSDate) : M unit :=
  st <- get state ;;
  if bool_decide (st = MTRDeviceStateReachable) then ret tt
  else
    lastFailure <- get lastSubscriptionFailureTime ;;
    match lastFailure with
    | None => ret tt
    | Some lastFailure =>
        if now - lastFailure <? seconds MTRDEVICE_MIN_RESUBSCRIBE_DUE_TO_READ_INTERVAL_SECONDS
        then ret tt
        else emit (dispatch_async (triggerResubscribe_block false))
    end.

Section WithConstants.

Context {K : MTRConstants}.

(** ** Attribute qualities *)

(** [AttributeHasChangesOmittedQuality]: the outer [switch] selects the
    cluster, the inner one the attribute. *)
Definition AttributeHasChangesOmittedQuality (attributePath : MTRAttributePath) : bool :=
  match List.find (fun entry : Z * list Z => entry.1 =? cluster attributePath)
                  changesOmittedAttributes with
  | Some (_, attributeIDs) => existsb (Z.eqb (attribute attributePath)) attributeIDs
  | None => false
  end.

(** [-_attributeAffectsDeviceConfiguration:] *)
Definition _attributeAffectsDeviceConfiguration (attributePath : MTRAttributePath) : bool :=
  let a := attribute attributePath in
  ((cluster attributePath =? MTRClusterIDTypeDescriptorID)
   && ((a =? MTRAttributeIDTypeClusterDescriptorAttributePartsListID)
       || (a =? MTRAttributeIDTypeClusterDescriptorAttributeServerListID)
       || (a =? MTRAttributeIDTypeClusterDescriptorAttributeDeviceTypeListID)))
  || (a =? MTRAttributeIDTypeGlobalAttributeAcceptedCommandListID)
  || (a =? MTRAttributeIDTypeGlobalAttributeAttributeListID)
  || (a =? MTRAttributeIDTypeGlobalAttributeClusterRevisionID)
  || (a =? MTRAttributeIDTypeGlobalAttributeFeatureMapID).

(** ** Cache priming *)

(** The loop of [-_isCachePrimedWithInitialConfigurationData] over the
    parts list: [false] as soon as a listed endpoint has no cached
    device-type list, [true] at the end of the list. *)
Fixpoint partsListEndpointsHaveDeviceTypeList (partsList : list NSDictionary) : M bool :=
  match partsList with
  | [] => ret true
  | endpointDictionary :: rest =>
      match MTRDataKey endpointDictionary with
      | Some (NSDictionaryObject endpointDataValue) =>
          if negb (msg_isEqual (fun a b : MTRValueType => bool_decide (a = b))
                     (Some MTRUnsignedIntegerValueType) (MTRTypeKey endpointDataValue))
          then partsListEndpointsHaveDeviceTypeList rest
          else
            match MTRValueKey endpointDataValue with
            | Some (NSNumber endpoint) =>
                descriptorDeviceTypeListDataValue <-
                  _cachedAttributeValueForPath
                    (mkAttributePath endpoint MTRClusterIDTypeDescriptorID
                       MTRAttributeIDTypeClusterDescriptorAttributeDeviceTypeListID) ;;
                if negb (msg_isEqual (fun a b : MTRValueType => bool_decide (a = b))
                           (Some MTRArrayValueType)
                           (descriptorDeviceTypeListDataValue ≫= MTRTypeKey))
                   || negb (bool_decide
                              (is_Some (descriptorDeviceTypeListDataValue ≫= MTRValueKey)))
                then ret false
                else partsListEndpointsHaveDeviceTypeList rest
            | _ => partsListEndpointsHaveDeviceTypeList rest
            end
      | _ => partsListEndpointsHaveDeviceTypeList rest
      end
  end.

(** [-_isCachePrimedWithInitialConfigurationData] *)
Definition _isCachePrimedWithInitialConfigurationData : M bool :=
  rootDescriptorPartsListDataValue <-
    _cachedAttributeValueForPath
      (mkAttributePath kRootEndpointId MTRClusterIDTypeDescriptorID
         MTRAttributeIDTypeClusterDescriptorAttributePartsListID) ;;
  match rootDescriptorPartsListDataValue with
  | None => ret false
  | Some root =>
      if negb (msg_isEqual (fun a b : MTRValueType => bool_decide (a = b))
                 (Some MTRArrayValueType) (MTRTypeKey root))
      then ret false
      else
        match MTRValueKey root with
        | Some (NSArray partsList) =>
            if bool_decide (length partsList = 0%nat) then ret false
            else partsListEndpointsHaveDeviceTypeList partsList
        | _ => ret false
        end
  end.

(** The public [-deviceCachePrimed] property. *)
Definition deviceCachePrimed_property : M bool :=
  _isCachePrimedWithInitialConfigurationData.

(** [-setDelegate:queue:] *)
Definition setDelegate : M unit :=
  modify (set_weakDelegate true) ;;;
  called <- get delegateDeviceCachePrimedCalled ;;
  (if negb called then
     primed <- _isCachePrimedWithInitialConfigurationData ;;
     when primed _callDelegateDeviceCachePrimed
   else ret tt) ;;;
  _setupSubscription.

(** [-setPersistedClusterData:] *)
Definition setPersistedClusterData (clusterData : gmap MTRClusterPath MTRDeviceClusterData)
    : M unit :=
  if bool_decide (size clusterData = 0%nat) then ret tt
  else
    modify (fun d =>
      set_persistedClusterData ((clusterData ∪.) <$> persistedClusterData d)
        (set_persistedClusters (dom clusterData ∪ persistedClusters d) d)) ;;;
    primed <- _isCachePrimedWithInitialConfigurationData ;;
    when primed (modify (set_delegateDeviceCachePrimedCalled true)).

(** ** Report ingestion *)

(** [potentialSystemStartTime] bookkeeping shared by the UpTime attribute
    and by events stamped with the system up-time. *)
Definition noteSystemUpTime (upTimeSeconds : Z) (now : NSDate) : M NSDate :=
  let potentialSystemStartTime := now - seconds upTimeSeconds in
  est <- get estimatedStartTime ;;
  when (match est with
        | None => true
        | Some est => NSOrderedAscending potentialSystemStartTime est
        end)
    (modify (set_estimatedStartTime (Some potentialSystemStartTime))) ;;;
  ret potentialSystemStartTime.

(** [upTimeNumber.unsignedLongLongValue], [0] for [nil]. *)
Definition unsignedLongLongValue (n : option NSObject) : Z :=
  match n with
  | Some (NSNumber n) => n
  | _ => 0
  end.

(** The report entry to hand to the delegate: the response value, with
    [MTRPreviousDataKey] added when a previous value is known. *)
Definition withPreviousValue (attributeResponseValue : MTRAttributeResponseValue)
    (previous : option MTRDeviceDataValueDictionary) : MTRAttributeResponseValue :=
  match previous with
  | Some _ =>
      mkResponseValue (MTRAttributePathKey attributeResponseValue)
        (rv_data attributeResponseValue) (MTRErrorKey attributeResponseValue) previous
  | None => attributeResponseValue
  end.

(** The additional priming signal of the ingestion loop: a report in
    progress that carries an attribute with the Changes Omitted quality
    marks the report as a priming report. *)
Definition notePrimingSignal (attributePath : MTRAttributePath) : M unit :=
  receiving <- get receivingReport ;;
  when (receiving && AttributeHasChangesOmittedQuality attributePath)
    (modify (set_receivingPrimingReport true)).

(** The error branch of the ingestion loop: report and purge the caches. *)
Definition reportedErrorStep (attributeResponseValue : MTRAttributeResponseValue)
    : M (list MTRAttributeResponseValue) :=
  let attributePath := MTRAttributePathKey attributeResponseValue in
  previous <- _cachedAttributeValueForPath attributePath ;;
  modify (fun d => set_expectedValueCache (delete attributePath (expectedValueCache d)) d) ;;;
  _setCachedAttributeValue None attributePath ;;;
  ret [withPreviousValue attributeResponseValue previous].

(** The cache update of the data branch, run when the value differs from
    the read cache. *)
Definition updateReadCache (dataVersion : option Z) (attributePath : MTRAttributePath)
    (attributeDataValue : MTRDeviceDataValueDictionary) : M unit :=
  match dataVersion with
  | Some dataVersion => _noteDataVersion dataVersion (clusterPathOf attributePath)
  | None => ret tt
  end ;;;
  _setCachedAttributeValue (Some attributeDataValue) attributePath ;;;
  changed <- get deviceConfigurationChanged ;;
  when (negb changed)
    (modify (set_deviceConfigurationChanged
               (_attributeAffectsDeviceConfiguration attributePath))).

(** The end of the data branch: a General Diagnostics UpTime attribute of
    unsigned-integer type updates the estimated start time. *)
Definition noteUpTimeAttribute (now : NSDate) (attributePath : MTRAttributePath)
    (attributeDataValue : MTRDeviceDataValueDictionary) : M unit :=
  when ((cluster attributePath =? MTRClusterGeneralDiagnosticsID)
        && (attribute attributePath =? MTRClusterGeneralDiagnosticsAttributeUpTimeID)
        && msg_isEqual (fun a b : MTRValueType => bool_decide (a = b))
             (MTRTypeKey attributeDataValue) (Some MTRUnsignedIntegerValueType))
    (potentialSystemStartTime <-
       noteSystemUpTime (unsignedLongLongValue (MTRValueKey attributeDataValue)) now ;;
     modify (set_estimatedStartTimeFromGeneralDiagnosticsUpTime
               (Some potentialSystemStartTime))).

(** The data branch of the ingestion loop. *)
Definition reportedDataStep (now : NSDate) (attributeResponseValue : MTRAttributeResponseValue)
    (attributeDataValue : MTRDeviceDataValueDictionary)
    : M (list MTRAttributeResponseValue) :=
  let attributePath := MTRAttributePathKey attributeResponseValue in
  (* separate the data version and restore the data value to a form without it *)
  let dataVersion := MTRDataVersionKey attributeDataValue in
  let attributeDataValue :=
    match dataVersion with
    | Some _ => _dataValueWithoutDataVersion attributeDataValue
    | None => attributeDataValue
    end in
  previous <- _cachedAttributeValueForPath attributePath ;;
  let readCacheValueChanged :=
    negb (_attributeDataValue_isEqualToDataValue (Some attributeDataValue) previous) in
  when readCacheValueChanged (updateReadCache dataVersion attributePath attributeDataValue) ;;;
  expectedValue <- get (fun d => expectedValueCache d !! attributePath) ;;
  let shouldReportAttribute :=
    readCacheValueChanged && negb (bool_decide (is_Some expectedValue)) in
  noteUpTimeAttribute now attributePath attributeDataValue ;;;
  ret (if shouldReportAttribute
       then [withPreviousValue attributeResponseValue previous] else []).

(** One turn of the loop of [-_getAttributesToReportWithReportedValues:]:
    the entries to add to [attributesToReport]. *)
Definition reportedValueStep (now : NSDate) (attributeResponseValue : MTRAttributeResponseValue)
    : M (list MTRAttributeResponseValue) :=
  let attributePath := MTRAttributePathKey attributeResponseValue in
  match MTRErrorKey attributeResponseValue, rv_data attributeResponseValue with
  | None, None => ret []      (* neither data value nor error: skipped *)
  | Some _, _ =>
      notePrimingSignal attributePath ;;;
      reportedErrorStep attributeResponseValue
  | None, Some attributeDataValue =>
      notePrimingSignal attributePath ;;;
      reportedDataStep now attributeResponseValue attributeDataValue
  end.

(** [-_getAttributesToReportWithReportedValues:] *)
Fixpoint _getAttributesToReportWithReportedValues (now : NSDate)
    (reportedAttributeValues : list MTRAttributeResponseValue)
    : M (list MTRAttributeResponseValue) :=
  match reportedAttributeValues with
  | [] => ret []
  | attributeResponseValue :: rest =>
      reports <- reportedValueStep now attributeResponseValue ;;
      more <- _getAttributesToReportWithReportedValues now rest ;;
      ret (reports ++ more)
  end.

(** [-_handleAttributeReport:] *)
Definition _handleAttributeReport (now : NSDate)
    (attributeReport : list MTRAttributeResponseValue) : M unit :=
  attributesToReport <- _getAttributesToReportWithReportedValues now attributeReport ;;
  _reportAttributes attributesToReport.

(** One turn of the loop of [-_handleEventReport:]: the event to append to
    the report, if the event is kept. *)
Definition eventReportStep (now : NSDate) (eventDict : MTREventReport)
    : M (option MTREventReport) :=
  let eventPath := MTREventPathKey eventDict in
  let isStartUpEvent :=
    (ep_cluster eventPath =? MTRClusterIDTypeBasicInformationID)
    && (ep_event eventPath =? MTREventIDTypeClusterBasicInformationEventStartUpID) in
  when isStartUpEvent
    (fromUpTime <- get estimatedStartTimeFromGeneralDiagnosticsUpTime ;;
     modify (set_estimatedStartTime fromUpTime)) ;;;
  let tag :=
    priming <- get receivingPrimingReport ;;
    ret (Some (mkEventReport eventPath (ev_data eventDict) (MTREventTimeTypeKey eventDict)
                 (MTREventSystemUpTimeKey eventDict) (Some priming))) in
  match MTREventTimeTypeKey eventDict with
  | None => ret None            (* missing event time type: dropped *)
  | Some eventTimeType =>
      if eventTimeType =? MTREventTimeTypeSystemUpTime then
        match MTREventSystemUpTimeKey eventDict with
        | None => ret None      (* missing event time value: dropped *)
        | Some eventTimeValue => noteSystemUpTime eventTimeValue now ;;; tag
        end
      else tag
  end.

(** The loop of [-_handleEventReport:]: the events appended to the report. *)
Fixpoint eventReportLoop (now : NSDate) (eventReport : list MTREventReport)
    : M (list MTREventReport) :=
  match eventReport with
  | [] => ret []
  | eventDict :: rest =>
      eventToReturn <- eventReportStep now eventDict ;;
      more <- eventReportLoop now rest ;;
      ret (option_list eventToReturn ++ more)
  end.

(** [-_handleEventReport:] *)
Definition _handleEventReport (now : NSDate) (eventReport : list MTREventReport) : M unit :=
  unreported <- get unreportedEvents ;;
  added <- eventReportLoop now eventReport ;;
  let reportToReturn := default [] unreported ++ added in
  delegate <- get weakDelegate ;;
  if delegate then
    modify (set_unreportedEvents None) ;;;
    emit (dispatch_async_delegateQueue (device_receivedEventReport reportToReturn))
  else modify (set_unreportedEvents (Some reportToReturn)).

End WithConstants.
(** ** Work queue *)

Inductive MTRBatchingOutcome : Type :=
| MTRNotBatched
| MTRBatchedPartially
| MTRBatchedFully.

(** [MTRClampedNumber] *)
Definition MTRClampedNumber (aNumber min max : Z) : Z :=
  if aNumber <? min then min
  else if max <? aNumber then max
  else aNumber.

(** The [while] loop of the batching handler of a read work item.  The
    handler receives the request arrays of the current and of the next work
    item and answers with the outcome and with both arrays as it leaves
    them.  ([readRequestsCurrent[0]] raises on an empty array; the model
    then leaves both arrays alone.) *)
Fixpoint readBatchingLoop (outcome : MTRBatchingOutcome)
    (readRequestsCurrent readRequestsNext : list ReadRequest)
    : MTRBatchingOutcome * list ReadRequest * list ReadRequest :=
  match readRequestsNext with
  | [] => (MTRBatchedFully, readRequestsCurrent, [])
  | readItem :: rest =>
      (* Can only read up to 9 paths at a time, per spec *)
      if (9 <=? length readRequestsCurrent)%nat
      then (outcome, readRequestsCurrent, readRequestsNext)
      else
        match readRequestsCurrent with
        | [] => (outcome, readRequestsCurrent, readRequestsNext)
        | first :: _ =>
            (* if params don't match then they cannot be merged *)
            if negb (bool_decide (MTRDeviceReadRequestFieldParamsIndex readItem
                                  = MTRDeviceReadRequestFieldParamsIndex first))
            then (outcome, readRequestsCurrent, readRequestsNext)
            else readBatchingLoop MTRBatchedPartially (readRequestsCurrent ++ [readItem]) rest
        end
  end.

(** The batching handler installed by [readAttributeWithEndpointID:...]. *)
Definition readBatchingHandler (opaqueDataCurrent opaqueDataNext : list ReadRequest)
    : MTRBatchingOutcome * list ReadRequest * list ReadRequest :=
  readBatchingLoop MTRNotBatched opaqueDataCurrent opaqueDataNext.

(** The [while] loop of the batching handler of a write work item: the
    later write to the same path replaces the earlier one. *)
Fixpoint writeBatchingLoop (outcome : MTRBatchingOutcome)
    (current : WriteRequest) (writeRequestsNext : list WriteRequest)
    : MTRBatchingOutcome * WriteRequest * list WriteRequest :=
  match writeRequestsNext with
  | [] => (MTRBatchedFully, current, [])
  | writeItem :: rest =>
      if negb (bool_decide (MTRDeviceWriteRequestFieldPathIndex writeItem
                            = MTRDeviceWriteRequestFieldPathIndex current))
      then (outcome, current, writeRequestsNext)
      else writeBatchingLoop MTRBatchedPartially writeItem rest
  end.

(** The batching handler installed by [writeAttributeWithEndpointID:...]. *)
Definition writeBatchingHandler (writeRequestsCurrent writeRequestsNext : list WriteRequest)
    : MTRBatchingOutcome * list WriteRequest * list WriteRequest :=
  match writeRequestsCurrent with
  | [current] =>
      match writeBatchingLoop MTRNotBatched current writeRequestsNext with
      | (outcome, current', next') => (outcome, [current'], next')
      end
  | _ => (MTRNotBatched, writeRequestsCurrent, writeRequestsNext)
  end.

(** The duplicate-check handler of a queued work item, shown the request
    data of a new read: it answers [(isDuplicate, stop)].  A read item
    reports a duplicate when it holds an equal request and otherwise lets
    the scan continue; write and invoke items answer "not a duplicate" and
    stop the scan. *)
Definition duplicateCheckHandler (item : MTRAsyncWorkItem) (opaqueItemData : ReadRequest)
    : bool * bool :=
  match item with
  | ReadWorkItem readRequests =>
      if existsb (fun readItem => bool_decide (readItem = opaqueItemData)) readRequests
      then (true, true)
      else (false, false)
  | WriteWorkItem _ _ _ => (false, true)
  | InvokeWorkItem _ => (false, true)
  end.

(** Modelled from the spec: [-[MTRAsyncWorkQueue hasDuplicateForTypeID:
    workItemData:]] is defined in another file.  The specification has the
    new request shown to the queued items; the handlers above fix what an
    item answers, and their [stop] flag ends the scan with the answer given.
    The scan runs from the most recently enqueued item backwards, as the
    comment on the write handler requires ("only read requests after this
    should be considered for duplicate requests"). *)
Fixpoint duplicateScan (newestFirst : list MTRAsyncWorkItem) (workItemData : ReadRequest)
    : bool :=
  match newestFirst with
  | [] => false
  | item :: older =>
      match duplicateCheckHandler item workItemData with
      | (isDuplicate, true) => isDuplicate
      | (_, false) => duplicateScan older workItemData
      end
  end.

Definition hasDuplicateForTypeID (workItemData : ReadRequest) : M bool :=
  get (fun d => duplicateScan (reverse (asyncWorkQueue d)) workItemData).

(** Modelled from the spec: [-[MTRAsyncWorkQueue enqueueWorkItem:...]] is
    defined in another file; the queue is first-in first-out. *)
Definition enqueueWorkItem (workItem : MTRAsyncWorkItem) : M unit :=
  modify (fun d => set_asyncWorkQueue (asyncWorkQueue d ++ [workItem]) d).

Section DeviceInteractions.

Context {K : MTRConstants}.

(** [-readAttributeWithEndpointID:clusterID:attributeID:params:] *)
Definition readAttributeWithEndpointID (endpointID clusterID attributeID : Z)
    (params : option MTRReadParams) (now : NSDate)
    : M (option MTRDeviceDataValueDictionary) :=
  let attributePath := mkAttributePath endpointID clusterID attributeID in
  let attributeIsSpecified := MTRAttributeIsSpecified clusterID attributeID in
  let hasChangesOmittedQuality :=
    if attributeIsSpecified then AttributeHasChangesOmittedQuality attributePath
    else match params with
         | None => false
         | Some params => negb (assumeUnknownAttributesReportable params)
         end in
  (* Return current known / expected value right away *)
  attributeValueToReturn <- _attributeValueDictionaryForAttributePath attributePath now ;;
  ableToReport <- _subscriptionAbleToReport ;;
  (if negb ableToReport || hasChangesOmittedQuality then
     let readRequestPath := mkRequestPath endpointID clusterID attributeID in
     let readRequestData := mkReadRequest readRequestPath params in
     (* But first, check if a duplicate read request is already queued *)
     duplicate <- hasDuplicateForTypeID readRequestData ;;
     if duplicate then ret tt
     else enqueueWorkItem (ReadWorkItem [readRequestData])
   else _readThroughSkipped now) ;;;
  ret attributeValueToReturn.

(** [-writeAttributeWithEndpointID:clusterID:attributeID:value:
      expectedValueInterval:timedWriteTimeout:] *)
Definition writeAttributeWithEndpointID (endpointID clusterID attributeID : Z)
    (value : NSDictionary) (expectedValueInterval : Z) (timeout : option Z)
    (now : NSDate) : M unit :=
  let timeout := (fun t => MTRClampedNumber t 1 UINT16_MAX) <$> timeout in
  let expectedValueInterval := MTRClampedNumber expectedValueInterval 1 UINT32_MAX in
  let attributePath := mkAttributePath endpointID clusterID attributeID in
  expectedValueID <-
    setExpectedValues [mkResponseValue attributePath (Some value) None None]
      expectedValueInterval now ;;
  enqueueWorkItem
    (WriteWorkItem attributePath true
       [mkWriteRequest attributePath value timeout expectedValueID]).

(** The completion the write work item gives to [MTRBaseDevice]. *)
Definition writeCompletion (attributePath : MTRAttributePath) (useValueAsExpectedValue : bool)
    (request : WriteRequest) (error : option NSError) : M unit :=
  when (bool_decide (is_Some error) && useValueAsExpectedValue)
    (removeExpectedValueForAttributePath attributePath
       (MTRDeviceWriteRequestFieldExpectedValueIDIndex request)) ;;;
  emit (workCompletion MTRAsyncWorkComplete).

(** The head of [-_invokeCommandWithEndpointID:...]: the expected values
    kept and the interval used for them. *)
Definition invokeExpectedValues (expectedValues : option (list MTRAttributeResponseValue))
    (expectedValueInterval : option Z)
    : option (list MTRAttributeResponseValue) * option Z :=
  match expectedValueInterval with
  | None => (None, None)
  | Some interval =>
      if interval <? 0 then (None, Some interval)
      else (expectedValues, Some (MTRClampedNumber interval 1 UINT32_MAX))
  end.

(** The timed-invoke timeout in force for a command. *)
Definition invokeTimeout (clusterID commandID : Z) (timeout : option Z) : option Z :=
  match timeout with
  | None =>
      if MTRCommandNeedsTimedInvoke clusterID commandID
      then Some MTR_DEFAULT_TIMED_INTERACTION_TIMEOUT_MS else None
  | Some _ => timeout
  end.

(** [-_invokeCommandWithEndpointID:clusterID:commandID:commandFields:
      expectedValues:expectedValueInterval:timedInvokeTimeout:
      serverSideProcessingTimeout:queue:completion:]; answers with the work
    item it enqueues. *)
Definition _invokeCommandWithEndpointID (endpointID clusterID commandID : Z)
    (commandFields : NSDictionary)
    (expectedValues : option (list MTRAttributeResponseValue))
    (expectedValueInterval : option Z) (timeout : option Z)
    (serverSideProcessingTimeout : option Z) (now : NSDate) : M InvokeRequest :=
  let '(expectedValues, expectedValueInterval) :=
    invokeExpectedValues expectedValues expectedValueInterval in
  let timeout := invokeTimeout clusterID commandID timeout in
  let cutoffTime := (fun t => now + t) <$> timeout in
  r <- match expectedValues with
       | Some values =>
           expectedValueID <- setExpectedValues values (default 0 expectedValueInterval) now ;;
           ret (expectedValueID, Some (MTRAttributePathKey <$> values))
       | None => ret (0, None)
       end ;;
  let request :=
    mkInvokeRequest endpointID clusterID commandID commandFields expectedValues r.2 r.1
      timeout cutoffTime serverSideProcessingTimeout in
  enqueueWorkItem (InvokeWorkItem request) ;;;
  ret request.

(** The [workDone] block of the invoke work item. *)
Definition workDone (request : InvokeRequest)
    (values : option (list MTRAttributeResponseValue)) (error : option NSError) : M unit :=
  emit (client_completion values error) ;;;
  match error, inv_expectedValues request with
  | Some _, Some _ =>
      removeExpectedValuesForAttributePaths (default [] (inv_attributePaths request))
        (inv_expectedValueID request)
  | _, _ => ret tt
  end ;;;
  emit (workCompletion MTRAsyncWorkComplete).

(** The ready handler of the invoke work item. *)
Definition invokeReadyHandler (request : InvokeRequest) (now : NSDate) : M unit :=
  let send (timedInvokeTimeout : option Z) :=
    emit (baseDevice_invokeCommand (inv_endpointID request) (inv_clusterID request)
            (inv_commandID request) (inv_commandFields request) timedInvokeTimeout
            (inv_serverSideProcessingTimeout request)) in
  match inv_timeout request, inv_cutoffTime request with
  | Some _, Some cutoffTime =>
      if NSOrderedDescending now cutoffTime then
        (* Our timed invoke timeout has expired already.  Do not send it out. *)
        workDone request None (Some (MTRInteractionError Status_Timeout))
      else
        (* the actual timeout left, accounting for time spent queuing and retrying *)
        send (Some (cutoffTime - now))
  | _, _ => send None
  end.

(** The completion the invoke work item gives to [MTRBaseDevice]. *)
Definition invokeCompletion (request : InvokeRequest) (retryCount : Z)
    (values : option (list MTRAttributeResponseValue)) (error : option NSError) : M unit :=
  match error with
  | Some (MTRInteractionError Status_Busy) =>
      if retryCount <? 5 then emit (workCompletion MTRAsyncWorkNeedsRetry)
      else workDone request values error
  | _ => workDone request values error
  end.

End DeviceInteractions.

(** The constants of the Matter data model, for concrete runs.  The table
    of [AttributeHasChangesOmittedQuality] has the seven clusters of the
    [switch], in its order: Ethernet Network Diagnostics, General
    Diagnostics, Thread Network Diagnostics, Wi-Fi Network Diagnostics,
    Operational Credentials, Power Source and Time Synchronization, each
    with the ids of the attributes listed under it.  The generated tables
    behind [MTRAttributeIsSpecified] and [MTRCommandNeedsTimedInvoke] are
    not part of this file; the instance answers as they do for the On/Off
    cluster, whose attributes are specified and whose commands need no
    timed invoke, and the concrete runs use these two on that cluster
    only. *)
Definition MatterConstants : MTRConstants :=
  {| kRootEndpointId := 0;
     MTRClusterIDTypeDescriptorID := 0x1D;
     MTRAttributeIDTypeClusterDescriptorAttributePartsListID := 3;
     MTRAttributeIDTypeClusterDescriptorAttributeServerListID := 1;
     MTRAttributeIDTypeClusterDescriptorAttributeDeviceTypeListID := 0;
     MTRAttributeIDTypeGlobalAttributeAcceptedCommandListID := 0xFFF9;
     MTRAttributeIDTypeGlobalAttributeAttributeListID := 0xFFFB;
     MTRAttributeIDTypeGlobalAttributeClusterRevisionID := 0xFFFD;
     MTRAttributeIDTypeGlobalAttributeFeatureMapID := 0xFFFC;
     MTRClusterGeneralDiagnosticsID := 0x33;
     MTRClusterGeneralDiagnosticsAttributeUpTimeID := 2;
     MTRClusterIDTypeBasicInformationID := 0x28;
     MTREventIDTypeClusterBasicInformationEventStartUpID := 0;
     MTREventTimeTypeSystemUpTime := 0;
     changesOmittedAttributes :=
       [(0x37, [2; 3; 4; 5; 6; 7; 8]);
        (0x33, [2; 3]);
        (0x35, 6 :: seqZ 14 42);
        (0x36, [4; 5; 6; 7; 8; 9; 10; 11; 12]);
        (0x3E, [0; 4]);
        (0x2F, [3; 4; 6; 11; 12; 13; 27; 29]);
        (0x38, [0; 7])];
     MTRAttributeIsSpecified := fun _ _ => true;
     MTRCommandNeedsTimedInvoke := fun _ _ => false;
     MTR_DEFAULT_TIMED_INTERACTION_TIMEOUT_MS := 10000 |}.

(** * Traces and observations used by the statements *)

(** The delays of the reattempt timers among emitted effects. *)
Definition reattemptDelays (out : list Effect) : list Z :=
  omap (fun e => match e with
                 | dispatch_after ms reattemptSubscriptionNowIfNeeded_block => Some ms
                 | _ => None
                 end) out.

(** One failed subscription attempt without server delay, followed by the
    firing of the reattempt timer it scheduled. *)
Definition failedAttemptThenTimer (now : NSDate) (d : MTRDevice) : MTRDevice :=
  device_after (_reattemptSubscriptionNowIfNeeded
                  (device_after (subscriptionAttemptFailed None now d))).

(** Consecutive failed attempts without server delay, one per instant of
    [nows], each followed by its reattempt timer. *)
Fixpoint consecutiveFailures (nows : list NSDate) (d : MTRDevice) : MTRDevice :=
  match nows with
  | [] => d
  | now :: rest => consecutiveFailures rest (failedAttemptThenTimer now d)
  end.

(** The wait the back-off derives from the stored wait [w]. *)
Definition nextWait (w : Z) : Z :=
  if w <? 1 then 1 else Z.min 3600 (2 * w).

(** The stored wait after [k] consecutive failures that started from [0]. *)
Definition waitAfter (k : nat) : Z :=
  match k with
  | O => 0
  | S j => Z.min 3600 (2 ^ Z.of_nat j)
  end.

(** A device just created, without persistence, whose client has
    installed a delegate. *)
Definition deviceWithDelegate : MTRDevice :=
  device_after (setDelegate (K := MatterConstants) (initWithNodeID None false)).

(** Running a computation for its final device only. *)
Definition exec {A : Type} (m : M A) (d : MTRDevice) : MTRDevice := device_after (m d).

(** The On/Off attribute of the On/Off cluster on endpoint 1, and the
    data value "true". *)
Definition onOffPath : MTRAttributePath := mkAttributePath 1 6 0.
Definition booleanTrue : NSDictionary := dataValue MTRBooleanValueType (Some (NSNumber 1)).
Definition booleanFalse : NSDictionary := dataValue MTRBooleanValueType (Some (NSNumber 0)).

(** A device that has received a report with On/Off = true. *)
Definition deviceWithOnOffTrue : MTRDevice :=
  exec (_handleReportBegin ;;;
        _handleAttributeReport (K := MatterConstants) 0
          [mkResponseValue onOffPath (Some booleanTrue) None None] ;;;
        _handleReportEnd)
       deviceWithDelegate.

(** The same device after the client wrote On/Off = true at instant 10
    with an expected-value interval of 5000 ms. *)
Definition deviceAfterWriteOfCachedValue : MTRDevice :=
  exec (writeAttributeWithEndpointID 1 6 0 booleanTrue 5000 None 10) deviceWithOnOffTrue.

(** The operations on the expected-value cache: insertion, removal by id
    for one path or for several, and the expiry sweep. *)
Inductive ExpectedValueOperation : Type :=
| set_expected (values : list MTRAttributeResponseValue) (interval : Z) (now : NSDate)
| remove_expected (attributePath : MTRAttributePath) (expectedValueID : Z)
| remove_expected_paths (attributePaths : list MTRAttributePath) (expectedValueID : Z)
| sweep (now : NSDate).

Definition runOperation (op : ExpectedValueOperation) : M unit :=
  match op with
  | set_expected values interval now => setExpectedValues values interval now ;;; ret tt
  | remove_expected attributePath expectedValueID =>
      removeExpectedValueForAttributePath attributePath expectedValueID
  | remove_expected_paths attributePaths expectedValueID =>
      removeExpectedValuesForAttributePaths attributePaths expectedValueID
  | sweep now => _performScheduledExpirationCheck now
  end.

Fixpoint runOperations (ops : list ExpectedValueOperation) (d : MTRDevice) : MTRDevice :=
  match ops with
  | [] => d
  | op :: rest => runOperations rest (exec (runOperation op) d)
  end.

(** Effects that are calls on the delegate queue. *)
Definition is_delegate_call (e : Effect) : Prop :=
  match e with
  | dispatch_async_delegateQueue _ => True
  | _ => False
  end.

(** Effects that send a command to the node. *)
Definition is_command_sent (e : Effect) : Prop :=
  match e with
  | baseDevice_invokeCommand _ _ _ _ _ _ => True
  | _ => False
  end.

(** Work items that are reads. *)
Definition is_read_item (item : MTRAsyncWorkItem) : Prop :=
  match item with
  | ReadWorkItem _ => True
  | _ => False
  end.

(** The request data of a single-attribute read. *)
Definition readRequestData (endpointID clusterID attributeID : Z)
    (params : option MTRReadParams) : ReadRequest :=
  mkReadRequest (mkRequestPath endpointID clusterID attributeID) params.

(** A device without delegate (so every read goes to the queue) on which
    the client has read On/Off and then written it. *)
Definition deviceWithQueuedReadThenWrite : MTRDevice :=
  exec (readAttributeWithEndpointID (K := MatterConstants) 1 6 0 None 0 ;;;
        writeAttributeWithEndpointID 1 6 0 booleanTrue 5000 None 10)
       (initWithNodeID None false).

(** The parts-list attribute of the Descriptor cluster on the root endpoint. *)
Definition rootPartsListPath {K : MTRConstants} : MTRAttributePath :=
  mkAttributePath kRootEndpointId MTRClusterIDTypeDescriptorID
    MTRAttributeIDTypeClusterDescriptorAttributePartsListID.

(** A cached parts-list value that is not an array with at least one item:
    its type tag is not "array", or its value is missing, is not an array,
    or is the empty array. *)
Definition emptyOrNotArray (partsListValue : NSDictionary) : Prop :=
  MTRTypeKey partsListValue <> Some MTRArrayValueType
  \/ match MTRValueKey partsListValue with
     | Some (NSArray (_ :: _)) => False
     | _ => True
     end.

(** A device with a delegate that has received a priming report in which
    the root parts list is the empty array. *)
Definition deviceWithEmptyPartsList : MTRDevice :=
  exec (_handleReportBegin ;;;
        _handleAttributeReport (K := MatterConstants) 0
          [mkResponseValue (rootPartsListPath (K := MatterConstants))
             (Some (dataValue MTRArrayValueType (Some (NSArray [])))) None None] ;;;
        _handleReportEnd)
       deviceWithDelegate.

(** Two devices whose cluster data stores coincide. *)
Definition same_store (d d' : MTRDevice) : Prop :=
  clusterDataToPersist d' = clusterDataToPersist d
  /\ persistedClusterData d' = persistedClusterData d
  /\ persistedClusters d' = persistedClusters d
  /\ controllerDataStore d' = controllerDataStore d.


(** A computation keeps a relation between the device it starts from and
    the device it ends with. *)
Definition preserves {A : Type} (R : MTRDevice -> MTRDevice -> Prop) (m : M A) : Prop :=
  forall d : MTRDevice, R d (device_after (m d)).

(** The report flags are kept: [receivingReport] is unchanged and a raised
    [receivingPrimingReport] stays raised. *)
Definition report_flags_kept (d d' : MTRDevice) : Prop :=
  receivingReport d' = receivingReport d
  /\ (receivingPrimingReport d = true -> receivingPrimingReport d' = true).

(** The callbacks the subscription delivers between report begin and
    report end. *)
Inductive ReportCallback : Type :=
| OnAttributeData (now : NSDate) (attributeReport : list MTRAttributeResponseValue)
| OnEventData (now : NSDate) (eventReport : list MTREventReport).

Definition runCallback {K : MTRConstants} (c : ReportCallback) : M unit :=
  match c with
  | OnAttributeData now attributeReport => _handleAttributeReport now attributeReport
  | OnEventData now eventReport => _handleEventReport now eventReport
  end.

Fixpoint runCallbacks {K : MTRConstants} (cs : list ReportCallback) (d : MTRDevice)
    : MTRDevice :=
  match cs with
  | [] => d
  | c :: rest => runCallbacks rest (exec (runCallback c) d)
  end.

(** An attribute report with an entry that the ingestion loop processes
    (it has a data value or an error) and whose path has the Changes
    Omitted quality. *)
Definition carriesChangesOmittedAttribute {K : MTRConstants}
    (attributeReport : list MTRAttributeResponseValue) : Prop :=
  exists entry : MTRAttributeResponseValue,
    entry ∈ attributeReport
    /\ AttributeHasChangesOmittedQuality (MTRAttributePathKey entry) = true
    /\ (is_Some (rv_data entry) \/ is_Some (MTRErrorKey entry)).

(** The up-time attribute of the General Diagnostics cluster on the root
    endpoint, with a value of 100 seconds. *)
Definition upTimeReport : MTRAttributeResponseValue :=
  mkResponseValue (mkAttributePath 0 0x33 2)
    (Some (dataValue MTRUnsignedIntegerValueType (Some (NSNumber 100)))) None None.

(** An event stamped with the POSIX time type. *)
Definition someEvent : MTREventReport :=
  mkEventReport (mkEventPath 1 6 0) None (Some 1) None None.

(** The "On" command of the On/Off cluster on endpoint 1, predicting
    On/Off = true, with the given expected-value interval, at instant 10,
    on a freshly created device with a delegate. *)
Definition emptyStructure : NSDictionary :=
  dataValue MTRStructureValueType (Some (NSArray [])).

Definition onOffTrueExpected : MTRAttributeResponseValue :=
  mkResponseValue onOffPath (Some booleanTrue) None None.

Definition invokeOn (expectedValueInterval : option Z)
    : InvokeRequest * MTRDevice * list Effect :=
  _invokeCommandWithEndpointID (K := MatterConstants) 1 6 1 emptyStructure
    (Some [onOffTrueExpected]) expectedValueInterval None None 10 deviceWithDelegate.

(** The data version the store holds for a cluster, as a look-up sees it. *)
Definition storedDataVersion (clusterPath : MTRClusterPath) (d : MTRDevice) : option Z :=
  result (_clusterDataForPath clusterPath d) ≫= cd_dataVersion.

(** The cluster is among the clusters to persist. *)
Definition isDirty (clusterPath : MTRClusterPath) (d : MTRDevice) : Prop :=
  is_Some (clusterDataToPersist d ≫= (.!! clusterPath)).

(** Two devices whose stores answer every look-up alike and hold the same
    clusters to persist; paging a cluster in leads to such a device. *)
Definition store_equiv (d d' : MTRDevice) : Prop :=
  clusterDataToPersist d' = clusterDataToPersist d
  /\ forall clusterPath,
       result (_clusterDataForPath clusterPath d')
       = result (_clusterDataForPath clusterPath d).

(** The value of an attribute entry as it is compared with the read cache:
    without its data version. *)
Definition incomingValue (value : MTRDeviceDataValueDictionary)
    : MTRDeviceDataValueDictionary :=
  match MTRDataVersionKey value with
  | Some _ => _dataValueWithoutDataVersion value
  | None => value
  end.

(** On/Off = true reported with a cluster data version. *)
Definition onOffTrueAtVersion (dataVersion : Z) : MTRAttributeResponseValue :=
  mkResponseValue onOffPath
    (Some (mkDictionary (Some MTRBooleanValueType) (Some (NSNumber 1)) None None
             (Some dataVersion)))
    None None.

(** A device that has received On/Off = true at data version 7. *)
Definition deviceAtVersion7 : MTRDevice :=
  exec (_handleReportBegin ;;;
        _handleAttributeReport (K := MatterConstants) 0 [onOffTrueAtVersion 7] ;;;
        _handleReportEnd)
       deviceWithDelegate.

(** * Further parts of MTRDevice.mm *)

(** ** MTRDeviceClusterData *)

(** [-init] *)
Definition MTRDeviceClusterData_init : MTRDeviceClusterData := mkClusterData None ∅.

(** [-initWithDataVersion:attributes:]: the entries of [attributes] are
    added to a fresh dictionary, none when [attributes] is [nil]. *)
Definition initWithDataVersion (dataVersion : option Z)
    (attributes : option (gmap Z MTRDeviceDataValueDictionary)) : MTRDeviceClusterData :=
  mkClusterData dataVersion (default ∅ attributes).

(** [-copyWithZone:] *)
Definition copyWithZone (clusterData : MTRDeviceClusterData) : MTRDeviceClusterData :=
  initWithDataVersion (cd_dataVersion clusterData) (Some (attributes clusterData)).

(** [[_attributes isEqual:otherAttributes]] on dictionaries from attribute
    id to data value: as many entries, and under each key of the receiver
    a value that [isEqual:] to the receiver's. *)
Definition attributes_isEqual (a b : gmap Z MTRDeviceDataValueDictionary) : bool :=
  bool_decide (size a = size b)
  && forallb (fun kv : Z * MTRDeviceDataValueDictionary =>
                match b !! kv.1 with
                | Some other => isEqualToDictionary kv.2 other
                | None => false
                end)
             (map_to_list a).

(** [-isEqualToClusterData:] *)
Definition isEqualToClusterData (clusterData otherClusterData : MTRDeviceClusterData) : bool :=
  msg_isEqual Z.eqb (cd_dataVersion clusterData) (cd_dataVersion otherClusterData)
  && attributes_isEqual (attributes clusterData) (attributes otherClusterData).

(** ** Arrays of numbers in the data-value format *)

(** The loop of [-arrayOfNumbersFromAttributeValue:]: [nil] at the first
    item that is not a data-value dictionary holding a number. *)
Fixpoint numbersOfItems (valueArray : list NSDictionary) : option (list Z) :=
  match valueArray with
  | [] => Some []
  | item :: rest =>
      match MTRDataKey item with
      | Some (NSDictionaryObject dataDictionary) =>
          match MTRTypeKey dataDictionary, MTRValueKey dataDictionary with
          | Some _, Some (NSNumber dataValue) =>
              match numbersOfItems rest with
              | Some outputArray => Some (dataValue :: outputArray)
              | None => None
              end
          | _, _ => None
          end
      | _ => None
      end
  end.

(** [-arrayOfNumbersFromAttributeValue:] *)
Definition arrayOfNumbersFromAttributeValue (dataDictionary : option NSDictionary)
    : option (list Z) :=
  if negb (msg_isEqual (fun a b : MTRValueType => bool_decide (a = b))
             (Some MTRArrayValueType) (dataDictionary ≫= MTRTypeKey))
  then None
  else
    match dataDictionary ≫= MTRValueKey with
    | Some (NSArray valueArray) => numbersOfItems valueArray
    | _ => None
    end.

(** ** Data versions for the subscription *)

(** [-_knownClusters] *)
Definition _knownClusters : M (gset MTRClusterPath) :=
  get (fun d =>
         persistedClusters d
         ∪ match clusterDataToPersist d with
           | Some dirty => dom dirty
           | None => ∅
           end).

(** The loop of [-_getCachedDataVersions]; assigning [nil] under a key of
    an [NSMutableDictionary] removes the key. *)
Fixpoint cachedDataVersionsLoop (paths : list MTRClusterPath)
    (dataVersions : gmap MTRClusterPath Z) : M (gmap MTRClusterPath Z) :=
  match paths with
  | [] => ret dataVersions
  | path :: rest =>
      clusterData <- _clusterDataForPath path ;;
      cachedDataVersionsLoop rest
        (match clusterData ≫= cd_dataVersion with
         | Some dataVersion => <[path := dataVersion]> dataVersions
         | None => delete path dataVersions
         end)
  end.

(** [-_getCachedDataVersions] *)
Definition _getCachedDataVersions : M (gmap MTRClusterPath Z) :=
  known <- _knownClusters ;;
  cachedDataVersionsLoop (elements known) ∅.

(** [chip::app::DataVersionFilter]: [EndpointId] is a [uint16_t],
    [ClusterId] and [DataVersion] are [uint32_t]. *)
Record DataVersionFilter : Type := mkDataVersionFilter {
  mEndpointId : Z;
  mClusterId : Z;
  mDataVersion : Z
}.

Definition wrap16 (z : Z) : Z := z mod 2 ^ 16.

(** [-_createDataVersionFilterListFromDictionary:dataVersionFilterList:
      count:sizeReduction:]: the filters written to the array, in the order
    the dictionary is enumerated, and [*count]. *)
Definition _createDataVersionFilterListFromDictionary
    (dataVersions : gmap MTRClusterPath Z) (sizeReduction : nat)
    : list DataVersionFilter * nat :=
  let maxDataVersionFilterSize := size dataVersions in
  if bool_decide (size dataVersions = 0%nat)
     || bool_decide (maxDataVersionFilterSize <= sizeReduction)%nat
  then ([], 0%nat)
  else
    let maxDataVersionFilterSize := (maxDataVersionFilterSize - sizeReduction)%nat in
    (take maxDataVersionFilterSize
       ((fun entry : MTRClusterPath * Z =>
           mkDataVersionFilter (wrap16 (cp_endpoint entry.1)) (wrap32 (cp_cluster entry.1))
             (wrap32 entry.2))
        <$> map_to_list dataVersions),
     maxDataVersionFilterSize).

Inductive CHIP_ERROR : Type :=
| CHIP_NO_ERROR
| CHIP_ERROR_NO_MEMORY
| CHIP_ERROR_OTHER (code : Z).

#[global] Instance CHIP_ERROR_eq_dec : EqDecision CHIP_ERROR.
Proof. solve_decision. Defined.

(** The [for (;;)] loop in the session completion of [-_setupSubscription]:
    subscribe with the data version filter list and retry with a smaller
    list when the request runs out of packet space.
    [SendAutoResubscribeRequest] stands for the read client, which sees
    the same parameters in every turn but for the filter list; [turns]
    bounds the turns the loop is run for.  The answer is the last error and
    the size reduction reached. *)
Fixpoint sendSubscribeRequest
    (SendAutoResubscribeRequest : list DataVersionFilter -> CHIP_ERROR)
    (dataVersions : gmap MTRClusterPath Z) (turns : nat)
    (dataVersionFilterListSizeReduction : nat) : option (CHIP_ERROR * nat) :=
  match turns with
  | O => None
  | S turns =>
      let '(dataVersionFilterList, dataVersionFilterListSize) :=
        _createDataVersionFilterListFromDictionary dataVersions
          dataVersionFilterListSizeReduction in
      let err := SendAutoResubscribeRequest dataVersionFilterList in
      if bool_decide (err = CHIP_NO_ERROR)
      then Some (err, dataVersionFilterListSizeReduction)
      else if negb (bool_decide (err = CHIP_ERROR_NO_MEMORY))
      then Some (err, dataVersionFilterListSizeReduction)
      else if bool_decide (dataVersionFilterListSize = 0%nat)
      then Some (err, dataVersionFilterListSizeReduction)
      else sendSubscribeRequest SendAutoResubscribeRequest dataVersions turns
             (S dataVersionFilterListSizeReduction)
  end.

(** [-_clusterDataToPersistSnapshot] *)
Definition _clusterDataToPersistSnapshot : M (gmap MTRClusterPath MTRDeviceClusterData) :=
  get (fun d => copyWithZone <$> default ∅ (clusterDataToPersist d)).

(** ** Ready handlers and completions of the read and write work items *)

Section WorkItemHandlers.

Context {K : MTRConstants}.

(** The ready handler of the read work item. *)
Definition readReadyHandler (readRequests : list ReadRequest) : M unit :=
  match readRequests with
  | [] => emit (workCompletion MTRAsyncWorkComplete)
  | first :: _ =>
      emit (baseDevice_readAttributePaths
              (MTRDeviceReadRequestFieldPathIndex <$> readRequests)
              (MTRDeviceReadRequestFieldParamsIndex first))
  end.

(** The completion the read work item gives to [MTRBaseDevice]. *)
Definition readCompletion (retryCount : Z)
    (values : option (list MTRAttributeResponseValue)) (error : option NSError)
    (now : NSDate) : M unit :=
  match values with
  | Some values => _handleAttributeReport now values
  | None => ret tt
  end ;;;
  if bool_decide (is_Some error) && (retryCount <? 2)
  then emit (workCompletion MTRAsyncWorkNeedsRetry)
  else emit (workCompletion MTRAsyncWorkComplete).

(** The ready handler of the write work item; [writeRequests[0]] is the
    request the batching handler left. *)
Definition writeReadyHandler (writeRequests : list WriteRequest) : M unit :=
  match writeRequests with
  | request :: _ =>
      let path := MTRDeviceWriteRequestFieldPathIndex request in
      emit (baseDevice_writeAttribute path (MTRDeviceWriteRequestFieldValueIndex request)
              (MTRDeviceWriteRequestFieldTimeoutIndex request))
  | [] => ret tt
  end.

End WorkItemHandlers.

(** * Further observations used by the statements *)

(** ** Sequences of calls *)

(** The entry points of a device: the calls of its client, the callbacks
    of its subscription, the timers it arms and the completions of its work
    items. *)
Inductive DeviceCall : Type :=
| call_setDelegate
| call_invalidate
| call_setPersistedClusterData (clusterData : gmap MTRClusterPath MTRDeviceClusterData)
| call_subscriptionEstablished
| call_subscriptionError
| call_resubscriptionNeeded (now : NSDate)
| call_subscriptionReset (retryDelay : option Z) (now : NSDate)
| call_reattemptTimer
| call_unsolicitedMessage
| call_markUnreachableTimer
| call_reportBegin
| call_attributeReport (now : NSDate) (attributeReport : list MTRAttributeResponseValue)
| call_eventReport (now : NSDate) (eventReport : list MTREventReport)
| call_reportEnd
| call_readAttribute (endpointID clusterID attributeID : Z)
                     (params : option MTRReadParams) (now : NSDate)
| call_readReady (readRequests : list ReadRequest)
| call_readCompletion (retryCount : Z) (values : option (list MTRAttributeResponseValue))
                      (error : option NSError) (now : NSDate)
| call_writeAttribute (endpointID clusterID attributeID : Z) (value : NSDictionary)
                      (expectedValueInterval : Z) (timeout : option Z) (now : NSDate)
| call_writeReady (writeRequests : list WriteRequest)
| call_writeCompletion (attributePath : MTRAttributePath) (useValueAsExpectedValue : bool)
                       (request : WriteRequest) (error : option NSError)
| call_invokeCommand (endpointID clusterID commandID : Z) (commandFields : NSDictionary)
                     (expectedValues : option (list MTRAttributeResponseValue))
                     (expectedValueInterval timeout serverSideProcessingTimeout : option Z)
                     (now : NSDate)
| call_invokeReady (request : InvokeRequest) (now : NSDate)
| call_invokeCompletion (request : InvokeRequest) (retryCount : Z)
                        (values : option (list MTRAttributeResponseValue))
                        (error : option NSError)
| call_setExpectedValues (values : list MTRAttributeResponseValue)
                         (expectedValueInterval : Z) (now : NSDate)
| call_removeExpectedValue (attributePath : MTRAttributePath) (expectedValueID : Z)
| call_removeExpectedValues (attributePaths : list MTRAttributePath) (expectedValueID : Z)
| call_expirationTimer (now : NSDate).

Definition runCall {K : MTRConstants} (call : DeviceCall) : M unit :=
  match call with
  | call_setDelegate => setDelegate
  | call_invalidate => invalidate
  | call_setPersistedClusterData clusterData => setPersistedClusterData clusterData
  | call_subscriptionEstablished => _handleSubscriptionEstablished
  | call_subscriptionError => _handleSubscriptionError
  | call_resubscriptionNeeded now => _handleResubscriptionNeeded now
  | call_subscriptionReset retryDelay now => _handleSubscriptionReset retryDelay now
  | call_reattemptTimer => _reattemptSubscriptionNowIfNeeded
  | call_unsolicitedMessage => _handleUnsolicitedMessageFromPublisher
  | call_markUnreachableTimer => _markDeviceAsUnreachableIfNeverSubscribed
  | call_reportBegin => _handleReportBegin
  | call_attributeReport now attributeReport => _handleAttributeReport now attributeReport
  | call_eventReport now eventReport => _handleEventReport now eventReport
  | call_reportEnd => _handleReportEnd
  | call_readAttribute endpointID clusterID attributeID params now =>
      readAttributeWithEndpointID endpointID clusterID attributeID params now ;;; ret tt
  | call_readReady readRequests => readReadyHandler readRequests
  | call_readCompletion retryCount values error now =>
      readCompletion retryCount values error now
  | call_writeAttribute endpointID clusterID attributeID value interval timeout now =>
      writeAttributeWithEndpointID endpointID clusterID attributeID value interval timeout now
  | call_writeReady writeRequests => writeReadyHandler writeRequests
  | call_writeCompletion attributePath useValueAsExpectedValue request error =>
      writeCompletion attributePath useValueAsExpectedValue request error
  | call_invokeCommand endpointID clusterID commandID commandFields expectedValues
      expectedValueInterval timeout serverSideProcessingTimeout now =>
      _invokeCommandWithEndpointID endpointID clusterID commandID commandFields
        expectedValues expectedValueInterval timeout serverSideProcessingTimeout now ;;;
      ret tt
  | call_invokeReady request now => invokeReadyHandler request now
  | call_invokeCompletion request retryCount values error =>
      invokeCompletion request retryCount values error
  | call_setExpectedValues values interval now =>
      setExpectedValues values interval now ;;; ret tt
  | call_removeExpectedValue attributePath expectedValueID =>
      removeExpectedValueForAttributePath attributePath expectedValueID
  | call_removeExpectedValues attributePaths expectedValueID =>
      removeExpectedValuesForAttributePaths attributePaths expectedValueID
  | call_expirationTimer now => _performScheduledExpirationCheck now
  end.

(** The calls of a sequence, one after the other. *)
Definition runCalls {K : MTRConstants} (calls : list DeviceCall) : M unit :=
  for_each calls runCall.

(** ** Relations between the start of a run, what it dispatches and its end *)

(** One run from [d]: the device it starts from, the blocks it dispatches and
    the device it ends with are related by [S]. *)
Definition run_ok {A : Type} (S : MTRDevice -> list Effect -> MTRDevice -> Prop)
    (m : M A) (d : MTRDevice) : Prop :=
  S d (effects (m d)) (device_after (m d)).

(** Every run of a computation is related by [S]. *)
Definition follows {A : Type} (S : MTRDevice -> list Effect -> MTRDevice -> Prop)
    (m : M A) : Prop :=
  forall d : MTRDevice, run_ok S m d.

(** Without a delegate there is no call on the delegate queue, and no
    delegate appears. *)
Definition silent_without_delegate (d : MTRDevice) (out : list Effect) (d' : MTRDevice)
    : Prop :=
  weakDelegate d = false ->
  weakDelegate d' = false /\ Forall (fun e => ~ is_delegate_call e) out.

(** The blocks selected by [isE] are dispatched at most once, and not at
    all once [flag] is raised; the flag stays raised, and is raised by the
    dispatch. *)
Definition at_most_once (flag : MTRDevice -> bool) (isE : Effect -> bool)
    (d : MTRDevice) (out : list Effect) (d' : MTRDevice) : Prop :=
  (length (List.filter isE out) <= if flag d then 0 else 1)%nat
  /\ (flag d = true \/ length (List.filter isE out) = 1%nat -> flag d' = true).

Definition is_cachePrimed_call (e : Effect) : bool :=
  match e with
  | dispatch_async_delegateQueue deviceCachePrimed => true
  | _ => false
  end.

Definition is_session_request (e : Effect) : bool :=
  match e with
  | dispatch_async getSessionForNode_block => true
  | _ => false
  end.

(** A subscription is being set up or has been established. *)
Definition subscriptionStarted (d : MTRDevice) : bool :=
  negb (NeedToStartSubscriptionSetup (internalDeviceState d)).

(** The states the delegate is told of, in order. *)
Definition stateChanges (out : list Effect) : list MTRDeviceState :=
  omap (fun e => match e with
                 | dispatch_async_delegateQueue (device_stateChanged s) => Some s
                 | _ => None
                 end) out.

(** No state of the list equals the one before it, [s] being the one
    before the first. *)
Fixpoint distinct_neighbours (s : MTRDeviceState) (l : list MTRDeviceState) : Prop :=
  match l with
  | [] => True
  | s' :: l' => s <> s' /\ distinct_neighbours s' l'
  end.

(** With a delegate, the delegate is told of every change of state and of
    nothing else: the states it is told of differ from one to the next,
    starting from the state of [d], and end with the state of [d']. *)
Definition state_changes_notified (d : MTRDevice) (out : list Effect) (d' : MTRDevice)
    : Prop :=
  weakDelegate d = true ->
  weakDelegate d' = true
  /\ distinct_neighbours (state d) (stateChanges out)
  /\ List.last (stateChanges out) (state d) = state d'.

(** What every part of the device but [-setDelegate:queue:],
    [-invalidate] and [-_handleSubscriptionError:] keeps. *)
Definition well_behaved (d : MTRDevice) (out : list Effect) (d' : MTRDevice) : Prop :=
  silent_without_delegate d out d'
  /\ at_most_once delegateDeviceCachePrimedCalled is_cachePrimed_call d out d'
  /\ at_most_once subscriptionStarted is_session_request d out d'
  /\ state_changes_notified d out d'.

(** A run that only pages cluster data in: nothing is dispatched, and the
    device changes in its cache of persisted cluster data at most. *)
Definition pages_only (d : MTRDevice) (out : list Effect) (d' : MTRDevice) : Prop :=
  out = [] /\ exists paged, d' = set_persistedClusterData paged d.

(** A run that dispatches nothing and leaves the part [f] of the device as
    it was. *)
Definition quiet_keeping {A : Type} (f : MTRDevice -> A)
    (d : MTRDevice) (out : list Effect) (d' : MTRDevice) : Prop :=
  out = [] /\ f d' = f d.

(** What report ingestion leaves alone, data entries at least: the
    expected values, the delegate, the reachability state and the work
    queue. *)
Definition ingestionFrame (d : MTRDevice)
    : gmap MTRAttributePath ExpectedValue * bool * MTRDeviceState * list MTRAsyncWorkItem :=
  (expectedValueCache d, weakDelegate d, state d, asyncWorkQueue d).

(** An entry of an attribute report without an error whose data value, if
    it has one, carries a type tag. *)
Definition typedDataEntry (entry : MTRAttributeResponseValue) : Prop :=
  MTRErrorKey entry = None
  /\ forall value, rv_data entry = Some value -> is_Some (MTRTypeKey value).

(** The value a read of the attribute at [path] answers with at [now]. *)
Definition readValue {K : MTRConstants} (path : MTRAttributePath)
    (params : option MTRReadParams) (now : NSDate) (d : MTRDevice)
    : option MTRDeviceDataValueDictionary :=
  result (readAttributeWithEndpointID (endpoint path) (cluster path) (attribute path)
            params now d).

(** ** Events *)

(** The events of a report that are handed on: the ones with an event time
    type and, when that type is the system up-time, with an up-time value. *)
Definition eventIsReported {K : MTRConstants} (eventDict : MTREventReport) : bool :=
  match MTREventTimeTypeKey eventDict with
  | None => false
  | Some eventTimeType =>
      if eventTimeType =? MTREventTimeTypeSystemUpTime
      then bool_decide (is_Some (MTREventSystemUpTimeKey eventDict))
      else true
  end.

(** An event with [MTREventIsHistoricalKey] set. *)
Definition withIsHistorical (isHistorical : bool) (eventDict : MTREventReport)
    : MTREventReport :=
  mkEventReport (MTREventPathKey eventDict) (ev_data eventDict)
    (MTREventTimeTypeKey eventDict) (MTREventSystemUpTimeKey eventDict) (Some isHistorical).

(** A StartUp event of the Basic Information cluster. *)
Definition isStartUpEvent {K : MTRConstants} (eventDict : MTREventReport) : bool :=
  (ep_cluster (MTREventPathKey eventDict) =? MTRClusterIDTypeBasicInformationID)
  && (ep_event (MTREventPathKey eventDict)
      =? MTREventIDTypeClusterBasicInformationEventStartUpID).

(** The system start time an event stamped with the system up-time points
    to when it is received at [now]. *)
Definition startTimeOfEvent {K : MTRConstants} (now : NSDate) (eventDict : MTREventReport)
    : option NSDate :=
  match MTREventTimeTypeKey eventDict, MTREventSystemUpTimeKey eventDict with
  | Some eventTimeType, Some eventTimeValue =>
      if eventTimeType =? MTREventTimeTypeSystemUpTime
      then Some (now - seconds eventTimeValue) else None
  | _, _ => None
  end.

(** ** Expected values *)

(** An entry of the expected-value cache that is absent or carries the
    id [g]. *)
Definition absentOrOwnedBy (g : Z) (entry : option ExpectedValue) : Prop :=
  entry = None \/ exists ev, entry = Some ev /\ MTRDeviceExpectedValueFieldIDIndex ev = g.

(** ** Persistence *)

(** From [d] to [d'] every cluster whose look-up answers differently waits
    to be persisted, and no cluster stops waiting. *)
Definition changes_are_dirty (d d' : MTRDevice) : Prop :=
  (forall clusterPath, isDirty clusterPath d -> isDirty clusterPath d')
  /\ forall clusterPath,
       result (_clusterDataForPath clusterPath d')
       = result (_clusterDataForPath clusterPath d)
       \/ isDirty clusterPath d'.

(** What a run keeps of the configuration flag: a raised flag stays raised,
    and an attribute that affects the device configuration has its cached
    value as before, or none, unless the flag is raised. *)
Definition configuration_changes_flagged {K : MTRConstants} (d d' : MTRDevice) : Prop :=
  (deviceConfigurationChanged d = true -> deviceConfigurationChanged d' = true)
  /\ forall path,
       _attributeAffectsDeviceConfiguration path = true ->
       result (_cachedAttributeValueForPath path d')
       = result (_cachedAttributeValueForPath path d)
       \/ result (_cachedAttributeValueForPath path d') = None
       \/ deviceConfigurationChanged d' = true.

(** ** The contents of the store *)

(** The data the store holds for a cluster: the data waiting to be
    persisted, else the data of the in-memory copy of the persisted
    clusters, else the data in storage of a cluster known to be persisted. *)
Definition storedClusterData (clusterPath : MTRClusterPath) (d : MTRDevice)
    : option MTRDeviceClusterData :=
  match clusterDataToPersist d ≫= (.!! clusterPath) with
  | Some data => Some data
  | None =>
      match persistedClusterData d ≫= (.!! clusterPath) with
      | Some data => Some data
      | None =>
          if bool_decide (clusterPath ∈ persistedClusters d)
          then controllerDataStore d ≫= (.!! clusterPath)
          else None
      end
  end.

(** The value the read cache holds for an attribute: the value under the
    attribute id in the data the store holds for the cluster of the path. *)
Definition readCacheValue (path : MTRAttributePath) (d : MTRDevice)
    : option MTRDeviceDataValueDictionary :=
  storedClusterData (clusterPathOf path) d
  ≫= (fun clusterData => attributes clusterData !! attribute path).

(** * Properties *)

#[global] Arguments _attributeDataValue_isEqualToDataValue : simpl never.
#[global] Arguments AttributeHasChangesOmittedQuality : simpl never.
#[global] Arguments _attributeAffectsDeviceConfiguration : simpl never.

Ltac unfold_m :=
  unfold bind, get, modify, emit, ret, when, result, device_after, effects in *.

(** Case analysis on the tests a computation makes, outermost first. *)
Ltac split_tests :=
  repeat (cbn;
          match goal with
          | |- context [if ?c then _ else _] => destruct c eqn:?
          end);
  cbn.

Ltac Z_tests :=
  repeat match goal with
    | H : (_ <? _) = true |- _ => apply Z.ltb_lt in H
    | H : (_ <? _) = false |- _ => apply Z.ltb_ge in H
    end.

(** Name the results of the sub-computations a goal runs. *)
Ltac name_runs :=
  repeat match goal with
    | |- context [let (_, _) := ?e in _] => destruct e as [[? ?] ?] eqn:?
    end.

(** ** Running a sequence *)

Lemma result_bind {A B : Type} (m : M A) (k : A -> M B) (d : MTRDevice) :
  result (bind m k d) = result (k (result (m d)) (device_after (m d))).
Proof.
  unfold bind, result, device_after.
  destruct (m d) as [[a d1] out1]. cbn. destruct (k a d1) as [[b d2] out2]. reflexivity.
Qed.

Lemma device_after_bind {A B : Type} (m : M A) (k : A -> M B) (d : MTRDevice) :
  device_after (bind m k d) = device_after (k (result (m d)) (device_after (m d))).
Proof.
  unfold bind, result, device_after.
  destruct (m d) as [[a d1] out1]. cbn. destruct (k a d1) as [[b d2] out2]. reflexivity.
Qed.

Lemma effects_bind {A B : Type} (m : M A) (k : A -> M B) (d : MTRDevice) :
  effects (bind m k d)
  = effects (m d) ++ effects (k (result (m d)) (device_after (m d))).
Proof.
  unfold bind, result, device_after, effects.
  destruct (m d) as [[a d1] out1]. cbn. destruct (k a d1) as [[b d2] out2]. reflexivity.
Qed.

Lemma exec_bind {A B : Type} (m : M A) (k : A -> M B) (d : MTRDevice) :
  exec (bind m k) d = exec (k (result (m d))) (exec m d).
Proof. unfold exec. apply device_after_bind. Qed.

Lemma run_ret {A : Type} (a : A) (d : MTRDevice) : ret a d = (a, d, []).
Proof. reflexivity. Qed.

Lemma run_get {A : Type} (f : MTRDevice -> A) (d : MTRDevice) : get f d = (f d, d, []).
Proof. reflexivity. Qed.

Lemma run_modify (f : MTRDevice -> MTRDevice) (d : MTRDevice) : modify f d = (tt, f d, []).
Proof. reflexivity. Qed.

Lemma run_emit (e : Effect) (d : MTRDevice) : emit e d = (tt, d, [e]).
Proof. reflexivity. Qed.

Lemma result_run {A : Type} (a : A) (d : MTRDevice) (out : list Effect) :
  result (a, d, out) = a.
Proof. reflexivity. Qed.

Lemma device_after_run {A : Type} (a : A) (d : MTRDevice) (out : list Effect) :
  device_after (a, d, out) = d.
Proof. reflexivity. Qed.

Lemma effects_run {A : Type} (a : A) (d : MTRDevice) (out : list Effect) :
  effects (a, d, out) = out.
Proof. reflexivity. Qed.

Create Rewrite HintDb run.
#[global] Hint Rewrite @result_bind @device_after_bind @effects_bind @run_ret @run_get
  @run_modify @run_emit @result_run @device_after_run @effects_run app_nil_l app_nil_r
  : run.

(** ** Relations kept along a computation *)

Section Preservation.

Variable R : MTRDevice -> MTRDevice -> Prop.
Hypothesis R_refl : forall d, R d d.
Hypothesis R_trans : forall a b c, R a b -> R b c -> R a c.

Lemma preserves_ret {A : Type} (a : A) : preserves R (ret a).
Proof. intros d. apply R_refl. Qed.

Lemma preserves_get {A : Type} (f : MTRDevice -> A) : preserves R (get f).
Proof. intros d. apply R_refl. Qed.

Lemma preserves_emit (e : Effect) : preserves R (emit e).
Proof. intros d. apply R_refl. Qed.

Lemma preserves_modify (f : MTRDevice -> MTRDevice) :
  (forall d, R d (f d)) -> preserves R (modify f).
Proof. intros H d. apply H. Qed.

Lemma preserves_bind {A B : Type} (m : M A) (k : A -> M B) :
  preserves R m -> (forall a, preserves R (k a)) -> preserves R (bind m k).
Proof.
  intros Hm Hk d. rewrite device_after_bind.
  eapply R_trans; [apply Hm | apply Hk].
Qed.

Lemma preserves_when (b : bool) (m : M unit) :
  preserves R m -> preserves R (when b m).
Proof. intros Hm. destruct b; [exact Hm | apply preserves_ret]. Qed.

Lemma preserves_for_each {A : Type} (l : list A) (body : A -> M unit) :
  (forall x, preserves R (body x)) -> preserves R (for_each l body).
Proof.
  intros Hbody. induction l as [|x l IH]; cbn.
  - apply preserves_ret.
  - apply preserves_bind; [apply Hbody | intros _; exact IH].
Qed.

End Preservation.

(** Break a preservation goal down along the structure of the computation;
    what is left are the state updates and the calls. *)
Ltac preserves_steps :=
  repeat match goal with
    | |- preserves _ (bind _ _) => apply preserves_bind; [assumption | | intros ?]
    | |- preserves _ (ret _) => apply preserves_ret; assumption
    | |- preserves _ (get _) => apply preserves_get; assumption
    | |- preserves _ (emit _) => apply preserves_emit; assumption
    | |- preserves _ (when _ _) => apply preserves_when; [assumption|]
    | |- preserves _ (for_each _ _) =>
        apply preserves_for_each; [assumption | assumption | intros ?]
    | |- preserves _ (if ?c then _ else _) => destruct c
    | |- preserves _ (match ?c with _ => _ end) => destruct c
    end.

(** ** The cluster data store *)

Lemma set_persistedClusterData_same (d : MTRDevice) :
  set_persistedClusterData (persistedClusterData d) d = d.
Proof. destruct d; reflexivity. Qed.

(** A look-up changes nothing but the persisted cache (by paging a cluster
    in) and dispatches nothing. *)
Lemma _clusterDataForPath_run (clusterPath : MTRClusterPath) (d : MTRDevice) :
  exists r paged, _clusterDataForPath clusterPath d = (r, set_persistedClusterData paged d, []).
Proof.
  unfold _clusterDataForPath.
  destruct (clusterDataToPersist d ≫= lookup clusterPath) as [data|].
  { exists (Some data), (persistedClusterData d).
    rewrite set_persistedClusterData_same. reflexivity. }
  destruct (persistedClusterData d ≫= lookup clusterPath) as [data|].
  { exists (Some data), (persistedClusterData d).
    rewrite set_persistedClusterData_same. reflexivity. }
  destruct (bool_decide (clusterPath ∈ persistedClusters d)).
  - destruct (controllerDataStore d ≫= lookup clusterPath) as [data|].
    + eexists _, _. reflexivity.
    + exists None, (persistedClusterData d).
      rewrite set_persistedClusterData_same. reflexivity.
  - exists None, (persistedClusterData d).
    rewrite set_persistedClusterData_same. reflexivity.
Qed.

Lemma _cachedAttributeValueForPath_run (path : MTRAttributePath) (d : MTRDevice) :
  exists r paged,
    _cachedAttributeValueForPath path d = (r, set_persistedClusterData paged d, []).
Proof.
  unfold _cachedAttributeValueForPath.
  destruct (_clusterDataForPath_run (clusterPathOf path) d) as (r & paged & Hrun).
  unfold bind. rewrite Hrun.
  destruct r as [clusterData|]; cbn; eexists _, _; reflexivity.
Qed.

Lemma _clusterDataForPath_same_store (clusterPath : MTRClusterPath) (d d' : MTRDevice) :
  same_store d d' ->
  result (_clusterDataForPath clusterPath d') = result (_clusterDataForPath clusterPath d)
  /\ same_store (device_after (_clusterDataForPath clusterPath d))
                (device_after (_clusterDataForPath clusterPath d')).
Proof.
  intros (Hdirty & Hpersisted & Hclusters & Hstore).
  unfold _clusterDataForPath, same_store, result, device_after.
  rewrite Hdirty, Hpersisted, Hclusters, Hstore.
  destruct (clusterDataToPersist d ≫= lookup clusterPath); [cbn; auto|].
  destruct (persistedClusterData d ≫= lookup clusterPath); [cbn; auto|].
  destruct (bool_decide (clusterPath ∈ persistedClusters d)); [|cbn; auto].
  destruct (controllerDataStore d ≫= lookup clusterPath); cbn; auto.
Qed.

Lemma _cachedAttributeValueForPath_same_store (path : MTRAttributePath) (d d' : MTRDevice) :
  same_store d d' ->
  result (_cachedAttributeValueForPath path d') = result (_cachedAttributeValueForPath path d).
Proof.
  intros Hsame.
  destruct (_clusterDataForPath_same_store (clusterPathOf path) d d' Hsame) as [Hr _].
  unfold _cachedAttributeValueForPath, bind, result in *.
  destruct (_clusterDataForPath (clusterPathOf path) d') as [[r' d1'] out'].
  destruct (_clusterDataForPath (clusterPathOf path) d) as [[r d1] out].
  cbn in Hr. subst r'. destruct r; reflexivity.
Qed.


(** ** Subscription back-off *)

Lemma nextWait_waitAfter (k : nat) :
  nextWait (waitAfter k) = Z.min 3600 (2 ^ Z.of_nat k).
Proof.
  destruct k as [|j]; [reflexivity|].
  unfold waitAfter, nextWait.
  assert (H : 0 < 2 ^ Z.of_nat j) by (apply Z.pow_pos_nonneg; lia).
  replace (Z.of_nat (S j)) with (Z.succ (Z.of_nat j)) by lia.
  rewrite Z.pow_succ_r by lia.
  destruct (3600 `min` 2 ^ Z.of_nat j <? 1) eqn:E;
    [apply Z.ltb_lt in E | apply Z.ltb_ge in E]; lia.
Qed.

Lemma waitAfter_range (k : nat) : 0 <= waitAfter k <= 3600.
Proof.
  destruct k as [|j]; cbn; [lia|].
  assert (H : 0 < 2 ^ Z.of_nat j) by (apply Z.pow_pos_nonneg; lia). lia.
Qed.

Lemma subscriptionAttemptFailed_no_delay (now : NSDate) (d : MTRDevice) :
  weakDelegate d = true ->
  reattemptingSubscription d = false ->
  0 <= lastSubscriptionAttemptWait d <= 3600 ->
  let r := subscriptionAttemptFailed None now d in
  weakDelegate (device_after r) = true
  /\ reattemptingSubscription (device_after r) = true
  /\ lastSubscriptionAttemptWait (device_after r) = nextWait (lastSubscriptionAttemptWait d)
  /\ reattemptDelays (effects r) = [seconds (nextWait (lastSubscriptionAttemptWait d))].
Proof.
  intros Hdel Hre Hw.
  unfold subscriptionAttemptFailed, _handleSubscriptionError, _handleSubscriptionReset,
    _changeState, nextWait.
  unfold_m.
  unfold MTRDEVICE_SUBSCRIPTION_ATTEMPT_MIN_WAIT_SECONDS,
    MTRDEVICE_SUBSCRIPTION_ATTEMPT_MAX_WAIT_SECONDS, wrap32.
  repeat (cbn; rewrite ?Hdel, ?Hre;
          match goal with
          | |- context [if ?c then _ else _] => destruct c eqn:?
          end).
  all: cbn; rewrite ?Z.mod_small in * by lia.
  all: Z_tests.
  all: repeat split; try reflexivity; try lia.
  all: do 2 f_equal; lia.
Qed.

Lemma reattempt_timer_fires (d : MTRDevice) :
  let d' := device_after (_reattemptSubscriptionNowIfNeeded d) in
  weakDelegate d' = weakDelegate d
  /\ reattemptingSubscription d' = false
  /\ lastSubscriptionAttemptWait d' = lastSubscriptionAttemptWait d.
Proof.
  unfold _reattemptSubscriptionNowIfNeeded, _setupSubscription,
    _setupConnectivityMonitoring.
  unfold_m.
  destruct (reattemptingSubscription d) eqn:Hre; split_tests; auto.
Qed.

Lemma consecutiveFailures_state (nows : list NSDate) :
  forall (k : nat) (d : MTRDevice),
    weakDelegate d = true ->
    reattemptingSubscription d = false ->
    lastSubscriptionAttemptWait d = waitAfter k ->
    let d' := consecutiveFailures nows d in
    weakDelegate d' = true
    /\ reattemptingSubscription d' = false
    /\ lastSubscriptionAttemptWait d' = waitAfter (k + length nows).
Proof.
  induction nows as [|now rest IH]; intros k d Hdel Hre Hw; cbn.
  - rewrite Nat.add_0_r. auto.
  - replace (k + S (length rest))%nat with (S k + length rest)%nat by lia.
    pose proof (subscriptionAttemptFailed_no_delay now d Hdel Hre) as Hf.
    rewrite Hw in Hf. specialize (Hf (waitAfter_range k)).
    destruct Hf as (Hdel1 & _ & Hw1 & _).
    pose proof (reattempt_timer_fires
                  (device_after (subscriptionAttemptFailed None now d))) as Ht.
    destruct Ht as (Hdel2 & Hre2 & Hw2).
    apply IH.
    + unfold failedAttemptThenTimer. congruence.
    + exact Hre2.
    + unfold failedAttemptThenTimer. rewrite Hw2, Hw1. apply nextWait_waitAfter.
Qed.

(** C2. After [k] consecutive subscription failures without server delay
    (each followed by its reattempt timer, with no success in between),
    counted from a device whose stored wait is 0, the next failure schedules
    the reattempt [min(3600, 2^k)] seconds later: 1 second after the first
    failure, doubling up to the 3600-second cap.  Subscription establishment
    resets the stored wait to 0. *)
Theorem backoff_wait_is_min_3600_pow2
    (d : MTRDevice) (nows : list NSDate) (now : NSDate) :
  weakDelegate d = true ->
  reattemptingSubscription d = false ->
  lastSubscriptionAttemptWait d = 0 ->
  reattemptDelays
    (effects (subscriptionAttemptFailed None now (consecutiveFailures nows d)))
  = [seconds (Z.min 3600 (2 ^ Z.of_nat (length nows)))]
  /\ forall d' : MTRDevice,
       lastSubscriptionAttemptWait (device_after (_handleSubscriptionEstablished d')) = 0.
Proof.
  intros Hdel Hre Hw. split.
  - destruct (consecutiveFailures_state nows 0 d Hdel Hre Hw) as (Hdel' & Hre' & Hw').
    cbn in Hw'.
    pose proof (subscriptionAttemptFailed_no_delay now _ Hdel' Hre') as Hf.
    rewrite Hw' in Hf. specialize (Hf (waitAfter_range _)).
    destruct Hf as (_ & _ & _ & Hdelay).
    rewrite Hdelay, nextWait_waitAfter. reflexivity.
  - intros d'.
    unfold _handleSubscriptionEstablished, _callDelegateDeviceCachePrimed,
      _callDelegateWithBlock, _changeState, _stopConnectivityMonitoring,
      _scheduleNextUpdate.
    unfold_m. split_tests; reflexivity.
Qed.

(** Thirteen failures in a row on a freshly created device with a delegate:
    the thirteenth reattempt is scheduled 3600 seconds out. *)
Lemma backoff_wait_is_min_3600_pow2_witness :
  weakDelegate deviceWithDelegate = true
  /\ reattemptingSubscription deviceWithDelegate = false
  /\ lastSubscriptionAttemptWait deviceWithDelegate = 0
  /\ reattemptDelays
       (effects (subscriptionAttemptFailed None 13
                   (consecutiveFailures [1; 2; 3; 4; 5; 6; 7; 8; 9; 10; 11; 12]
                      deviceWithDelegate)))
     = [seconds 3600].
Proof.
  assert (H1 : weakDelegate deviceWithDelegate = true) by reflexivity.
  assert (H2 : reattemptingSubscription deviceWithDelegate = false) by reflexivity.
  assert (H3 : lastSubscriptionAttemptWait deviceWithDelegate = 0) by reflexivity.
  split; [exact H1|]. split; [exact H2|]. split; [exact H3|].
  exact (proj1 (backoff_wait_is_min_3600_pow2 deviceWithDelegate
                  [1; 2; 3; 4; 5; 6; 7; 8; 9; 10; 11; 12] 13 H1 H2 H3)).
Defined.

(** C4, as stated, fails on the first failure after device creation: with a
    server-provided delay of 30 seconds the stored wait becomes 1 (not 0)
    and the reattempt is scheduled 1 second out (not 30). *)
Lemma server_delay_unused_while_wait_is_zero :
  let r := subscriptionAttemptFailed (Some 30) 0 deviceWithDelegate in
  lastSubscriptionAttemptWait deviceWithDelegate = 0
  /\ lastSubscriptionAttemptWait (device_after r) = 1
  /\ reattemptDelays (effects r) = [seconds 1]
  /\ ~ (lastSubscriptionAttemptWait (device_after r) = 0
        /\ reattemptDelays (effects r) = [seconds 30]).
Proof.
  cbn. repeat split; try reflexivity.
  intros [H _]. vm_compute in H. discriminate H.
Qed.

(** C4, amended.  When a subscription attempt fails with a server-provided
    retry delay while a delegate is installed, no reattempt is pending and
    the stored wait is not 0, the stored wait is reset to 0 and the
    reattempt is scheduled that many seconds later. *)
Theorem server_delay_used_when_wait_nonzero
    (d : MTRDevice) (retryDelay : Z) (now : NSDate) :
  weakDelegate d = true ->
  reattemptingSubscription d = false ->
  1 <= lastSubscriptionAttemptWait d ->
  let r := subscriptionAttemptFailed (Some retryDelay) now d in
  lastSubscriptionAttemptWait (device_after r) = 0
  /\ reattemptDelays (effects r) = [seconds retryDelay].
Proof.
  intros Hdel Hre Hw.
  unfold subscriptionAttemptFailed, _handleSubscriptionError, _handleSubscriptionReset,
    _changeState.
  unfold_m.
  unfold MTRDEVICE_SUBSCRIPTION_ATTEMPT_MIN_WAIT_SECONDS.
  repeat (cbn; rewrite ?Hdel, ?Hre;
          match goal with
          | |- context [if ?c then _ else _] => destruct c eqn:?
          end).
  all: cbn; Z_tests; try lia.
  all: split; reflexivity.
Qed.

Lemma server_delay_used_when_wait_nonzero_witness :
  let d := consecutiveFailures [1] deviceWithDelegate in
  weakDelegate d = true
  /\ reattemptingSubscription d = false
  /\ 1 <= lastSubscriptionAttemptWait d
  /\ lastSubscriptionAttemptWait
       (device_after (subscriptionAttemptFailed (Some 30) 2 d)) = 0
  /\ reattemptDelays (effects (subscriptionAttemptFailed (Some 30) 2 d)) = [seconds 30].
Proof.
  cbv zeta.
  assert (H1 : weakDelegate (consecutiveFailures [1] deviceWithDelegate) = true)
    by reflexivity.
  assert (H2 : reattemptingSubscription (consecutiveFailures [1] deviceWithDelegate) = false)
    by reflexivity.
  assert (H3 : 1 <= lastSubscriptionAttemptWait (consecutiveFailures [1] deviceWithDelegate))
    by (vm_compute; discriminate).
  split; [exact H1|]. split; [exact H2|]. split; [exact H3|].
  exact (server_delay_used_when_wait_nonzero
           (consecutiveFailures [1] deviceWithDelegate) 30 2 H1 H2 H3).
Defined.

(** While the stored wait is 0 the server delay is not consulted: the first
    branch of the back-off sets the wait to the 1-second minimum. *)
Lemma server_delay_not_consulted_at_zero
    (d : MTRDevice) (retryDelay : option Z) (now : NSDate) :
  weakDelegate d = true ->
  reattemptingSubscription d = false ->
  lastSubscriptionAttemptWait d = 0 ->
  let r := subscriptionAttemptFailed retryDelay now d in
  lastSubscriptionAttemptWait (device_after r) = 1
  /\ reattemptDelays (effects r) = [seconds 1].
Proof.
  intros Hdel Hre Hw.
  unfold subscriptionAttemptFailed, _handleSubscriptionError, _handleSubscriptionReset,
    _changeState.
  unfold_m.
  unfold MTRDEVICE_SUBSCRIPTION_ATTEMPT_MIN_WAIT_SECONDS.
  repeat (cbn; rewrite ?Hdel, ?Hre, ?Hw;
          match goal with
          | |- context [if ?c then _ else _] => destruct c eqn:?
          end).
  all: cbn; Z_tests; try lia.
  all: split; reflexivity.
Qed.

(** ** Removal of expected values *)

(** What a removal by (path, id) leaves at the path: the entry goes away
    exactly when its id matches and its value differs from the cached one. *)
Lemma removeExpectedValue_lookup (d : MTRDevice) (path : MTRAttributePath) (g : Z) :
  expectedValueCache (exec (removeExpectedValueForAttributePath path g) d) !! path
  = match expectedValueCache d !! path with
    | Some ev =>
        if bool_decide (MTRDeviceExpectedValueFieldIDIndex ev = g)
           && negb (_attributeDataValue_isEqualToDataValue
                      (Some (MTRDeviceExpectedValueFieldValueIndex ev))
                      (result (_cachedAttributeValueForPath path d)))
        then None else Some ev
    | None => None
    end.
Proof.
  unfold exec, removeExpectedValueForAttributePath, _removeExpectedValueForAttributePath,
    _setExpectedValue, _reportAttributes.
  destruct (_cachedAttributeValueForPath_run path d) as (cached & paged & Hrun).
  unfold_m. cbn. rewrite Hrun.
  destruct (expectedValueCache d !! path) as [ev|] eqn:Hev; cbn.
  - destruct (bool_decide (MTRDeviceExpectedValueFieldIDIndex ev = g)); cbn.
    + rewrite Hrun. cbn.
      destruct (_attributeDataValue_isEqualToDataValue
                  (Some (MTRDeviceExpectedValueFieldValueIndex ev)) cached); cbn.
      * exact Hev.
      * split_tests; apply lookup_delete_eq.
    + exact Hev.
  - rewrite Hrun. cbn. exact Hev.
Qed.

(** C3 on the code.  The client writes On/Off = true while the read cache
    already holds true; the write installs an expected value under id 0.
    The write then fails and the work item removes the expected value by
    (path, id 0): the id matches, yet the entry stays in the cache. *)
Theorem matching_removal_keeps_entry_equal_to_cache :
  result (_cachedAttributeValueForPath onOffPath deviceAfterWriteOfCachedValue)
    = Some booleanTrue
  /\ expectedValueCache deviceAfterWriteOfCachedValue !! onOffPath
    = Some (mkExpectedValue 5010 booleanTrue 0)
  /\ expectedValueCache
       (exec (writeCompletion onOffPath true
                (mkWriteRequest onOffPath booleanTrue None 0)
                (Some (MTRInteractionError (Status_Other 1))))
             deviceAfterWriteOfCachedValue) !! onOffPath
    = Some (mkExpectedValue 5010 booleanTrue 0).
Proof. repeat split; vm_compute; reflexivity. Qed.

(** ** Reads *)

(** The read cache does not depend on the expected-value cache. *)
Lemma _cachedAttributeValueForPath_expectedValueCache
    (path : MTRAttributePath) (cache : gmap MTRAttributePath ExpectedValue) (d : MTRDevice) :
  result (_cachedAttributeValueForPath path (set_expectedValueCache cache d))
  = result (_cachedAttributeValueForPath path d).
Proof.
  apply _cachedAttributeValueForPath_same_store. repeat split.
Qed.

(** The value [readAttribute] answers with, on any device. *)
Lemma readAttribute_value {K : MTRConstants} (d : MTRDevice)
    (endpointID clusterID attributeID : Z) (params : option MTRReadParams) (now : NSDate) :
  let path := mkAttributePath endpointID clusterID attributeID in
  result (readAttributeWithEndpointID endpointID clusterID attributeID params now d)
  = match expectedValueCache d !! path with
    | Some expected =>
        if bool_decide (now <= MTRDeviceExpectedValueFieldExpirationTimeIndex expected)
        then Some (MTRDeviceExpectedValueFieldValueIndex expected)
        else result (_cachedAttributeValueForPath path d)
    | None => result (_cachedAttributeValueForPath path d)
    end.
Proof.
  intros path.
  unfold readAttributeWithEndpointID. fold path.
  assert (Hv : result (_attributeValueDictionaryForAttributePath path now d)
               = match expectedValueCache d !! path with
                 | Some expected =>
                     if bool_decide (now <= MTRDeviceExpectedValueFieldExpirationTimeIndex expected)
                     then Some (MTRDeviceExpectedValueFieldValueIndex expected)
                     else result (_cachedAttributeValueForPath path d)
                 | None => result (_cachedAttributeValueForPath path d)
                 end).
  { unfold _attributeValueDictionaryForAttributePath, NSOrderedDescending.
    destruct (_cachedAttributeValueForPath_run path d) as (c & paged & Hrun).
    destruct (_cachedAttributeValueForPath_run path
                (set_expectedValueCache (delete path (expectedValueCache d)) d))
      as (c' & paged' & Hrun').
    pose proof (_cachedAttributeValueForPath_expectedValueCache path
                  (delete path (expectedValueCache d)) d) as Hsame.
    rewrite Hrun, Hrun' in Hsame. cbn in Hsame. subst c'.
    unfold_m. cbn in *.
    destruct (expectedValueCache d !! path) as [expected|]; cbn.
    - destruct (MTRDeviceExpectedValueFieldExpirationTimeIndex expected <? now) eqn:E; cbn.
      + rewrite bool_decide_eq_false_2 by (apply Z.ltb_lt in E; lia).
        rewrite Hrun, Hrun'. reflexivity.
      + rewrite bool_decide_eq_true_2 by (apply Z.ltb_ge in E; lia). reflexivity.
    - rewrite Hrun. reflexivity. }
  rewrite <- Hv. rewrite !result_bind. reflexivity.
Qed.


(** ** Timed invokes *)

Lemma _cachedAttributeValueForPath_effects (path : MTRAttributePath) (d : MTRDevice) :
  effects (_cachedAttributeValueForPath path d) = [].
Proof.
  destruct (_cachedAttributeValueForPath_run path d) as (r & paged & Hrun).
  rewrite Hrun. reflexivity.
Qed.

Lemma _removeExpectedValueForAttributePath_effects
    (path : MTRAttributePath) (g : Z) (d : MTRDevice) :
  Forall is_delegate_call (effects (_removeExpectedValueForAttributePath path g d)).
Proof.
  unfold _removeExpectedValueForAttributePath, _setExpectedValue, _reportAttributes.
  destruct (_cachedAttributeValueForPath_run path d) as (cached & paged & Hrun).
  unfold_m. cbn.
  destruct (expectedValueCache d !! path) as [ev|]; cbn;
    repeat (cbn; rewrite ?Hrun;
            match goal with
            | |- context [if ?c then _ else _] => destruct c eqn:?
            end);
    cbn; rewrite ?Hrun; cbn; repeat constructor.
Qed.

Lemma removeExpectedValuesForAttributePaths_effects
    (paths : list MTRAttributePath) (g : Z) :
  forall d : MTRDevice,
    Forall is_delegate_call (effects (removeExpectedValuesForAttributePaths paths g d)).
Proof.
  unfold removeExpectedValuesForAttributePaths.
  induction paths as [|path rest IH]; intros d; cbn.
  - constructor.
  - unfold bind, effects.
    pose proof (_removeExpectedValueForAttributePath_effects path g d) as H1.
    unfold effects in H1.
    destruct (_removeExpectedValueForAttributePath path g d) as [[? d1] out1].
    specialize (IH d1). unfold effects in IH.
    destruct (for_each rest _ d1) as [[? d2] out2]. cbn in *.
    apply Forall_app; split; assumption.
Qed.

(** C7. An invoke with a timed-invoke timeout [t] (given by the caller, or
    the default of a command that needs one) records the cutoff
    [enqueue time + t] in the work item it enqueues.  When the item becomes
    ready after the cutoff, the invoke completes with a Timeout status error
    and no command is sent; otherwise the command is sent with the time
    remaining until the cutoff as its timed-invoke timeout. *)
Theorem timed_invoke_honours_cutoff {K : MTRConstants} (d : MTRDevice)
    (endpointID clusterID commandID : Z) (commandFields : NSDictionary)
    (expectedValues : option (list MTRAttributeResponseValue))
    (expectedValueInterval timeout serverSideProcessingTimeout : option Z)
    (enqueueTime t : Z) :
  invokeTimeout clusterID commandID timeout = Some t ->
  let r := _invokeCommandWithEndpointID endpointID clusterID commandID commandFields
             expectedValues expectedValueInterval timeout serverSideProcessingTimeout
             enqueueTime d in
  let request := result r in
  inv_cutoffTime request = Some (enqueueTime + t)
  /\ last (asyncWorkQueue (device_after r)) = Some (InvokeWorkItem request)
  /\ forall (d' : MTRDevice) (now : NSDate),
       (enqueueTime + t < now ->
        let out := effects (invokeReadyHandler request now d') in
        client_completion None (Some (MTRInteractionError Status_Timeout)) ∈ out
        /\ workCompletion MTRAsyncWorkComplete ∈ out
        /\ Forall (fun e => ~ is_command_sent e) out)
       /\ (now <= enqueueTime + t ->
           effects (invokeReadyHandler request now d')
           = [baseDevice_invokeCommand endpointID clusterID commandID commandFields
                (Some (enqueueTime + t - now)) serverSideProcessingTimeout]).
Proof.
  intros Ht r request.
  assert (Hreq : exists ev paths g,
             request = mkInvokeRequest endpointID clusterID commandID commandFields
                         ev paths g (Some t) (Some (enqueueTime + t))
                         serverSideProcessingTimeout
             /\ last (asyncWorkQueue (device_after r)) = Some (InvokeWorkItem request)).
  { subst request r. unfold _invokeCommandWithEndpointID, enqueueWorkItem.
    rewrite Ht.
    destruct (invokeExpectedValues expectedValues expectedValueInterval) as [ev iv].
    rewrite !result_bind, !device_after_bind. cbn.
    eexists _, _, _. split; [reflexivity|]. apply last_snoc. }
  destruct Hreq as (ev & paths & g & Hreq & Hlast).
  rewrite Hreq at 1. split; [reflexivity|]. split; [exact Hlast|].
  intros d' now. rewrite Hreq. clear Hreq Hlast.
  unfold invokeReadyHandler, workDone, NSOrderedDescending. cbn. split.
  - intros Hlate.
    replace (enqueueTime + t <? now) with true by (symmetry; apply Z.ltb_lt; lia).
    rewrite !effects_bind. cbn.
    split; [apply elem_of_cons; left; reflexivity|].
    split.
    + apply elem_of_cons; right. apply elem_of_app; right.
      apply list_elem_of_singleton. reflexivity.
    + constructor; [intros []|].
      apply Forall_app; split; [|constructor; [intros []|constructor]].
      destruct ev as [values|]; [|constructor].
      eapply Forall_impl;
        [apply removeExpectedValuesForAttributePaths_effects|].
      intros [] He; cbn in *; tauto.
  - intros Hearly.
    replace (enqueueTime + t <? now) with false by (symmetry; apply Z.ltb_ge; lia).
    reflexivity.
Qed.

Lemma timed_invoke_honours_cutoff_witness :
  invokeTimeout (K := MatterConstants) 6 1 (Some 500) = Some 500
  /\ effects (invokeReadyHandler
                (result (_invokeCommandWithEndpointID (K := MatterConstants) 1 6 1
                           (dataValue MTRStructureValueType (Some (NSArray [])))
                           None None (Some 500) None 1000 deviceWithDelegate))
                1200 deviceWithDelegate)
     = [baseDevice_invokeCommand 1 6 1 (dataValue MTRStructureValueType (Some (NSArray [])))
          (Some 300) None].
Proof.
  assert (H : invokeTimeout (K := MatterConstants) 6 1 (Some 500) = Some 500)
    by reflexivity.
  split; [exact H|].
  pose proof (timed_invoke_honours_cutoff (K := MatterConstants) deviceWithDelegate 1 6 1
                (dataValue MTRStructureValueType (Some (NSArray [])))
                None None (Some 500) None 1000 500 H) as (_ & _ & Hready).
  destruct (Hready deviceWithDelegate 1200) as [_ Hsend].
  apply Hsend. lia.
Defined.

(** ** Read batching and duplicate suppression *)

Lemma readBatchingLoop_spec (next : list ReadRequest) :
  forall (outcome : MTRBatchingOutcome) (current : list ReadRequest),
    exists merged : list ReadRequest,
      (readBatchingLoop outcome current next).1.2 = current ++ merged
      /\ next = merged ++ (readBatchingLoop outcome current next).2
      /\ (forall first, head current = Some first ->
            Forall (fun r => MTRDeviceReadRequestFieldParamsIndex r
                             = MTRDeviceReadRequestFieldParamsIndex first) merged)
      /\ (merged <> [] ->
            (length ((readBatchingLoop outcome current next).1.2) <= 9)%nat).
Proof.
  induction next as [|readItem rest IH]; intros outcome current; cbn [readBatchingLoop].
  - exists []. cbn. rewrite app_nil_r. repeat split; [constructor | congruence].
  - destruct (9 <=? length current)%nat eqn:Hfull; cbn [fst snd].
    + exists []. rewrite app_nil_r. repeat split; [constructor | congruence].
    + destruct current as [|first current'].
      * exists []. repeat split; [constructor | congruence].
      * destruct (bool_decide (MTRDeviceReadRequestFieldParamsIndex readItem
                               = MTRDeviceReadRequestFieldParamsIndex first)) eqn:Hp;
          cbn [negb fst snd].
        -- apply bool_decide_eq_true in Hp.
           destruct (IH MTRBatchedPartially ((first :: current') ++ [readItem]))
             as (merged & Hc & Hn & Hparams & Hlen).
           exists (readItem :: merged).
           split; [rewrite Hc, <- app_assoc; reflexivity|].
           split; [cbn [app]; f_equal; exact Hn|].
           split.
           ++ intros first' Hf. cbn in Hf. simplify_eq.
              constructor; [exact Hp|]. apply Hparams. reflexivity.
           ++ intros _. destruct merged as [|m merged'].
              ** rewrite Hc, app_nil_r, length_app. cbn [length].
                 apply Nat.leb_gt in Hfull. cbn [length] in Hfull. lia.
              ** apply Hlen. congruence.
        -- exists []. rewrite app_nil_r. repeat split; [constructor | congruence].
Qed.

Lemma duplicateScan_behind_reads (data : ReadRequest) (readRequests : list ReadRequest)
    (older : list MTRAsyncWorkItem) (newer : list MTRAsyncWorkItem) :
  data ∈ readRequests ->
  Forall is_read_item newer ->
  duplicateScan (newer ++ ReadWorkItem readRequests :: older) data = true.
Proof.
  intros Hin Hreads.
  assert (Hhere : existsb (fun readItem => bool_decide (readItem = data)) readRequests = true).
  { apply existsb_exists. exists data. split; [apply list_elem_of_In, Hin|].
    apply bool_decide_eq_true. reflexivity. }
  induction Hreads as [|item newer' Hitem _ IH]; cbn [duplicateScan app].
  - unfold duplicateCheckHandler. rewrite Hhere. reflexivity.
  - destruct item as [reqs| |]; cbn in Hitem; try contradiction.
    unfold duplicateCheckHandler.
    destruct (existsb (fun readItem => bool_decide (readItem = data)) reqs);
      [reflexivity | exact IH].
Qed.

Lemma _attributeValueDictionaryForAttributePath_run
    (path : MTRAttributePath) (now : NSDate) (d : MTRDevice) :
  exists v cache paged,
    _attributeValueDictionaryForAttributePath path now d
    = (v, set_persistedClusterData paged (set_expectedValueCache cache d), []).
Proof.
  unfold _attributeValueDictionaryForAttributePath.
  unfold bind at 1. unfold get. cbn.
  destruct (expectedValueCache d !! path) as [expected|].
  - destruct (NSOrderedDescending now _).
    + destruct (_cachedAttributeValueForPath_run path
                  (set_expectedValueCache (delete path (expectedValueCache d)) d))
        as (r & paged & Hrun).
      unfold bind, modify. cbn in *. rewrite Hrun. eexists _, _, _. reflexivity.
    + exists (Some (MTRDeviceExpectedValueFieldValueIndex expected)),
        (expectedValueCache d), (persistedClusterData d).
      destruct d; reflexivity.
  - destruct (_cachedAttributeValueForPath_run path d) as (r & paged & Hrun).
    rewrite Hrun. exists r, (expectedValueCache d), paged.
    destruct d; reflexivity.
Qed.

Lemma _attributeValueDictionaryForAttributePath_queue
    (path : MTRAttributePath) (now : NSDate) (d : MTRDevice) :
  asyncWorkQueue (device_after (_attributeValueDictionaryForAttributePath path now d))
  = asyncWorkQueue d.
Proof.
  destruct (_attributeValueDictionaryForAttributePath_run path now d)
    as (v & cache & paged & Hrun).
  rewrite Hrun. reflexivity.
Qed.

Lemma _subscriptionAbleToReport_device (d : MTRDevice) :
  device_after (_subscriptionAbleToReport d) = d.
Proof. unfold _subscriptionAbleToReport. unfold_m. split_tests; reflexivity. Qed.

Lemma _readThroughSkipped_device (now : NSDate) (d : MTRDevice) :
  device_after (_readThroughSkipped now d) = d.
Proof.
  unfold _readThroughSkipped. unfold_m. cbn.
  destruct (bool_decide (state d = MTRDeviceStateReachable)); [reflexivity|].
  destruct (lastSubscriptionFailureTime d); split_tests; reflexivity.
Qed.

(** C8, amended.  The batching handler of a read work item moves request
    paths over from the following item only when their read params equal
    those of the item's first request, and an item that took requests in
    holds at most 9 of them.  A new [readAttribute] whose (request path,
    params) pair is held by a queued read item behind which only read items
    are queued is not enqueued; the call still answers with the best-known
    value. *)
Theorem read_batching_and_duplicate_suppression {K : MTRConstants}
    (readRequestsCurrent readRequestsNext : list ReadRequest)
    (d : MTRDevice) (endpointID clusterID attributeID : Z)
    (params : option MTRReadParams) (now : NSDate)
    (older newer : list MTRAsyncWorkItem) (readRequests : list ReadRequest) :
  asyncWorkQueue d = older ++ ReadWorkItem readRequests :: newer ->
  readRequestData endpointID clusterID attributeID params ∈ readRequests ->
  Forall is_read_item newer ->
  (exists merged : list ReadRequest,
      (readBatchingHandler readRequestsCurrent readRequestsNext).1.2
        = readRequestsCurrent ++ merged
      /\ readRequestsNext
         = merged ++ (readBatchingHandler readRequestsCurrent readRequestsNext).2
      /\ (forall first, head readRequestsCurrent = Some first ->
            Forall (fun r => MTRDeviceReadRequestFieldParamsIndex r
                             = MTRDeviceReadRequestFieldParamsIndex first) merged)
      /\ (merged <> [] ->
            (length ((readBatchingHandler readRequestsCurrent readRequestsNext).1.2)
             <= 9)%nat))
  /\ (let r := readAttributeWithEndpointID endpointID clusterID attributeID params now d in
      asyncWorkQueue (device_after r) = asyncWorkQueue d
      /\ result r
         = result (_attributeValueDictionaryForAttributePath
                     (mkAttributePath endpointID clusterID attributeID) now d)).
Proof.
  intros Hqueue Hin Hreads. split.
  - apply readBatchingLoop_spec.
  - cbv zeta. split.
    + unfold readAttributeWithEndpointID.
      rewrite !device_after_bind.
      set (d1 := device_after (_attributeValueDictionaryForAttributePath
                                 (mkAttributePath endpointID clusterID attributeID) now d)).
      assert (Hq : asyncWorkQueue d1 = asyncWorkQueue d)
        by apply _attributeValueDictionaryForAttributePath_queue.
      rewrite _subscriptionAbleToReport_device.
      assert (Hdup : duplicateScan (reverse (asyncWorkQueue d1))
                       (readRequestData endpointID clusterID attributeID params) = true).
      { rewrite Hq, Hqueue, reverse_app, reverse_cons, <- app_assoc. cbn [app].
        apply duplicateScan_behind_reads; [exact Hin|].
        apply Forall_reverse. exact Hreads. }
      cbn [device_after ret fst snd].
      match goal with
      | |- context [if ?c then _ else _] => destruct c
      end.
      * rewrite device_after_bind.
        unfold hasDuplicateForTypeID at 1 2. unfold get. cbn [result device_after fst snd].
        unfold readRequestData in Hdup. rewrite Hdup. exact Hq.
      * rewrite _readThroughSkipped_device. exact Hq.
    + unfold readAttributeWithEndpointID. rewrite !result_bind. reflexivity.
Qed.

Lemma read_batching_and_duplicate_suppression_witness :
  let d := exec (readAttributeWithEndpointID (K := MatterConstants) 1 6 0 None 0)
                (initWithNodeID None false) in
  asyncWorkQueue d = [] ++ ReadWorkItem [readRequestData 1 6 0 None] :: []
  /\ asyncWorkQueue
       (device_after (readAttributeWithEndpointID (K := MatterConstants) 1 6 0 None 5 d))
     = asyncWorkQueue d.
Proof.
  cbv zeta.
  assert (H1 : asyncWorkQueue
                 (exec (readAttributeWithEndpointID (K := MatterConstants) 1 6 0 None 0)
                       (initWithNodeID None false))
               = [] ++ ReadWorkItem [readRequestData 1 6 0 None] :: []) by reflexivity.
  split; [exact H1|].
  refine (proj1 (proj2 (read_batching_and_duplicate_suppression (K := MatterConstants)
                          [] [] _ 1 6 0 None 5 [] [] [readRequestData 1 6 0 None]
                          H1 _ _))).
  - apply list_elem_of_singleton. reflexivity.
  - constructor.
Defined.

(** C8, as stated, fails once a write sits behind the queued read: the
    write's duplicate handler stops the scan, and the second read of the
    same path with the same params is enqueued. *)
Lemma duplicate_read_behind_write_is_enqueued :
  asyncWorkQueue deviceWithQueuedReadThenWrite
  = [ReadWorkItem [readRequestData 1 6 0 None];
     WriteWorkItem onOffPath true [mkWriteRequest onOffPath booleanTrue None 0]]
  /\ asyncWorkQueue
       (exec (readAttributeWithEndpointID (K := MatterConstants) 1 6 0 None 20)
             deviceWithQueuedReadThenWrite)
     = asyncWorkQueue deviceWithQueuedReadThenWrite
       ++ [ReadWorkItem [readRequestData 1 6 0 None]].
Proof. split; vm_compute; reflexivity. Qed.

(** ** Cache priming *)

Lemma _cachedAttributeValueForPath_weakDelegate
    (path : MTRAttributePath) (b : bool) (d : MTRDevice) :
  result (_cachedAttributeValueForPath path (set_weakDelegate b d))
  = result (_cachedAttributeValueForPath path d).
Proof. apply _cachedAttributeValueForPath_same_store. repeat split. Qed.

Lemma not_primed_of_emptyOrNotArray {K : MTRConstants} (d : MTRDevice) (v : NSDictionary) :
  result (_cachedAttributeValueForPath rootPartsListPath d) = Some v ->
  emptyOrNotArray v ->
  _isCachePrimedWithInitialConfigurationData d
  = (false, device_after (_cachedAttributeValueForPath rootPartsListPath d), []).
Proof.
  intros Hv Hempty.
  unfold _isCachePrimedWithInitialConfigurationData. fold rootPartsListPath.
  pose proof (_cachedAttributeValueForPath_effects rootPartsListPath d) as Hout.
  unfold_m.
  destruct (_cachedAttributeValueForPath rootPartsListPath d) as [[r d1] out].
  cbn in *. subst r out.
  destruct v as [t value data tag dv]. unfold emptyOrNotArray in Hempty.
  cbn [MTRTypeKey MTRValueKey] in *. unfold msg_isEqual.
  destruct t as [t|]; [|reflexivity].
  destruct (bool_decide (MTRArrayValueType = t)) eqn:Harray; [|reflexivity].
  apply bool_decide_eq_true in Harray. subst t. cbn [negb].
  destruct Hempty as [Htype | Hvalue]; [congruence|].
  destruct value as [[| | |[|item items]|]|]; try reflexivity. contradiction.
Qed.

(** C10, amended.  The cache-primed predicate answers NO whenever the root
    endpoint's cached Descriptor parts list is an empty array or not an
    array; for such a cache the [deviceCachePrimed] property reads NO and
    installing a delegate does not call [deviceCachePrimed:].  The callback
    is still made when the subscription is established, which does not
    consult the predicate: with a delegate installed and the callback not
    yet made, [_handleSubscriptionEstablished] dispatches it. *)
Theorem cache_not_primed_with_empty_parts_list {K : MTRConstants}
    (d : MTRDevice) (partsListValue : NSDictionary) :
  result (_cachedAttributeValueForPath rootPartsListPath d) = Some partsListValue ->
  emptyOrNotArray partsListValue ->
  result (_isCachePrimedWithInitialConfigurationData d) = false
  /\ result (deviceCachePrimed_property d) = false
  /\ (dispatch_async_delegateQueue deviceCachePrimed ∉ effects (setDelegate d))
  /\ (weakDelegate d = true ->
      delegateDeviceCachePrimedCalled d = false ->
      dispatch_async_delegateQueue deviceCachePrimed
        ∈ effects (_handleSubscriptionEstablished d)).
Proof.
  intros Hv Hempty.
  pose proof (not_primed_of_emptyOrNotArray d partsListValue Hv Hempty) as Hp.
  split; [rewrite Hp; reflexivity|].
  split; [unfold deviceCachePrimed_property; rewrite Hp; reflexivity|].
  split.
  - assert (Hv' : result (_cachedAttributeValueForPath rootPartsListPath
                            (set_weakDelegate true d)) = Some partsListValue).
    { rewrite _cachedAttributeValueForPath_weakDelegate. exact Hv. }
    pose proof (not_primed_of_emptyOrNotArray _ partsListValue Hv' Hempty) as Hp'.
    unfold setDelegate. autorewrite with run.
    rewrite not_elem_of_app. split.
    + destruct (negb (delegateDeviceCachePrimedCalled (set_weakDelegate true d)));
        [|autorewrite with run; apply not_elem_of_nil].
      autorewrite with run. rewrite Hp'. unfold when. autorewrite with run.
      apply not_elem_of_nil.
    + unfold _setupSubscription, _setupConnectivityMonitoring. autorewrite with run.
      match goal with
      | |- context [if ?c then _ else _] => destruct c
      end; autorewrite with run; [apply not_elem_of_nil|].
      cbn [app]. intros Hin.
      repeat (apply elem_of_cons in Hin as [Hin|Hin]; [discriminate Hin|]).
      revert Hin. apply not_elem_of_nil.
  - intros Hdel Hcalled.
    unfold _handleSubscriptionEstablished, _callDelegateDeviceCachePrimed,
      _callDelegateWithBlock.
    autorewrite with run. cbn [set_lastSubscriptionAttemptWait set_internalDeviceState
      delegateDeviceCachePrimedCalled weakDelegate].
    rewrite Hcalled. unfold when at 1. cbn [negb]. autorewrite with run.
    cbn [set_lastSubscriptionAttemptWait set_internalDeviceState
      delegateDeviceCachePrimedCalled weakDelegate].
    rewrite Hdel. autorewrite with run.
    apply elem_of_cons; left; reflexivity.
Qed.

Lemma cache_not_primed_with_empty_parts_list_witness :
  result (_cachedAttributeValueForPath (rootPartsListPath (K := MatterConstants))
            deviceWithEmptyPartsList)
  = Some (dataValue MTRArrayValueType (Some (NSArray [])))
  /\ emptyOrNotArray (dataValue MTRArrayValueType (Some (NSArray [])))
  /\ result (_isCachePrimedWithInitialConfigurationData (K := MatterConstants)
               deviceWithEmptyPartsList) = false.
Proof.
  assert (H1 : result (_cachedAttributeValueForPath
                         (rootPartsListPath (K := MatterConstants))
                         deviceWithEmptyPartsList)
               = Some (dataValue MTRArrayValueType (Some (NSArray [])))) by reflexivity.
  assert (H2 : emptyOrNotArray (dataValue MTRArrayValueType (Some (NSArray []))))
    by (right; exact I).
  split; [exact H1|]. split; [exact H2|].
  exact (proj1 (cache_not_primed_with_empty_parts_list (K := MatterConstants)
                  deviceWithEmptyPartsList _ H1 H2)).
Defined.

(** C10, as stated, fails: on a device whose cached root parts list is
    present and empty the predicate answers NO, and [deviceCachePrimed:] is
    nevertheless dispatched to the delegate when the subscription is
    established. *)
Lemma cache_primed_called_despite_empty_parts_list :
  result (_cachedAttributeValueForPath (rootPartsListPath (K := MatterConstants))
            deviceWithEmptyPartsList)
  = Some (dataValue MTRArrayValueType (Some (NSArray [])))
  /\ result (_isCachePrimedWithInitialConfigurationData (K := MatterConstants)
               deviceWithEmptyPartsList) = false
  /\ dispatch_async_delegateQueue deviceCachePrimed
       ∈ effects (_handleSubscriptionEstablished deviceWithEmptyPartsList).
Proof.
  split; [reflexivity|]. split; [reflexivity|].
  vm_compute. set_solver.
Qed.

(** ** Historical-event marking *)

Lemma report_flags_kept_refl (d : MTRDevice) : report_flags_kept d d.
Proof. split; auto. Qed.

Lemma report_flags_kept_trans (a b c : MTRDevice) :
  report_flags_kept a b -> report_flags_kept b c -> report_flags_kept a c.
Proof. intros [H1 H2] [H3 H4]. split; [congruence | auto]. Qed.

(** Set up a preservation proof for the report flags. *)
Ltac flags_kept :=
  pose proof report_flags_kept_refl as Hrefl;
  pose proof report_flags_kept_trans as Htrans;
  preserves_steps;
  try match goal with
      | |- preserves _ (modify _) => apply preserves_modify; intros ?; split; cbn; auto
      end;
  auto.

Lemma _cachedAttributeValueForPath_flags (path : MTRAttributePath) :
  preserves report_flags_kept (_cachedAttributeValueForPath path).
Proof.
  intros d. destruct (_cachedAttributeValueForPath_run path d) as (r & paged & Hrun).
  rewrite Hrun. split; cbn; auto.
Qed.

Lemma _clusterDataForPath_flags (clusterPath : MTRClusterPath) :
  preserves report_flags_kept (_clusterDataForPath clusterPath).
Proof.
  intros d. destruct (_clusterDataForPath_run clusterPath d) as (r & paged & Hrun).
  rewrite Hrun. split; cbn; auto.
Qed.

Lemma _setCachedAttributeValue_flags (value : option MTRDeviceDataValueDictionary)
    (path : MTRAttributePath) :
  preserves report_flags_kept (_setCachedAttributeValue value path).
Proof.
  unfold _setCachedAttributeValue, markClusterDataToPersist.
  pose proof (_clusterDataForPath_flags (clusterPathOf path)).
  flags_kept.
Qed.

Lemma _noteDataVersion_flags (dataVersion : Z) (clusterPath : MTRClusterPath) :
  preserves report_flags_kept (_noteDataVersion dataVersion clusterPath).
Proof.
  unfold _noteDataVersion, markClusterDataToPersist.
  pose proof (_clusterDataForPath_flags clusterPath).
  flags_kept.
Qed.

Lemma reportedErrorStep_flags (attributeResponseValue : MTRAttributeResponseValue) :
  preserves report_flags_kept (reportedErrorStep attributeResponseValue).
Proof.
  unfold reportedErrorStep.
  pose proof _cachedAttributeValueForPath_flags.
  pose proof _setCachedAttributeValue_flags.
  flags_kept.
Qed.

Lemma reportedDataStep_flags {K : MTRConstants} (now : NSDate)
    (attributeResponseValue : MTRAttributeResponseValue)
    (attributeDataValue : MTRDeviceDataValueDictionary) :
  preserves report_flags_kept
    (reportedDataStep now attributeResponseValue attributeDataValue).
Proof.
  unfold reportedDataStep, updateReadCache, noteUpTimeAttribute, noteSystemUpTime.
  pose proof _cachedAttributeValueForPath_flags.
  pose proof _setCachedAttributeValue_flags.
  pose proof _noteDataVersion_flags.
  flags_kept.
Qed.

Lemma notePrimingSignal_flags {K : MTRConstants} (attributePath : MTRAttributePath) :
  preserves report_flags_kept (notePrimingSignal attributePath).
Proof. unfold notePrimingSignal. flags_kept. Qed.

Lemma reportedValueStep_flags {K : MTRConstants} (now : NSDate)
    (attributeResponseValue : MTRAttributeResponseValue) :
  preserves report_flags_kept (reportedValueStep now attributeResponseValue).
Proof.
  unfold reportedValueStep.
  pose proof notePrimingSignal_flags.
  pose proof reportedErrorStep_flags.
  pose proof (reportedDataStep_flags now).
  flags_kept.
Qed.

(** A processed entry with the Changes Omitted quality raises the priming
    flag while a report is being received. *)
Lemma reportedValueStep_raises {K : MTRConstants} (now : NSDate)
    (entry : MTRAttributeResponseValue) (d : MTRDevice) :
  receivingReport d = true ->
  AttributeHasChangesOmittedQuality (MTRAttributePathKey entry) = true ->
  is_Some (rv_data entry) \/ is_Some (MTRErrorKey entry) ->
  receivingPrimingReport (exec (reportedValueStep now entry) d) = true.
Proof.
  intros Hreceiving Hquality Hprocessed.
  assert (Hsignal : receivingPrimingReport
                      (exec (notePrimingSignal (MTRAttributePathKey entry)) d) = true).
  { unfold exec, notePrimingSignal. autorewrite with run.
    rewrite Hreceiving, Hquality. reflexivity. }
  unfold exec, reportedValueStep in *.
  destruct (MTRErrorKey entry) as [err|] eqn:Herr.
  - rewrite device_after_bind. apply reportedErrorStep_flags. exact Hsignal.
  - destruct (rv_data entry) as [value|] eqn:Hdata.
    + rewrite device_after_bind. apply reportedDataStep_flags. exact Hsignal.
    + destruct Hprocessed as [[? ?]|[? ?]]; discriminate.
Qed.

Lemma _getAttributesToReportWithReportedValues_flags {K : MTRConstants} (now : NSDate)
    (reportedAttributeValues : list MTRAttributeResponseValue) :
  preserves report_flags_kept (_getAttributesToReportWithReportedValues now reportedAttributeValues).
Proof.
  pose proof (reportedValueStep_flags now).
  induction reportedAttributeValues as [|entry rest IH]; cbn; flags_kept; auto.
Qed.

Lemma preserves_flags_reportAttributes (attributes : list MTRAttributeResponseValue)
    (d : MTRDevice) :
  report_flags_kept d (device_after (_reportAttributes attributes d)).
Proof.
  revert d. change (preserves report_flags_kept (_reportAttributes attributes)).
  unfold _reportAttributes. flags_kept.
Qed.

Lemma _handleAttributeReport_flags {K : MTRConstants} (now : NSDate)
    (attributeReport : list MTRAttributeResponseValue) :
  preserves report_flags_kept (_handleAttributeReport now attributeReport).
Proof.
  unfold _handleAttributeReport, _reportAttributes.
  pose proof (_getAttributesToReportWithReportedValues_flags now).
  flags_kept; auto.
Qed.

Lemma eventReportStep_flags {K : MTRConstants} (now : NSDate) (eventDict : MTREventReport) :
  preserves report_flags_kept (eventReportStep now eventDict).
Proof.
  unfold eventReportStep, noteSystemUpTime. flags_kept; auto.
Qed.

Lemma eventReportLoop_flags {K : MTRConstants} (now : NSDate)
    (eventReport : list MTREventReport) :
  preserves report_flags_kept (eventReportLoop now eventReport).
Proof.
  pose proof (eventReportStep_flags now).
  induction eventReport as [|eventDict rest IH]; cbn; flags_kept; auto.
Qed.

Lemma _handleEventReport_flags {K : MTRConstants} (now : NSDate)
    (eventReport : list MTREventReport) :
  preserves report_flags_kept (_handleEventReport now eventReport).
Proof.
  unfold _handleEventReport.
  pose proof (eventReportLoop_flags now).
  flags_kept; auto.
Qed.

Lemma runCallbacks_flags {K : MTRConstants} (cs : list ReportCallback) :
  forall d, report_flags_kept d (runCallbacks cs d).
Proof.
  induction cs as [|c rest IH]; intros d; cbn.
  - apply report_flags_kept_refl.
  - eapply report_flags_kept_trans; [|apply IH].
    destruct c; [apply _handleAttributeReport_flags | apply _handleEventReport_flags].
Qed.

Lemma _handleAttributeReport_raises {K : MTRConstants} (now : NSDate)
    (attributeReport : list MTRAttributeResponseValue) (d : MTRDevice) :
  receivingReport d = true ->
  carriesChangesOmittedAttribute attributeReport ->
  receivingPrimingReport (exec (_handleAttributeReport now attributeReport) d) = true.
Proof.
  intros Hreceiving (entry & Hin & Hquality & Hprocessed).
  unfold exec, _handleAttributeReport. rewrite device_after_bind.
  apply (proj2 (preserves_flags_reportAttributes _ _)).
  revert d Hreceiving.
  induction attributeReport as [|first rest IH]; intros d Hreceiving.
  - apply elem_of_nil in Hin. contradiction.
  - cbn [_getAttributesToReportWithReportedValues]. rewrite !device_after_bind.
    autorewrite with run.
    apply elem_of_cons in Hin as [Heq | Hin].
    + subst first.
      apply _getAttributesToReportWithReportedValues_flags.
      apply (reportedValueStep_raises now entry d Hreceiving Hquality Hprocessed).
    + apply (IH Hin).
      rewrite (proj1 (reportedValueStep_flags now first d)). exact Hreceiving.
Qed.

(** What one turn of the event loop does: it updates the start-time
    estimate at most, dispatches nothing, and tags the event it keeps with
    the priming flag. *)
Lemma eventReportStep_run {K : MTRConstants} (now : NSDate) (eventDict : MTREventReport)
    (d : MTRDevice) :
  exists r est,
    eventReportStep now eventDict d = (r, set_estimatedStartTime est d, [])
    /\ forall e, r = Some e -> MTREventIsHistoricalKey e = Some (receivingPrimingReport d).
Proof.
  destruct d. unfold eventReportStep, noteSystemUpTime. unfold_m.
  destruct ((ep_cluster (MTREventPathKey eventDict) =? MTRClusterIDTypeBasicInformationID)
            && (ep_event (MTREventPathKey eventDict)
                =? MTREventIDTypeClusterBasicInformationEventStartUpID));
    cbn;
    (destruct (MTREventTimeTypeKey eventDict) as [eventTimeType|];
     [destruct (eventTimeType =? MTREventTimeTypeSystemUpTime);
      [destruct (MTREventSystemUpTimeKey eventDict) as [eventTimeValue|]|]|]);
    split_tests;
    eexists _, _; (split; [reflexivity | intros e He; simplify_eq; reflexivity]).
Qed.

Lemma eventReportLoop_run {K : MTRConstants} (now : NSDate)
    (eventReport : list MTREventReport) :
  forall d : MTRDevice,
    exists added est,
      eventReportLoop now eventReport d = (added, set_estimatedStartTime est d, [])
      /\ Forall (fun e => MTREventIsHistoricalKey e = Some (receivingPrimingReport d)) added.
Proof.
  induction eventReport as [|eventDict rest IH]; intros d.
  - exists [], (estimatedStartTime d). split; [|constructor].
    cbn. unfold ret. destruct d; reflexivity.
  - destruct (eventReportStep_run now eventDict d) as (r & est1 & Hstep & Htag).
    destruct (IH (set_estimatedStartTime est1 d)) as (added & est2 & Hloop & Htags).
    exists (option_list r ++ added), est2. split.
    + cbn [eventReportLoop]. unfold bind at 1. rewrite Hstep.
      unfold bind at 1. rewrite Hloop. reflexivity.
    + apply Forall_app. split; [|exact Htags].
      destruct r as [e|]; cbn; [|constructor].
      constructor; [apply Htag; reflexivity | constructor].
Qed.

(** ** Expected values of an invoke *)

(** What [_setExpectedValue] does to the device: it may page a cluster in
    and it rewrites the expected-value cache at the given path only; a
    non-nil value is stored there under the given id. *)
Lemma _setExpectedValue_run (value : option MTRDeviceDataValueDictionary)
    (path : MTRAttributePath) (expirationTime : NSDate) (g : Z) (d : MTRDevice) :
  exists out cache paged,
    _setExpectedValue value path expirationTime g d
    = (out, set_persistedClusterData paged (set_expectedValueCache cache d), [])
    /\ (forall p, p <> path -> cache !! p = expectedValueCache d !! p)
    /\ (forall v, value = Some v -> cache !! path = Some (mkExpectedValue expirationTime v g)).
Proof.
  destruct (_cachedAttributeValueForPath_run path d) as (cached & paged & Hrun).
  unfold _setExpectedValue. unfold_m. cbn.
  destruct (expectedValueCache d !! path) as [previous|] eqn:Hprevious;
    destruct value as [v|]; cbn; rewrite ?Hrun; cbn.
  all: repeat match goal with
         | |- context [if ?c then _ else _] => destruct c eqn:?; cbn; rewrite ?Hrun; cbn
         end.
  all: destruct d; cbn in *.
  all: eexists _, _, _; (split; [reflexivity|]); split;
    [ intros p Hp; rewrite ?lookup_insert_ne, ?lookup_delete_ne by congruence; reflexivity
    | intros v' Hv'; simplify_eq; rewrite ?lookup_insert_eq; reflexivity ].
Qed.

Lemma set_persistedClusterData_expectedValueCache
    (paged paged' : option (gmap MTRClusterPath MTRDeviceClusterData))
    (cache : gmap MTRAttributePath ExpectedValue) (d : MTRDevice) :
  set_persistedClusterData paged' (set_persistedClusterData paged
                                     (set_expectedValueCache cache d))
  = set_persistedClusterData paged' (set_expectedValueCache cache d).
Proof. reflexivity. Qed.

Lemma set_set_expectedValueCache (paged paged' : option (gmap MTRClusterPath MTRDeviceClusterData))
    (cache cache' : gmap MTRAttributePath ExpectedValue) (d : MTRDevice) :
  set_persistedClusterData paged'
    (set_expectedValueCache cache'
       (set_persistedClusterData paged (set_expectedValueCache cache d)))
  = set_persistedClusterData paged' (set_expectedValueCache cache' d).
Proof. reflexivity. Qed.

(** The loop over the new expected values: each entry with a data value
    that no later entry overrides ends up in the cache under the id of the
    call; paths the call does not name keep their entry. *)
Lemma setExpectedValuesLoop_run (values : list MTRAttributeResponseValue)
    (expirationTime : NSDate) (g : Z) :
  forall d : MTRDevice,
    exists reports cache paged,
      setExpectedValuesLoop values expirationTime g d
      = (reports, set_persistedClusterData paged (set_expectedValueCache cache d), [])
      /\ (forall p, p ∉ MTRAttributePathKey <$> values ->
            cache !! p = expectedValueCache d !! p)
      /\ (forall (n : nat) entry v,
            values !! n = Some entry ->
            rv_data entry = Some v ->
            (forall (m : nat) later, (n < m)%nat -> values !! m = Some later ->
               MTRAttributePathKey later <> MTRAttributePathKey entry) ->
            cache !! MTRAttributePathKey entry = Some (mkExpectedValue expirationTime v g)).
Proof.
  induction values as [|first rest IH]; intros d.
  - exists [], (expectedValueCache d), (persistedClusterData d).
    split; [cbn; unfold ret; destruct d; reflexivity|].
    split; [reflexivity|]. intros n entry v Hn. rewrite lookup_nil in Hn. discriminate.
  - destruct (_setExpectedValue_run (rv_data first) (MTRAttributePathKey first)
                expirationTime g d) as (out & cache1 & paged1 & Hstep & Hother1 & Hsame1).
    destruct (IH (set_persistedClusterData paged1 (set_expectedValueCache cache1 d)))
      as (reports & cache2 & paged2 & Hloop & Hother2 & Hlast2).
    rewrite set_set_expectedValueCache in Hloop.
    eexists _, cache2, paged2. split.
    { cbn [setExpectedValuesLoop]. unfold bind at 1. rewrite Hstep.
      unfold bind at 1. rewrite Hloop. reflexivity. }
    cbn [expectedValueCache set_persistedClusterData set_expectedValueCache] in Hother2.
    split.
    + intros p Hp. rewrite fmap_cons, not_elem_of_cons in Hp. destruct Hp as [Hne Hp].
      rewrite (Hother2 p Hp). apply Hother1. exact Hne.
    + intros n entry v Hn Hv Hlater. destruct n as [|n]; cbn in Hn.
      * simplify_eq. rewrite Hother2.
        -- apply Hsame1. exact Hv.
        -- intros Hin. apply list_elem_of_fmap in Hin as (later & Hpath & Hin).
           apply list_elem_of_lookup in Hin as (m & Hm).
           apply (Hlater (S m) later); [lia | exact Hm | congruence].
      * apply (Hlast2 n entry v Hn Hv). intros m later Hlt Hm.
        apply (Hlater (S m) later); [lia | exact Hm].
Qed.

(** The removal loop of the expiry sweep drops exactly the listed paths. *)
Lemma removeExpired_run (infos : list (MTRAttributePath * MTRDeviceDataValueDictionary)) :
  forall d : MTRDevice,
    exists reports cache paged,
      removeExpired infos d
      = (reports, set_persistedClusterData paged (set_expectedValueCache cache d), [])
      /\ forall p, cache !! p
                   = if bool_decide (p ∈ infos.*1) then None else expectedValueCache d !! p.
Proof.
  induction infos as [|[path value] rest IH]; intros d.
  - exists [], (expectedValueCache d), (persistedClusterData d).
    split; [cbn; unfold ret; destruct d; reflexivity|].
    intros p. rewrite bool_decide_eq_false_2 by apply not_elem_of_nil. reflexivity.
  - destruct (_cachedAttributeValueForPath_run path d) as (cached & paged1 & Hc).
    destruct (IH (set_expectedValueCache
                    (delete path (expectedValueCache (set_persistedClusterData paged1 d)))
                    (set_persistedClusterData paged1 d)))
      as (reports & cache2 & paged2 & Hloop & Hlookup).
    eexists _, cache2, paged2. split.
    { cbn [removeExpired]. unfold bind at 1. rewrite Hc.
      unfold bind at 1. unfold modify at 1.
      unfold bind at 1. rewrite Hloop. reflexivity. }
    intros p. rewrite Hlookup. cbn [expectedValueCache set_persistedClusterData
      set_expectedValueCache fmap list_fmap fst].
    destruct (decide (p = path)) as [->|Hne].
    + rewrite (bool_decide_eq_true_2 (path ∈ path :: rest.*1)) by (apply elem_of_cons; auto).
      rewrite lookup_delete_eq. destruct (bool_decide _); reflexivity.
    + rewrite lookup_delete_ne by congruence.
      destruct (bool_decide (p ∈ rest.*1)) eqn:Hin.
      * apply bool_decide_eq_true in Hin.
        rewrite bool_decide_eq_true_2 by (apply elem_of_cons; auto). reflexivity.
      * apply bool_decide_eq_false in Hin.
        rewrite bool_decide_eq_false_2; [reflexivity|].
        rewrite not_elem_of_cons. auto.
Qed.

Lemma _reportAttributes_run (attributes : list MTRAttributeResponseValue) (d : MTRDevice) :
  exists out, _reportAttributes attributes d = (tt, d, out).
Proof.
  unfold _reportAttributes. destruct attributes; [eexists; reflexivity|].
  unfold_m. destruct (weakDelegate d); eexists; reflexivity.
Qed.

Lemma elem_of_attributeInfoToRemove (now : NSDate)
    (cache : gmap MTRAttributePath ExpectedValue) (p : MTRAttributePath) :
  p ∈ (attributeInfoToRemove now (map_to_list cache)).*1
  <-> exists ev, cache !! p = Some ev
                 /\ NSOrderedDescending now (MTRDeviceExpectedValueFieldExpirationTimeIndex ev)
                    = true.
Proof.
  unfold attributeInfoToRemove. rewrite list_elem_of_fmap. split.
  - intros ([p' v] & -> & Hin). cbn.
    apply list_elem_of_omap in Hin as ([p0 ev] & Hin & Hsome). cbn in Hsome.
    destruct (NSOrderedDescending now _) eqn:Hexpired; [|discriminate].
    simplify_eq. apply elem_of_map_to_list in Hin. eauto.
  - intros (ev & Hlookup & Hexpired).
    exists (p, MTRDeviceExpectedValueFieldValueIndex ev). split; [reflexivity|].
    apply list_elem_of_omap. exists (p, ev). split.
    + apply elem_of_map_to_list. exact Hlookup.
    + cbn. rewrite Hexpired. reflexivity.
Qed.

(** The expiry sweep keeps exactly the entries whose expiration time has
    not passed. *)
Lemma _checkExpiredExpectedValues_run (now : NSDate) (d : MTRDevice) :
  exists cache paged out,
    _checkExpiredExpectedValues now d
    = (tt, set_persistedClusterData paged (set_expectedValueCache cache d), out)
    /\ forall p,
         cache !! p
         = match expectedValueCache d !! p with
           | Some ev =>
               if NSOrderedDescending now (MTRDeviceExpectedValueFieldExpirationTimeIndex ev)
               then None else Some ev
           | None => None
           end.
Proof.
  unfold _checkExpiredExpectedValues.
  destruct (removeExpired_run
              (attributeInfoToRemove now (map_to_list (expectedValueCache d))) d)
    as (reports & cache & paged & Hremove & Hlookup).
  destruct (_reportAttributes_run reports
              (set_persistedClusterData paged (set_expectedValueCache cache d)))
    as (out & Hreport).
  exists cache, paged. 
  unfold bind at 1. unfold get at 1. unfold bind at 1. rewrite Hremove.
  unfold bind at 1. rewrite Hreport.
  unfold bind at 1. unfold get at 1. unfold bind at 1. unfold get at 1.
  assert (Hlookup' : forall p,
             cache !! p
             = match expectedValueCache d !! p with
               | Some ev =>
                   if NSOrderedDescending now
                        (MTRDeviceExpectedValueFieldExpirationTimeIndex ev)
                   then None else Some ev
               | None => None
               end).
  { intros p. rewrite Hlookup.
    destruct (bool_decide _) eqn:Hin.
    - apply bool_decide_eq_true in Hin.
      apply elem_of_attributeInfoToRemove in Hin as (ev & Hev & Hexpired).
      rewrite Hev, Hexpired. reflexivity.
    - apply bool_decide_eq_false in Hin.
      destruct (expectedValueCache d !! p) as [ev|] eqn:Hev; [|reflexivity].
      destruct (NSOrderedDescending now _) eqn:Hexpired; [|reflexivity].
      exfalso. apply Hin. apply elem_of_attributeInfoToRemove. eauto. }
  destruct (nextExpirationDate now (map_to_list (expectedValueCache d))) as [next|];
    [unfold when; match goal with
                  | |- context [if ?c then _ else _] => destruct c
                  end|];
    unfold_m; cbn; eexists; (split; [reflexivity | exact Hlookup']).
Qed.

(** [setExpectedValues]: one id is taken from the counter, every value of
    the call that no later value overrides is in the cache under that id
    with the expiration time [now + interval], and the id is what the call
    answers with. *)
Lemma setExpectedValues_run (values : list MTRAttributeResponseValue)
    (interval : Z) (now : NSDate) (d : MTRDevice) :
  exists cache paged out,
    setExpectedValues values interval now d
    = (expectedValueNextID d,
       set_persistedClusterData paged
         (set_expectedValueCache cache
            (set_expectedValueNextID (wrap64 (expectedValueNextID d + 1)) d)),
       out)
    /\ (1 <= interval ->
        forall (n : nat) entry v,
          values !! n = Some entry ->
          rv_data entry = Some v ->
          (forall (m : nat) later, (n < m)%nat -> values !! m = Some later ->
             MTRAttributePathKey later <> MTRAttributePathKey entry) ->
          cache !! MTRAttributePathKey entry
          = Some (mkExpectedValue (now + interval) v (expectedValueNextID d))).
Proof.
  unfold setExpectedValues, _getAttributesToReportWithNewExpectedValues.
  set (d1 := set_expectedValueNextID (wrap64 (expectedValueNextID d + 1)) d).
  destruct (setExpectedValuesLoop_run values (now + interval) (expectedValueNextID d) d1)
    as (reports & cache1 & paged1 & Hloop & _ & Hinstalled).
  set (d2 := set_persistedClusterData paged1 (set_expectedValueCache cache1 d1)) in *.
  destruct (_reportAttributes_run reports d2) as (out1 & Hreport).
  destruct (_checkExpiredExpectedValues_run now d2)
    as (cache2 & paged2 & out2 & Hsweep & Hkept).
  exists cache2, paged2. eexists. split.
  - unfold bind at 1. unfold bind at 1. unfold get at 1.
    unfold bind at 1. unfold modify at 1. fold d1.
    unfold bind at 1. rewrite Hloop. unfold ret at 1. cbn [app fst snd].
    unfold bind at 1. rewrite Hreport.
    unfold bind at 1. rewrite Hsweep. unfold ret. cbn [app fst snd]. reflexivity.
  - intros Hinterval n entry v Hn Hv Hlater.
    rewrite Hkept. subst d2. cbn [expectedValueCache set_persistedClusterData
      set_expectedValueCache].
    rewrite (Hinstalled n entry v Hn Hv Hlater).
    cbn [MTRDeviceExpectedValueFieldExpirationTimeIndex]. unfold NSOrderedDescending.
    replace (now + interval <? now) with false by (symmetry; apply Z.ltb_ge; lia).
    reflexivity.
Qed.

Lemma MTRClampedNumber_range (aNumber min max : Z) :
  min <= max -> min <= MTRClampedNumber aNumber min max <= max.
Proof.
  intros H. unfold MTRClampedNumber.
  destruct (aNumber <? min) eqn:E1; [Z_tests; lia|].
  destruct (max <? aNumber) eqn:E2; Z_tests; lia.
Qed.

(** C5, amended.  An invoke whose expected-value interval is missing or
    negative installs no expected values: the expected-value cache and the
    id counter are left as they were.  An invoke with an interval of 0 or
    more (0 is clamped up to 1 ms) and expected values takes one fresh id
    from the counter and installs every provided value under it, with the
    expiration time [now + clamped interval]; where the values name a path
    twice the last one stays. *)
Theorem invoke_installs_expected_values {K : MTRConstants} (d : MTRDevice)
    (endpointID clusterID commandID : Z) (commandFields : NSDictionary)
    (expectedValues : option (list MTRAttributeResponseValue))
    (expectedValueInterval timeout serverSideProcessingTimeout : option Z)
    (now : NSDate) :
  let r := _invokeCommandWithEndpointID endpointID clusterID commandID commandFields
             expectedValues expectedValueInterval timeout serverSideProcessingTimeout
             now d in
  (match expectedValueInterval with
   | None => True
   | Some interval => interval < 0
   end ->
   expectedValueCache (device_after r) = expectedValueCache d
   /\ expectedValueNextID (device_after r) = expectedValueNextID d)
  /\ (forall interval values,
        expectedValueInterval = Some interval ->
        0 <= interval ->
        expectedValues = Some values ->
        inv_expectedValueID (result r) = expectedValueNextID d
        /\ expectedValueNextID (device_after r) = wrap64 (expectedValueNextID d + 1)
        /\ forall (n : nat) entry v,
             values !! n = Some entry ->
             rv_data entry = Some v ->
             (forall (m : nat) later, (n < m)%nat -> values !! m = Some later ->
                MTRAttributePathKey later <> MTRAttributePathKey entry) ->
             expectedValueCache (device_after r) !! MTRAttributePathKey entry
             = Some (mkExpectedValue (now + MTRClampedNumber interval 1 UINT32_MAX) v
                       (expectedValueNextID d))).
Proof.
  intros r. subst r. unfold _invokeCommandWithEndpointID, enqueueWorkItem. split.
  - intros Hnone.
    assert (Hev : invokeExpectedValues expectedValues expectedValueInterval
                  = (None, expectedValueInterval)).
    { unfold invokeExpectedValues. destruct expectedValueInterval as [interval|];
        [|reflexivity].
      replace (interval <? 0) with true by (symmetry; apply Z.ltb_lt; exact Hnone).
      reflexivity. }
    rewrite Hev. cbv beta iota zeta. autorewrite with run. split; reflexivity.
  - intros interval values Hinterval Hnonneg Hvalues. subst.
    assert (Hev : invokeExpectedValues (Some values) (Some interval)
                  = (Some values, Some (MTRClampedNumber interval 1 UINT32_MAX))).
    { unfold invokeExpectedValues.
      replace (interval <? 0) with false by (symmetry; apply Z.ltb_ge; exact Hnonneg).
      reflexivity. }
    rewrite Hev. cbv beta iota zeta. cbn [default from_option id].
    destruct (setExpectedValues_run values (MTRClampedNumber interval 1 UINT32_MAX) now d)
      as (cache & paged & out & Hset & Hinstalled).
    autorewrite with run. rewrite Hset. autorewrite with run.
    split; [reflexivity|]. split; [reflexivity|].
    intros n entry v Hn Hv Hlater.
    apply (Hinstalled (proj1 (MTRClampedNumber_range interval 1 UINT32_MAX ltac:(unfold UINT32_MAX; lia)))
             n entry v Hn Hv Hlater).
Qed.

Lemma invoke_installs_expected_values_witness :
  expectedValueCache (device_after (invokeOn (Some 5000))) !! onOffPath
  = Some (mkExpectedValue 5010 booleanTrue 0).
Proof.
  pose proof (invoke_installs_expected_values (K := MatterConstants) deviceWithDelegate
                1 6 1 emptyStructure (Some [onOffTrueExpected]) (Some 5000) None None 10)
    as [_ Hinstalled].
  destruct (Hinstalled 5000 [onOffTrueExpected] eq_refl ltac:(lia) eq_refl)
    as (_ & _ & Hcache).
  apply (Hcache 0%nat onOffTrueExpected booleanTrue eq_refl eq_refl).
  intros m later Hlt Hm. destruct m; [lia | discriminate Hm].
Defined.

(** C5, as stated, fails at the interval 0: the expected value is
    installed, with the interval clamped to 1 ms. *)
Lemma interval_zero_installs_expected_value :
  expectedValueCache deviceWithDelegate !! onOffPath = None
  /\ expectedValueCache (device_after (invokeOn (Some 0))) !! onOffPath
     = Some (mkExpectedValue 11 booleanTrue 0).
Proof. split; vm_compute; reflexivity. Qed.

(** ** Data versions during report ingestion *)

Lemma store_equiv_refl (d : MTRDevice) : store_equiv d d.
Proof. split; auto. Qed.

Lemma store_equiv_trans (a b c : MTRDevice) :
  store_equiv a b -> store_equiv b c -> store_equiv a c.
Proof.
  intros [H1 H2] [H3 H4]. split; [congruence|].
  intros cp. rewrite H4. apply H2.
Qed.

Lemma store_equiv_same_store (d d' : MTRDevice) : same_store d d' -> store_equiv d d'.
Proof.
  intros Hsame. split; [apply Hsame|].
  intros cp. apply (_clusterDataForPath_same_store cp d d' Hsame).
Qed.

(** Paging a cluster in is not visible to look-ups. *)
Lemma _clusterDataForPath_store_equiv (clusterPath : MTRClusterPath) :
  preserves store_equiv (_clusterDataForPath clusterPath).
Proof.
  intros d. unfold _clusterDataForPath at 1.
  destruct (clusterDataToPersist d ≫= lookup clusterPath) as [data|] eqn:Hdirty;
    [apply store_equiv_refl|].
  destruct (persistedClusterData d ≫= lookup clusterPath) as [data|] eqn:Hpersisted;
    [apply store_equiv_refl|].
  destruct (bool_decide (clusterPath ∈ persistedClusters d)) eqn:Hknown;
    [|apply store_equiv_refl].
  destruct (controllerDataStore d ≫= lookup clusterPath) as [data|] eqn:Hstored;
    [|apply store_equiv_refl].
  split; [reflexivity|].
  intros cp. unfold _clusterDataForPath, result, device_after.
  cbn [fst snd clusterDataToPersist persistedClusterData persistedClusters
       controllerDataStore set_persistedClusterData].
  destruct (clusterDataToPersist d ≫= lookup cp) as [dirty|] eqn:Hd; [reflexivity|].
  destruct (decide (cp = clusterPath)) as [->|Hne].
  - cbn [mbind option_bind]. rewrite lookup_insert_eq, Hpersisted, Hknown, Hstored.
    reflexivity.
  - assert (Hsame : Some (<[clusterPath:=data]> (default ∅ (persistedClusterData d)))
                      ≫= lookup cp = persistedClusterData d ≫= lookup cp).
    { cbn [mbind option_bind]. rewrite lookup_insert_ne by congruence.
      destruct (persistedClusterData d); reflexivity. }
    rewrite Hsame.
    destruct (persistedClusterData d ≫= lookup cp); [reflexivity|].
    destruct (bool_decide (cp ∈ persistedClusters d)); [|reflexivity].
    destruct (controllerDataStore d ≫= lookup cp); reflexivity.
Qed.

Lemma _cachedAttributeValueForPath_store_equiv (path : MTRAttributePath) :
  preserves store_equiv (_cachedAttributeValueForPath path).
Proof.
  intros d. unfold _cachedAttributeValueForPath. rewrite device_after_bind.
  eapply store_equiv_trans; [apply _clusterDataForPath_store_equiv|].
  destruct (result _); apply store_equiv_refl.
Qed.

Lemma _cachedAttributeValueForPath_result_store_equiv (path : MTRAttributePath)
    (d d' : MTRDevice) :
  store_equiv d d' ->
  result (_cachedAttributeValueForPath path d') = result (_cachedAttributeValueForPath path d).
Proof.
  intros [_ H]. unfold _cachedAttributeValueForPath. rewrite !result_bind.
  rewrite (H (clusterPathOf path)).
  destruct (result (_clusterDataForPath (clusterPathOf path) d)); reflexivity.
Qed.

Lemma storedDataVersion_store_equiv (clusterPath : MTRClusterPath) (d d' : MTRDevice) :
  store_equiv d d' -> storedDataVersion clusterPath d' = storedDataVersion clusterPath d.
Proof. intros [_ H]. unfold storedDataVersion. rewrite H. reflexivity. Qed.

Lemma isDirty_store_equiv (clusterPath : MTRClusterPath) (d d' : MTRDevice) :
  store_equiv d d' -> isDirty clusterPath d -> isDirty clusterPath d'.
Proof. intros [H _]. unfold isDirty. rewrite H. auto. Qed.

(** A cluster put among the clusters to persist is what a look-up finds. *)
Lemma markClusterDataToPersist_lookup (clusterPath : MTRClusterPath)
    (clusterData : MTRDeviceClusterData) (d : MTRDevice) :
  let d' := exec (markClusterDataToPersist clusterPath clusterData) d in
  result (_clusterDataForPath clusterPath d') = Some clusterData
  /\ isDirty clusterPath d'.
Proof.
  unfold exec, markClusterDataToPersist, isDirty, _clusterDataForPath, modify,
    result, device_after.
  cbn [fst snd clusterDataToPersist set_clusterDataToPersist mbind option_bind].
  rewrite lookup_insert_eq. split; [reflexivity | eexists; reflexivity].
Qed.

(** [_noteDataVersion] leaves the cluster with the noted version. *)
Lemma _noteDataVersion_version (dataVersion : Z) (clusterPath : MTRClusterPath)
    (d : MTRDevice) :
  storedDataVersion clusterPath (exec (_noteDataVersion dataVersion clusterPath) d)
  = Some dataVersion.
Proof.
  unfold exec, _noteDataVersion. rewrite device_after_bind.
  pose proof (_clusterDataForPath_store_equiv clusterPath d) as [_ Hequiv].
  specialize (Hequiv clusterPath).
  set (d1 := device_after (_clusterDataForPath clusterPath d)) in *.
  destruct (result (_clusterDataForPath clusterPath d)) as [clusterData|] eqn:Hfound.
  - destruct (msg_isEqual Z.eqb (cd_dataVersion clusterData) (Some dataVersion)) eqn:Heq;
      cbn [negb].
    + unfold storedDataVersion. autorewrite with run. rewrite Hequiv. cbn.
      unfold msg_isEqual in Heq. destruct (cd_dataVersion clusterData) as [v|];
        [|discriminate].
      apply Z.eqb_eq in Heq. congruence.
    + destruct (markClusterDataToPersist_lookup clusterPath
                  (mkClusterData (Some dataVersion) (attributes clusterData)) d1)
        as [Hlookup _].
      unfold storedDataVersion. unfold exec in Hlookup. rewrite Hlookup. reflexivity.
  - destruct (markClusterDataToPersist_lookup clusterPath
                (mkClusterData (Some dataVersion) ∅) d1) as [Hlookup _].
    unfold storedDataVersion. unfold exec in Hlookup. rewrite Hlookup. reflexivity.
Qed.

(** Caching an attribute value keeps the version of its cluster and marks
    the cluster for persistence. *)
Lemma _setCachedAttributeValue_version (value : MTRDeviceDataValueDictionary)
    (path : MTRAttributePath) (d : MTRDevice) :
  let d' := exec (_setCachedAttributeValue (Some value) path) d in
  storedDataVersion (clusterPathOf path) d' = storedDataVersion (clusterPathOf path) d
  /\ isDirty (clusterPathOf path) d'.
Proof.
  unfold exec, _setCachedAttributeValue. rewrite device_after_bind.
  set (d1 := device_after (_clusterDataForPath (clusterPathOf path) d)).
  unfold storedDataVersion at 2.
  set (found := result (_clusterDataForPath (clusterPathOf path) d)).
  destruct (markClusterDataToPersist_lookup (clusterPathOf path)
              (storeValue (Some value) (attribute path)
                 (default (mkClusterData None ∅) found)) d1) as [Hlookup Hdirty].
  unfold exec in Hlookup, Hdirty.
  assert (Hrun : device_after
                   (match found with
                    | Some _ | _ =>
                        markClusterDataToPersist (clusterPathOf path)
                          (storeValue (Some value) (attribute path)
                             (default (mkClusterData None ∅) found))
                    end d1)
                 = device_after
                     (markClusterDataToPersist (clusterPathOf path)
                        (storeValue (Some value) (attribute path)
                           (default (mkClusterData None ∅) found)) d1))
    by (destruct found; reflexivity).
  cbv zeta. rewrite Hrun. unfold storedDataVersion. split; [|exact Hdirty].
  rewrite Hlookup. destruct found; reflexivity.
Qed.

(** Set up a preservation proof for the store. *)
Ltac store_kept :=
  pose proof store_equiv_refl as Hrefl;
  pose proof store_equiv_trans as Htrans;
  preserves_steps;
  try match goal with
      | |- preserves _ (modify _) =>
          apply preserves_modify; intros ?; apply store_equiv_same_store; repeat split
      end;
  auto.

Lemma notePrimingSignal_store {K : MTRConstants} (attributePath : MTRAttributePath) :
  preserves store_equiv (notePrimingSignal attributePath).
Proof. unfold notePrimingSignal. store_kept. Qed.

Lemma noteSystemUpTime_store (upTimeSeconds : Z) (now : NSDate) :
  preserves store_equiv (noteSystemUpTime upTimeSeconds now).
Proof. unfold noteSystemUpTime. store_kept. Qed.

Lemma noteConfigurationChange_store {K : MTRConstants} (path : MTRAttributePath) :
  preserves store_equiv
    (changed <- get deviceConfigurationChanged ;;
     when (negb changed)
       (modify (set_deviceConfigurationChanged (_attributeAffectsDeviceConfiguration path)))).
Proof. store_kept. Qed.

Lemma noteUpTimeAttribute_store {K : MTRConstants} (now : NSDate)
    (path : MTRAttributePath) (value : MTRDeviceDataValueDictionary) :
  preserves store_equiv (noteUpTimeAttribute now path value).
Proof.
  unfold noteUpTimeAttribute. pose proof noteSystemUpTime_store. store_kept.
Qed.

(** The cache update of the data branch: with a data version the cluster
    ends at that version, without one it keeps its version; either way the
    cluster is marked for persistence. *)
Lemma updateReadCache_version {K : MTRConstants} (dataVersion : option Z)
    (path : MTRAttributePath) (value : MTRDeviceDataValueDictionary) (d : MTRDevice) :
  let d' := exec (updateReadCache dataVersion path value) d in
  storedDataVersion (clusterPathOf path) d'
  = match dataVersion with
    | Some n => Some n
    | None => storedDataVersion (clusterPathOf path) d
    end
  /\ isDirty (clusterPathOf path) d'.
Proof.
  unfold exec, updateReadCache.
  rewrite device_after_bind. cbv beta.
  set (d1 := device_after (match dataVersion with
                           | Some n => _noteDataVersion n (clusterPathOf path)
                           | None => ret tt
                           end d)).
  assert (H1 : storedDataVersion (clusterPathOf path) d1
               = match dataVersion with
                 | Some n => Some n
                 | None => storedDataVersion (clusterPathOf path) d
                 end).
  { subst d1. destruct dataVersion as [n|]; [apply _noteDataVersion_version | reflexivity]. }
  rewrite device_after_bind. cbv beta.
  destruct (_setCachedAttributeValue_version value path d1) as [H2 Hdirty].
  unfold exec in H2, Hdirty.
  pose proof (noteConfigurationChange_store path
                (device_after (_setCachedAttributeValue (Some value) path d1))) as Htail.
  split.
  - rewrite (storedDataVersion_store_equiv _ _ _ Htail). congruence.
  - apply (isDirty_store_equiv _ _ _ Htail). exact Hdirty.
Qed.

(** C6, amended.  For a reported attribute entry that arrives without an
    error, the cluster's stored data version is set to the incoming one
    (and the cluster marked for persistence) when the incoming value carries
    a data version and differs from the cached value; when the value carries
    no data version, or equals the cached value, the stored data version is
    left as it was. *)
Theorem data_version_noted_when_value_changes {K : MTRConstants} (now : NSDate)
    (entry : MTRAttributeResponseValue) (value : MTRDeviceDataValueDictionary)
    (d : MTRDevice) :
  MTRErrorKey entry = None ->
  rv_data entry = Some value ->
  let path := MTRAttributePathKey entry in
  let changed :=
    negb (_attributeDataValue_isEqualToDataValue (Some (incomingValue value))
            (result (_cachedAttributeValueForPath path d))) in
  let d' := exec (reportedValueStep now entry) d in
  (forall n, MTRDataVersionKey value = Some n -> changed = true ->
     storedDataVersion (clusterPathOf path) d' = Some n
     /\ isDirty (clusterPathOf path) d')
  /\ (MTRDataVersionKey value = None \/ changed = false ->
      storedDataVersion (clusterPathOf path) d'
      = storedDataVersion (clusterPathOf path) d).
Proof.
  intros Herr Hdata. cbv zeta.
  unfold exec, reportedValueStep. rewrite Herr, Hdata.
  unfold reportedDataStep. cbv zeta.
  change (match MTRDataVersionKey value with
          | Some _ => _dataValueWithoutDataVersion value
          | None => value
          end) with (incomingValue value).
  generalize (MTRAttributePathKey entry). intros path.
  rewrite device_after_bind. cbv beta.
  pose proof (notePrimingSignal_store path d) as Hsignal.
  set (d0 := device_after (notePrimingSignal path d)) in *.
  rewrite device_after_bind. cbv beta.
  pose proof (_cachedAttributeValueForPath_store_equiv path d0) as Hpaged.
  assert (Hprevious : result (_cachedAttributeValueForPath path d0)
                      = result (_cachedAttributeValueForPath path d)).
  { apply _cachedAttributeValueForPath_result_store_equiv. exact Hsignal. }
  rewrite Hprevious.
  set (changed := negb (_attributeDataValue_isEqualToDataValue
                          (Some (incomingValue value))
                          (result (_cachedAttributeValueForPath path d)))).
  set (d1 := device_after (_cachedAttributeValueForPath path d0)) in *.
  rewrite device_after_bind. cbv beta.
  set (d2 := device_after
               (when changed
                  (updateReadCache (MTRDataVersionKey value) path (incomingValue value)) d1)).
  assert (Hd1 : store_equiv d d1) by (eapply store_equiv_trans; eassumption).
  autorewrite with run.
  pose proof (noteUpTimeAttribute_store now path (incomingValue value) d2) as Htail.
  split.
  - intros n Hn Hchanged.
    destruct (updateReadCache_version (MTRDataVersionKey value) path
                (incomingValue value) d1) as [Hversion Hdirty].
    unfold exec in Hversion, Hdirty.
    assert (Hd2 : d2 = device_after
                         (updateReadCache (MTRDataVersionKey value) path
                            (incomingValue value) d1))
      by (subst d2; rewrite Hchanged; reflexivity).
    rewrite <- Hd2 in Hversion, Hdirty. rewrite Hn in Hversion.
    split.
    + rewrite (storedDataVersion_store_equiv _ _ _ Htail). exact Hversion.
    + apply (isDirty_store_equiv _ _ _ Htail). exact Hdirty.
  - intros Hcase.
    rewrite (storedDataVersion_store_equiv _ _ _ Htail).
    destruct changed eqn:Hchanged.
    + destruct Hcase as [Hnone | Hfalse]; [|discriminate].
      destruct (updateReadCache_version (MTRDataVersionKey value) path
                  (incomingValue value) d1) as [Hversion _].
      unfold exec in Hversion. subst d2. cbn [when].
      rewrite Hversion, Hnone. apply storedDataVersion_store_equiv. exact Hd1.
    + subst d2. cbn [when]. autorewrite with run.
      apply storedDataVersion_store_equiv. exact Hd1.
Qed.

(** The first report of On/Off = true at data version 7 changes the (empty)
    cache, so the cluster's data version becomes 7 and the cluster is marked
    for persistence. *)
Lemma data_version_noted_when_value_changes_witness :
  storedDataVersion (clusterPathOf onOffPath)
    (exec (reportedValueStep (K := MatterConstants) 0 (onOffTrueAtVersion 7))
          deviceWithDelegate) = Some 7
  /\ isDirty (clusterPathOf onOffPath)
       (exec (reportedValueStep (K := MatterConstants) 0 (onOffTrueAtVersion 7))
             deviceWithDelegate).
Proof.
  pose proof (data_version_noted_when_value_changes (K := MatterConstants) 0
                (onOffTrueAtVersion 7)
                (mkDictionary (Some MTRBooleanValueType) (Some (NSNumber 1)) None None
                   (Some 7))
                deviceWithDelegate eq_refl eq_refl) as [Hnoted _].
  apply (Hnoted 7 eq_refl). vm_compute. reflexivity.
Defined.

(** C6, as stated, fails when the incoming value equals the cached one: the
    second report carries data version 8, and the cluster's stored data
    version stays 7. *)
Lemma unchanged_value_leaves_data_version :
  (rv_data (onOffTrueAtVersion 8) ≫= MTRDataVersionKey) = Some 8
  /\ MTRErrorKey (onOffTrueAtVersion 8) = None
  /\ storedDataVersion (clusterPathOf onOffPath) deviceAtVersion7 = Some 7
  /\ storedDataVersion (clusterPathOf onOffPath)
       (exec (_handleReportBegin ;;;
              _handleAttributeReport (K := MatterConstants) 0 [onOffTrueAtVersion 8] ;;;
              _handleReportEnd)
             deviceAtVersion7) = Some 7.
Proof. repeat split; vm_compute; reflexivity. Qed.

(** ** Expected-value operations leave the read cache alone *)

Lemma _reportAttributes_store (attributes : list MTRAttributeResponseValue) :
  preserves store_equiv (_reportAttributes attributes).
Proof. unfold _reportAttributes. store_kept. Qed.

Lemma _setExpectedValue_store (expectedAttributeValue : option MTRDeviceDataValueDictionary)
    (attributePath : MTRAttributePath) (expirationTime : NSDate) (expectedValueID : Z) :
  preserves store_equiv
    (_setExpectedValue expectedAttributeValue attributePath expirationTime expectedValueID).
Proof.
  unfold _setExpectedValue. pose proof _cachedAttributeValueForPath_store_equiv.
  store_kept.
Qed.

Lemma setExpectedValuesLoop_store (values : list MTRAttributeResponseValue)
    (expirationTime : NSDate) (expectedValueID : Z) :
  preserves store_equiv (setExpectedValuesLoop values expirationTime expectedValueID).
Proof.
  induction values as [|value rest IH]; cbn [setExpectedValuesLoop].
  - store_kept.
  - pose proof _setExpectedValue_store. cbv zeta. store_kept.
Qed.

Lemma removeExpired_store (infos : list (MTRAttributePath * MTRDeviceDataValueDictionary)) :
  preserves store_equiv (removeExpired infos).
Proof.
  induction infos as [|[attributePath value] rest IH]; cbn [removeExpired].
  - store_kept.
  - pose proof _cachedAttributeValueForPath_store_equiv. cbv zeta. store_kept.
Qed.

Lemma _checkExpiredExpectedValues_store (now : NSDate) :
  preserves store_equiv (_checkExpiredExpectedValues now).
Proof.
  unfold _checkExpiredExpectedValues.
  pose proof removeExpired_store. pose proof _reportAttributes_store. store_kept.
Qed.

Lemma setExpectedValues_store (values : list MTRAttributeResponseValue)
    (expectedValueInterval : Z) (now : NSDate) :
  preserves store_equiv (setExpectedValues values expectedValueInterval now).
Proof.
  unfold setExpectedValues, _getAttributesToReportWithNewExpectedValues.
  pose proof setExpectedValuesLoop_store. pose proof _reportAttributes_store.
  pose proof _checkExpiredExpectedValues_store. cbv zeta. store_kept.
Qed.

Lemma _removeExpectedValueForAttributePath_store (attributePath : MTRAttributePath)
    (expectedValueID : Z) :
  preserves store_equiv (_removeExpectedValueForAttributePath attributePath expectedValueID).
Proof.
  unfold _removeExpectedValueForAttributePath.
  pose proof _setExpectedValue_store. pose proof _reportAttributes_store. store_kept.
Qed.

Lemma runOperation_store (op : ExpectedValueOperation) :
  preserves store_equiv (runOperation op).
Proof.
  destruct op; cbn [runOperation].
  - pose proof setExpectedValues_store. store_kept.
  - apply _removeExpectedValueForAttributePath_store.
  - unfold removeExpectedValuesForAttributePaths.
    pose proof _removeExpectedValueForAttributePath_store. store_kept.
  - unfold _performScheduledExpirationCheck.
    pose proof _checkExpiredExpectedValues_store. store_kept.
Qed.

(** The read cache answers after the operations as it did before. *)
Lemma runOperations_store (ops : list ExpectedValueOperation) (d : MTRDevice) :
  store_equiv d (runOperations ops d).
Proof.
  revert d. induction ops as [|op rest IH]; intros d; cbn [runOperations].
  - apply store_equiv_refl.
  - eapply store_equiv_trans; [apply runOperation_store | apply IH].
Qed.
(** ** Data values and their comparison *)

(** [-isEqual:] holds between an object and itself. *)
Lemma isEqual_refl : forall a : NSObject, isEqual a a = true.
Proof.
  fix IH 1. intros [n|s|bytes|items|d].
  - cbn. apply bool_decide_eq_true_2. reflexivity.
  - cbn. apply bool_decide_eq_true_2. reflexivity.
  - cbn. apply bool_decide_eq_true_2. reflexivity.
  - cbn. induction items as [|[t v x c dv] items IHitems]; [reflexivity|].
    rewrite IHitems, andb_true_r. cbn.
    rewrite !bool_decide_eq_true_2 by reflexivity. rewrite !andb_true_r. cbn.
    destruct v as [v|], x as [x|]; rewrite ?IH; reflexivity.
  - destruct d as [t v x c dv]. cbn.
    rewrite !bool_decide_eq_true_2 by reflexivity. rewrite !andb_true_r. cbn.
    destruct v as [v|], x as [x|]; rewrite ?IH; reflexivity.
Qed.

(** [-isEqual:] holds between structurally equal objects only. *)
Lemma isEqual_eq : forall a b : NSObject, isEqual a b = true -> a = b.
Proof.
  fix IH 1. intros [n|s|bytes|items|d] [m|s'|bytes'|items'|d']; cbn; try discriminate.
  - intros H. apply bool_decide_eq_true_1 in H. congruence.
  - intros H. apply bool_decide_eq_true_1 in H. congruence.
  - intros H. apply bool_decide_eq_true_1 in H. congruence.
  - intros H. f_equal. revert items' H.
    induction items as [|[t v x c dv] items IHitems]; intros [|[t' v' x' c' dv'] items'];
      try discriminate; [reflexivity|].
    intros H. apply andb_prop in H as [Hhead Htail].
    rewrite (IHitems _ Htail). f_equal.
    cbn in Hhead.
    repeat (apply andb_prop in Hhead as [Hhead ?]).
    repeat match goal with
           | H : bool_decide _ = true |- _ => apply bool_decide_eq_true_1 in H
           end.
    subst.
    assert (v = v') as ->.
    { destruct v as [v|], v' as [v'|]; try discriminate; [|reflexivity].
      f_equal. apply IH. assumption. }
    assert (x = x') as ->.
    { destruct x as [x|], x' as [x'|]; try discriminate; [|reflexivity].
      f_equal. apply IH. assumption. }
    reflexivity.
  - destruct d as [t v x c dv], d' as [t' v' x' c' dv']. cbn. intros Hhead.
    repeat (apply andb_prop in Hhead as [Hhead ?]).
    repeat match goal with
           | H : bool_decide _ = true |- _ => apply bool_decide_eq_true_1 in H
           end.
    subst.
    assert (v = v') as ->.
    { destruct v as [v|], v' as [v'|]; try discriminate; [|reflexivity].
      f_equal. apply IH. assumption. }
    assert (x = x') as ->.
    { destruct x as [x|], x' as [x'|]; try discriminate; [|reflexivity].
      f_equal. apply IH. assumption. }
    reflexivity.
Qed.

Lemma isEqualToDictionary_refl (d : NSDictionary) : isEqualToDictionary d d = true.
Proof. exact (isEqual_refl (NSDictionaryObject d)). Qed.

Lemma isEqualToDictionary_eq (d e : NSDictionary) : isEqualToDictionary d e = true -> d = e.
Proof.
  intros H. pose proof (isEqual_eq (NSDictionaryObject d) (NSDictionaryObject e) H) as Heq.
  congruence.
Qed.

(** [[a isEqual:b] || a == b] on two values that may be [nil]. *)
Lemma value_comparison_eq (a b : option NSObject) :
  both_nil a b || msg_isEqual isEqual a b = true <-> a = b.
Proof.
  destruct a as [a|], b as [b|]; cbn; split; try discriminate; try reflexivity.
  - intros H. f_equal. apply isEqual_eq. exact H.
  - intros [= ->]. apply isEqual_refl.
Qed.

(** X1.  Two attribute data values compare equal exactly when both
    carry a type tag, the tags are the same and the values under
    [MTRValueKey] are the same (both absent included); the data version and
    the other keys play no part.  Two [nil]s compare equal, and a [nil]
    equals no data value. *)
Theorem data_values_equal_iff_same_type_and_value (one theOther : NSDictionary) :
  (_attributeDataValue_isEqualToDataValue (Some one) (Some theOther) = true
   <-> (exists t, MTRTypeKey one = Some t /\ MTRTypeKey theOther = Some t)
       /\ MTRValueKey one = MTRValueKey theOther)
  /\ _attributeDataValue_isEqualToDataValue None None = true
  /\ _attributeDataValue_isEqualToDataValue (Some one) None = false
  /\ _attributeDataValue_isEqualToDataValue None (Some theOther) = false.
Proof.
  split; [|repeat split].
  unfold _attributeDataValue_isEqualToDataValue.
  rewrite andb_true_iff, value_comparison_eq.
  split.
  - intros [Htype Hvalue]. split; [|exact Hvalue].
    destruct (MTRTypeKey one) as [t|], (MTRTypeKey theOther) as [t'|]; try discriminate.
    cbn in Htype. apply bool_decide_eq_true_1 in Htype. subst. eauto.
  - intros [(t & -> & ->) Hvalue]. split; [|exact Hvalue].
    cbn. apply bool_decide_eq_true_2. reflexivity.
Qed.

(** ** Cluster data *)

Lemma attributes_isEqual_eq (a b : gmap Z MTRDeviceDataValueDictionary) :
  attributes_isEqual a b = true <-> a = b.
Proof.
  unfold attributes_isEqual. rewrite andb_true_iff, bool_decide_eq_true, forallb_forall.
  split.
  - intros [Hsize Hall].
    assert (Hsub : a ⊆ b).
    { apply map_subseteq_spec. intros k v Hk.
      specialize (Hall (k, v)).
      rewrite <- list_elem_of_In, elem_of_map_to_list in Hall. specialize (Hall Hk).
      change ((k, v).1) with k in Hall. change ((k, v).2) with v in Hall.
      destruct (b !! k) as [w|]; [|discriminate].
      apply isEqualToDictionary_eq in Hall. subst w. reflexivity. }
    apply map_subseteq_size_eq; [exact Hsub | lia].
  - intros <-. split; [reflexivity|].
    intros [k v]. rewrite <- list_elem_of_In, elem_of_map_to_list. intros Hk.
    change ((k, v).1) with k. change ((k, v).2) with v.
    unfold MTRDeviceDataValueDictionary in *. rewrite Hk.
    apply isEqualToDictionary_refl.
Qed.

(** X2.  Two cluster data compare equal exactly when both have a
    data version, the versions are the same and they hold the same
    attribute values; so cluster data without a data version, such as a
    freshly initialised one, does not compare equal to its own copy. *)
Theorem cluster_data_equal_iff_versioned_and_same
    (clusterData otherClusterData : MTRDeviceClusterData) :
  (isEqualToClusterData clusterData otherClusterData = true
   <-> (exists v, cd_dataVersion clusterData = Some v
                  /\ cd_dataVersion otherClusterData = Some v)
       /\ attributes clusterData = attributes otherClusterData)
  /\ isEqualToClusterData clusterData (copyWithZone clusterData)
     = bool_decide (is_Some (cd_dataVersion clusterData))
  /\ isEqualToClusterData MTRDeviceClusterData_init (copyWithZone MTRDeviceClusterData_init)
     = false.
Proof.
  assert (Hiff : forall c c' : MTRDeviceClusterData,
             isEqualToClusterData c c' = true
             <-> (exists v, cd_dataVersion c = Some v /\ cd_dataVersion c' = Some v)
                 /\ attributes c = attributes c').
  { intros c c'. unfold isEqualToClusterData.
    rewrite andb_true_iff, attributes_isEqual_eq.
    split; intros [Hversion Hattributes]; (split; [|exact Hattributes]).
    - destruct (cd_dataVersion c) as [v|], (cd_dataVersion c') as [v'|]; try discriminate.
      cbn in Hversion. apply Z.eqb_eq in Hversion. subst. eauto.
    - destruct Hversion as (v & -> & ->). cbn. apply Z.eqb_refl. }
  split; [apply Hiff|]. split; [|reflexivity].
  destruct clusterData as [[v|] attrs]; cbn.
  - apply Hiff. cbn. eauto.
  - reflexivity.
Qed.

(** ** Arrays of numbers *)

(** The items of an array this file reads numbers from: a dictionary whose
    [MTRDataKey] is a data value with a type tag and a number as its
    value. *)
Lemma numbersOfItems_some_iff (items : list NSDictionary) :
  forall ns : list Z,
    numbersOfItems items = Some ns
    <-> Forall2 (fun item n =>
                   exists e t, MTRDataKey item = Some (NSDictionaryObject e)
                               /\ MTRTypeKey e = Some t
                               /\ MTRValueKey e = Some (NSNumber n))
                items ns.
Proof.
  induction items as [|item items IH]; intros ns; cbn.
  - split.
    + intros [= <-]. constructor.
    + intros H. inversion H. reflexivity.
  - split.
    + destruct (MTRDataKey item) as [[| | | |e]|] eqn:Hdata; try discriminate.
      destruct (MTRTypeKey e) as [t|] eqn:Htype; [|discriminate].
      destruct (MTRValueKey e) as [[n| | | |]|] eqn:Hvalue; try discriminate.
      destruct (numbersOfItems items) as [rest|] eqn:Hrest; [|discriminate].
      intros [= <-]. constructor; [eauto | apply IH; reflexivity].
    + intros H. inversion H as [|? n ? rest (e & t & Hdata & Htype & Hvalue) Hrest]; subst.
      rewrite Hdata, Htype, Hvalue. apply IH in Hrest. rewrite Hrest. reflexivity.
Qed.

(** X3.  [arrayOfNumbersFromAttributeValue:] answers with a list of
    numbers exactly for a data value of array type whose value is an array
    in which every item holds, under [MTRDataKey], a data value with a type
    tag and a number; the numbers come in the order of the items.  One item
    of another shape makes the whole answer [nil], as does a [nil]
    argument. *)
Theorem array_of_numbers_all_or_nothing (dataDictionary : NSDictionary) (ns : list Z) :
  (arrayOfNumbersFromAttributeValue (Some dataDictionary) = Some ns
   <-> MTRTypeKey dataDictionary = Some MTRArrayValueType
       /\ exists items,
            MTRValueKey dataDictionary = Some (NSArray items)
            /\ Forall2 (fun item n =>
                          exists e t, MTRDataKey item = Some (NSDictionaryObject e)
                                      /\ MTRTypeKey e = Some t
                                      /\ MTRValueKey e = Some (NSNumber n))
                       items ns)
  /\ arrayOfNumbersFromAttributeValue None = None.
Proof.
  split; [|reflexivity].
  unfold arrayOfNumbersFromAttributeValue. cbn [mbind option_bind].
  split.
  - destruct (MTRTypeKey dataDictionary) as [t|]; [|discriminate]. cbn.
    destruct (bool_decide (MTRArrayValueType = t)) eqn:Harray; [|discriminate].
    apply bool_decide_eq_true_1 in Harray. subst t. cbn.
    destruct (MTRValueKey dataDictionary) as [[| | |items|]|]; try discriminate.
    intros H. split; [reflexivity|]. exists items. split; [reflexivity|].
    apply numbersOfItems_some_iff. exact H.
  - intros [-> (items & -> & H)]. cbn.
    rewrite bool_decide_eq_true_2 by reflexivity. cbn.
    apply numbersOfItems_some_iff. exact H.
Qed.
(** ** Write batching *)

Lemma last_cons_default {A : Type} (l : list A) :
  forall x d : A, List.last (x :: l) d = List.last l x.
Proof.
  induction l as [|y l IH]; intros x d; [reflexivity|].
  change (List.last (y :: l) d = List.last (y :: l) x). rewrite !IH. reflexivity.
Qed.

Lemma writeBatchingLoop_spec (next : list WriteRequest) :
  forall (outcome : MTRBatchingOutcome) (current : WriteRequest),
    exists merged : list WriteRequest,
      next = merged ++ (writeBatchingLoop outcome current next).2
      /\ Forall (fun w => MTRDeviceWriteRequestFieldPathIndex w
                          = MTRDeviceWriteRequestFieldPathIndex current) merged
      /\ (writeBatchingLoop outcome current next).1.2 = List.last merged current
      /\ (forall w, head (writeBatchingLoop outcome current next).2 = Some w ->
            MTRDeviceWriteRequestFieldPathIndex w
            <> MTRDeviceWriteRequestFieldPathIndex current)
      /\ (writeBatchingLoop outcome current next).1.1
         = match (writeBatchingLoop outcome current next).2, merged with
           | [], _ => MTRBatchedFully
           | _ :: _, [] => outcome
           | _ :: _, _ :: _ => MTRBatchedPartially
           end.
Proof.
  induction next as [|writeItem rest IH]; intros outcome current; cbn [writeBatchingLoop].
  - exists []. cbn. repeat split; auto; intros w [=].
  - destruct (bool_decide (MTRDeviceWriteRequestFieldPathIndex writeItem
                           = MTRDeviceWriteRequestFieldPathIndex current)) eqn:Hpath; cbn [negb].
    + apply bool_decide_eq_true_1 in Hpath.
      destruct (IH MTRBatchedPartially writeItem) as (merged & Hnext & Hsame & Hlast & Hhead & Hout).
      exists (writeItem :: merged). repeat split.
      * cbn. rewrite <- Hnext. reflexivity.
      * constructor; [exact Hpath|].
        eapply Forall_impl; [exact Hsame|]. cbn. intros w Hw. congruence.
      * rewrite Hlast, last_cons_default. reflexivity.
      * intros w Hw. rewrite <- Hpath. apply Hhead. exact Hw.
      * rewrite Hout. destruct (writeBatchingLoop _ _ _).2, merged; reflexivity.
    + apply bool_decide_eq_false_1 in Hpath.
      exists []. cbn. repeat split; auto.
      intros w [= <-]. exact Hpath.
Qed.

(** X4.  The batching handler of a write work item takes over, from
    the item queued next, the leading writes to its own path and keeps the
    last of them in place of its own request: the item still holds one
    request, the newest write to the path.  It stops at the first write to
    another path, and answers [MTRBatchedFully] when nothing is left in the
    next item, [MTRNotBatched] when nothing was taken, [MTRBatchedPartially]
    otherwise.  An item that does not hold exactly one request batches
    nothing. *)
Theorem write_batching_keeps_newest_write
    (current : WriteRequest) (writeRequestsNext : list WriteRequest) :
  (exists merged : list WriteRequest,
      let r := writeBatchingHandler [current] writeRequestsNext in
      writeRequestsNext = merged ++ r.2
      /\ Forall (fun w => MTRDeviceWriteRequestFieldPathIndex w
                          = MTRDeviceWriteRequestFieldPathIndex current) merged
      /\ r.1.2 = [List.last merged current]
      /\ (forall w, head r.2 = Some w ->
            MTRDeviceWriteRequestFieldPathIndex w
            <> MTRDeviceWriteRequestFieldPathIndex current)
      /\ r.1.1 = match r.2, merged with
                 | [], _ => MTRBatchedFully
                 | _ :: _, [] => MTRNotBatched
                 | _ :: _, _ :: _ => MTRBatchedPartially
                 end)
  /\ (forall writeRequestsCurrent : list WriteRequest,
        length writeRequestsCurrent <> 1%nat ->
        writeBatchingHandler writeRequestsCurrent writeRequestsNext
        = (MTRNotBatched, writeRequestsCurrent, writeRequestsNext)).
Proof.
  split.
  - destruct (writeBatchingLoop_spec writeRequestsNext MTRNotBatched current)
      as (merged & Hnext & Hsame & Hlast & Hhead & Hout).
    exists merged. unfold writeBatchingHandler.
    destruct (writeBatchingLoop MTRNotBatched current writeRequestsNext) as [[outcome c] n].
    cbn in *. subst c. auto.
  - intros [|a [|b l]] Hlen; cbn in *; try reflexivity. lia.
Qed.

(** ** Data version filters *)

(** The filters written and their count. *)
Lemma _createDataVersionFilterListFromDictionary_spec
    (dataVersions : gmap MTRClusterPath Z) (sizeReduction : nat) :
  let r := _createDataVersionFilterListFromDictionary dataVersions sizeReduction in
  r.2 = length r.1
  /\ r.2 = (size dataVersions - sizeReduction)%nat
  /\ Forall (fun f => exists clusterPath dataVersion,
                        dataVersions !! clusterPath = Some dataVersion
                        /\ f = mkDataVersionFilter (wrap16 (cp_endpoint clusterPath))
                                 (wrap32 (cp_cluster clusterPath)) (wrap32 dataVersion))
            r.1.
Proof.
  unfold _createDataVersionFilterListFromDictionary. cbv zeta.
  destruct (bool_decide (size dataVersions = 0%nat)
            || bool_decide (size dataVersions <= sizeReduction)%nat) eqn:Hnone.
  - cbn. split; [reflexivity|]. split; [|constructor].
    apply orb_prop in Hnone as [H|H]; apply bool_decide_eq_true_1 in H; lia.
  - apply orb_false_elim in Hnone as [_ Hle]. apply bool_decide_eq_false_1 in Hle.
    cbn [fst snd]. split; [|split; [reflexivity|]].
    + rewrite length_take, length_fmap, length_map_to_list. lia.
    + apply Forall_take, Forall_fmap, Forall_forall. intros [clusterPath dataVersion] Hin.
      apply elem_of_map_to_list in Hin. cbn. eauto.
Qed.

(** X5.  The data version filter list built for a subscribe request
    holds one filter per known data version but for the last
    [sizeReduction] of them, and none once the reduction reaches their
    number; the count handed to the read client is the number of filters
    written, and every filter is the cluster path and data version of an
    entry, cut to the widths of the wire types. *)
Theorem data_version_filter_list_size
    (dataVersions : gmap MTRClusterPath Z) (sizeReduction : nat) :
  let r := _createDataVersionFilterListFromDictionary dataVersions sizeReduction in
  r.2 = length r.1
  /\ r.2 = (size dataVersions - sizeReduction)%nat
  /\ Forall (fun f => exists clusterPath dataVersion,
                        dataVersions !! clusterPath = Some dataVersion
                        /\ f = mkDataVersionFilter (wrap16 (cp_endpoint clusterPath))
                                 (wrap32 (cp_cluster clusterPath)) (wrap32 dataVersion))
            r.1.
Proof.
  cbv zeta.
  destruct (_createDataVersionFilterListFromDictionary_spec dataVersions sizeReduction)
    as (Hcount & Hsize & Hfilters).
  split; [exact Hcount|]. split; [exact Hsize|].
  eapply Forall_impl; [exact Hfilters|].
  intros f (clusterPath & dataVersion & Hentry & Hf). exists clusterPath, dataVersion. auto.
Qed.

Lemma sendSubscribeRequest_terminates
    (SendAutoResubscribeRequest : list DataVersionFilter -> CHIP_ERROR)
    (dataVersions : gmap MTRClusterPath Z) (turns : nat) :
  forall reduction : nat,
    (size dataVersions - reduction < turns)%nat ->
    exists err final,
      sendSubscribeRequest SendAutoResubscribeRequest dataVersions turns reduction
      = Some (err, final)
      /\ (reduction <= final)%nat
      /\ (final - reduction <= size dataVersions - reduction)%nat
      /\ err = SendAutoResubscribeRequest
                 (_createDataVersionFilterListFromDictionary dataVersions final).1
      /\ (err = CHIP_ERROR_NO_MEMORY ->
          (_createDataVersionFilterListFromDictionary dataVersions final).1 = [])
      /\ (forall earlier : nat,
            (reduction <= earlier < final)%nat ->
            SendAutoResubscribeRequest
              (_createDataVersionFilterListFromDictionary dataVersions earlier).1
            = CHIP_ERROR_NO_MEMORY).
Proof.
  induction turns as [|turns IH]; intros reduction Hturns; [lia|].
  cbn [sendSubscribeRequest].
  pose proof (_createDataVersionFilterListFromDictionary_spec dataVersions reduction) as Hsize.
  cbv zeta in Hsize.
  destruct (_createDataVersionFilterListFromDictionary dataVersions reduction)
    as [filters count] eqn:Hfilters.
  cbn [fst snd] in Hsize. destruct Hsize as (Hcount & Hsize & _).
  set (err := SendAutoResubscribeRequest filters).
  assert (Hhere : err = SendAutoResubscribeRequest
                          (_createDataVersionFilterListFromDictionary dataVersions
                             reduction).1) by (rewrite Hfilters; reflexivity).
  destruct (bool_decide (err = CHIP_NO_ERROR)) eqn:Hok.
  { apply bool_decide_eq_true_1 in Hok. exists err, reduction.
    repeat split; try lia; try assumption.
    intros Hmem. congruence. }
  destruct (bool_decide (err = CHIP_ERROR_NO_MEMORY)) eqn:Hmem; cbn [negb].
  2:{ apply bool_decide_eq_false_1 in Hmem. exists err, reduction.
      repeat split; try lia; try assumption.
      intros H. contradiction. }
  apply bool_decide_eq_true_1 in Hmem.
  destruct (bool_decide (count = 0%nat)) eqn:Hempty.
  { apply bool_decide_eq_true_1 in Hempty. exists err, reduction.
    repeat split; try lia; try assumption.
    intros _. rewrite Hfilters. cbn. apply nil_length_inv. lia. }
  apply bool_decide_eq_false_1 in Hempty.
  destruct (IH (S reduction) ltac:(lia)) as (err' & final & Hrun & Hle & Hbound & Herr & Hnil & Hearlier).
  exists err', final. repeat split; try lia; try assumption.
  intros earlier Hrange.
  destruct (decide (earlier = reduction)) as [->|Hne].
  - rewrite <- Hhere. exact Hmem.
  - apply Hearlier. lia.
Qed.

(** X6.  The subscribe loop ends within one turn more than there
    are data versions: it stops at the first request that succeeds or fails
    for another reason than memory, each turn before that having failed for
    memory with a filter list one entry longer than the next; and it ends
    with a memory error only after a request without any filter. *)
Theorem subscribe_retry_shrinks_filter_list
    (SendAutoResubscribeRequest : list DataVersionFilter -> CHIP_ERROR)
    (dataVersions : gmap MTRClusterPath Z) :
  exists err final,
    sendSubscribeRequest SendAutoResubscribeRequest dataVersions
      (S (size dataVersions)) 0 = Some (err, final)
    /\ (final <= size dataVersions)%nat
    /\ err = SendAutoResubscribeRequest
               (_createDataVersionFilterListFromDictionary dataVersions final).1
    /\ length (_createDataVersionFilterListFromDictionary dataVersions final).1
       = (size dataVersions - final)%nat
    /\ (err = CHIP_ERROR_NO_MEMORY -> final = size dataVersions)
    /\ (forall earlier : nat,
          (earlier < final)%nat ->
          SendAutoResubscribeRequest
            (_createDataVersionFilterListFromDictionary dataVersions earlier).1
          = CHIP_ERROR_NO_MEMORY).
Proof.
  destruct (sendSubscribeRequest_terminates SendAutoResubscribeRequest dataVersions
              (S (size dataVersions)) 0 ltac:(lia))
    as (err & final & Hrun & _ & Hbound & Herr & Hnil & Hearlier).
  pose proof (_createDataVersionFilterListFromDictionary_spec dataVersions final) as Hsize.
  cbv zeta in Hsize. destruct Hsize as (Hcount & Hsize & _).
  exists err, final. repeat split; try assumption; try lia.
  - intros Hmem. specialize (Hnil Hmem). rewrite Hnil in Hcount. cbn in Hcount. lia.
  - intros earlier Hlt. apply Hearlier. lia.
Qed.
(** ** The read cache *)

(** A cluster put among the clusters to persist does not change what a
    look-up of another cluster finds. *)
Lemma markClusterDataToPersist_other (clusterPath other : MTRClusterPath)
    (clusterData : MTRDeviceClusterData) (d : MTRDevice) :
  other <> clusterPath ->
  result (_clusterDataForPath other (exec (markClusterDataToPersist clusterPath clusterData) d))
  = result (_clusterDataForPath other d).
Proof.
  intros Hne.
  unfold exec, markClusterDataToPersist, _clusterDataForPath, modify, result, device_after.
  cbn [fst snd clusterDataToPersist set_clusterDataToPersist persistedClusterData
       persistedClusters controllerDataStore mbind option_bind].
  rewrite lookup_insert_ne by congruence.
  assert (Hdirty : default ∅ (clusterDataToPersist d) !! other
                   = clusterDataToPersist d ≫= lookup other)
    by (destruct (clusterDataToPersist d); [reflexivity | apply lookup_empty]).
  rewrite Hdirty.
  destruct (clusterDataToPersist d ≫= lookup other); [reflexivity|].
  destruct (persistedClusterData d ≫= lookup other); [reflexivity|].
  destruct (bool_decide (other ∈ persistedClusters d)); [|reflexivity].
  destruct (controllerDataStore d ≫= lookup other); reflexivity.
Qed.

Lemma _clusterDataForPath_result_store_equiv (clusterPath : MTRClusterPath)
    (d d' : MTRDevice) :
  store_equiv d d' ->
  result (_clusterDataForPath clusterPath d') = result (_clusterDataForPath clusterPath d).
Proof. intros [_ H]. apply H. Qed.

(** What [-_setCachedAttributeValue:forPath:] leaves for look-ups: the
    cluster of the path with the value stored, the other clusters as they
    were. *)
Lemma _setCachedAttributeValue_lookup (value : option MTRDeviceDataValueDictionary)
    (path : MTRAttributePath) (other : MTRClusterPath) (d : MTRDevice) :
  result (_clusterDataForPath other (exec (_setCachedAttributeValue value path) d))
  = if bool_decide (other = clusterPathOf path) then
      match result (_clusterDataForPath (clusterPathOf path) d), value with
      | None, None => None
      | found, _ =>
          Some (storeValue value (attribute path) (default (mkClusterData None ∅) found))
      end
    else result (_clusterDataForPath other d).
Proof.
  unfold exec, _setCachedAttributeValue. rewrite device_after_bind.
  pose proof (_clusterDataForPath_store_equiv (clusterPathOf path) d) as Hpaged.
  set (d1 := device_after (_clusterDataForPath (clusterPathOf path) d)) in *.
  set (found := result (_clusterDataForPath (clusterPathOf path) d)).
  assert (Hsame : forall cp, result (_clusterDataForPath cp d1)
                             = result (_clusterDataForPath cp d))
    by (intros cp; apply _clusterDataForPath_result_store_equiv; exact Hpaged).
  destruct (bool_decide (other = clusterPathOf path)) eqn:Hother.
  - apply bool_decide_eq_true_1 in Hother. subst other.
    destruct found as [clusterData|] eqn:Hfound, value as [v|];
      try (apply markClusterDataToPersist_lookup).
    autorewrite with run. rewrite Hsame. exact Hfound.
  - apply bool_decide_eq_false_1 in Hother.
    destruct found as [clusterData|] eqn:Hfound, value as [v|];
      try (rewrite <- (Hsame other); apply markClusterDataToPersist_other; exact Hother).
    autorewrite with run. apply Hsame.
Qed.

(** What a cluster look-up answers with, in terms of the four parts of the
    store. *)
Lemma _clusterDataForPath_result (clusterPath : MTRClusterPath) (d : MTRDevice) :
  result (_clusterDataForPath clusterPath d)
  = match clusterDataToPersist d ≫= (.!! clusterPath) with
    | Some data => Some data
    | None =>
        match persistedClusterData d ≫= (.!! clusterPath) with
        | Some data => Some data
        | None =>
            if bool_decide (clusterPath ∈ persistedClusters d)
            then controllerDataStore d ≫= (.!! clusterPath)
            else None
        end
    end.
Proof.
  unfold _clusterDataForPath, result.
  destruct (clusterDataToPersist d ≫= (.!! clusterPath)); [reflexivity|].
  destruct (persistedClusterData d ≫= (.!! clusterPath)); [reflexivity|].
  destruct (bool_decide _); [|reflexivity].
  destruct (controllerDataStore d ≫= (.!! clusterPath)); reflexivity.
Qed.

(** A read-cache look-up is a look-up of the cluster, then of the
    attribute in it. *)
Lemma _cachedAttributeValueForPath_result (path : MTRAttributePath) (d : MTRDevice) :
  result (_cachedAttributeValueForPath path d)
  = result (_clusterDataForPath (clusterPathOf path) d)
    ≫= (fun clusterData => attributes clusterData !! attribute path).
Proof.
  unfold _cachedAttributeValueForPath. rewrite result_bind.
  destruct (result (_clusterDataForPath (clusterPathOf path) d)); reflexivity.
Qed.

(** A read-cache look-up answers with the value the store holds. *)
Lemma _cachedAttributeValueForPath_readCacheValue (path : MTRAttributePath) (d : MTRDevice) :
  result (_cachedAttributeValueForPath path d) = readCacheValue path d.
Proof.
  rewrite _cachedAttributeValueForPath_result, _clusterDataForPath_result. reflexivity.
Qed.

Lemma _setCachedAttributeValue_cached (value : option MTRDeviceDataValueDictionary)
    (path other : MTRAttributePath) (d : MTRDevice) :
  result (_cachedAttributeValueForPath other (exec (_setCachedAttributeValue value path) d))
  = if bool_decide (other = path) then value
    else result (_cachedAttributeValueForPath other d).
Proof.
  rewrite !_cachedAttributeValueForPath_result, !_setCachedAttributeValue_lookup.
  set (found := result (_clusterDataForPath (clusterPathOf path) d)).
  destruct (bool_decide (other = path)) eqn:Hpath.
  - apply bool_decide_eq_true_1 in Hpath. subst other.
    rewrite bool_decide_eq_true_2 by reflexivity.
    destruct found as [clusterData|], value as [v|]; cbn;
      rewrite ?lookup_insert_eq, ?lookup_delete_eq; reflexivity.
  - apply bool_decide_eq_false_1 in Hpath.
    destruct (bool_decide (clusterPathOf other = clusterPathOf path)) eqn:Hcluster;
      [|reflexivity].
    apply bool_decide_eq_true_1 in Hcluster.
    assert (Hattribute : attribute other <> attribute path).
    { intros Heq. apply Hpath. destruct other, path. cbn in *.
      unfold clusterPathOf in Hcluster. cbn in Hcluster. congruence. }
    rewrite Hcluster. fold found.
    destruct found as [clusterData|], value as [v|]; cbn;
      rewrite ?lookup_insert_ne, ?lookup_delete_ne by congruence; reflexivity.
Qed.

Lemma _setCachedAttributeValue_storedDataVersion
    (value : option MTRDeviceDataValueDictionary) (path : MTRAttributePath)
    (other : MTRClusterPath) (d : MTRDevice) :
  storedDataVersion other (exec (_setCachedAttributeValue value path) d)
  = storedDataVersion other d.
Proof.
  unfold storedDataVersion. rewrite _setCachedAttributeValue_lookup.
  destruct (bool_decide (other = clusterPathOf path)) eqn:Hother; [|reflexivity].
  apply bool_decide_eq_true_1 in Hother. subst other.
  destruct (result (_clusterDataForPath (clusterPathOf path) d)) as [clusterData|],
    value as [v|]; reflexivity.
Qed.

(** X7.  After [-_setCachedAttributeValue:forPath:] a look-up of
    the path in the read cache answers with the value set ([nil] after
    setting [nil]); every other path answers as before; and the data
    version of every cluster is the one it had. *)
Theorem cached_value_set_then_get (value : option MTRDeviceDataValueDictionary)
    (path other : MTRAttributePath) (clusterPath : MTRClusterPath) (d : MTRDevice) :
  let d' := exec (_setCachedAttributeValue value path) d in
  result (_cachedAttributeValueForPath path d') = value
  /\ (other <> path ->
      result (_cachedAttributeValueForPath other d')
      = result (_cachedAttributeValueForPath other d))
  /\ storedDataVersion clusterPath d' = storedDataVersion clusterPath d.
Proof.
  cbv zeta. rewrite !_setCachedAttributeValue_cached, _setCachedAttributeValue_storedDataVersion.
  rewrite bool_decide_eq_true_2 by reflexivity.
  split; [reflexivity|]. split; [|reflexivity].
  intros Hne. rewrite bool_decide_eq_false_2 by exact Hne. reflexivity.
Qed.
(** ** Runs and what they dispatch *)

Section Runs.

Variable S : MTRDevice -> list Effect -> MTRDevice -> Prop.
Hypothesis S_nil : forall d, S d [] d.
Hypothesis S_app :
  forall d out1 d1 out2 d2, S d out1 d1 -> S d1 out2 d2 -> S d (out1 ++ out2) d2.

Lemma run_ok_ret {A : Type} (a : A) (d : MTRDevice) : run_ok S (ret a) d.
Proof. apply S_nil. Qed.

Lemma run_ok_bind_call {A B : Type} (m : M A) (k : A -> M B) (d : MTRDevice) :
  run_ok S m d -> (forall a d1, run_ok S (k a) d1) -> run_ok S (bind m k) d.
Proof.
  unfold run_ok. intros Hm Hk. rewrite effects_bind, device_after_bind.
  eapply S_app; [exact Hm | apply Hk].
Qed.

Lemma run_ok_bind_modify {B : Type} (f : MTRDevice -> MTRDevice) (k : unit -> M B)
    (d : MTRDevice) :
  S d [] (f d) -> run_ok S (k tt) (f d) -> run_ok S (bind (modify f) k) d.
Proof.
  unfold run_ok. intros Hf Hk. rewrite effects_bind, device_after_bind.
  autorewrite with run. change (effects (k tt (f d))) with ([] ++ effects (k tt (f d))).
  eapply S_app; [exact Hf | exact Hk].
Qed.

Lemma run_ok_bind_emit {B : Type} (e : Effect) (k : unit -> M B) (d : MTRDevice) :
  S d [e] d -> run_ok S (k tt) d -> run_ok S (bind (emit e) k) d.
Proof.
  unfold run_ok. intros He Hk. rewrite effects_bind, device_after_bind.
  autorewrite with run. eapply S_app; [exact He | exact Hk].
Qed.

Lemma follows_for_each {A : Type} (l : list A) (body : A -> M unit) :
  (forall x, follows S (body x)) -> follows S (for_each l body).
Proof.
  intros Hbody. induction l as [|x l IH]; cbn [for_each]; intros d.
  - apply run_ok_ret.
  - apply run_ok_bind_call; [apply Hbody | intros _ d1; apply IH].
Qed.

End Runs.

Lemma run_ok_bind_ret {A B : Type} (S : MTRDevice -> list Effect -> MTRDevice -> Prop)
    (a : A) (k : A -> M B) (d : MTRDevice) :
  run_ok S (k a) d -> run_ok S (bind (ret a) k) d.
Proof.
  unfold run_ok. rewrite effects_bind, device_after_bind. autorewrite with run. auto.
Qed.

Lemma run_ok_bind_get {A B : Type} (S : MTRDevice -> list Effect -> MTRDevice -> Prop)
    (f : MTRDevice -> A) (k : A -> M B) (d : MTRDevice) :
  run_ok S (k (f d)) d -> run_ok S (bind (get f) k) d.
Proof.
  unfold run_ok. rewrite effects_bind, device_after_bind. autorewrite with run. auto.
Qed.

Lemma bind_assoc {A B C : Type} (m : M A) (k : A -> M B) (k' : B -> M C) (d : MTRDevice) :
  bind (bind m k) k' d = bind m (fun a => bind (k a) k') d.
Proof.
  unfold bind. destruct (m d) as [[a d1] out1]. destruct (k a d1) as [[b d2] out2].
  destruct (k' b d2) as [[c d3] out3]. rewrite app_assoc. reflexivity.
Qed.

Lemma run_ok_bind_assoc {A B C : Type}
    (S : MTRDevice -> list Effect -> MTRDevice -> Prop)
    (m : M A) (k : A -> M B) (k' : B -> M C) (d : MTRDevice) :
  run_ok S (bind m (fun a => bind (k a) k')) d -> run_ok S (bind (bind m k) k') d.
Proof. unfold run_ok. rewrite bind_assoc. auto. Qed.

Lemma run_ok_bind_segment {A B C : Type}
    (S : MTRDevice -> list Effect -> MTRDevice -> Prop)
    (m : M A) (k : A -> M B) (k' : B -> M C) (d : MTRDevice) :
  run_ok S (bind (bind m k) k') d -> run_ok S (bind m (fun a => bind (k a) k')) d.
Proof. unfold run_ok. rewrite bind_assoc. auto. Qed.

Lemma bind_ret_r {A : Type} (m : M A) (d : MTRDevice) : bind m ret d = m d.
Proof.
  unfold bind, ret. destruct (m d) as [[a d1] out1]. rewrite app_nil_r. reflexivity.
Qed.

Lemma run_ok_terminal {A : Type} (S : MTRDevice -> list Effect -> MTRDevice -> Prop)
    (m : M A) (d : MTRDevice) :
  run_ok S (bind m ret) d -> run_ok S m d.
Proof. unfold run_ok. rewrite bind_ret_r. auto. Qed.

(** Take a run apart along the structure of the computation; [nil] and
    [app] are the two closure properties of the relation, [leaf] proves the
    relation for one state update or one dispatch, and the facts about the
    computations called are taken from the context. *)
Ltac run_step nil app leaf :=
  lazymatch goal with
  | |- run_ok _ (bind (ret _) _) _ => apply run_ok_bind_ret
  | |- run_ok _ (bind (get _) _) _ => apply run_ok_bind_get
  | |- run_ok _ (bind (modify _) _) _ =>
      apply (run_ok_bind_modify _ app); [solve [leaf] | ]
  | |- run_ok _ (bind (emit _) _) _ =>
      apply (run_ok_bind_emit _ app); [solve [leaf] | ]
  | |- run_ok _ (bind (bind _ _) _) _ => apply run_ok_bind_assoc
  | |- run_ok _ (bind (when ?c _) _) _ => unfold when at 1; destruct c eqn:?
  | |- run_ok _ (bind (if ?c then _ else _) _) _ => destruct c eqn:?
  | |- run_ok _ (bind (match ?c with _ => _ end) _) _ => destruct c eqn:?
  | |- run_ok _ (bind (for_each _ _) _) _ =>
      apply (run_ok_bind_call _ app);
      [apply (follows_for_each _ nil app); intros ? ? | intros ? ?]
  | |- run_ok _ (bind ?m _) _ =>
      apply (run_ok_bind_call _ app);
      [first [ solve [auto with follows]
             | match goal with H : forall d, run_ok _ m d |- _ => apply H end ]
      | intros ? ?]
  | |- run_ok _ (ret _) _ => apply (run_ok_ret _ nil)
  | |- run_ok _ _ _ => apply run_ok_terminal
  end.

Ltac run_steps nil app leaf := repeat (cbv zeta; run_step nil app leaf).

(** *** The relations are closed under sequencing *)

Lemma silent_without_delegate_nil (d : MTRDevice) : silent_without_delegate d [] d.
Proof. intros H. split; [exact H | constructor]. Qed.

Lemma silent_without_delegate_app (d : MTRDevice) (out1 : list Effect) (d1 : MTRDevice)
    (out2 : list Effect) (d2 : MTRDevice) :
  silent_without_delegate d out1 d1 -> silent_without_delegate d1 out2 d2 ->
  silent_without_delegate d (out1 ++ out2) d2.
Proof.
  intros H1 H2 H. destruct (H1 H) as [Hd1 Hout1]. destruct (H2 Hd1) as [Hd2 Hout2].
  split; [exact Hd2 | apply Forall_app; auto].
Qed.

Lemma at_most_once_nil (flag : MTRDevice -> bool) (isE : Effect -> bool) (d : MTRDevice) :
  at_most_once flag isE d [] d.
Proof.
  split; cbn.
  - destruct (flag d); lia.
  - intros [H|H]; [exact H | discriminate].
Qed.

Lemma at_most_once_app (flag : MTRDevice -> bool) (isE : Effect -> bool)
    (d : MTRDevice) (out1 : list Effect) (d1 : MTRDevice)
    (out2 : list Effect) (d2 : MTRDevice) :
  at_most_once flag isE d out1 d1 -> at_most_once flag isE d1 out2 d2 ->
  at_most_once flag isE d (out1 ++ out2) d2.
Proof.
  unfold at_most_once. rewrite List.filter_app, length_app.
  intros [Hn1 Hf1] [Hn2 Hf2].
  destruct (flag d) eqn:Hd.
  - assert (Hd1 : flag d1 = true) by auto. rewrite Hd1 in Hn2.
    split; [lia|]. intros _. apply Hf2. auto.
  - destruct (flag d1) eqn:Hd1.
    + split; [lia|]. intros _. apply Hf2. auto.
    + split; [lia|]. intros [H|H]; [discriminate|].
      apply Hf2. right.
      assert (length (List.filter isE out1) <> 1%nat)
        by (intros Hone; specialize (Hf1 (or_intror Hone)); discriminate).
      lia.
Qed.

Lemma stateChanges_app (out1 out2 : list Effect) :
  stateChanges (out1 ++ out2) = stateChanges out1 ++ stateChanges out2.
Proof. unfold stateChanges. apply omap_app. Qed.

Lemma distinct_neighbours_app (l1 l2 : list MTRDeviceState) :
  forall s : MTRDeviceState,
    distinct_neighbours s l1 -> distinct_neighbours (List.last l1 s) l2 ->
    distinct_neighbours s (l1 ++ l2).
Proof.
  induction l1 as [|s1 l1 IH]; intros s H1 H2; [exact H2|].
  cbn [app distinct_neighbours] in *.
  destruct H1 as [Hne H1]. split; [exact Hne|].
  apply IH; [exact H1|]. rewrite last_cons_default in H2. exact H2.
Qed.

Lemma last_app_default {A : Type} (l1 l2 : list A) (x : A) :
  List.last (l1 ++ l2) x = List.last l2 (List.last l1 x).
Proof.
  revert x. induction l1 as [|y l1 IH]; intros x; [reflexivity|].
  change ((y :: l1) ++ l2) with (y :: (l1 ++ l2)).
  rewrite !last_cons_default. apply IH.
Qed.

Lemma state_changes_notified_nil (d : MTRDevice) : state_changes_notified d [] d.
Proof. intros H. cbn. auto. Qed.

Lemma state_changes_notified_app (d : MTRDevice) (out1 : list Effect) (d1 : MTRDevice)
    (out2 : list Effect) (d2 : MTRDevice) :
  state_changes_notified d out1 d1 -> state_changes_notified d1 out2 d2 ->
  state_changes_notified d (out1 ++ out2) d2.
Proof.
  intros H1 H2 H. destruct (H1 H) as (Hd1 & Hn1 & Hl1). destruct (H2 Hd1) as (Hd2 & Hn2 & Hl2).
  rewrite stateChanges_app. split; [exact Hd2|]. split.
  - apply distinct_neighbours_app; [exact Hn1 | rewrite Hl1; exact Hn2].
  - rewrite last_app_default, Hl1. exact Hl2.
Qed.

Lemma well_behaved_nil (d : MTRDevice) : well_behaved d [] d.
Proof.
  repeat split; try apply at_most_once_nil.
  - apply silent_without_delegate_nil; assumption.
  - constructor.
  - assumption.
Qed.

Lemma well_behaved_app (d : MTRDevice) (out1 : list Effect) (d1 : MTRDevice)
    (out2 : list Effect) (d2 : MTRDevice) :
  well_behaved d out1 d1 -> well_behaved d1 out2 d2 -> well_behaved d (out1 ++ out2) d2.
Proof.
  intros (Ha & Hb & Hc & Hd) (Ha' & Hb' & Hc' & Hd').
  split; [eapply silent_without_delegate_app; eassumption|].
  split; [eapply at_most_once_app; eassumption|].
  split; [eapply at_most_once_app; eassumption|].
  eapply state_changes_notified_app; eassumption.
Qed.
(** ** What the parts of the device keep *)

Create HintDb follows.

(** One state update or one dispatch. *)
Ltac behaved_leaf :=
  unfold well_behaved, silent_without_delegate, at_most_once, state_changes_notified,
    subscriptionStarted in *;
  cbn in *;
  repeat match goal with
         | |- _ /\ _ => split
         | |- _ -> _ => intros ?
         | H : _ \/ _ |- _ => destruct H
         | |- Forall _ [] => constructor
         | |- Forall _ (_ :: _) => constructor
         | |- ~ _ => intros ?
         end;
  cbn in *;
  try solve [ assumption | reflexivity | congruence | lia | contradiction
            | match goal with
              | |- context [if ?b then _ else _] => destruct b; cbn; lia
              end ].

Ltac behaved := run_steps well_behaved_nil well_behaved_app behaved_leaf.

Lemma _clusterDataForPath_behaved (clusterPath : MTRClusterPath) (d : MTRDevice) :
  run_ok well_behaved (_clusterDataForPath clusterPath) d.
Proof.
  destruct (_clusterDataForPath_run clusterPath d) as (r & paged & Hrun).
  unfold run_ok. rewrite Hrun. autorewrite with run. behaved_leaf.
Qed.
#[global] Hint Resolve _clusterDataForPath_behaved : follows.

Lemma _cachedAttributeValueForPath_behaved (path : MTRAttributePath) (d : MTRDevice) :
  run_ok well_behaved (_cachedAttributeValueForPath path) d.
Proof. unfold _cachedAttributeValueForPath. behaved. Qed.
#[global] Hint Resolve _cachedAttributeValueForPath_behaved : follows.

Lemma _setCachedAttributeValue_behaved (value : option MTRDeviceDataValueDictionary)
    (path : MTRAttributePath) (d : MTRDevice) :
  run_ok well_behaved (_setCachedAttributeValue value path) d.
Proof. unfold _setCachedAttributeValue, markClusterDataToPersist. behaved. Qed.
#[global] Hint Resolve _setCachedAttributeValue_behaved : follows.

Lemma _noteDataVersion_behaved (dataVersion : Z) (clusterPath : MTRClusterPath)
    (d : MTRDevice) :
  run_ok well_behaved (_noteDataVersion dataVersion clusterPath) d.
Proof. unfold _noteDataVersion, markClusterDataToPersist. behaved. Qed.
#[global] Hint Resolve _noteDataVersion_behaved : follows.

Lemma _reportAttributes_behaved (attributes : list MTRAttributeResponseValue) (d : MTRDevice) :
  run_ok well_behaved (_reportAttributes attributes) d.
Proof. unfold _reportAttributes. destruct attributes; behaved. Qed.
#[global] Hint Resolve _reportAttributes_behaved : follows.

(** [-_changeState:] tells the delegate of the new state when the state
    changes, and only then. *)
Lemma _changeState_behaved (newState : MTRDeviceState) (d : MTRDevice) :
  run_ok well_behaved (_changeState newState) d.
Proof.
  unfold run_ok, _changeState. unfold_m. cbn.
  destruct (bool_decide (state d = newState)) eqn:Hsame; cbn.
  - apply bool_decide_eq_true_1 in Hsame. behaved_leaf.
  - apply bool_decide_eq_false_1 in Hsame.
    destruct (bool_decide (newState = MTRDeviceStateReachable)); cbn;
      destruct (weakDelegate d) eqn:Hdelegate; cbn; behaved_leaf.
Qed.
#[global] Hint Resolve _changeState_behaved : follows.

(** [-_setupSubscription] asks for a session when no subscription has been
    started, and marks it started. *)
Lemma _setupSubscription_behaved (d : MTRDevice) : run_ok well_behaved _setupSubscription d.
Proof.
  unfold run_ok, _setupSubscription, _setupConnectivityMonitoring. unfold_m. cbn.
  destruct (internalDeviceState d) eqn:Hinternal; cbn; behaved_leaf;
    rewrite ?Hinternal in *; cbn in *; try congruence; try lia.
Qed.
#[global] Hint Resolve _setupSubscription_behaved : follows.

Lemma removeExpired_behaved (infos : list (MTRAttributePath * MTRDeviceDataValueDictionary)) :
  forall d : MTRDevice, run_ok well_behaved (removeExpired infos) d.
Proof.
  induction infos as [|[attributePath attributeDataValue] rest IH]; intros d;
    cbn [removeExpired]; cbv zeta; behaved.
Qed.
#[global] Hint Resolve removeExpired_behaved : follows.

Lemma _checkExpiredExpectedValues_behaved (now : NSDate) (d : MTRDevice) :
  run_ok well_behaved (_checkExpiredExpectedValues now) d.
Proof. unfold _checkExpiredExpectedValues. cbv zeta. behaved. Qed.
#[global] Hint Resolve _checkExpiredExpectedValues_behaved : follows.

Lemma _performScheduledExpirationCheck_behaved (now : NSDate) (d : MTRDevice) :
  run_ok well_behaved (_performScheduledExpirationCheck now) d.
Proof. unfold _performScheduledExpirationCheck. behaved. Qed.
#[global] Hint Resolve _performScheduledExpirationCheck_behaved : follows.

Lemma _attributeValueDictionaryForAttributePath_behaved (attributePath : MTRAttributePath)
    (now : NSDate) (d : MTRDevice) :
  run_ok well_behaved (_attributeValueDictionaryForAttributePath attributePath now) d.
Proof. unfold _attributeValueDictionaryForAttributePath. cbv zeta. behaved. Qed.
#[global] Hint Resolve _attributeValueDictionaryForAttributePath_behaved : follows.

Lemma _setExpectedValue_behaved (expectedAttributeValue : option MTRDeviceDataValueDictionary)
    (attributePath : MTRAttributePath) (expirationTime : NSDate) (expectedValueID : Z)
    (d : MTRDevice) :
  run_ok well_behaved
    (_setExpectedValue expectedAttributeValue attributePath expirationTime expectedValueID) d.
Proof. unfold _setExpectedValue. cbv zeta. behaved. Qed.
#[global] Hint Resolve _setExpectedValue_behaved : follows.

Lemma setExpectedValuesLoop_behaved (values : list MTRAttributeResponseValue)
    (expirationTime : NSDate) (expectedValueID : Z) :
  forall d : MTRDevice,
    run_ok well_behaved (setExpectedValuesLoop values expirationTime expectedValueID) d.
Proof.
  induction values as [|value rest IH]; intros d; cbn [setExpectedValuesLoop]; cbv zeta;
    behaved.
Qed.
#[global] Hint Resolve setExpectedValuesLoop_behaved : follows.

Lemma setExpectedValues_behaved (values : list MTRAttributeResponseValue)
    (expectedValueInterval : Z) (now : NSDate) (d : MTRDevice) :
  run_ok well_behaved (setExpectedValues values expectedValueInterval now) d.
Proof.
  unfold setExpectedValues, _getAttributesToReportWithNewExpectedValues. cbv zeta. behaved.
Qed.
#[global] Hint Resolve setExpectedValues_behaved : follows.

Lemma _removeExpectedValueForAttributePath_behaved (attributePath : MTRAttributePath)
    (expectedValueID : Z) (d : MTRDevice) :
  run_ok well_behaved (_removeExpectedValueForAttributePath attributePath expectedValueID) d.
Proof. unfold _removeExpectedValueForAttributePath. behaved. Qed.
#[global] Hint Resolve _removeExpectedValueForAttributePath_behaved : follows.

Lemma removeExpectedValuesForAttributePaths_behaved (attributePaths : list MTRAttributePath)
    (expectedValueID : Z) (d : MTRDevice) :
  run_ok well_behaved (removeExpectedValuesForAttributePaths attributePaths expectedValueID) d.
Proof.
  unfold removeExpectedValuesForAttributePaths.
  apply (follows_for_each _ well_behaved_nil well_behaved_app). intros path d1. auto with follows.
Qed.
#[global] Hint Resolve removeExpectedValuesForAttributePaths_behaved : follows.

(** *** The subscription *)

Lemma _stopConnectivityMonitoring_behaved (d : MTRDevice) :
  run_ok well_behaved _stopConnectivityMonitoring d.
Proof. unfold _stopConnectivityMonitoring. behaved. Qed.
#[global] Hint Resolve _stopConnectivityMonitoring_behaved : follows.

Lemma _setupConnectivityMonitoring_behaved (d : MTRDevice) :
  run_ok well_behaved _setupConnectivityMonitoring d.
Proof. unfold _setupConnectivityMonitoring. behaved. Qed.
#[global] Hint Resolve _setupConnectivityMonitoring_behaved : follows.

Lemma _scheduleNextUpdate_behaved (nextUpdateInSeconds : Z) (d : MTRDevice) :
  run_ok well_behaved (_scheduleNextUpdate nextUpdateInSeconds) d.
Proof. unfold _scheduleNextUpdate. behaved. Qed.
#[global] Hint Resolve _scheduleNextUpdate_behaved : follows.

(** The guarded call of [-_handleSubscriptionEstablished]: the delegate is
    told that the cache is primed unless it has been told. *)
Lemma established_primed_segment_behaved (d : MTRDevice) :
  run_ok well_behaved
    (called <- get delegateDeviceCachePrimedCalled ;;
     when (negb called) _callDelegateDeviceCachePrimed) d.
Proof.
  unfold run_ok, _callDelegateDeviceCachePrimed, _callDelegateWithBlock. unfold_m. cbn.
  destruct (delegateDeviceCachePrimedCalled d) eqn:Hcalled; cbn; [behaved_leaf|].
  destruct (weakDelegate d) eqn:Hdelegate; cbn; behaved_leaf;
    rewrite ?Hcalled in *; cbn in *; try congruence; try lia.
Qed.

Lemma _handleSubscriptionEstablished_behaved (d : MTRDevice) :
  run_ok well_behaved _handleSubscriptionEstablished d.
Proof.
  unfold _handleSubscriptionEstablished.
  pose proof established_primed_segment_behaved as Hsegment.
  run_step well_behaved_nil well_behaved_app behaved_leaf.
  run_step well_behaved_nil well_behaved_app behaved_leaf.
  apply (run_ok_bind_segment well_behaved (get delegateDeviceCachePrimedCalled)
           (fun called => when (negb called) _callDelegateDeviceCachePrimed)).
  apply (run_ok_bind_call _ well_behaved_app); [apply Hsegment | intros ? ?].
  behaved.
Qed.
#[global] Hint Resolve _handleSubscriptionEstablished_behaved : follows.

Lemma _handleResubscriptionNeeded_behaved (now : NSDate) (d : MTRDevice) :
  run_ok well_behaved (_handleResubscriptionNeeded now) d.
Proof. unfold _handleResubscriptionNeeded. behaved. Qed.
#[global] Hint Resolve _handleResubscriptionNeeded_behaved : follows.

Lemma _handleSubscriptionReset_behaved (retryDelay : option Z) (now : NSDate) (d : MTRDevice) :
  run_ok well_behaved (_handleSubscriptionReset retryDelay now) d.
Proof. unfold _handleSubscriptionReset. behaved. Qed.
#[global] Hint Resolve _handleSubscriptionReset_behaved : follows.

Lemma _reattemptSubscriptionNowIfNeeded_behaved (d : MTRDevice) :
  run_ok well_behaved _reattemptSubscriptionNowIfNeeded d.
Proof. unfold _reattemptSubscriptionNowIfNeeded. behaved. Qed.
#[global] Hint Resolve _reattemptSubscriptionNowIfNeeded_behaved : follows.

Lemma _handleUnsolicitedMessageFromPublisher_behaved (d : MTRDevice) :
  run_ok well_behaved _handleUnsolicitedMessageFromPublisher d.
Proof. unfold _handleUnsolicitedMessageFromPublisher. behaved. Qed.
#[global] Hint Resolve _handleUnsolicitedMessageFromPublisher_behaved : follows.

Lemma _markDeviceAsUnreachableIfNeverSubscribed_behaved (d : MTRDevice) :
  run_ok well_behaved _markDeviceAsUnreachableIfNeverSubscribed d.
Proof. unfold _markDeviceAsUnreachableIfNeverSubscribed. behaved. Qed.
#[global] Hint Resolve _markDeviceAsUnreachableIfNeverSubscribed_behaved : follows.

Lemma _handleReportBegin_behaved (d : MTRDevice) : run_ok well_behaved _handleReportBegin d.
Proof. unfold _handleReportBegin. behaved. Qed.
#[global] Hint Resolve _handleReportBegin_behaved : follows.

Lemma _handleReportEnd_behaved (d : MTRDevice) : run_ok well_behaved _handleReportEnd d.
Proof.
  unfold _handleReportEnd. behaved.
  apply (run_ok_bind_modify _ well_behaved_app).
  - cbn. destruct (controllerDataStore d) as [stored|], (clusterDataToPersist d) as [dirty|];
      try destruct (bool_decide (size dirty = 0%nat)); behaved_leaf.
  - behaved.
Qed.
#[global] Hint Resolve _handleReportEnd_behaved : follows.

Lemma _subscriptionAbleToReport_behaved (d : MTRDevice) :
  run_ok well_behaved _subscriptionAbleToReport d.
Proof. unfold _subscriptionAbleToReport. behaved. Qed.
#[global] Hint Resolve _subscriptionAbleToReport_behaved : follows.

Lemma _readThroughSkipped_behaved (now : NSDate) (d : MTRDevice) :
  run_ok well_behaved (_readThroughSkipped now) d.
Proof. unfold _readThroughSkipped. behaved. Qed.
#[global] Hint Resolve _readThroughSkipped_behaved : follows.

(** *** Cache priming, report ingestion *)

Section BehaviourWithConstants.

Context {K : MTRConstants}.

Lemma partsListEndpointsHaveDeviceTypeList_behaved (partsList : list NSDictionary) :
  forall d : MTRDevice,
    run_ok well_behaved (partsListEndpointsHaveDeviceTypeList partsList) d.
Proof.
  induction partsList as [|endpointDictionary rest IH]; intros d;
    cbn [partsListEndpointsHaveDeviceTypeList].
  - behaved.
  - destruct (MTRDataKey endpointDictionary) as [[| | | |endpointDataValue]|];
      try apply IH.
    destruct (negb _); [apply IH|].
    destruct (MTRValueKey endpointDataValue) as [[endpoint| | | |]|]; try apply IH.
    behaved.
Qed.

Lemma _isCachePrimedWithInitialConfigurationData_behaved (d : MTRDevice) :
  run_ok well_behaved _isCachePrimedWithInitialConfigurationData d.
Proof.
  pose proof partsListEndpointsHaveDeviceTypeList_behaved.
  unfold _isCachePrimedWithInitialConfigurationData. behaved.
  all: auto.
Qed.

Lemma setPersistedClusterData_behaved
    (clusterData : gmap MTRClusterPath MTRDeviceClusterData) (d : MTRDevice) :
  run_ok well_behaved (setPersistedClusterData clusterData) d.
Proof.
  pose proof _isCachePrimedWithInitialConfigurationData_behaved.
  unfold setPersistedClusterData.
  destruct (bool_decide (size clusterData = 0%nat)); behaved.
Qed.

Lemma noteSystemUpTime_behaved (upTimeSeconds : Z) (now : NSDate) (d : MTRDevice) :
  run_ok well_behaved (noteSystemUpTime upTimeSeconds now) d.
Proof. unfold noteSystemUpTime. behaved. Qed.

Lemma notePrimingSignal_behaved (attributePath : MTRAttributePath) (d : MTRDevice) :
  run_ok well_behaved (notePrimingSignal attributePath) d.
Proof. unfold notePrimingSignal. behaved. Qed.

Lemma reportedErrorStep_behaved (attributeResponseValue : MTRAttributeResponseValue)
    (d : MTRDevice) :
  run_ok well_behaved (reportedErrorStep attributeResponseValue) d.
Proof. unfold reportedErrorStep. behaved. Qed.

Lemma updateReadCache_behaved (dataVersion : option Z) (attributePath : MTRAttributePath)
    (attributeDataValue : MTRDeviceDataValueDictionary) (d : MTRDevice) :
  run_ok well_behaved (updateReadCache dataVersion attributePath attributeDataValue) d.
Proof. unfold updateReadCache. behaved. Qed.

Lemma noteUpTimeAttribute_behaved (now : NSDate) (attributePath : MTRAttributePath)
    (attributeDataValue : MTRDeviceDataValueDictionary) (d : MTRDevice) :
  run_ok well_behaved (noteUpTimeAttribute now attributePath attributeDataValue) d.
Proof.
  pose proof noteSystemUpTime_behaved.
  unfold noteUpTimeAttribute. unfold when. destruct (_ && _); behaved.
Qed.

Lemma reportedDataStep_behaved (now : NSDate)
    (attributeResponseValue : MTRAttributeResponseValue)
    (attributeDataValue : MTRDeviceDataValueDictionary) (d : MTRDevice) :
  run_ok well_behaved (reportedDataStep now attributeResponseValue attributeDataValue) d.
Proof.
  pose proof updateReadCache_behaved. pose proof noteUpTimeAttribute_behaved.
  unfold reportedDataStep. behaved.
Qed.

Lemma reportedValueStep_behaved (now : NSDate)
    (attributeResponseValue : MTRAttributeResponseValue) (d : MTRDevice) :
  run_ok well_behaved (reportedValueStep now attributeResponseValue) d.
Proof.
  pose proof notePrimingSignal_behaved. pose proof reportedErrorStep_behaved.
  pose proof reportedDataStep_behaved.
  unfold reportedValueStep. cbv zeta.
  destruct (MTRErrorKey attributeResponseValue), (rv_data attributeResponseValue); behaved.
Qed.

Lemma _getAttributesToReportWithReportedValues_behaved (now : NSDate)
    (reportedAttributeValues : list MTRAttributeResponseValue) :
  forall d : MTRDevice,
    run_ok well_behaved
      (_getAttributesToReportWithReportedValues now reportedAttributeValues) d.
Proof.
  pose proof reportedValueStep_behaved.
  induction reportedAttributeValues as [|entry rest IH]; intros d;
    cbn [_getAttributesToReportWithReportedValues]; behaved.
Qed.

Lemma _handleAttributeReport_behaved (now : NSDate)
    (attributeReport : list MTRAttributeResponseValue) (d : MTRDevice) :
  run_ok well_behaved (_handleAttributeReport now attributeReport) d.
Proof.
  pose proof _getAttributesToReportWithReportedValues_behaved.
  unfold _handleAttributeReport. behaved.
Qed.

Lemma eventReportStep_behaved (now : NSDate) (eventDict : MTREventReport) (d : MTRDevice) :
  run_ok well_behaved (eventReportStep now eventDict) d.
Proof.
  pose proof noteSystemUpTime_behaved.
  unfold eventReportStep. behaved.
Qed.

Lemma eventReportLoop_behaved (now : NSDate) (eventReport : list MTREventReport) :
  forall d : MTRDevice, run_ok well_behaved (eventReportLoop now eventReport) d.
Proof.
  pose proof eventReportStep_behaved.
  induction eventReport as [|eventDict rest IH]; intros d; cbn [eventReportLoop]; behaved.
Qed.

Lemma _handleEventReport_behaved (now : NSDate) (eventReport : list MTREventReport)
    (d : MTRDevice) :
  run_ok well_behaved (_handleEventReport now eventReport) d.
Proof.
  pose proof eventReportLoop_behaved.
  unfold _handleEventReport. behaved.
Qed.

End BehaviourWithConstants.

(** *** Work items *)

Section BehaviourOfInteractions.

Context {K : MTRConstants}.

Lemma readAttributeWithEndpointID_behaved (endpointID clusterID attributeID : Z)
    (params : option MTRReadParams) (now : NSDate) (d : MTRDevice) :
  run_ok well_behaved
    (readAttributeWithEndpointID endpointID clusterID attributeID params now) d.
Proof.
  unfold readAttributeWithEndpointID, hasDuplicateForTypeID, enqueueWorkItem. behaved.
Qed.

Lemma writeAttributeWithEndpointID_behaved (endpointID clusterID attributeID : Z)
    (value : NSDictionary) (expectedValueInterval : Z) (timeout : option Z) (now : NSDate)
    (d : MTRDevice) :
  run_ok well_behaved
    (writeAttributeWithEndpointID endpointID clusterID attributeID value
       expectedValueInterval timeout now) d.
Proof. unfold writeAttributeWithEndpointID, enqueueWorkItem. behaved. Qed.

Lemma writeCompletion_behaved (attributePath : MTRAttributePath)
    (useValueAsExpectedValue : bool) (request : WriteRequest) (error : option NSError)
    (d : MTRDevice) :
  run_ok well_behaved (writeCompletion attributePath useValueAsExpectedValue request error) d.
Proof. unfold writeCompletion, removeExpectedValueForAttributePath. behaved. Qed.

Lemma _invokeCommandWithEndpointID_behaved (endpointID clusterID commandID : Z)
    (commandFields : NSDictionary)
    (expectedValues : option (list MTRAttributeResponseValue))
    (expectedValueInterval timeout serverSideProcessingTimeout : option Z) (now : NSDate)
    (d : MTRDevice) :
  run_ok well_behaved
    (_invokeCommandWithEndpointID endpointID clusterID commandID commandFields
       expectedValues expectedValueInterval timeout serverSideProcessingTimeout now) d.
Proof.
  unfold _invokeCommandWithEndpointID, enqueueWorkItem.
  destruct (invokeExpectedValues expectedValues expectedValueInterval) as [values interval].
  behaved.
Qed.

Lemma workDone_behaved (request : InvokeRequest)
    (values : option (list MTRAttributeResponseValue)) (error : option NSError)
    (d : MTRDevice) :
  run_ok well_behaved (workDone request values error) d.
Proof. unfold workDone. behaved. Qed.

Lemma invokeReadyHandler_behaved (request : InvokeRequest) (now : NSDate) (d : MTRDevice) :
  run_ok well_behaved (invokeReadyHandler request now) d.
Proof.
  pose proof workDone_behaved.
  unfold invokeReadyHandler. cbv zeta.
  destruct (inv_timeout request), (inv_cutoffTime request);
    try destruct (NSOrderedDescending _ _); behaved.
Qed.

Lemma invokeCompletion_behaved (request : InvokeRequest) (retryCount : Z)
    (values : option (list MTRAttributeResponseValue)) (error : option NSError)
    (d : MTRDevice) :
  run_ok well_behaved (invokeCompletion request retryCount values error) d.
Proof.
  pose proof workDone_behaved.
  unfold invokeCompletion.
  destruct error as [[[]|]|]; try destruct (_ <? _); behaved.
Qed.

Lemma readReadyHandler_behaved (readRequests : list ReadRequest) (d : MTRDevice) :
  run_ok well_behaved (readReadyHandler readRequests) d.
Proof. unfold readReadyHandler. destruct readRequests; behaved. Qed.

Lemma readCompletion_behaved (retryCount : Z)
    (values : option (list MTRAttributeResponseValue)) (error : option NSError)
    (now : NSDate) (d : MTRDevice) :
  run_ok well_behaved (readCompletion retryCount values error now) d.
Proof.
  pose proof _handleAttributeReport_behaved.
  unfold readCompletion. behaved.
Qed.

Lemma writeReadyHandler_behaved (writeRequests : list WriteRequest) (d : MTRDevice) :
  run_ok well_behaved (writeReadyHandler writeRequests) d.
Proof. unfold writeReadyHandler. destruct writeRequests; behaved. Qed.

End BehaviourOfInteractions.
(** ** Sequences of calls *)

Lemma behaved_silent {A : Type} (m : M A) (d : MTRDevice) :
  run_ok well_behaved m d -> run_ok silent_without_delegate m d.
Proof. intros H. apply H. Qed.

Lemma behaved_primed_once {A : Type} (m : M A) (d : MTRDevice) :
  run_ok well_behaved m d ->
  run_ok (at_most_once delegateDeviceCachePrimedCalled is_cachePrimed_call) m d.
Proof. intros H. apply H. Qed.

Lemma behaved_session_once {A : Type} (m : M A) (d : MTRDevice) :
  run_ok well_behaved m d ->
  run_ok (at_most_once subscriptionStarted is_session_request) m d.
Proof. intros H. apply H. Qed.

Lemma behaved_notified {A : Type} (m : M A) (d : MTRDevice) :
  run_ok well_behaved m d -> run_ok state_changes_notified m d.
Proof. intros H. apply H. Qed.

#[global] Hint Resolve behaved_silent behaved_primed_once behaved_session_once
  behaved_notified : follows.

Ltac silent_steps :=
  run_steps silent_without_delegate_nil silent_without_delegate_app behaved_leaf.
Ltac primed_steps :=
  run_steps (at_most_once_nil delegateDeviceCachePrimedCalled is_cachePrimed_call)
    (at_most_once_app delegateDeviceCachePrimedCalled is_cachePrimed_call) behaved_leaf.
Ltac session_steps :=
  run_steps (at_most_once_nil subscriptionStarted is_session_request)
    (at_most_once_app subscriptionStarted is_session_request) behaved_leaf.
Ltac notified_steps :=
  run_steps state_changes_notified_nil state_changes_notified_app behaved_leaf.

(** *** [-invalidate] *)

Lemma invalidate_silent (d : MTRDevice) : run_ok silent_without_delegate invalidate d.
Proof.
  unfold invalidate, asyncWorkQueue_invalidate, _stopConnectivityMonitoring. silent_steps.
Qed.

Lemma invalidate_primed_once (d : MTRDevice) :
  run_ok (at_most_once delegateDeviceCachePrimedCalled is_cachePrimed_call) invalidate d.
Proof.
  unfold invalidate, asyncWorkQueue_invalidate, _stopConnectivityMonitoring. primed_steps.
Qed.

Lemma invalidate_session_once (d : MTRDevice) :
  run_ok (at_most_once subscriptionStarted is_session_request) invalidate d.
Proof.
  unfold invalidate, asyncWorkQueue_invalidate, _stopConnectivityMonitoring. session_steps.
Qed.

(** *** [-_handleSubscriptionError:] *)

Lemma _handleSubscriptionError_silent (d : MTRDevice) :
  run_ok silent_without_delegate _handleSubscriptionError d.
Proof. unfold _handleSubscriptionError. silent_steps. Qed.

Lemma _handleSubscriptionError_primed_once (d : MTRDevice) :
  run_ok (at_most_once delegateDeviceCachePrimedCalled is_cachePrimed_call)
    _handleSubscriptionError d.
Proof. unfold _handleSubscriptionError. primed_steps. Qed.

Lemma _handleSubscriptionError_notified (d : MTRDevice) :
  run_ok state_changes_notified _handleSubscriptionError d.
Proof. unfold _handleSubscriptionError. notified_steps. Qed.

(** *** [-setDelegate:queue:] *)

Section SetDelegate.

Context {K : MTRConstants}.

Lemma pages_only_nil (d : MTRDevice) : pages_only d [] d.
Proof.
  split; [reflexivity|]. exists (persistedClusterData d).
  symmetry. apply set_persistedClusterData_same.
Qed.

Lemma pages_only_app (d : MTRDevice) (out1 : list Effect) (d1 : MTRDevice)
    (out2 : list Effect) (d2 : MTRDevice) :
  pages_only d out1 d1 -> pages_only d1 out2 d2 -> pages_only d (out1 ++ out2) d2.
Proof.
  intros [-> (paged & ->)] [-> (paged' & ->)]. split; [reflexivity|].
  exists paged'. destruct d; reflexivity.
Qed.

Lemma _cachedAttributeValueForPath_pages_only (path : MTRAttributePath) (d : MTRDevice) :
  run_ok pages_only (_cachedAttributeValueForPath path) d.
Proof.
  destruct (_cachedAttributeValueForPath_run path d) as (r & paged & Hrun).
  unfold run_ok. rewrite Hrun. split; [reflexivity|]. exists paged. reflexivity.
Qed.

Lemma partsListEndpointsHaveDeviceTypeList_pages_only (partsList : list NSDictionary) :
  forall d : MTRDevice,
    run_ok pages_only (partsListEndpointsHaveDeviceTypeList partsList) d.
Proof.
  pose proof _cachedAttributeValueForPath_pages_only.
  induction partsList as [|endpointDictionary rest IH]; intros d;
    cbn [partsListEndpointsHaveDeviceTypeList].
  - apply pages_only_nil.
  - destruct (MTRDataKey endpointDictionary) as [[| | | |endpointDataValue]|];
      try apply IH.
    destruct (negb _); [apply IH|].
    destruct (MTRValueKey endpointDataValue) as [[endpoint| | | |]|]; try apply IH.
    run_steps pages_only_nil pages_only_app idtac.
Qed.

Lemma _isCachePrimedWithInitialConfigurationData_pages_only (d : MTRDevice) :
  run_ok pages_only _isCachePrimedWithInitialConfigurationData d.
Proof.
  pose proof _cachedAttributeValueForPath_pages_only.
  pose proof partsListEndpointsHaveDeviceTypeList_pages_only.
  unfold _isCachePrimedWithInitialConfigurationData.
  run_steps pages_only_nil pages_only_app idtac. all: auto.
Qed.

Lemma setDelegate_tail_primed_once (d : MTRDevice) :
  weakDelegate d = true ->
  run_ok (at_most_once delegateDeviceCachePrimedCalled is_cachePrimed_call)
    (called <- get delegateDeviceCachePrimedCalled ;;
     (if negb called then
        primed <- _isCachePrimedWithInitialConfigurationData ;;
        when primed _callDelegateDeviceCachePrimed
      else ret tt) ;;;
     _setupSubscription) d.
Proof.
  intros Hdelegate.
  apply run_ok_bind_get.
  destruct (delegateDeviceCachePrimedCalled d) eqn:Hcalled; cbn [negb].
  - primed_steps.
  - apply (run_ok_bind_call _ (at_most_once_app _ _)); [|intros ? ?; primed_steps].
    unfold run_ok. rewrite effects_bind, device_after_bind.
    destruct (_isCachePrimedWithInitialConfigurationData_pages_only d)
      as [Hout (paged & Hafter)].
    rewrite Hout, Hafter.
    destruct (result (_isCachePrimedWithInitialConfigurationData d)).
    + unfold when, _callDelegateDeviceCachePrimed, _callDelegateWithBlock. unfold_m. cbn.
      rewrite Hdelegate. unfold at_most_once. cbn. rewrite Hcalled. auto.
    + unfold when. autorewrite with run. unfold at_most_once. cbn. rewrite Hcalled.
      split; [lia|]. intros [H|H]; discriminate.
Qed.

Lemma setDelegate_primed_once (d : MTRDevice) :
  run_ok (at_most_once delegateDeviceCachePrimedCalled is_cachePrimed_call) setDelegate d.
Proof.
  unfold setDelegate.
  apply (run_ok_bind_modify _ (at_most_once_app _ _)); [behaved_leaf|].
  apply setDelegate_tail_primed_once. reflexivity.
Qed.

(** [-_callDelegateDeviceCachePrimed] asks for no session and tells of no
    state. *)
Lemma _callDelegateDeviceCachePrimed_session_once (d : MTRDevice) :
  run_ok (at_most_once subscriptionStarted is_session_request)
    _callDelegateDeviceCachePrimed d.
Proof. unfold _callDelegateDeviceCachePrimed, _callDelegateWithBlock. session_steps. Qed.

Lemma _callDelegateDeviceCachePrimed_notified (d : MTRDevice) :
  run_ok state_changes_notified _callDelegateDeviceCachePrimed d.
Proof. unfold _callDelegateDeviceCachePrimed, _callDelegateWithBlock. notified_steps. Qed.

Lemma setDelegate_session_once (d : MTRDevice) :
  run_ok (at_most_once subscriptionStarted is_session_request) setDelegate d.
Proof.
  pose proof _isCachePrimedWithInitialConfigurationData_behaved as Hprimed.
  pose proof _callDelegateDeviceCachePrimed_session_once.
  unfold setDelegate. session_steps.
Qed.

Lemma setDelegate_notified (d : MTRDevice) :
  run_ok state_changes_notified setDelegate d.
Proof.
  pose proof _isCachePrimedWithInitialConfigurationData_behaved as Hprimed.
  pose proof _callDelegateDeviceCachePrimed_notified.
  unfold setDelegate. notified_steps.
Qed.

End SetDelegate.

(** *** Every call *)

Section Calls.

Context {K : MTRConstants}.

Lemma runCall_behaved (call : DeviceCall) (d : MTRDevice) :
  call <> call_setDelegate -> call <> call_invalidate -> call <> call_subscriptionError ->
  run_ok well_behaved (runCall call) d.
Proof.
  pose proof setPersistedClusterData_behaved.
  pose proof _handleAttributeReport_behaved.
  pose proof _handleEventReport_behaved.
  pose proof readAttributeWithEndpointID_behaved.
  pose proof readReadyHandler_behaved.
  pose proof readCompletion_behaved.
  pose proof writeAttributeWithEndpointID_behaved.
  pose proof writeReadyHandler_behaved.
  pose proof writeCompletion_behaved.
  pose proof _invokeCommandWithEndpointID_behaved.
  pose proof invokeReadyHandler_behaved.
  pose proof invokeCompletion_behaved.
  intros Hdelegate Hinvalidate Herror.
  destruct call; cbn [runCall]; try congruence;
    unfold removeExpectedValueForAttributePath;
    try solve [auto with follows]; behaved.
Qed.

Lemma runCall_silent (call : DeviceCall) (d : MTRDevice) :
  call <> call_setDelegate -> run_ok silent_without_delegate (runCall call) d.
Proof.
  intros Hdelegate.
  destruct call; try congruence;
    first [ apply invalidate_silent
          | apply _handleSubscriptionError_silent
          | apply behaved_silent, runCall_behaved; discriminate ].
Qed.

Lemma runCall_primed_once (call : DeviceCall) (d : MTRDevice) :
  run_ok (at_most_once delegateDeviceCachePrimedCalled is_cachePrimed_call)
    (runCall call) d.
Proof.
  destruct call;
    first [ apply setDelegate_primed_once
          | apply invalidate_primed_once
          | apply _handleSubscriptionError_primed_once
          | apply behaved_primed_once, runCall_behaved; discriminate ].
Qed.

Lemma runCall_session_once (call : DeviceCall) (d : MTRDevice) :
  call <> call_subscriptionError ->
  run_ok (at_most_once subscriptionStarted is_session_request) (runCall call) d.
Proof.
  intros Herror.
  destruct call; try congruence;
    first [ apply setDelegate_session_once
          | apply invalidate_session_once
          | apply behaved_session_once, runCall_behaved; discriminate ].
Qed.

Lemma runCall_notified (call : DeviceCall) (d : MTRDevice) :
  call <> call_invalidate -> run_ok state_changes_notified (runCall call) d.
Proof.
  intros Hinvalidate.
  destruct call; try congruence;
    first [ apply setDelegate_notified
          | apply _handleSubscriptionError_notified
          | apply behaved_notified, runCall_behaved; discriminate ].
Qed.

(** A relation closed under sequencing that every call of a sequence
    keeps is kept by the sequence. *)
Lemma runCalls_keep (S : MTRDevice -> list Effect -> MTRDevice -> Prop)
    (P : DeviceCall -> Prop) (calls : list DeviceCall) :
  (forall d, S d [] d) ->
  (forall d out1 d1 out2 d2, S d out1 d1 -> S d1 out2 d2 -> S d (out1 ++ out2) d2) ->
  (forall call d, P call -> run_ok S (runCall call) d) ->
  Forall P calls ->
  forall d, run_ok S (runCalls calls) d.
Proof.
  intros Hnil Happ Hcall Hcalls. unfold runCalls.
  induction Hcalls as [|call calls HP Hrest IH]; intros d; cbn [for_each].
  - apply run_ok_ret. exact Hnil.
  - apply (run_ok_bind_call _ Happ); [apply Hcall; exact HP | intros _ d1; apply IH].
Qed.

End Calls.

Lemma Forall_not_elem_of (call : DeviceCall) (calls : list DeviceCall) :
  call ∉ calls -> Forall (fun c => c <> call) calls.
Proof.
  intros Hnot. apply Forall_forall. intros c Hin ->. contradiction.
Qed.

(** X8.  A device without delegate, as it is before the first
    [-setDelegate:queue:] and after [-invalidate], makes no call on the
    delegate queue, whatever its client, its subscription, its timers and
    its work items do to it, until a delegate is set; and it stays without
    delegate. *)
Theorem no_delegate_no_callbacks {K : MTRConstants}
    (calls : list DeviceCall) (d : MTRDevice) :
  weakDelegate d = false ->
  call_setDelegate ∉ calls ->
  Forall (fun e => ~ is_delegate_call e) (effects (runCalls calls d))
  /\ weakDelegate (exec (runCalls calls) d) = false.
Proof.
  intros Hdelegate Hcalls.
  pose proof (runCalls_keep silent_without_delegate (fun c => c <> call_setDelegate) calls
                silent_without_delegate_nil silent_without_delegate_app
                (fun call d H => runCall_silent call d H)
                (Forall_not_elem_of _ _ Hcalls) d) as Hrun.
  destruct (Hrun Hdelegate) as [Hafter Hout]. split; assumption.
Qed.

Lemma no_delegate_no_callbacks_witness :
  Forall (fun e => ~ is_delegate_call e)
    (effects (runCalls (K := MatterConstants)
                [call_reportBegin;
                 call_attributeReport 0 [mkResponseValue onOffPath (Some booleanTrue) None None];
                 call_reportEnd; call_subscriptionEstablished]
                (exec invalidate deviceWithDelegate))).
Proof.
  refine (proj1 (no_delegate_no_callbacks (K := MatterConstants) _ _ _ _)).
  - reflexivity.
  - intros Hin.
    repeat (apply elem_of_cons in Hin as [Hin|Hin]; [discriminate Hin|]).
    revert Hin. apply not_elem_of_nil.
Defined.

(** X9.  Whatever is done to a device, the delegate is told at
    most once that the cache is primed, and not at all once
    [_delegateDeviceCachePrimedCalled] is set; setting a delegate anew and
    establishing the subscription anew do not repeat the call. *)
Theorem cache_primed_told_at_most_once {K : MTRConstants}
    (calls : list DeviceCall) (d : MTRDevice) :
  (length (List.filter is_cachePrimed_call (effects (runCalls calls d)))
   <= if delegateDeviceCachePrimedCalled d then 0 else 1)%nat.
Proof.
  pose proof (runCalls_keep
                (at_most_once delegateDeviceCachePrimedCalled is_cachePrimed_call)
                (fun _ => True) calls
                (at_most_once_nil _ _) (at_most_once_app _ _)
                (fun call d _ => runCall_primed_once call d)) as Hrun.
  apply Hrun. apply Forall_forall. auto.
Qed.

(** X10.  As long as no subscription error is handled, a device asks
    for a session at most once, and not at all once a subscription is being
    set up or is established: setting the delegate again, a reattempt
    timer or an unsolicited message from the publisher start no second
    subscription. *)
Theorem session_requested_at_most_once {K : MTRConstants}
    (calls : list DeviceCall) (d : MTRDevice) :
  call_subscriptionError ∉ calls ->
  (length (List.filter is_session_request (effects (runCalls calls d)))
   <= if subscriptionStarted d then 0 else 1)%nat.
Proof.
  intros Hcalls.
  pose proof (runCalls_keep
                (at_most_once subscriptionStarted is_session_request)
                (fun c => c <> call_subscriptionError) calls
                (at_most_once_nil _ _) (at_most_once_app _ _)
                (fun call d H => runCall_session_once call d H)
                (Forall_not_elem_of _ _ Hcalls) d) as Hrun.
  apply Hrun.
Qed.

Lemma session_requested_at_most_once_witness :
  (length (List.filter is_session_request
             (effects (runCalls (K := MatterConstants)
                         [call_setDelegate; call_reattemptTimer; call_unsolicitedMessage;
                          call_setDelegate]
                         (initWithNodeID None false))))
   <= 1)%nat.
Proof.
  refine (session_requested_at_most_once (K := MatterConstants) _ _ _).
  intros Hin.
  repeat (apply elem_of_cons in Hin as [Hin|Hin]; [discriminate Hin|]).
  revert Hin. apply not_elem_of_nil.
Defined.

(** X11.  With a delegate, and as long as the device is not invalidated,
    the delegate is told of every change of the reachability state and of
    nothing else: of the states it is told, none equals the one before it
    (the first differs from the state the device started in), and the last
    is the state the device ends in. *)
Theorem state_changes_told_in_order {K : MTRConstants}
    (calls : list DeviceCall) (d : MTRDevice) :
  weakDelegate d = true ->
  call_invalidate ∉ calls ->
  let told := stateChanges (effects (runCalls calls d)) in
  distinct_neighbours (state d) told
  /\ List.last told (state d) = state (exec (runCalls calls) d).
Proof.
  intros Hdelegate Hcalls.
  pose proof (runCalls_keep state_changes_notified (fun c => c <> call_invalidate) calls
                state_changes_notified_nil state_changes_notified_app
                (fun call d H => runCall_notified call d H)
                (Forall_not_elem_of _ _ Hcalls) d) as Hrun.
  destruct (Hrun Hdelegate) as (_ & Hdistinct & Hlast). split; assumption.
Qed.

Lemma state_changes_told_in_order_witness :
  stateChanges
    (effects (runCalls (K := MatterConstants)
                [call_reportBegin; call_reportEnd; call_subscriptionEstablished;
                 call_subscriptionError; call_reportBegin]
                deviceWithDelegate))
  = [MTRDeviceStateReachable; MTRDeviceStateUnreachable; MTRDeviceStateReachable]
  /\ distinct_neighbours (state deviceWithDelegate)
       (stateChanges
          (effects (runCalls (K := MatterConstants)
                      [call_reportBegin; call_reportEnd; call_subscriptionEstablished;
                       call_subscriptionError; call_reportBegin]
                      deviceWithDelegate))).
Proof.
  split; [reflexivity|].
  refine (proj1 (state_changes_told_in_order (K := MatterConstants) _ _ _ _)).
  - reflexivity.
  - intros Hin.
    repeat (apply elem_of_cons in Hin as [Hin|Hin]; [discriminate Hin|]).
    revert Hin. apply not_elem_of_nil.
Defined.
(** ** Report ingestion *)

Lemma quiet_keeping_nil {A : Type} (f : MTRDevice -> A) (d : MTRDevice) :
  quiet_keeping f d [] d.
Proof. split; reflexivity. Qed.

Lemma quiet_keeping_app {A : Type} (f : MTRDevice -> A)
    (d : MTRDevice) (out1 : list Effect) (d1 : MTRDevice)
    (out2 : list Effect) (d2 : MTRDevice) :
  quiet_keeping f d out1 d1 -> quiet_keeping f d1 out2 d2 ->
  quiet_keeping f d (out1 ++ out2) d2.
Proof. intros [-> H1] [-> H2]. split; [reflexivity | congruence]. Qed.

Ltac frame_leaf := split; reflexivity.
Ltac frame_steps :=
  run_steps (quiet_keeping_nil ingestionFrame) (quiet_keeping_app ingestionFrame) frame_leaf.

Lemma _clusterDataForPath_frame (clusterPath : MTRClusterPath) (d : MTRDevice) :
  run_ok (quiet_keeping ingestionFrame) (_clusterDataForPath clusterPath) d.
Proof.
  destruct (_clusterDataForPath_run clusterPath d) as (r & paged & Hrun).
  unfold run_ok. rewrite Hrun. split; reflexivity.
Qed.

Lemma _cachedAttributeValueForPath_frame (path : MTRAttributePath) (d : MTRDevice) :
  run_ok (quiet_keeping ingestionFrame) (_cachedAttributeValueForPath path) d.
Proof.
  pose proof _clusterDataForPath_frame.
  unfold _cachedAttributeValueForPath. frame_steps.
Qed.

Lemma _setCachedAttributeValue_frame (value : option MTRDeviceDataValueDictionary)
    (path : MTRAttributePath) (d : MTRDevice) :
  run_ok (quiet_keeping ingestionFrame) (_setCachedAttributeValue value path) d.
Proof.
  pose proof _clusterDataForPath_frame.
  unfold _setCachedAttributeValue, markClusterDataToPersist. frame_steps.
Qed.

Lemma _noteDataVersion_frame (dataVersion : Z) (clusterPath : MTRClusterPath) (d : MTRDevice) :
  run_ok (quiet_keeping ingestionFrame) (_noteDataVersion dataVersion clusterPath) d.
Proof.
  pose proof _clusterDataForPath_frame.
  unfold _noteDataVersion, markClusterDataToPersist. frame_steps.
Qed.

Section Ingestion.

Context {K : MTRConstants}.

Lemma notePrimingSignal_frame (attributePath : MTRAttributePath) (d : MTRDevice) :
  run_ok (quiet_keeping ingestionFrame) (notePrimingSignal attributePath) d.
Proof. unfold notePrimingSignal. frame_steps. Qed.

Lemma updateReadCache_frame (dataVersion : option Z) (attributePath : MTRAttributePath)
    (attributeDataValue : MTRDeviceDataValueDictionary) (d : MTRDevice) :
  run_ok (quiet_keeping ingestionFrame)
    (updateReadCache dataVersion attributePath attributeDataValue) d.
Proof.
  pose proof _noteDataVersion_frame. pose proof _setCachedAttributeValue_frame.
  unfold updateReadCache. frame_steps.
Qed.

Lemma noteUpTimeAttribute_frame (now : NSDate) (attributePath : MTRAttributePath)
    (attributeDataValue : MTRDeviceDataValueDictionary) (d : MTRDevice) :
  run_ok (quiet_keeping ingestionFrame)
    (noteUpTimeAttribute now attributePath attributeDataValue) d.
Proof.
  unfold noteUpTimeAttribute, noteSystemUpTime, when. destruct (_ && _); frame_steps.
Qed.

Lemma reportedDataStep_frame (now : NSDate)
    (attributeResponseValue : MTRAttributeResponseValue)
    (attributeDataValue : MTRDeviceDataValueDictionary) (d : MTRDevice) :
  run_ok (quiet_keeping ingestionFrame)
    (reportedDataStep now attributeResponseValue attributeDataValue) d.
Proof.
  pose proof _cachedAttributeValueForPath_frame. pose proof updateReadCache_frame.
  pose proof noteUpTimeAttribute_frame.
  unfold reportedDataStep. frame_steps.
Qed.

End Ingestion.

(** Noting a data version changes no attribute value. *)
Lemma _noteDataVersion_cached (dataVersion : Z) (clusterPath : MTRClusterPath)
    (path : MTRAttributePath) (d : MTRDevice) :
  result (_cachedAttributeValueForPath path (exec (_noteDataVersion dataVersion clusterPath) d))
  = result (_cachedAttributeValueForPath path d).
Proof.
  rewrite !_cachedAttributeValueForPath_result.
  unfold exec, _noteDataVersion. rewrite device_after_bind.
  pose proof (_clusterDataForPath_store_equiv clusterPath d) as Hpaged.
  set (d1 := device_after (_clusterDataForPath clusterPath d)) in *.
  assert (Hsame : forall cp, result (_clusterDataForPath cp d1)
                             = result (_clusterDataForPath cp d))
    by (intros cp; apply _clusterDataForPath_result_store_equiv; exact Hpaged).
  destruct (decide (clusterPathOf path = clusterPath)) as [Heq|Hne].
  - rewrite Heq.
    destruct (result (_clusterDataForPath clusterPath d)) as [clusterData|] eqn:Hfound.
    + destruct (negb _).
      * destruct (markClusterDataToPersist_lookup clusterPath
                    (mkClusterData (Some dataVersion) (attributes clusterData)) d1)
          as [Hlookup _].
        unfold exec in Hlookup. rewrite Hlookup. reflexivity.
      * autorewrite with run. rewrite Hsame, Hfound. reflexivity.
    + destruct (markClusterDataToPersist_lookup clusterPath
                  (mkClusterData (Some dataVersion) ∅) d1) as [Hlookup _].
      unfold exec in Hlookup. rewrite Hlookup. reflexivity.
  - rewrite <- (Hsame (clusterPathOf path)).
    destruct (result (_clusterDataForPath clusterPath d)) as [clusterData|];
      [destruct (negb _)|];
      try (apply (f_equal (fun found => found ≫= _));
           apply (markClusterDataToPersist_other clusterPath (clusterPathOf path) _ d1 Hne)).
    autorewrite with run. reflexivity.
Qed.

Section IngestionValues.

Context {K : MTRConstants}.

(** The read cache after the cache update of the data branch. *)
Lemma updateReadCache_cached (dataVersion : option Z) (attributePath other : MTRAttributePath)
    (attributeDataValue : MTRDeviceDataValueDictionary) (d : MTRDevice) :
  result (_cachedAttributeValueForPath other
            (exec (updateReadCache dataVersion attributePath attributeDataValue) d))
  = if bool_decide (other = attributePath) then Some attributeDataValue
    else result (_cachedAttributeValueForPath other d).
Proof.
  unfold exec, updateReadCache. rewrite device_after_bind. cbv beta.
  set (d1 := device_after (match dataVersion with
                           | Some n => _noteDataVersion n (clusterPathOf attributePath)
                           | None => ret tt
                           end d)).
  assert (H1 : forall p, result (_cachedAttributeValueForPath p d1)
                         = result (_cachedAttributeValueForPath p d)).
  { intros p. subst d1. destruct dataVersion as [n|];
      [apply _noteDataVersion_cached | reflexivity]. }
  rewrite device_after_bind. cbv beta.
  pose proof (noteConfigurationChange_store attributePath
                (device_after (_setCachedAttributeValue (Some attributeDataValue)
                                 attributePath d1))) as Htail.
  rewrite (_cachedAttributeValueForPath_result_store_equiv _ _ _ Htail).
  pose proof (_setCachedAttributeValue_cached (Some attributeDataValue) attributePath other d1)
    as Hset.
  unfold exec in Hset. rewrite Hset, H1. reflexivity.
Qed.

(** One data entry of a report: what is handed on for the delegate, and
    what the read cache holds afterwards. *)
Lemma reportedDataStep_spec (now : NSDate) (entry : MTRAttributeResponseValue)
    (value : MTRDeviceDataValueDictionary) (d : MTRDevice) :
  let path := MTRAttributePathKey entry in
  let previous := result (_cachedAttributeValueForPath path d) in
  let changed :=
    negb (_attributeDataValue_isEqualToDataValue (Some (incomingValue value)) previous) in
  let r := reportedDataStep now entry value d in
  result r
  = (if changed && negb (bool_decide (is_Some (expectedValueCache d !! path)))
     then [withPreviousValue entry previous] else [])
  /\ effects r = []
  /\ ingestionFrame (device_after r) = ingestionFrame d
  /\ forall other,
       result (_cachedAttributeValueForPath other (device_after r))
       = if changed && bool_decide (other = path) then Some (incomingValue value)
         else result (_cachedAttributeValueForPath other d).
Proof.
  cbv zeta.
  destruct (reportedDataStep_frame now entry value d) as [Hout Hframe].
  split; [|split; [exact Hout|split; [exact Hframe|]]].
  - unfold reportedDataStep. cbv zeta.
    change (match MTRDataVersionKey value with
            | Some _ => _dataValueWithoutDataVersion value
            | None => value
            end) with (incomingValue value).
    generalize (MTRAttributePathKey entry). intros path.
    rewrite !result_bind. cbv beta.
    set (previous := result (_cachedAttributeValueForPath path d)).
    set (changed := negb (_attributeDataValue_isEqualToDataValue
                            (Some (incomingValue value)) previous)).
    set (d1 := device_after (_cachedAttributeValueForPath path d)).
    set (d2 := device_after (when changed (updateReadCache (MTRDataVersionKey value) path
                                             (incomingValue value)) d1)).
    autorewrite with run.
    assert (Hcache : expectedValueCache d2 = expectedValueCache d).
    { destruct (_cachedAttributeValueForPath_frame path d) as [_ H1].
      fold d1 in H1.
      assert (H2 : ingestionFrame d2 = ingestionFrame d1).
      { subst d2. destruct changed; [|reflexivity].
        apply (updateReadCache_frame (MTRDataVersionKey value) path (incomingValue value) d1). }
      unfold ingestionFrame in *. congruence. }
    rewrite <- Hcache. reflexivity.
  - intros other. unfold reportedDataStep. cbv zeta.
    change (match MTRDataVersionKey value with
            | Some _ => _dataValueWithoutDataVersion value
            | None => value
            end) with (incomingValue value).
    generalize (MTRAttributePathKey entry). intros path.
    rewrite !device_after_bind. cbv beta.
    set (previous := result (_cachedAttributeValueForPath path d)).
    set (changed := negb (_attributeDataValue_isEqualToDataValue
                            (Some (incomingValue value)) previous)).
    pose proof (_cachedAttributeValueForPath_store_equiv path d) as Hpaged.
    set (d1 := device_after (_cachedAttributeValueForPath path d)) in *.
    set (d2 := device_after (when changed (updateReadCache (MTRDataVersionKey value) path
                                             (incomingValue value)) d1)).
    autorewrite with run.
    pose proof (noteUpTimeAttribute_store now path (incomingValue value) d2) as Htail.
    rewrite (_cachedAttributeValueForPath_result_store_equiv _ _ _ Htail).
    subst d2. destruct changed; cbn [when andb].
    + pose proof (updateReadCache_cached (MTRDataVersionKey value) path other
                    (incomingValue value) d1) as Hupdate.
      unfold exec in Hupdate. rewrite Hupdate.
      rewrite (_cachedAttributeValueForPath_result_store_equiv _ _ _ Hpaged). reflexivity.
    + autorewrite with run.
      apply _cachedAttributeValueForPath_result_store_equiv. exact Hpaged.
Qed.

End IngestionValues.

Section IngestionSteps.

Context {K : MTRConstants}.

(** The error branch: the entry is handed on, the path leaves both caches. *)
Lemma reportedErrorStep_spec (entry : MTRAttributeResponseValue) (d : MTRDevice) :
  let path := MTRAttributePathKey entry in
  let r := reportedErrorStep entry d in
  result r = [withPreviousValue entry (result (_cachedAttributeValueForPath path d))]
  /\ effects r = []
  /\ weakDelegate (device_after r) = weakDelegate d
  /\ expectedValueCache (device_after r) = delete path (expectedValueCache d)
  /\ forall other,
       result (_cachedAttributeValueForPath other (device_after r))
       = if bool_decide (other = path) then None
         else result (_cachedAttributeValueForPath other d).
Proof.
  cbv zeta. unfold reportedErrorStep.
  generalize (MTRAttributePathKey entry). intros path.
  pose proof (_cachedAttributeValueForPath_store_equiv path d) as Hpaged.
  destruct (_cachedAttributeValueForPath_frame path d) as [Hout1 Hframe1].
  set (d1 := device_after (_cachedAttributeValueForPath path d)) in *.
  set (d2 := set_expectedValueCache (delete path (expectedValueCache d1)) d1).
  destruct (_setCachedAttributeValue_frame None path d2) as [Hout3 Hframe3].
  autorewrite with run. fold d1. fold d2.
  unfold ingestionFrame in *.
  repeat split.
  - rewrite Hout1, Hout3. reflexivity.
  - transitivity (weakDelegate d2); [congruence|]. subst d2. cbn. congruence.
  - transitivity (expectedValueCache d2); [congruence|]. subst d2. cbn. congruence.
  - intros other.
    pose proof (_setCachedAttributeValue_cached None path other d2) as Hset.
    unfold exec in Hset. rewrite Hset.
    destruct (bool_decide (other = path)); [reflexivity|].
    subst d2. rewrite _cachedAttributeValueForPath_expectedValueCache.
    apply _cachedAttributeValueForPath_result_store_equiv. exact Hpaged.
Qed.

(** One entry of an attribute report, whatever it holds. *)
Lemma reportedValueStep_spec (now : NSDate) (entry : MTRAttributeResponseValue)
    (d : MTRDevice) :
  let path := MTRAttributePathKey entry in
  let previous := result (_cachedAttributeValueForPath path d) in
  let r := reportedValueStep now entry d in
  effects r = []
  /\ weakDelegate (device_after r) = weakDelegate d
  /\ match MTRErrorKey entry, rv_data entry with
     | Some _, _ =>
         result r = [withPreviousValue entry previous]
         /\ expectedValueCache (device_after r) = delete path (expectedValueCache d)
         /\ forall other,
              result (_cachedAttributeValueForPath other (device_after r))
              = if bool_decide (other = path) then None
                else result (_cachedAttributeValueForPath other d)
     | None, Some value =>
         let changed :=
           negb (_attributeDataValue_isEqualToDataValue (Some (incomingValue value))
                   previous) in
         result r
         = (if changed && negb (bool_decide (is_Some (expectedValueCache d !! path)))
            then [withPreviousValue entry previous] else [])
         /\ expectedValueCache (device_after r) = expectedValueCache d
         /\ forall other,
              result (_cachedAttributeValueForPath other (device_after r))
              = if changed && bool_decide (other = path) then Some (incomingValue value)
                else result (_cachedAttributeValueForPath other d)
     | None, None =>
         result r = []
         /\ expectedValueCache (device_after r) = expectedValueCache d
         /\ forall other,
              result (_cachedAttributeValueForPath other (device_after r))
              = result (_cachedAttributeValueForPath other d)
     end.
Proof.
  cbv zeta. unfold reportedValueStep.
  generalize (eq_refl (MTRAttributePathKey entry)).
  generalize (MTRAttributePathKey entry) at 1 3 4 5 6 7 8 9 10 11 12 13 14 15 16.
  intros path Hpath.
  pose proof (notePrimingSignal_store path d) as Hstore.
  destruct (notePrimingSignal_frame path d) as [Hout0 Hframe0].
  set (d0 := device_after (notePrimingSignal path d)) in *.
  assert (Hcached : forall p, result (_cachedAttributeValueForPath p d0)
                              = result (_cachedAttributeValueForPath p d))
    by (intros p; apply _cachedAttributeValueForPath_result_store_equiv; exact Hstore).
  unfold ingestionFrame in Hframe0.
  destruct (MTRErrorKey entry) as [error|].
  - destruct (reportedErrorStep_spec entry d0) as (Hr & Hout & Hdelegate & Hexpected & Hc).
    rewrite <- Hpath in *.
    autorewrite with run. fold d0.
    rewrite Hout0, Hout, Hr, Hdelegate, Hexpected, Hcached.
    repeat split; try congruence.
    intros other. rewrite Hc, Hcached. reflexivity.
  - destruct (rv_data entry) as [value|].
    + destruct (reportedDataStep_spec now entry value d0) as (Hr & Hout & Hframe & Hc).
      rewrite <- Hpath in *. unfold ingestionFrame in Hframe.
      autorewrite with run. fold d0.
      rewrite Hout0, Hout, Hr, Hcached.
      repeat split; try congruence.
      * replace (expectedValueCache d0) with (expectedValueCache d) by congruence.
        reflexivity.
      * intros other. rewrite Hc, !Hcached. reflexivity.
    + autorewrite with run. repeat split.
Qed.

End IngestionSteps.
(** ** Attribute reports *)

Lemma readValue_spec {K : MTRConstants} (path : MTRAttributePath)
    (params : option MTRReadParams) (now : NSDate) (d : MTRDevice) :
  readValue path params now d
  = match expectedValueCache d !! path with
    | Some expected =>
        if bool_decide (now <= MTRDeviceExpectedValueFieldExpirationTimeIndex expected)
        then Some (MTRDeviceExpectedValueFieldValueIndex expected)
        else result (_cachedAttributeValueForPath path d)
    | None => result (_cachedAttributeValueForPath path d)
    end.
Proof.
  unfold readValue. rewrite readAttribute_value. destruct path. reflexivity.
Qed.

(** A data value with a type tag compares equal to itself. *)
Lemma _attributeDataValue_isEqualToDataValue_refl (value : NSDictionary) :
  is_Some (MTRTypeKey value) ->
  _attributeDataValue_isEqualToDataValue (Some value) (Some value) = true.
Proof.
  intros [t Ht]. unfold _attributeDataValue_isEqualToDataValue.
  rewrite Ht. cbn. rewrite bool_decide_eq_true_2 by reflexivity. cbn.
  apply value_comparison_eq. reflexivity.
Qed.

Lemma incomingValue_type (value : NSDictionary) :
  MTRTypeKey (incomingValue value) = MTRTypeKey value.
Proof.
  unfold incomingValue, _dataValueWithoutDataVersion.
  destruct value as [[t|] [v|] x c [dv|]]; reflexivity.
Qed.

(** X12.  An attribute error in a report is always handed on for the
    delegate, with the value the read cache held as the previous value, and
    it removes the attribute from the read cache and from the expected
    values: a read of the attribute afterwards finds no value, at any time.
    Other attributes keep their cached and expected values. *)
Theorem attribute_error_clears_the_attribute {K : MTRConstants} (now : NSDate)
    (entry : MTRAttributeResponseValue) (error : NSError) (d : MTRDevice)
    (Herror : MTRErrorKey entry = Some error) :
  let path := MTRAttributePathKey entry in
  let r := reportedValueStep now entry d in
  result r = [withPreviousValue entry (result (_cachedAttributeValueForPath path d))]
  /\ (forall params later, readValue path params later (device_after r) = None)
  /\ forall other, other <> path ->
       result (_cachedAttributeValueForPath other (device_after r))
       = result (_cachedAttributeValueForPath other d)
       /\ expectedValueCache (device_after r) !! other = expectedValueCache d !! other.
Proof.
  cbv zeta.
  destruct (reportedValueStep_spec now entry d) as (_ & _ & Hspec).
  rewrite Herror in Hspec. destruct Hspec as (Hr & Hexpected & Hcached).
  split; [exact Hr|]. split.
  - intros params later. rewrite readValue_spec, Hexpected, lookup_delete_eq, Hcached.
    rewrite bool_decide_eq_true_2 by reflexivity. reflexivity.
  - intros other Hne. rewrite Hcached, Hexpected.
    rewrite bool_decide_eq_false_2 by exact Hne.
    rewrite lookup_delete_ne by congruence. split; reflexivity.
Qed.

Lemma attribute_error_clears_the_attribute_witness :
  readValue (K := MatterConstants) onOffPath None 50
    (device_after
       (reportedValueStep (K := MatterConstants) 20
          (mkResponseValue onOffPath None (Some (MTRInteractionError (Status_Other 1))) None)
          deviceAfterWriteOfCachedValue))
  = None.
Proof.
  refine (proj1 (proj2 (attribute_error_clears_the_attribute (K := MatterConstants) 20
                          (mkResponseValue onOffPath None
                             (Some (MTRInteractionError (Status_Other 1))) None)
                          (MTRInteractionError (Status_Other 1))
                          deviceAfterWriteOfCachedValue _)) None 50).
  reflexivity.
Defined.

(** X13.  While an expected value is held for an attribute, a data
    report for it is recorded in the read cache but not handed on for the
    delegate, and the expected value stays: reads answer with the expected
    value until it expires and, for a reported value with a type tag, with a
    value equal to the reported one from then on. *)
Theorem pending_expected_value_hides_report {K : MTRConstants} (now : NSDate)
    (entry : MTRAttributeResponseValue) (value : MTRDeviceDataValueDictionary)
    (expected : ExpectedValue) (d : MTRDevice)
    (Herror : MTRErrorKey entry = None)
    (Hdata : rv_data entry = Some value)
    (Hexpected : expectedValueCache d !! MTRAttributePathKey entry = Some expected) :
  let path := MTRAttributePathKey entry in
  let r := reportedValueStep now entry d in
  result r = []
  /\ expectedValueCache (device_after r) = expectedValueCache d
  /\ (forall params later,
        later <= MTRDeviceExpectedValueFieldExpirationTimeIndex expected ->
        readValue path params later (device_after r)
        = Some (MTRDeviceExpectedValueFieldValueIndex expected))
  /\ (is_Some (MTRTypeKey value) ->
      forall params later,
        MTRDeviceExpectedValueFieldExpirationTimeIndex expected < later ->
        _attributeDataValue_isEqualToDataValue (Some (incomingValue value))
          (readValue path params later (device_after r)) = true).
Proof.
  cbv zeta.
  destruct (reportedValueStep_spec now entry d) as (_ & _ & Hspec).
  rewrite Herror, Hdata in Hspec. cbv zeta in Hspec.
  destruct Hspec as (Hr & Hkept & Hcached).
  rewrite Hexpected in Hr.
  rewrite (bool_decide_eq_true_2 (is_Some (Some expected))) in Hr by (eexists; reflexivity).
  rewrite andb_false_r in Hr.
  split; [exact Hr|]. split; [exact Hkept|]. split.
  - intros params later Hlater. rewrite readValue_spec, Hkept, Hexpected.
    rewrite bool_decide_eq_true_2 by exact Hlater. reflexivity.
  - intros Htyped params later Hlater. rewrite readValue_spec, Hkept, Hexpected.
    rewrite bool_decide_eq_false_2 by lia.
    rewrite Hcached. rewrite bool_decide_eq_true_2 by reflexivity. rewrite andb_true_r.
    destruct (_attributeDataValue_isEqualToDataValue (Some (incomingValue value))
                (result (_cachedAttributeValueForPath (MTRAttributePathKey entry) d)))
      eqn:Hsame; cbn [negb].
    + exact Hsame.
    + apply _attributeDataValue_isEqualToDataValue_refl.
      rewrite incomingValue_type. exact Htyped.
Qed.

Lemma pending_expected_value_hides_report_witness :
  result (reportedValueStep (K := MatterConstants) 20
            (mkResponseValue onOffPath (Some booleanFalse) None None)
            deviceAfterWriteOfCachedValue)
  = [].
Proof.
  refine (proj1 (pending_expected_value_hides_report (K := MatterConstants) 20
                   (mkResponseValue onOffPath (Some booleanFalse) None None)
                   booleanFalse (mkExpectedValue 5010 booleanTrue 0)
                   deviceAfterWriteOfCachedValue _ _ _)); reflexivity.
Defined.

(** The loop over a batch in two parts. *)
Lemma _getAttributesToReportWithReportedValues_app {K : MTRConstants} (now : NSDate)
    (prefix rest : list MTRAttributeResponseValue) :
  forall d : MTRDevice,
    result (_getAttributesToReportWithReportedValues now (prefix ++ rest) d)
    = result (_getAttributesToReportWithReportedValues now prefix d)
      ++ result (_getAttributesToReportWithReportedValues now rest
                   (exec (_getAttributesToReportWithReportedValues now prefix) d))
    /\ exec (_getAttributesToReportWithReportedValues now (prefix ++ rest)) d
       = exec (_getAttributesToReportWithReportedValues now rest)
           (exec (_getAttributesToReportWithReportedValues now prefix) d).
Proof.
  induction prefix as [|entry prefix IH]; intros d.
  - split; reflexivity.
  - unfold exec in *. cbn [app _getAttributesToReportWithReportedValues].
    rewrite !result_bind, !device_after_bind. cbv beta.
    set (d1 := device_after (reportedValueStep now entry d)).
    destruct (IH d1) as [Hresult Hdevice].
    change (result (ret ?x ?e)) with x. change (device_after (ret ?x ?e)) with e.
    rewrite Hresult, Hdevice, app_assoc. split; reflexivity.
Qed.

(** What the ingestion loop hands on: entries of the batch, in the order
    of the batch, each with the value the read cache held for its path at
    its turn added as the previous value; error entries are all among
    them.  The loop dispatches nothing. *)
Lemma _getAttributesToReportWithReportedValues_spec {K : MTRConstants} (now : NSDate)
    (batch : list MTRAttributeResponseValue) :
  forall d : MTRDevice,
    let r := _getAttributesToReportWithReportedValues now batch d in
    effects r = []
    /\ weakDelegate (device_after r) = weakDelegate d
    /\ exists kept,
         sublist kept batch
         /\ Forall2 (fun e b =>
                       exists prefix rest,
                         batch = prefix ++ b :: rest
                         /\ e = withPreviousValue b
                                  (readCacheValue (MTRAttributePathKey b)
                                     (exec (_getAttributesToReportWithReportedValues now prefix)
                                        d)))
              (result r) kept
         /\ forall b, b ∈ batch -> is_Some (MTRErrorKey b) -> b ∈ kept.
Proof.
  induction batch as [|entry rest IH]; intros d; cbv zeta.
  - cbn. split; [reflexivity|]. split; [reflexivity|].
    exists []. split; [apply sublist_nil|]. split; [constructor|].
    intros b Hb. apply not_elem_of_nil in Hb. destruct Hb.
  - cbn [_getAttributesToReportWithReportedValues].
    destruct (reportedValueStep_spec now entry d) as (Hout & Hdelegate & Hspec).
    rewrite _cachedAttributeValueForPath_readCacheValue in Hspec.
    set (d1 := device_after (reportedValueStep now entry d)) in *.
    destruct (IH d1) as (Hout' & Hdelegate' & kept & Hsub & Hall & Herrors).
    autorewrite with run. fold d1.
    rewrite Hout, Hout'. split; [reflexivity|]. split; [congruence|].
    assert (Hstep : (result (reportedValueStep now entry d) = []
                     /\ MTRErrorKey entry = None)
                    \/ result (reportedValueStep now entry d)
                       = [withPreviousValue entry
                            (readCacheValue (MTRAttributePathKey entry) d)]).
    { destruct (MTRErrorKey entry) as [error|].
      - right. apply Hspec.
      - destruct (rv_data entry) as [value|]; cbv zeta in Hspec;
          destruct Hspec as (Hr & _).
        + rewrite Hr. destruct (_ && _); [right; reflexivity | left; auto].
        + left. auto. }
    assert (Hlater : Forall2
                       (fun e b =>
                          exists prefix rest',
                            entry :: rest = prefix ++ b :: rest'
                            /\ e = withPreviousValue b
                                     (readCacheValue (MTRAttributePathKey b)
                                        (exec (_getAttributesToReportWithReportedValues now
                                                 prefix) d)))
                       (result (_getAttributesToReportWithReportedValues now rest d1)) kept).
    { eapply Forall2_impl; [exact Hall|].
      intros e b (prefix & rest' & Hsplit & He).
      exists (entry :: prefix), rest'. split; [rewrite Hsplit; reflexivity|].
      rewrite He. unfold exec. cbn [_getAttributesToReportWithReportedValues].
      rewrite !device_after_bind. reflexivity. }
    destruct Hstep as [[Hr Hnone]|Hr]; rewrite Hr.
    + exists kept. split; [apply sublist_cons; exact Hsub|]. split; [exact Hlater|].
      intros b Hb Herr. apply elem_of_cons in Hb as [->|Hb].
      * rewrite Hnone in Herr. destruct Herr as [? [=]].
      * apply Herrors; assumption.
    + exists (entry :: kept). split; [apply sublist_skip; exact Hsub|]. split.
      * cbn. constructor; [|exact Hlater].
        exists [], rest. split; reflexivity.
      * intros b Hb Herr. apply elem_of_cons in Hb as [->|Hb]; [left|right].
        apply Herrors; assumption.
Qed.

(** X14.  An attribute report leads to one callback for the delegate
    at most.  Its entries are entries of the report, in the order of the
    report, each with the value the read cache held for its path when its
    turn came added as the previous value (none where the cache held
    none); every error entry of the report is among them.  An entry of
    the report contributes, at its place, itself with that previous value
    when it carries an error, or when it carries a value that differs
    from the one the read cache holds and no expected value is held for
    the path; otherwise it contributes nothing.  Nothing is dispatched
    when no entry is left to report or no delegate is set. *)
Theorem attribute_report_is_one_callback_in_order {K : MTRConstants} (now : NSDate)
    (batch : list MTRAttributeResponseValue) (d : MTRDevice) :
  let entries := result (_getAttributesToReportWithReportedValues now batch d) in
  (exists kept,
     sublist kept batch
     /\ Forall2 (fun e b =>
                   exists prefix rest,
                     batch = prefix ++ b :: rest
                     /\ e = withPreviousValue b
                              (readCacheValue (MTRAttributePathKey b)
                                 (exec (_getAttributesToReportWithReportedValues now prefix) d)))
          entries kept
     /\ (forall b, b ∈ batch -> is_Some (MTRErrorKey b) -> b ∈ kept))
  /\ (forall prefix entry rest,
        batch = prefix ++ entry :: rest ->
        let turn := exec (_getAttributesToReportWithReportedValues now prefix) d in
        let path := MTRAttributePathKey entry in
        let previous := readCacheValue path turn in
        entries
        = result (_getAttributesToReportWithReportedValues now prefix d)
          ++ match MTRErrorKey entry, rv_data entry with
             | Some _, _ => [withPreviousValue entry previous]
             | None, Some value =>
                 if negb (_attributeDataValue_isEqualToDataValue
                            (Some (incomingValue value)) previous)
                    && negb (bool_decide (is_Some (expectedValueCache turn !! path)))
                 then [withPreviousValue entry previous]
                 else []
             | None, None => []
             end
          ++ result (_getAttributesToReportWithReportedValues now rest
                       (exec (reportedValueStep now entry) turn)))
  /\ effects (_handleAttributeReport now batch d)
     = match entries with
       | [] => []
       | _ :: _ =>
           if weakDelegate d
           then [dispatch_async_delegateQueue (device_receivedAttributeReport entries)]
           else []
       end.
Proof.
  cbv zeta.
  destruct (_getAttributesToReportWithReportedValues_spec now batch d)
    as (Hout & Hdelegate & kept & Hsub & Hall & Herrors).
  split; [exists kept; split; [exact Hsub | split; [exact Hall | exact Herrors]]|].
  split.
  - intros prefix entry rest ->.
    destruct (_getAttributesToReportWithReportedValues_app now prefix (entry :: rest) d)
      as [Hresult _].
    rewrite Hresult. f_equal.
    set (turn := exec (_getAttributesToReportWithReportedValues now prefix) d).
    cbn [_getAttributesToReportWithReportedValues].
    rewrite !result_bind. cbv beta. change (result (ret ?x ?e)) with x.
    f_equal.
    destruct (reportedValueStep_spec now entry turn) as (_ & _ & Hspec).
    rewrite _cachedAttributeValueForPath_readCacheValue in Hspec.
    destruct (MTRErrorKey entry) as [error|]; [apply Hspec|].
    destruct (rv_data entry) as [value|]; apply Hspec.
  - unfold _handleAttributeReport. autorewrite with run. rewrite Hout. cbn [app].
    unfold _reportAttributes.
    destruct (result (_getAttributesToReportWithReportedValues now batch d)); [reflexivity|].
    autorewrite with run. rewrite Hdelegate.
    destruct (weakDelegate d); reflexivity.
Qed.

(** Entries whose value the read cache already holds go through the loop
    without a report and without a change of a cached value. *)
Lemma settled_batch_reports_nothing {K : MTRConstants} (now : NSDate)
    (batch : list MTRAttributeResponseValue) :
  forall d : MTRDevice,
    Forall (fun entry =>
              MTRErrorKey entry = None
              /\ forall value, rv_data entry = Some value ->
                   _attributeDataValue_isEqualToDataValue (Some (incomingValue value))
                     (result (_cachedAttributeValueForPath (MTRAttributePathKey entry) d))
                   = true) batch ->
    let r := _getAttributesToReportWithReportedValues now batch d in
    result r = []
    /\ forall p, result (_cachedAttributeValueForPath p (device_after r))
                 = result (_cachedAttributeValueForPath p d).
Proof.
  induction batch as [|entry rest IH]; intros d Hsettled; cbv zeta.
  - cbn. split; reflexivity.
  - apply Forall_cons in Hsettled as [[Hnone Hsame] Hrest].
    cbn [_getAttributesToReportWithReportedValues].
    destruct (reportedValueStep_spec now entry d) as (_ & _ & Hspec).
    rewrite Hnone in Hspec.
    set (d1 := device_after (reportedValueStep now entry d)) in *.
    assert (Hstep : result (reportedValueStep now entry d) = []
                    /\ forall p, result (_cachedAttributeValueForPath p d1)
                                 = result (_cachedAttributeValueForPath p d)).
    { destruct (rv_data entry) as [value|]; cbv zeta in Hspec;
        destruct Hspec as (Hr & _ & Hcached).
      - rewrite (Hsame value eq_refl) in Hr, Hcached. cbn in Hr, Hcached. auto.
      - auto. }
    destruct Hstep as [Hr Hcached].
    destruct (IH d1) as [Hr' Hcached'].
    { eapply Forall_impl; [exact Hrest|]. cbn. intros e [He Hv]. split; [exact He|].
      intros value Hvalue. rewrite Hcached. apply Hv. exact Hvalue. }
    autorewrite with run. fold d1. rewrite Hr, Hr'. split; [reflexivity|].
    intros p. rewrite Hcached'. apply Hcached.
Qed.

(** After the loop the read cache holds, for each typed data entry of a
    batch that names no attribute twice, a value equal to the reported
    one. *)
Lemma ingested_batch_is_settled {K : MTRConstants} (now : NSDate)
    (batch : list MTRAttributeResponseValue) :
  forall d : MTRDevice,
    NoDup (MTRAttributePathKey <$> batch) ->
    Forall typedDataEntry batch ->
    let d' := device_after (_getAttributesToReportWithReportedValues now batch d) in
    (forall p, p ∉ MTRAttributePathKey <$> batch ->
       result (_cachedAttributeValueForPath p d') = result (_cachedAttributeValueForPath p d))
    /\ Forall (fun entry =>
                 MTRErrorKey entry = None
                 /\ forall value, rv_data entry = Some value ->
                      _attributeDataValue_isEqualToDataValue (Some (incomingValue value))
                        (result (_cachedAttributeValueForPath (MTRAttributePathKey entry) d'))
                      = true) batch.
Proof.
  induction batch as [|entry rest IH]; intros d Hnodup Htyped; cbv zeta.
  - cbn. split; [reflexivity | constructor].
  - rewrite fmap_cons in Hnodup. apply NoDup_cons in Hnodup as [Hfresh Hnodup].
    apply Forall_cons in Htyped as [[Hnone Htype] Htyped].
    cbn [_getAttributesToReportWithReportedValues].
    destruct (reportedValueStep_spec now entry d) as (_ & _ & Hspec).
    rewrite Hnone in Hspec.
    set (d1 := device_after (reportedValueStep now entry d)) in *.
    destruct (IH d1 Hnodup Htyped) as [Hother Hsettled].
    autorewrite with run. fold d1.
    set (d2 := device_after (_getAttributesToReportWithReportedValues now rest d1)) in *.
    split.
    + intros p Hp. rewrite fmap_cons, not_elem_of_cons in Hp. destruct Hp as [Hne Hp].
      rewrite (Hother p Hp).
      destruct (rv_data entry) as [value|]; cbv zeta in Hspec;
        destruct Hspec as (_ & _ & Hcached); rewrite Hcached; [|reflexivity].
      rewrite bool_decide_eq_false_2 by exact Hne. rewrite andb_false_r. reflexivity.
    + constructor; [|exact Hsettled]. split; [exact Hnone|].
      intros value Hvalue. rewrite (Hother _ Hfresh).
      rewrite Hvalue in Hspec. cbv zeta in Hspec. destruct Hspec as (_ & _ & Hcached).
      rewrite Hcached. rewrite bool_decide_eq_true_2 by reflexivity. rewrite andb_true_r.
      destruct (_attributeDataValue_isEqualToDataValue (Some (incomingValue value))
                  (result (_cachedAttributeValueForPath (MTRAttributePathKey entry) d)))
        eqn:Hsame; cbn [negb].
      * exact Hsame.
      * apply _attributeDataValue_isEqualToDataValue_refl.
        rewrite incomingValue_type. apply Htype. exact Hvalue.
Qed.

(** X15.  A report without errors that names no attribute twice and
    whose data values carry a type tag, ingested a second time, leads to no
    callback for the delegate and changes no cached value. *)
Theorem report_ingested_again_is_not_reported {K : MTRConstants} (now now' : NSDate)
    (batch : list MTRAttributeResponseValue) (d : MTRDevice)
    (Hnodup : NoDup (MTRAttributePathKey <$> batch))
    (Htyped : Forall typedDataEntry batch) :
  let d1 := exec (_handleAttributeReport now batch) d in
  effects (_handleAttributeReport now' batch d1) = []
  /\ forall p, result (_cachedAttributeValueForPath p (exec (_handleAttributeReport now' batch) d1))
               = result (_cachedAttributeValueForPath p d1).
Proof.
  cbv zeta.
  assert (Hreport : forall entries e,
             device_after (_reportAttributes entries e) = e).
  { intros entries e. destruct (_reportAttributes_run entries e) as (out & Hrun).
    rewrite Hrun. reflexivity. }
  destruct (ingested_batch_is_settled now batch d Hnodup Htyped) as [_ Hsettled].
  assert (Hd1 : exec (_handleAttributeReport now batch) d
                = device_after (_getAttributesToReportWithReportedValues now batch d)).
  { unfold exec, _handleAttributeReport. rewrite device_after_bind. apply Hreport. }
  rewrite Hd1.
  set (d1 := device_after (_getAttributesToReportWithReportedValues now batch d)) in *.
  destruct (settled_batch_reports_nothing now' batch d1 Hsettled) as [Hr Hcached].
  destruct (_getAttributesToReportWithReportedValues_spec now' batch d1) as (Hout & _).
  unfold _handleAttributeReport, exec.
  rewrite !device_after_bind, Hreport. split; [|exact Hcached].
  autorewrite with run. rewrite Hout, Hr. reflexivity.
Qed.

Lemma report_ingested_again_is_not_reported_witness :
  effects (_handleAttributeReport (K := MatterConstants) 30 [onOffTrueAtVersion 7]
             (exec (_handleAttributeReport (K := MatterConstants) 20 [onOffTrueAtVersion 7])
                deviceWithDelegate))
  = [].
Proof.
  refine (proj1 (report_ingested_again_is_not_reported (K := MatterConstants) 20 30
                   [onOffTrueAtVersion 7] deviceWithDelegate _ _)).
  - apply NoDup_cons. split; [apply not_elem_of_nil | apply NoDup_nil_2].
  - repeat constructor. intros value [= <-]. eexists. reflexivity.
Defined.
(** ** The end of a report *)

Ltac store_cbn :=
  cbn [fst snd mbind option_bind fmap option_fmap option_map clusterDataToPersist
       persistedClusterData persistedClusters controllerDataStore set_clusterDataToPersist
       set_persistedClusters set_persistedClusterData set_controllerDataStore].

(** A look-up after the dirty clusters went to storage. *)
Lemma flushed_lookup (clusterPath : MTRClusterPath)
    (dirty stored : gmap MTRClusterPath MTRDeviceClusterData) (d : MTRDevice) :
  clusterDataToPersist d = Some dirty ->
  controllerDataStore d = Some stored ->
  result (_clusterDataForPath clusterPath
            (set_clusterDataToPersist None
               (set_persistedClusters (dom dirty ∪ persistedClusters d)
                  (set_persistedClusterData ((dirty ∪.) <$> persistedClusterData d)
                     (set_controllerDataStore (Some (dirty ∪ stored)) d)))))
  = result (_clusterDataForPath clusterPath d).
Proof.
  intros Hdirty Hstored. rewrite !_clusterDataForPath_result.
  change (clusterDataToPersist (set_clusterDataToPersist None _)) with
    (@None (gmap MTRClusterPath MTRDeviceClusterData)).
  change (persistedClusterData (set_clusterDataToPersist None _))
    with ((dirty ∪.) <$> persistedClusterData d).
  change (persistedClusters (set_clusterDataToPersist None _))
    with (dom dirty ∪ persistedClusters d).
  change (controllerDataStore (set_clusterDataToPersist None _))
    with (Some (dirty ∪ stored)).
  rewrite Hdirty, Hstored. cbn [mbind option_bind].
  destruct (dirty !! clusterPath) as [data|] eqn:Hd.
  - destruct (persistedClusterData d) as [cache|];
      cbn [fmap option_fmap option_map mbind option_bind].
    + rewrite (lookup_union_Some_l _ _ _ _ Hd). reflexivity.
    + rewrite bool_decide_eq_true_2
        by (apply elem_of_union_l, elem_of_dom; eexists; exact Hd).
      rewrite (lookup_union_Some_l _ _ _ _ Hd). reflexivity.
  - assert (Hunion : forall m : gmap MTRClusterPath MTRDeviceClusterData,
               (dirty ∪ m) !! clusterPath = m !! clusterPath)
      by (intros m; apply lookup_union_r; exact Hd).
    assert (Hin : bool_decide (clusterPath ∈ dom dirty ∪ persistedClusters d)
                  = bool_decide (clusterPath ∈ persistedClusters d)).
    { apply bool_decide_ext. rewrite elem_of_union, elem_of_dom, Hd.
      split; [intros [[? [=]]|H]; exact H | auto]. }
    rewrite Hin, Hunion.
    destruct (persistedClusterData d) as [cache|];
      cbn [fmap option_fmap option_map mbind option_bind]; rewrite ?Hunion; reflexivity.
Qed.

(** The store after the end of a report. *)
Lemma _handleReportEnd_store (d : MTRDevice) :
  let d' := exec _handleReportEnd d in
  receivingReport d' = false
  /\ receivingPrimingReport d' = false
  /\ match controllerDataStore d, clusterDataToPersist d with
     | Some stored, Some dirty =>
         if bool_decide (size dirty = 0%nat) then same_store d d'
         else
           clusterDataToPersist d' = None
           /\ persistedClusterData d' = (dirty ∪.) <$> persistedClusterData d
           /\ persistedClusters d' = dom dirty ∪ persistedClusters d
           /\ controllerDataStore d' = Some (dirty ∪ stored)
     | _, _ => same_store d d'
     end.
Proof.
  cbv zeta. unfold exec, _handleReportEnd.
  set (d0 := set_estimatedStartTimeFromGeneralDiagnosticsUpTime None
               (set_receivingPrimingReport false (set_receivingReport false d))).
  set (flush := fun d : MTRDevice =>
                  match controllerDataStore d, clusterDataToPersist d with
                  | Some stored, Some dirty =>
                      if bool_decide (size dirty = 0%nat) then d
                      else
                        set_clusterDataToPersist None
                          (set_persistedClusters (dom dirty ∪ persistedClusters d)
                             (set_persistedClusterData ((dirty ∪.) <$> persistedClusterData d)
                                (set_controllerDataStore (Some (dirty ∪ stored)) d)))
                  | _, _ => d
                  end).
  set (tail := (changed <- get deviceConfigurationChanged ;;
                when changed
                  (delegate <- get weakDelegate ;;
                   when delegate
                     (emit (dispatch_async_delegateQueue deviceConfigurationChanged_)) ;;;
                   modify (set_deviceConfigurationChanged false)))).
  assert (Hrun : device_after
                   ((modify (set_receivingReport false) ;;;
                     modify (set_receivingPrimingReport false) ;;;
                     modify (set_estimatedStartTimeFromGeneralDiagnosticsUpTime None) ;;;
                     modify flush ;;; tail) d)
                 = device_after (tail (flush d0)))
    by (rewrite !device_after_bind; reflexivity).
  rewrite Hrun. clear Hrun.
  assert (Htail : forall e, device_after (tail e) = e
                            \/ device_after (tail e) = set_deviceConfigurationChanged false e).
  { intros e. subst tail. rewrite device_after_bind. cbv beta.
    change (result (get deviceConfigurationChanged e)) with (deviceConfigurationChanged e).
    change (device_after (get deviceConfigurationChanged e)) with e.
    destruct (deviceConfigurationChanged e); [right|left; reflexivity].
    unfold when. rewrite !device_after_bind. cbv beta.
    change (result (get weakDelegate e)) with (weakDelegate e).
    destruct (weakDelegate e); reflexivity. }
  assert (Hflush : match controllerDataStore d, clusterDataToPersist d with
                   | Some stored, Some dirty =>
                       if bool_decide (size dirty = 0%nat) then flush d0 = d0
                       else
                         flush d0
                         = set_clusterDataToPersist None
                             (set_persistedClusters (dom dirty ∪ persistedClusters d)
                                (set_persistedClusterData
                                   ((dirty ∪.) <$> persistedClusterData d)
                                   (set_controllerDataStore (Some (dirty ∪ stored)) d0)))
                   | _, _ => flush d0 = d0
                   end).
  { subst flush. cbv beta.
    change (controllerDataStore d0) with (controllerDataStore d).
    change (clusterDataToPersist d0) with (clusterDataToPersist d).
    change (persistedClusters d0) with (persistedClusters d).
    change (persistedClusterData d0) with (persistedClusterData d).
    destruct (controllerDataStore d) as [stored|]; [|reflexivity].
    destruct (clusterDataToPersist d) as [dirty|]; [|reflexivity].
    destruct (bool_decide (size dirty = 0%nat)); reflexivity. }
  clearbody flush tail.
  destruct (controllerDataStore d) as [stored|];
    [destruct (clusterDataToPersist d) as [dirty|];
     [destruct (bool_decide (size dirty = 0%nat))|]|].
  - rewrite Hflush. destruct (Htail d0) as [Ht | Ht]; rewrite Ht; repeat split.
  - rewrite Hflush.
    match goal with
    | |- context [device_after (tail ?e)] => destruct (Htail e) as [Ht | Ht]
    end; rewrite Ht; repeat split.
  - rewrite Hflush. destruct (Htail d0) as [Ht | Ht]; rewrite Ht; repeat split.
  - rewrite Hflush. destruct (Htail d0) as [Ht | Ht]; rewrite Ht; repeat split.
Qed.

(** What the end of a report does to the store. *)
Lemma _handleReportEnd_flush (d : MTRDevice) :
  let d' := exec _handleReportEnd d in
  (forall clusterPath,
     result (_clusterDataForPath clusterPath d') = result (_clusterDataForPath clusterPath d))
  /\ (forall path,
        result (_cachedAttributeValueForPath path d')
        = result (_cachedAttributeValueForPath path d))
  /\ (is_Some (controllerDataStore d) ->
      forall clusterPath data,
        clusterDataToPersist d ≫= (.!! clusterPath) = Some data ->
        controllerDataStore d' ≫= (.!! clusterPath) = Some data
        /\ clusterPath ∈ persistedClusters d'
        /\ clusterDataToPersist d' = None)
  /\ (controllerDataStore d = None -> clusterDataToPersist d' = clusterDataToPersist d)
  /\ receivingReport d' = false
  /\ receivingPrimingReport d' = false.
Proof.
  cbv zeta.
  destruct (_handleReportEnd_store d) as (Hreceiving & Hpriming & Hstore).
  cbv zeta in Hreceiving, Hpriming, Hstore.
  set (d' := exec _handleReportEnd d) in *.
  assert (Hlookup : forall clusterPath,
             result (_clusterDataForPath clusterPath d')
             = result (_clusterDataForPath clusterPath d)).
  { intros clusterPath.
    destruct (controllerDataStore d) as [stored|] eqn:Hstored;
      [destruct (clusterDataToPersist d) as [dirty|] eqn:Hdirty;
       [destruct (bool_decide (size dirty = 0%nat))|]|];
      try (apply (_clusterDataForPath_same_store clusterPath d d' Hstore)).
    destruct Hstore as (H1 & H2 & H3 & H4).
    rewrite <- (flushed_lookup clusterPath dirty stored d Hdirty Hstored).
    rewrite !_clusterDataForPath_result, H1, H2, H3, H4. reflexivity. }
  split; [exact Hlookup|]. split.
  { intros path. rewrite !_cachedAttributeValueForPath_result, Hlookup. reflexivity. }
  split; [|split; [|split; assumption]].
  - intros [stored Hstored] clusterPath data Hdata. rewrite Hstored in Hstore.
    destruct (clusterDataToPersist d) as [dirty|]; [|discriminate].
    cbn [mbind option_bind] in Hdata.
    destruct (bool_decide (size dirty = 0%nat)) eqn:Hsize.
    { apply bool_decide_eq_true_1, map_size_empty_iff in Hsize. subst dirty.
      rewrite lookup_empty in Hdata. discriminate. }
    destruct Hstore as (H1 & H2 & H3 & H4). rewrite H1, H3, H4.
    cbn [mbind option_bind]. repeat split.
    + apply lookup_union_Some_l. exact Hdata.
    + apply elem_of_union_l, elem_of_dom. eexists. exact Hdata.
  - intros Hnone. rewrite Hnone in Hstore. apply Hstore.
Qed.

(** The snapshot handed to storage: a copy holds what its original holds. *)
Lemma _clusterDataToPersistSnapshot_result (d : MTRDevice) :
  result (_clusterDataToPersistSnapshot d) = default ∅ (clusterDataToPersist d).
Proof.
  unfold _clusterDataToPersistSnapshot. autorewrite with run.
  rewrite <- (map_fmap_id (default ∅ (clusterDataToPersist d))) at 2.
  apply map_fmap_ext. intros clusterPath [dataVersion attributes] _. reflexivity.
Qed.

(** X16.  The end of a report changes no answer of a cluster look-up,
    hence no cached attribute value.  With a data store, the clusters to
    persist go to storage with their data, as the snapshot taken of them
    holds it, are counted among the persisted clusters and none is left to
    persist; without a data store the clusters to persist stay as they are.
    Both report flags are lowered. *)
Theorem report_end_flushes_and_keeps_values (d : MTRDevice) :
  let d' := exec _handleReportEnd d in
  (forall clusterPath,
     result (_clusterDataForPath clusterPath d') = result (_clusterDataForPath clusterPath d))
  /\ (forall path,
        result (_cachedAttributeValueForPath path d')
        = result (_cachedAttributeValueForPath path d))
  /\ (is_Some (controllerDataStore d) ->
      forall clusterPath data,
        clusterDataToPersist d ≫= (.!! clusterPath) = Some data ->
        result (_clusterDataToPersistSnapshot d) !! clusterPath = Some data
        /\ controllerDataStore d' ≫= (.!! clusterPath) = Some data
        /\ clusterPath ∈ persistedClusters d'
        /\ clusterDataToPersist d' = None)
  /\ (controllerDataStore d = None -> clusterDataToPersist d' = clusterDataToPersist d)
  /\ receivingReport d' = false
  /\ receivingPrimingReport d' = false.
Proof.
  destruct (_handleReportEnd_flush d) as (H1 & H2 & H3 & H4 & H5 & H6).
  repeat split; try assumption; try (apply (H3 H clusterPath data H0)).
  rewrite _clusterDataToPersistSnapshot_result.
  destruct (clusterDataToPersist d) as [dirty|]; [exact H0 | discriminate H0].
Qed.
(** ** Writes and the expected value they install *)

(** What a write leaves behind: the next id is taken, the written value
    is the expected value of the attribute under that id until
    [now + clamped interval], and the work item that carries the id is last
    in the queue. *)
Lemma writeAttributeWithEndpointID_run {K : MTRConstants} (endpointID clusterID attributeID : Z)
    (value : NSDictionary) (expectedValueInterval : Z) (timeout : option Z)
    (now : NSDate) (d : MTRDevice) :
  let path := mkAttributePath endpointID clusterID attributeID in
  let request :=
    mkWriteRequest path value ((fun t => MTRClampedNumber t 1 UINT16_MAX) <$> timeout)
      (expectedValueNextID d) in
  exists cache paged out,
    writeAttributeWithEndpointID endpointID clusterID attributeID value
      expectedValueInterval timeout now d
    = (tt,
       set_asyncWorkQueue (asyncWorkQueue d ++ [WriteWorkItem path true [request]])
         (set_persistedClusterData paged
            (set_expectedValueCache cache
               (set_expectedValueNextID (wrap64 (expectedValueNextID d + 1)) d))),
       out)
    /\ cache !! path
       = Some (mkExpectedValue (now + MTRClampedNumber expectedValueInterval 1 UINT32_MAX)
                 value (expectedValueNextID d)).
Proof.
  cbv zeta. unfold writeAttributeWithEndpointID, enqueueWorkItem.
  set (path := mkAttributePath endpointID clusterID attributeID).
  destruct (setExpectedValues_run [mkResponseValue path (Some value) None None]
              (MTRClampedNumber expectedValueInterval 1 UINT32_MAX) now d)
    as (cache & paged & out & Hset & Hinstalled).
  exists cache, paged, (out ++ []). split.
  - unfold bind at 1. rewrite Hset. unfold modify. reflexivity.
  - apply (Hinstalled
             (proj1 (MTRClampedNumber_range expectedValueInterval 1 UINT32_MAX
                       ltac:(unfold UINT32_MAX; lia)))
             0%nat (mkResponseValue path (Some value) None None) value eq_refl eq_refl).
    intros m later Hlt Hm. destruct m; [lia | discriminate Hm].
Qed.

Lemma writeAttributeWithEndpointID_store {K : MTRConstants}
    (endpointID clusterID attributeID : Z) (value : NSDictionary)
    (expectedValueInterval : Z) (timeout : option Z) (now : NSDate) :
  preserves store_equiv
    (writeAttributeWithEndpointID endpointID clusterID attributeID value
       expectedValueInterval timeout now).
Proof.
  unfold writeAttributeWithEndpointID, enqueueWorkItem.
  pose proof setExpectedValues_store. cbv zeta. store_kept.
Qed.

Lemma wrap64_succ_ne (id : Z) : wrap64 (id + 1) <> id.
Proof.
  unfold wrap64. intros H.
  pose proof (Z.div_mod (id + 1) (2 ^ 64) ltac:(lia)) as Hdiv.
  rewrite H in Hdiv. change (2 ^ 64) with 18446744073709551616 in Hdiv. lia.
Qed.

(** X17.  After a write, a read of the attribute answers with the
    written value at any time up to [now] plus the expected-value interval
    clamped to [1, UINT32_MAX] ms, and with the value of the read cache
    after that; the write itself changes no value of the read cache. *)
Theorem written_value_is_read_until_it_expires {K : MTRConstants}
    (endpointID clusterID attributeID : Z) (value : NSDictionary)
    (expectedValueInterval : Z) (timeout : option Z) (now : NSDate) (d : MTRDevice) :
  let path := mkAttributePath endpointID clusterID attributeID in
  let expiry := now + MTRClampedNumber expectedValueInterval 1 UINT32_MAX in
  let d' := exec (writeAttributeWithEndpointID endpointID clusterID attributeID value
                    expectedValueInterval timeout now) d in
  now < expiry
  /\ (forall params later, later <= expiry -> readValue path params later d' = Some value)
  /\ (forall params later, expiry < later ->
        readValue path params later d' = result (_cachedAttributeValueForPath path d))
  /\ forall p, result (_cachedAttributeValueForPath p d')
               = result (_cachedAttributeValueForPath p d).
Proof.
  cbv zeta.
  pose proof (MTRClampedNumber_range expectedValueInterval 1 UINT32_MAX
                ltac:(unfold UINT32_MAX; lia)) as Hclamp.
  pose proof (writeAttributeWithEndpointID_store endpointID clusterID attributeID value
                expectedValueInterval timeout now d) as Hstore.
  destruct (writeAttributeWithEndpointID_run endpointID clusterID attributeID value
              expectedValueInterval timeout now d) as (cache & paged & out & Hrun & Hcache).
  cbv zeta in Hrun.
  assert (Hexpected : expectedValueCache
                        (exec (writeAttributeWithEndpointID endpointID clusterID attributeID
                                 value expectedValueInterval timeout now) d)
                      !! mkAttributePath endpointID clusterID attributeID
                      = Some (mkExpectedValue
                                (now + MTRClampedNumber expectedValueInterval 1 UINT32_MAX)
                                value (expectedValueNextID d))).
  { unfold exec. rewrite Hrun. exact Hcache. }
  assert (Hcached : forall p,
             result (_cachedAttributeValueForPath p
                       (exec (writeAttributeWithEndpointID endpointID clusterID attributeID
                                value expectedValueInterval timeout now) d))
             = result (_cachedAttributeValueForPath p d))
    by (intros p; apply _cachedAttributeValueForPath_result_store_equiv; exact Hstore).
  split; [lia|]. split; [|split; [|exact Hcached]].
  - intros params later Hlater. rewrite readValue_spec, Hexpected.
    cbn [MTRDeviceExpectedValueFieldExpirationTimeIndex MTRDeviceExpectedValueFieldValueIndex].
    rewrite bool_decide_eq_true_2 by exact Hlater. reflexivity.
  - intros params later Hlater. rewrite readValue_spec, Hexpected.
    cbn [MTRDeviceExpectedValueFieldExpirationTimeIndex MTRDeviceExpectedValueFieldValueIndex].
    rewrite bool_decide_eq_false_2 by lia. apply Hcached.
Qed.

(** X18.  Two writes to one attribute, the second issued while
    the first is under way with the request it was queued with: when the
    first write then fails, its completion leaves the expected value of the
    second write in place, since the id it removes by is not the id of the
    entry; a read keeps answering with the value of the second write until
    that one expires. *)
Theorem failed_write_keeps_expected_value_of_later_write {K : MTRConstants}
    (endpointID clusterID attributeID : Z) (value1 value2 : NSDictionary)
    (interval1 interval2 : Z) (timeout1 timeout2 : option Z) (now1 now2 : NSDate)
    (error : NSError) (d : MTRDevice) :
  let path := mkAttributePath endpointID clusterID attributeID in
  let request1 :=
    mkWriteRequest path value1 ((fun t => MTRClampedNumber t 1 UINT16_MAX) <$> timeout1)
      (expectedValueNextID d) in
  let d1 := exec (writeAttributeWithEndpointID endpointID clusterID attributeID value1
                    interval1 timeout1 now1) d in
  let d2 := exec (writeAttributeWithEndpointID endpointID clusterID attributeID value2
                    interval2 timeout2 now2) d1 in
  let d3 := exec (writeCompletion path true request1 (Some error)) d2 in
  asyncWorkQueue d1 = asyncWorkQueue d ++ [WriteWorkItem path true [request1]]
  /\ expectedValueCache d3 !! path
     = Some (mkExpectedValue (now2 + MTRClampedNumber interval2 1 UINT32_MAX) value2
               (wrap64 (expectedValueNextID d + 1)))
  /\ forall params later,
       later <= now2 + MTRClampedNumber interval2 1 UINT32_MAX ->
       readValue path params later d3 = Some value2.
Proof.
  cbv zeta.
  destruct (writeAttributeWithEndpointID_run endpointID clusterID attributeID value1
              interval1 timeout1 now1 d) as (cache1 & paged1 & out1 & Hrun1 & _).
  cbv zeta in Hrun1.
  set (path := mkAttributePath endpointID clusterID attributeID) in *.
  set (w1 := writeAttributeWithEndpointID endpointID clusterID attributeID value1
               interval1 timeout1 now1) in *.
  assert (Hd1 : exec w1 d
                = set_asyncWorkQueue
                    (asyncWorkQueue d
                     ++ [WriteWorkItem path true
                           [mkWriteRequest path value1
                              ((fun t => MTRClampedNumber t 1 UINT16_MAX) <$> timeout1)
                              (expectedValueNextID d)]])
                    (set_persistedClusterData paged1
                       (set_expectedValueCache cache1
                          (set_expectedValueNextID (wrap64 (expectedValueNextID d + 1)) d))))
    by (unfold exec; rewrite Hrun1; reflexivity).
  assert (Hid : expectedValueNextID (exec w1 d) = wrap64 (expectedValueNextID d + 1))
    by (rewrite Hd1; reflexivity).
  destruct (writeAttributeWithEndpointID_run endpointID clusterID attributeID value2
              interval2 timeout2 now2 (exec w1 d)) as (cache2 & paged2 & out2 & Hrun2 & Hcache2).
  cbv zeta in Hrun2. fold path in Hrun2, Hcache2.
  set (w2 := writeAttributeWithEndpointID endpointID clusterID attributeID value2
               interval2 timeout2 now2) in *.
  assert (Hexpected2 : expectedValueCache (exec w2 (exec w1 d)) !! path
                       = Some (mkExpectedValue
                                 (now2 + MTRClampedNumber interval2 1 UINT32_MAX) value2
                                 (wrap64 (expectedValueNextID d + 1)))).
  { unfold exec at 1. rewrite Hrun2. cbn [device_after fst snd]. rewrite <- Hid.
    exact Hcache2. }
  assert (Hexpected3 :
            expectedValueCache
              (exec (writeCompletion path true
                       (mkWriteRequest path value1
                          ((fun t => MTRClampedNumber t 1 UINT16_MAX) <$> timeout1)
                          (expectedValueNextID d))
                       (Some error))
                 (exec w2 (exec w1 d))) !! path
            = Some (mkExpectedValue (now2 + MTRClampedNumber interval2 1 UINT32_MAX) value2
                      (wrap64 (expectedValueNextID d + 1)))).
  { unfold exec at 1. unfold writeCompletion.
    cbn [MTRDeviceWriteRequestFieldExpectedValueIDIndex andb when].
    rewrite (bool_decide_eq_true_2 (is_Some (Some error))) by (eexists; reflexivity).
    cbn [andb when]. autorewrite with run.
    pose proof (removeExpectedValue_lookup (exec w2 (exec w1 d)) path
                  (expectedValueNextID d)) as Hremove.
    unfold exec at 1 in Hremove. rewrite Hremove, Hexpected2.
    cbn [MTRDeviceExpectedValueFieldIDIndex].
    rewrite bool_decide_eq_false_2 by apply wrap64_succ_ne. reflexivity. }
  split; [rewrite Hd1; reflexivity|]. split; [exact Hexpected3|].
  intros params later Hlater. rewrite readValue_spec, Hexpected3.
  cbn [MTRDeviceExpectedValueFieldExpirationTimeIndex MTRDeviceExpectedValueFieldValueIndex].
  rewrite bool_decide_eq_true_2 by exact Hlater. reflexivity.
Qed.
(** ** The expiry sweep of the expected values *)

(** The date the first loop of the sweep ends with: the earliest
    expiration among the entries that have not expired, [nil] when all have
    expired. *)
Lemma nextExpirationDate_spec (now : NSDate)
    (entries : list (MTRAttributePath * ExpectedValue)) :
  match nextExpirationDate now entries with
  | None =>
      Forall (fun e => NSOrderedDescending now
                         (MTRDeviceExpectedValueFieldExpirationTimeIndex e.2) = true) entries
  | Some next =>
      (exists e, e ∈ entries
                 /\ NSOrderedDescending now
                      (MTRDeviceExpectedValueFieldExpirationTimeIndex e.2) = false
                 /\ MTRDeviceExpectedValueFieldExpirationTimeIndex e.2 = next)
      /\ Forall (fun e => NSOrderedDescending now
                            (MTRDeviceExpectedValueFieldExpirationTimeIndex e.2) = false ->
                          next <= MTRDeviceExpectedValueFieldExpirationTimeIndex e.2) entries
  end.
Proof.
  unfold nextExpirationDate.
  induction entries as [|e entries IH] using rev_ind; [constructor|].
  rewrite foldl_app. cbn [foldl].
  destruct (NSOrderedDescending now (MTRDeviceExpectedValueFieldExpirationTimeIndex e.2))
    eqn:Hexpired.
  - destruct (foldl _ None entries) as [next|].
    + destruct IH as [(e0 & Hin & He0) Hall]. split.
      * exists e0. split; [apply elem_of_app; left; exact Hin | exact He0].
      * apply Forall_app. split; [exact Hall|]. constructor; [|constructor].
        rewrite Hexpired. discriminate.
    + apply Forall_app. split; [exact IH|]. constructor; [exact Hexpired | constructor].
  - destruct (foldl _ None entries) as [next|].
    + destruct IH as [(e0 & Hin & He0) Hall].
      destruct (NSOrderedDescending next (MTRDeviceExpectedValueFieldExpirationTimeIndex e.2))
        eqn:Hless; unfold NSOrderedDescending in Hless.
      * apply Z.ltb_lt in Hless. split.
        -- exists e. split; [apply elem_of_app; right; apply list_elem_of_singleton;
                             reflexivity | auto].
        -- apply Forall_app. split.
           ++ eapply Forall_impl; [exact Hall|]. cbn. intros x Hx Hu. specialize (Hx Hu). lia.
           ++ constructor; [intros _; lia | constructor].
      * apply Z.ltb_ge in Hless. split.
        -- exists e0. split; [apply elem_of_app; left; exact Hin | exact He0].
        -- apply Forall_app. split; [exact Hall|].
           constructor; [intros _; exact Hless | constructor].
    + split.
      * exists e. split; [apply elem_of_app; right; apply list_elem_of_singleton;
                          reflexivity | auto].
      * apply Forall_app. split.
        -- eapply Forall_impl; [exact IH|]. cbn. intros x Hx Hu. congruence.
        -- constructor; [intros _; lia | constructor].
Qed.

(** What the sweep dispatches: a report for the delegate at most, then the
    timer of the next check at most. *)
Lemma _checkExpiredExpectedValues_effects (now : NSDate) (d : MTRDevice) :
  let r := _checkExpiredExpectedValues now d in
  exists callbacks,
    Forall is_delegate_call callbacks
    /\ effects r
       = callbacks
         ++ match nextExpirationDate now (map_to_list (expectedValueCache d)) with
            | Some next =>
                if negb (bool_decide (size (expectedValueCache (device_after r)) = 0%nat))
                   && negb (expirationCheckScheduled d)
                then [dispatch_after
                        (Z.max (next - now) MTR_DEVICE_EXPIRATION_CHECK_TIMER_MINIMUM_WAIT_TIME)
                        performScheduledExpirationCheck_block]
                else []
            | None => []
            end
    /\ expirationCheckScheduled (device_after r) = expirationCheckScheduled d.
Proof.
  cbv zeta. unfold _checkExpiredExpectedValues.
  destruct (removeExpired_run
              (attributeInfoToRemove now (map_to_list (expectedValueCache d))) d)
    as (reports & cache & paged & Hremove & _).
  set (d2 := set_persistedClusterData paged (set_expectedValueCache cache d)) in *.
  assert (Hreport : exists callbacks,
             _reportAttributes reports d2 = (tt, d2, callbacks)
             /\ Forall is_delegate_call callbacks).
  { unfold _reportAttributes. destruct reports as [|report reports].
    - exists []. split; [reflexivity | constructor].
    - unfold_m. destruct (weakDelegate d2).
      + eexists. split; [reflexivity|]. repeat constructor.
      + exists []. split; [reflexivity | constructor]. }
  destruct Hreport as (callbacks & Hreport & Hcallbacks).
  exists callbacks. split; [exact Hcallbacks|].
  assert (Hafter : forall k : list (MTRAttributePath * ExpectedValue) -> M unit,
             (entries <- get (fun d => map_to_list (expectedValueCache d)) ;;
              attributesToReport <- removeExpired (attributeInfoToRemove now entries) ;;
              _reportAttributes attributesToReport ;;; k entries) d
             = (let '(a, d3, out) := k (map_to_list (expectedValueCache d)) d2 in
                (a, d3, callbacks ++ out))).
  { intros k. unfold bind at 1. unfold get at 1. unfold bind at 1. rewrite Hremove.
    unfold bind at 1. rewrite Hreport.
    destruct (k (map_to_list (expectedValueCache d)) d2) as [[a d3] out]. reflexivity. }
  unfold MTR_DEVICE_EXPIRATION_CHECK_TIMER_MINIMUM_WAIT_TIME.
  rewrite Hafter. clear Hafter.
  destruct (nextExpirationDate now (map_to_list (expectedValueCache d))) as [next|].
  - unfold_m. cbn [fst snd].
    change (expirationCheckScheduled d2) with (expirationCheckScheduled d).
    destruct (negb (bool_decide (size (expectedValueCache d2) = 0%nat))
              && negb (expirationCheckScheduled d)) eqn:Hcond;
      unfold_m; cbn [fst snd app]; rewrite ?Hcond, ?app_nil_r.
    + split; [|reflexivity]. do 3 f_equal.
      destruct (next - now <? 100) eqn:Hmin; [apply Z.ltb_lt in Hmin | apply Z.ltb_ge in Hmin];
        lia.
    + split; reflexivity.
  - unfold_m. cbn [fst snd effects device_after app]. split; reflexivity.
Qed.

(** X19.  The expiry sweep removes exactly the expected values whose
    expiration time has passed and leaves the read cache alone.  It does
    not raise the flag that a check is scheduled.  When entries stay and
    the flag is down, what it dispatches ends with one timer for the next
    check, after the time left until the earliest expiration among the
    entries that stay, 100 ms at least; otherwise it dispatches no timer.
    Whatever else it dispatches is for the delegate. *)
Theorem expiry_sweep_keeps_unexpired_and_arms_timer (now : NSDate) (d : MTRDevice) :
  let r := _checkExpiredExpectedValues now d in
  let kept := expectedValueCache (device_after r) in
  (forall p,
     kept !! p
     = match expectedValueCache d !! p with
       | Some ev =>
           if bool_decide (now <= MTRDeviceExpectedValueFieldExpirationTimeIndex ev)
           then Some ev else None
       | None => None
       end)
  /\ (forall p, result (_cachedAttributeValueForPath p (device_after r))
                = result (_cachedAttributeValueForPath p d))
  /\ expirationCheckScheduled (device_after r) = expirationCheckScheduled d
  /\ exists callbacks,
       Forall is_delegate_call callbacks
       /\ ((kept = ∅ \/ expirationCheckScheduled d = true) /\ effects r = callbacks
           \/ exists next p ev,
                expirationCheckScheduled d = false
                /\ kept !! p = Some ev
                /\ MTRDeviceExpectedValueFieldExpirationTimeIndex ev = next
                /\ (forall q ev', kept !! q = Some ev' ->
                      next <= MTRDeviceExpectedValueFieldExpirationTimeIndex ev')
                /\ effects r
                   = callbacks
                     ++ [dispatch_after (Z.max (next - now) 100)
                           performScheduledExpirationCheck_block]).
Proof.
  cbv zeta.
  destruct (_checkExpiredExpectedValues_run now d) as (cache & paged & out & Hrun & Hkept).
  destruct (_checkExpiredExpectedValues_effects now d)
    as (callbacks & Hcallbacks & Heffects & Hflag).
  pose proof (_checkExpiredExpectedValues_store now d) as Hstore.
  cbv zeta in Heffects, Hflag.
  assert (Hcache : expectedValueCache (device_after (_checkExpiredExpectedValues now d))
                   = cache) by (rewrite Hrun; reflexivity).
  assert (Hlookup : forall p,
             cache !! p
             = match expectedValueCache d !! p with
               | Some ev =>
                   if bool_decide (now <= MTRDeviceExpectedValueFieldExpirationTimeIndex ev)
                   then Some ev else None
               | None => None
               end).
  { intros p. rewrite Hkept. destruct (expectedValueCache d !! p) as [ev|]; [|reflexivity].
    unfold NSOrderedDescending.
    destruct (MTRDeviceExpectedValueFieldExpirationTimeIndex ev <? now) eqn:Hexpired.
    - apply Z.ltb_lt in Hexpired. rewrite bool_decide_eq_false_2 by lia. reflexivity.
    - apply Z.ltb_ge in Hexpired. rewrite bool_decide_eq_true_2 by lia. reflexivity. }
  rewrite Hcache in *.
  split; [exact Hlookup|]. split.
  { intros p. apply _cachedAttributeValueForPath_result_store_equiv. exact Hstore. }
  split; [exact Hflag|].
  exists callbacks. split; [exact Hcallbacks|].
  pose proof (nextExpirationDate_spec now (map_to_list (expectedValueCache d))) as Hnext.
  destruct (nextExpirationDate now (map_to_list (expectedValueCache d))) as [next|].
  - destruct Hnext as [([p ev] & Hin & Hunexpired & Hexpiry) Hall].
    apply elem_of_map_to_list in Hin. cbn [snd] in Hunexpired, Hexpiry.
    assert (Hp : cache !! p = Some ev).
    { rewrite Hkept, Hin, Hunexpired. reflexivity. }
    assert (Hsize : bool_decide (size cache = 0%nat) = false).
    { apply bool_decide_eq_false_2. intros Hzero.
      apply map_size_empty_iff in Hzero. rewrite Hzero, lookup_empty in Hp. discriminate. }
    rewrite Hsize in Heffects. cbn [negb andb] in Heffects.
    destruct (expirationCheckScheduled d) eqn:Hscheduled; cbn [negb] in Heffects.
    + left. rewrite app_nil_r in Heffects. auto.
    + right. exists next, p, ev. repeat split; try assumption.
      intros q ev' Hq. rewrite Hkept in Hq.
      destruct (expectedValueCache d !! q) as [ev0|] eqn:Hev0; [|discriminate].
      destruct (NSOrderedDescending now (MTRDeviceExpectedValueFieldExpirationTimeIndex ev0))
        eqn:Hu; [discriminate|].
      injection Hq as <-.
      rewrite Forall_forall in Hall.
      apply (Hall (q, ev0)); [apply elem_of_map_to_list; exact Hev0 | exact Hu].
  - left. rewrite app_nil_r in Heffects. split; [|exact Heffects].
    left. apply map_eq. intros p. rewrite lookup_empty, Hkept.
    destruct (expectedValueCache d !! p) as [ev|] eqn:Hev; [|reflexivity].
    rewrite Forall_forall in Hnext.
    assert (Hexpired : NSOrderedDescending now
                         (MTRDeviceExpectedValueFieldExpirationTimeIndex ev) = true)
      by (apply (Hnext (p, ev)), elem_of_map_to_list; exact Hev).
    rewrite Hexpired. reflexivity.
Qed.
(** ** The cluster data store: priming, storage, data versions *)

Lemma msg_isEqual_type (t : MTRValueType) (o : option MTRValueType) :
  msg_isEqual (fun a b : MTRValueType => bool_decide (a = b)) (Some t) o = true
  <-> o = Some t.
Proof.
  destruct o as [t'|]; cbn; [|split; discriminate].
  rewrite bool_decide_eq_true. split; congruence.
Qed.

Section Priming.

Context {K : MTRConstants}.

(** The loop over the parts list answers YES exactly when every item that
    holds an unsigned-integer data value with a number has, for that
    endpoint, a cached device-type list of array type with a value. *)
Lemma partsListEndpointsHaveDeviceTypeList_spec (partsList : list NSDictionary) :
  forall d : MTRDevice,
    store_equiv d (device_after (partsListEndpointsHaveDeviceTypeList partsList d))
    /\ (result (partsListEndpointsHaveDeviceTypeList partsList d) = true
        <-> Forall (fun item =>
                      forall endpointDataValue endpoint,
                        MTRDataKey item = Some (NSDictionaryObject endpointDataValue) ->
                        MTRTypeKey endpointDataValue = Some MTRUnsignedIntegerValueType ->
                        MTRValueKey endpointDataValue = Some (NSNumber endpoint) ->
                        exists deviceTypeList,
                          result (_cachedAttributeValueForPath
                                    (mkAttributePath endpoint MTRClusterIDTypeDescriptorID
                                       MTRAttributeIDTypeClusterDescriptorAttributeDeviceTypeListID)
                                    d) = Some deviceTypeList
                          /\ MTRTypeKey deviceTypeList = Some MTRArrayValueType
                          /\ is_Some (MTRValueKey deviceTypeList))
             partsList).
Proof.
  induction partsList as [|item rest IH]; intros d.
  - cbn. split; [apply store_equiv_refl|]. split; [constructor | reflexivity].
  - cbn [partsListEndpointsHaveDeviceTypeList].
    assert (Hskip :
              (forall endpointDataValue endpoint,
                 MTRDataKey item = Some (NSDictionaryObject endpointDataValue) ->
                 MTRTypeKey endpointDataValue = Some MTRUnsignedIntegerValueType ->
                 MTRValueKey endpointDataValue = Some (NSNumber endpoint) -> False) ->
              store_equiv d (device_after (partsListEndpointsHaveDeviceTypeList rest d))
              /\ (result (partsListEndpointsHaveDeviceTypeList rest d) = true
                  <-> Forall (fun item =>
                      forall endpointDataValue endpoint,
                        MTRDataKey item = Some (NSDictionaryObject endpointDataValue) ->
                        MTRTypeKey endpointDataValue = Some MTRUnsignedIntegerValueType ->
                        MTRValueKey endpointDataValue = Some (NSNumber endpoint) ->
                        exists deviceTypeList,
                          result (_cachedAttributeValueForPath
                                    (mkAttributePath endpoint MTRClusterIDTypeDescriptorID
                                       MTRAttributeIDTypeClusterDescriptorAttributeDeviceTypeListID)
                                    d) = Some deviceTypeList
                          /\ MTRTypeKey deviceTypeList = Some MTRArrayValueType
                          /\ is_Some (MTRValueKey deviceTypeList))
                       (item :: rest))).
    { intros Hnone. destruct (IH d) as [Hstore Hiff]. split; [exact Hstore|].
      rewrite Hiff, Forall_cons. split; [|tauto].
      intros Hrest. split; [|exact Hrest].
      intros e endpoint H1 H2 H3. destruct (Hnone e endpoint H1 H2 H3). }
    destruct (MTRDataKey item) as [[| | | |endpointDataValue]|] eqn:Hdata;
      try (apply Hskip; intros e endpoint [=]).
    destruct (msg_isEqual _ (Some MTRUnsignedIntegerValueType) (MTRTypeKey endpointDataValue))
      eqn:Htype; cbn [negb].
    2: { apply Hskip. intros e endpoint He Ht. simplify_eq.
         apply (msg_isEqual_type MTRUnsignedIntegerValueType) in Ht. congruence. }
    apply msg_isEqual_type in Htype.
    destruct (MTRValueKey endpointDataValue) as [[endpoint| | | |]|] eqn:Hvalue;
      try (apply Hskip; intros e endpoint' He; simplify_eq; congruence).
    clear Hskip.
    set (path := mkAttributePath endpoint MTRClusterIDTypeDescriptorID
                   MTRAttributeIDTypeClusterDescriptorAttributeDeviceTypeListID).
    pose proof (_cachedAttributeValueForPath_store_equiv path d) as Hpaged.
    set (d1 := device_after (_cachedAttributeValueForPath path d)) in *.
    destruct (IH d1) as [Hstore Hiff].
    autorewrite with run. fold d1.
    assert (Hcached : forall p, result (_cachedAttributeValueForPath p d1)
                                = result (_cachedAttributeValueForPath p d))
      by (intros p; apply _cachedAttributeValueForPath_result_store_equiv; exact Hpaged).
    destruct (result (_cachedAttributeValueForPath path d)) as [deviceTypeList|] eqn:Hlist.
    + cbn [mbind option_bind].
      destruct (msg_isEqual _ (Some MTRArrayValueType) (MTRTypeKey deviceTypeList))
        eqn:Harray; cbn [negb orb].
      * apply msg_isEqual_type in Harray.
        destruct (MTRValueKey deviceTypeList) as [v|] eqn:Hv.
        -- rewrite (bool_decide_eq_true_2 (is_Some (Some v))) by (eexists; reflexivity).
           cbn [negb]. split; [eapply store_equiv_trans; eassumption|].
           rewrite Hiff, Forall_cons. split.
           ++ intros Hall. split.
              ** intros e endpoint' He _ Hval. simplify_eq.
                 exists deviceTypeList. fold path. rewrite Hv. eauto.
              ** eapply Forall_impl; [exact Hall|]. cbn. intros x Hx e ep H1 H2 H3.
                 rewrite <- Hcached. eauto.
           ++ intros [_ Hall]. eapply Forall_impl; [exact Hall|]. cbn.
              intros x Hx e ep H1 H2 H3. rewrite Hcached. eauto.
        -- rewrite (bool_decide_eq_false_2 (is_Some None)) by (intros [? [=]]).
           cbn [negb]. autorewrite with run. split; [exact Hpaged|].
           split; [discriminate|]. rewrite Forall_cons. intros [Hitem _].
           destruct (Hitem endpointDataValue endpoint Hdata Htype Hvalue)
             as (v & Hsome & _ & [w Hw]).
           fold path in Hsome. rewrite Hlist in Hsome. injection Hsome as <-. congruence.
      * autorewrite with run. split; [exact Hpaged|].
        split; [discriminate|]. rewrite Forall_cons. intros [Hitem _].
        destruct (Hitem endpointDataValue endpoint Hdata Htype Hvalue)
          as (v & Hsome & Ht & _).
        fold path in Hsome. rewrite Hlist in Hsome. injection Hsome as <-.
        apply (msg_isEqual_type MTRArrayValueType) in Ht. congruence.
    + cbn [mbind option_bind msg_isEqual negb orb]. autorewrite with run.
      split; [exact Hpaged|]. split; [discriminate|]. rewrite Forall_cons. intros [Hitem _].
      destruct (Hitem endpointDataValue endpoint Hdata Htype Hvalue) as (v & Hsome & _).
      fold path in Hsome. rewrite Hlist in Hsome. discriminate.
Qed.

(** The cache-primed predicate in terms of what the read cache answers. *)
Lemma _isCachePrimedWithInitialConfigurationData_spec (d : MTRDevice) :
  result (_isCachePrimedWithInitialConfigurationData d) = true
  <-> exists root partsList,
        result (_cachedAttributeValueForPath rootPartsListPath d) = Some root
        /\ MTRTypeKey root = Some MTRArrayValueType
        /\ MTRValueKey root = Some (NSArray partsList)
        /\ partsList <> []
        /\ Forall (fun item =>
                     forall endpointDataValue endpoint,
                       MTRDataKey item = Some (NSDictionaryObject endpointDataValue) ->
                       MTRTypeKey endpointDataValue = Some MTRUnsignedIntegerValueType ->
                       MTRValueKey endpointDataValue = Some (NSNumber endpoint) ->
                       exists deviceTypeList,
                         result (_cachedAttributeValueForPath
                                   (mkAttributePath endpoint MTRClusterIDTypeDescriptorID
                                      MTRAttributeIDTypeClusterDescriptorAttributeDeviceTypeListID)
                                   d) = Some deviceTypeList
                         /\ MTRTypeKey deviceTypeList = Some MTRArrayValueType
                         /\ is_Some (MTRValueKey deviceTypeList))
             partsList.
Proof.
  unfold _isCachePrimedWithInitialConfigurationData. fold rootPartsListPath.
  pose proof (_cachedAttributeValueForPath_store_equiv rootPartsListPath d) as Hpaged.
  set (d1 := device_after (_cachedAttributeValueForPath rootPartsListPath d)) in *.
  assert (Hcached : forall p, result (_cachedAttributeValueForPath p d1)
                              = result (_cachedAttributeValueForPath p d))
    by (intros p; apply _cachedAttributeValueForPath_result_store_equiv; exact Hpaged).
  autorewrite with run. fold d1.
  destruct (result (_cachedAttributeValueForPath rootPartsListPath d)) as [root|].
  2: { autorewrite with run. split; [discriminate|]. intros (? & ? & [=] & _). }
  destruct (msg_isEqual _ (Some MTRArrayValueType) (MTRTypeKey root)) eqn:Harray;
    cbn [negb].
  2: { autorewrite with run. split; [discriminate|].
       intros (root' & ? & [= <-] & Ht & _).
       apply (msg_isEqual_type MTRArrayValueType) in Ht. congruence. }
  apply msg_isEqual_type in Harray.
  destruct (MTRValueKey root) as [[| | |partsList|]|] eqn:Hvalue;
    try (autorewrite with run; split; [discriminate|];
         intros (root' & ? & [= <-] & _ & Hv & _); congruence).
  destruct partsList as [|item rest].
  { cbn. autorewrite with run. split; [discriminate|].
    intros (root' & l & [= <-] & _ & Hv & Hne & _). congruence. }
  rewrite bool_decide_eq_false_2 by (cbn; lia).
  destruct (partsListEndpointsHaveDeviceTypeList_spec (item :: rest) d1) as [_ Hiff].
  rewrite Hiff. split.
  - intros Hall. exists root, (item :: rest). repeat split; try assumption; try discriminate.
    eapply Forall_impl; [exact Hall|]. cbn. intros x Hx e ep H1 H2 H3.
    rewrite <- Hcached. eauto.
  - intros (root' & l & [= <-] & _ & Hv & _ & Hall).
    rewrite Hvalue in Hv. injection Hv as <-.
    eapply Forall_impl; [exact Hall|]. cbn. intros x Hx e ep H1 H2 H3.
    rewrite Hcached. eauto.
Qed.

(** The predicate depends on the answers of the look-ups only. *)
Lemma _isCachePrimedWithInitialConfigurationData_store_equiv (d d' : MTRDevice) :
  store_equiv d d' ->
  result (_isCachePrimedWithInitialConfigurationData d')
  = result (_isCachePrimedWithInitialConfigurationData d).
Proof.
  intros Hstore.
  assert (Hcached : forall p, result (_cachedAttributeValueForPath p d')
                              = result (_cachedAttributeValueForPath p d))
    by (intros p; apply _cachedAttributeValueForPath_result_store_equiv; exact Hstore).
  apply eq_true_iff_eq. rewrite !_isCachePrimedWithInitialConfigurationData_spec.
  split; intros (root & partsList & H1 & H2 & H3 & H4 & Hall);
    exists root, partsList.
  - rewrite <- Hcached. repeat split; try assumption.
    eapply Forall_impl; [exact Hall|]. cbn. intros x Hx e ep He Ht Hv.
    rewrite <- Hcached. eauto.
  - rewrite Hcached. repeat split; try assumption.
    eapply Forall_impl; [exact Hall|]. cbn. intros x Hx e ep He Ht Hv.
    rewrite Hcached. eauto.
Qed.

(** X20.  The cache counts as primed with the initial configuration
    data exactly when the read cache holds, for the parts list of the root
    endpoint, an array with at least one item and, for every item that is an
    unsigned-integer data value holding a number, a device-type list of the
    Descriptor cluster of that endpoint that is an array with a value.
    Items of another shape are passed over: a parts list made of such items
    only counts as primed. *)
Theorem cache_primed_iff_listed_endpoints_are_described (d : MTRDevice) :
  (result (deviceCachePrimed_property d) = true
   <-> exists root partsList,
         result (_cachedAttributeValueForPath rootPartsListPath d) = Some root
         /\ MTRTypeKey root = Some MTRArrayValueType
         /\ MTRValueKey root = Some (NSArray partsList)
         /\ partsList <> []
         /\ Forall (fun item =>
                      forall endpointDataValue endpoint,
                        MTRDataKey item = Some (NSDictionaryObject endpointDataValue) ->
                        MTRTypeKey endpointDataValue = Some MTRUnsignedIntegerValueType ->
                        MTRValueKey endpointDataValue = Some (NSNumber endpoint) ->
                        exists deviceTypeList,
                          result (_cachedAttributeValueForPath
                                    (mkAttributePath endpoint MTRClusterIDTypeDescriptorID
                                       MTRAttributeIDTypeClusterDescriptorAttributeDeviceTypeListID)
                                    d) = Some deviceTypeList
                          /\ MTRTypeKey deviceTypeList = Some MTRArrayValueType
                          /\ is_Some (MTRValueKey deviceTypeList))
              partsList)
  /\ forall (root : NSDictionary) (partsList : list NSDictionary),
       result (_cachedAttributeValueForPath rootPartsListPath d) = Some root ->
       MTRTypeKey root = Some MTRArrayValueType ->
       MTRValueKey root = Some (NSArray partsList) ->
       partsList <> [] ->
       Forall (fun item => MTRDataKey item = None) partsList ->
       result (deviceCachePrimed_property d) = true.
Proof.
  unfold deviceCachePrimed_property. split.
  - apply _isCachePrimedWithInitialConfigurationData_spec.
  - intros root partsList Hroot Htype Hvalue Hne Hitems.
    apply _isCachePrimedWithInitialConfigurationData_spec.
    exists root, partsList. repeat split; try assumption.
    eapply Forall_impl; [exact Hitems|]. cbn. intros x Hx e ep He. congruence.
Qed.

Lemma partsListEndpointsHaveDeviceTypeList_store (partsList : list NSDictionary) :
  preserves store_equiv (partsListEndpointsHaveDeviceTypeList partsList).
Proof. intros d. apply partsListEndpointsHaveDeviceTypeList_spec. Qed.

Lemma _isCachePrimedWithInitialConfigurationData_store :
  preserves store_equiv _isCachePrimedWithInitialConfigurationData.
Proof.
  unfold _isCachePrimedWithInitialConfigurationData.
  pose proof _cachedAttributeValueForPath_store_equiv.
  pose proof partsListEndpointsHaveDeviceTypeList_store.
  store_kept.
Qed.

(** A look-up after cluster data from storage was handed to the device. *)
Lemma persisted_lookup (clusterPath : MTRClusterPath)
    (clusterData cache : gmap MTRClusterPath MTRDeviceClusterData) (d : MTRDevice) :
  persistedClusterData d = Some cache ->
  result (_clusterDataForPath clusterPath
            (set_persistedClusterData ((clusterData ∪.) <$> persistedClusterData d)
               (set_persistedClusters (dom clusterData ∪ persistedClusters d) d)))
  = match clusterDataToPersist d ≫= (.!! clusterPath) with
    | Some dirty => Some dirty
    | None =>
        match clusterData !! clusterPath with
        | Some data => Some data
        | None => result (_clusterDataForPath clusterPath d)
        end
    end.
Proof.
  intros Hcache. rewrite !_clusterDataForPath_result.
  change (clusterDataToPersist (set_persistedClusterData _ _)) with (clusterDataToPersist d).
  change (persistedClusterData (set_persistedClusterData _ _))
    with ((clusterData ∪.) <$> persistedClusterData d).
  change (persistedClusters (set_persistedClusterData _ _))
    with (dom clusterData ∪ persistedClusters d).
  change (controllerDataStore (set_persistedClusterData _ _)) with (controllerDataStore d).
  rewrite Hcache. cbn [fmap option_fmap option_map mbind option_bind].
  destruct (clusterDataToPersist d ≫= (.!! clusterPath)) as [dirty|]; [reflexivity|].
  destruct (clusterData !! clusterPath) as [data|] eqn:Hdata.
  - rewrite (lookup_union_Some_l _ _ _ _ Hdata). reflexivity.
  - rewrite (lookup_union_r _ _ _ Hdata).
    destruct (cache !! clusterPath); [reflexivity|].
    assert (Hin : bool_decide (clusterPath ∈ dom clusterData ∪ persistedClusters d)
                  = bool_decide (clusterPath ∈ persistedClusters d)).
    { apply bool_decide_ext. rewrite elem_of_union, elem_of_dom, Hdata.
      split; [intros [[? [=]]|H]; exact H | auto]. }
    rewrite Hin. reflexivity.
Qed.

(** X21.  Cluster data handed over from storage is what a cluster
    look-up answers with afterwards, unless the device holds data to persist
    for the cluster, which comes first; other clusters answer as before.
    Nothing is dispatched.  When the data is not empty and the cache then
    counts as primed, the device takes [deviceCachePrimed:] as called: no
    sequence of calls dispatches it afterwards. *)
Theorem persisted_cluster_data_is_found_and_not_announced
    (clusterData cache : gmap MTRClusterPath MTRDeviceClusterData) (d : MTRDevice)
    (Hcache : persistedClusterData d = Some cache) :
  let r := setPersistedClusterData clusterData d in
  effects r = []
  /\ (forall clusterPath,
        result (_clusterDataForPath clusterPath (device_after r))
        = match clusterDataToPersist d ≫= (.!! clusterPath) with
          | Some dirty => Some dirty
          | None =>
              match clusterData !! clusterPath with
              | Some data => Some data
              | None => result (_clusterDataForPath clusterPath d)
              end
          end)
  /\ (clusterData <> ∅ ->
      result (deviceCachePrimed_property (device_after r)) = true ->
      forall calls,
        List.filter is_cachePrimed_call (effects (runCalls calls (device_after r))) = []).
Proof.
  cbv zeta. unfold setPersistedClusterData.
  destruct (bool_decide (size clusterData = 0%nat)) eqn:Hsize.
  { apply bool_decide_eq_true_1, map_size_empty_iff in Hsize. subst clusterData.
    autorewrite with run. split; [reflexivity|]. split; [|congruence].
    intros clusterPath. rewrite lookup_empty.
    destruct (clusterDataToPersist d ≫= (.!! clusterPath)) eqn:Hdirty; [|reflexivity].
    rewrite _clusterDataForPath_result, Hdirty. reflexivity. }
  set (d1 := set_persistedClusterData ((clusterData ∪.) <$> persistedClusterData d)
               (set_persistedClusters (dom clusterData ∪ persistedClusters d) d)).
  destruct (_isCachePrimedWithInitialConfigurationData_pages_only d1)
    as [Hout (paged & Hafter)].
  pose proof (_isCachePrimedWithInitialConfigurationData_store d1) as Hpaged.
  set (d2 := device_after (_isCachePrimedWithInitialConfigurationData d1)) in *.
  set (primed := result (_isCachePrimedWithInitialConfigurationData d1)) in *.
  assert (Heffects :
            effects ((modify (fun d =>
                        set_persistedClusterData ((clusterData ∪.) <$> persistedClusterData d)
                          (set_persistedClusters (dom clusterData ∪ persistedClusters d) d)) ;;;
                      primed <- _isCachePrimedWithInitialConfigurationData ;;
                      when primed (modify (set_delegateDeviceCachePrimedCalled true))) d)
            = []).
  { rewrite !effects_bind. cbv beta.
    change (device_after (modify _ d)) with d1. rewrite Hout. fold primed d2.
    destruct primed; reflexivity. }
  assert (Hdevice :
            device_after
              ((modify (fun d =>
                  set_persistedClusterData ((clusterData ∪.) <$> persistedClusterData d)
                    (set_persistedClusters (dom clusterData ∪ persistedClusters d) d)) ;;;
                primed <- _isCachePrimedWithInitialConfigurationData ;;
                when primed (modify (set_delegateDeviceCachePrimedCalled true))) d)
            = if primed then set_delegateDeviceCachePrimedCalled true d2 else d2).
  { rewrite !device_after_bind. cbv beta.
    change (device_after (modify _ d)) with d1. fold primed d2.
    destruct primed; reflexivity. }
  rewrite Heffects, Hdevice.
  split; [reflexivity|].
  assert (Hflagged : store_equiv d1
                       (if primed then set_delegateDeviceCachePrimedCalled true d2 else d2)).
  { destruct primed; [|exact Hpaged].
    eapply store_equiv_trans; [exact Hpaged|].
    apply store_equiv_same_store. repeat split. }
  split.
  - intros clusterPath. destruct Hflagged as [_ Hlookup]. rewrite Hlookup.
    apply (persisted_lookup clusterPath clusterData cache d Hcache).
  - intros _ Hprimed calls.
    unfold deviceCachePrimed_property in Hprimed.
    fold (result (_isCachePrimedWithInitialConfigurationData
                    (if primed then set_delegateDeviceCachePrimedCalled true d2 else d2)))
      in Hprimed.
    rewrite (_isCachePrimedWithInitialConfigurationData_store_equiv _ _ Hflagged) in Hprimed.
    fold primed in Hprimed. rewrite Hprimed.
    pose proof (runCalls_keep
                  (at_most_once delegateDeviceCachePrimedCalled is_cachePrimed_call)
                  (fun _ => True) calls
                  (at_most_once_nil _ _) (at_most_once_app _ _)
                  (fun call d _ => runCall_primed_once call d)) as Hcalls.
    destruct (Hcalls ltac:(apply Forall_forall; auto)
                (set_delegateDeviceCachePrimedCalled true d2)) as [Hcount _].
    change (length (List.filter is_cachePrimed_call
                      (effects (runCalls calls
                                  (set_delegateDeviceCachePrimedCalled true d2)))) <= 0)%nat
      in Hcount.
    apply length_zero_iff_nil. lia.
Qed.

End Priming.

Lemma persisted_cluster_data_is_found_and_not_announced_witness :
  effects (setPersistedClusterData (K := MatterConstants)
             {[ mkClusterPath 1 6 := mkClusterData (Some 7) ∅ ]}
             (initWithNodeID (Some ∅) false))
  = [].
Proof.
  refine (proj1 (persisted_cluster_data_is_found_and_not_announced (K := MatterConstants)
                   {[ mkClusterPath 1 6 := mkClusterData (Some 7) ∅ ]} ∅
                   (initWithNodeID (Some ∅) false) _)).
  reflexivity.
Defined.
(** ** Data versions of the known clusters *)

(** The loop over the known clusters: each listed cluster ends with the
    data version a look-up finds for it, or without an entry when there is
    none; the other entries stay. *)
Lemma cachedDataVersionsLoop_spec (paths : list MTRClusterPath) :
  forall (dataVersions : gmap MTRClusterPath Z) (d : MTRDevice),
    let r := cachedDataVersionsLoop paths dataVersions d in
    store_equiv d (device_after r)
    /\ effects r = []
    /\ forall clusterPath,
         result r !! clusterPath
         = if bool_decide (clusterPath ∈ paths) then storedDataVersion clusterPath d
           else dataVersions !! clusterPath.
Proof.
  induction paths as [|path rest IH]; intros dataVersions d; cbv zeta.
  - cbn. split; [apply store_equiv_refl|]. split; [reflexivity|].
    intros clusterPath. rewrite bool_decide_eq_false_2 by apply not_elem_of_nil. reflexivity.
  - cbn [cachedDataVersionsLoop].
    pose proof (_clusterDataForPath_store_equiv path d) as Hpaged.
    destruct (_clusterDataForPath_run path d) as (found & paged & Hrun).
    assert (Hfound : found ≫= cd_dataVersion = storedDataVersion path d)
      by (unfold storedDataVersion; rewrite Hrun; reflexivity).
    set (d1 := device_after (_clusterDataForPath path d)) in *.
    autorewrite with run. fold d1.
    assert (Hr : result (_clusterDataForPath path d) = found) by (rewrite Hrun; reflexivity).
    assert (Hout : effects (_clusterDataForPath path d) = []) by (rewrite Hrun; reflexivity).
    rewrite Hr, Hout.
    set (next := match found ≫= cd_dataVersion with
                 | Some dataVersion => <[path := dataVersion]> dataVersions
                 | None => delete path dataVersions
                 end).
    destruct (IH next d1) as (Hstore & Hquiet & Hlookup).
    split; [eapply store_equiv_trans; eassumption|]. split; [rewrite Hquiet; reflexivity|].
    intros clusterPath. rewrite Hlookup.
    assert (Hversion : storedDataVersion clusterPath d1 = storedDataVersion clusterPath d)
      by (apply storedDataVersion_store_equiv; exact Hpaged).
    destruct (decide (clusterPath ∈ rest)) as [Hin|Hout'].
    + rewrite !bool_decide_eq_true_2 by (try apply elem_of_cons; auto). exact Hversion.
    + rewrite (bool_decide_eq_false_2 _ Hout').
      destruct (decide (clusterPath = path)) as [->|Hne].
      * rewrite bool_decide_eq_true_2 by (apply elem_of_cons; auto).
        subst next. rewrite Hfound.
        destruct (storedDataVersion path d);
          [apply lookup_insert_eq | apply lookup_delete_eq].
      * rewrite bool_decide_eq_false_2 by (rewrite elem_of_cons; tauto).
        subst next. destruct (found ≫= cd_dataVersion);
          [apply lookup_insert_ne | apply lookup_delete_ne]; congruence.
Qed.

(** X22.  The data versions collected for a subscription hold, for
    each cluster that is persisted or waits to be persisted, the data
    version a look-up of the cluster finds, and nothing for a cluster
    without a version or for any other cluster.  Collecting them dispatches
    nothing and changes no answer of a look-up. *)
Theorem cached_data_versions_are_those_of_known_clusters (d : MTRDevice) :
  let r := _getCachedDataVersions d in
  (forall clusterPath dataVersion,
     result r !! clusterPath = Some dataVersion
     <-> (clusterPath ∈ persistedClusters d \/ isDirty clusterPath d)
         /\ storedDataVersion clusterPath d = Some dataVersion)
  /\ effects r = []
  /\ forall clusterPath,
       result (_clusterDataForPath clusterPath (device_after r))
       = result (_clusterDataForPath clusterPath d).
Proof.
  cbv zeta. unfold _getCachedDataVersions, _knownClusters. autorewrite with run.
  set (known := persistedClusters d
                ∪ match clusterDataToPersist d with
                  | Some dirty => dom dirty
                  | None => ∅
                  end).
  destruct (cachedDataVersionsLoop_spec (elements known) ∅ d) as (Hstore & Hquiet & Hlookup).
  split; [|split; [exact Hquiet | apply Hstore]].
  intros clusterPath dataVersion. rewrite Hlookup, lookup_empty.
  assert (Hknown : clusterPath ∈ elements known
                   <-> clusterPath ∈ persistedClusters d \/ isDirty clusterPath d).
  { rewrite elem_of_elements. subst known. rewrite elem_of_union. unfold isDirty.
    destruct (clusterDataToPersist d) as [dirty|]; cbn [mbind option_bind].
    - rewrite elem_of_dom. reflexivity.
    - rewrite elem_of_empty. split; [intros [H|[]]; auto | intros [H|[? [=]]]; auto]. }
  destruct (decide (clusterPath ∈ elements known)) as [Hin|Hout].
  - rewrite bool_decide_eq_true_2 by exact Hin. rewrite <- Hknown. tauto.
  - rewrite bool_decide_eq_false_2 by exact Hout. rewrite <- Hknown.
    split; [discriminate | tauto].
Qed.
(** ** Event reports *)

Section Events.

Context {K : MTRConstants}.

(** One turn of the event loop: the event it hands on, and the start-time
    estimate it leaves. *)
Lemma eventReportStep_spec (now : NSDate) (eventDict : MTREventReport) (d : MTRDevice) :
  let reset :=
    if isStartUpEvent eventDict then estimatedStartTimeFromGeneralDiagnosticsUpTime d
    else estimatedStartTime d in
  eventReportStep now eventDict d
  = (if eventIsReported eventDict
     then Some (withIsHistorical (receivingPrimingReport d) eventDict) else None,
     set_estimatedStartTime
       (match startTimeOfEvent now eventDict, reset with
        | Some candidate, Some estimate =>
            if candidate <? estimate then Some candidate else Some estimate
        | Some candidate, None => Some candidate
        | None, _ => reset
        end) d,
     []).
Proof.
  cbv zeta. unfold eventReportStep. cbv zeta.
  change ((ep_cluster (MTREventPathKey eventDict) =? MTRClusterIDTypeBasicInformationID)
          && (ep_event (MTREventPathKey eventDict)
              =? MTREventIDTypeClusterBasicInformationEventStartUpID))
    with (isStartUpEvent eventDict).
  unfold noteSystemUpTime, eventIsReported, startTimeOfEvent, withIsHistorical,
    NSOrderedAscending.
  destruct d. unfold_m.
  destruct (isStartUpEvent eventDict); cbn;
    destruct (MTREventTimeTypeKey eventDict) as [eventTimeType|];
    try destruct (eventTimeType =? MTREventTimeTypeSystemUpTime);
    destruct (MTREventSystemUpTimeKey eventDict) as [eventTimeValue|];
    cbn; try reflexivity.
  all: repeat match goal with
         | |- context [match ?x with Some _ => _ | None => _ end] => destruct x; cbn
         | |- context [if ?c then _ else _] => destruct c; cbn
         end; try reflexivity.
Qed.

(** The loop hands on the reported events of the batch, in order, each
    tagged with the priming flag the batch found; of the device it changes
    the start-time estimate at most. *)
Lemma eventReportLoop_spec (now : NSDate) (eventReport : list MTREventReport) :
  forall d : MTRDevice,
    exists estimate,
      eventReportLoop now eventReport d
      = (withIsHistorical (receivingPrimingReport d) <$> List.filter eventIsReported eventReport,
         set_estimatedStartTime estimate d, [])
      /\ (Forall (fun e => isStartUpEvent e = false) eventReport ->
          (forall t, estimatedStartTime d = Some t ->
             exists t', estimate = Some t' /\ t' <= t)
          /\ (forall e t, e ∈ eventReport -> startTimeOfEvent now e = Some t ->
                exists t', estimate = Some t' /\ t' <= t)
          /\ (forall t', estimate = Some t' ->
                estimatedStartTime d = Some t'
                \/ exists e, e ∈ eventReport /\ startTimeOfEvent now e = Some t')).
Proof.
  induction eventReport as [|eventDict rest IH]; intros d.
  - exists (estimatedStartTime d). split; [cbn; unfold ret; destruct d; reflexivity|].
    intros _. repeat split.
    + intros t Ht. exists t. split; [exact Ht | lia].
    + intros e t He. apply not_elem_of_nil in He. destruct He.
    + intros t' Ht'. left. exact Ht'.
  - pose proof (eventReportStep_spec now eventDict d) as Hstep. cbv zeta in Hstep.
    set (estimate1 := match startTimeOfEvent now eventDict,
                            (if isStartUpEvent eventDict
                             then estimatedStartTimeFromGeneralDiagnosticsUpTime d
                             else estimatedStartTime d) with
                      | Some candidate, Some estimate =>
                          if candidate <? estimate then Some candidate else Some estimate
                      | Some candidate, None => Some candidate
                      | None, reset => reset
                      end) in *.
    destruct (IH (set_estimatedStartTime estimate1 d)) as (estimate & Hloop & Hestimate).
    exists estimate. split.
    + cbn [eventReportLoop]. unfold bind at 1. rewrite Hstep.
      unfold bind at 1. rewrite Hloop. unfold ret. cbn [List.filter].
      change (receivingPrimingReport (set_estimatedStartTime estimate1 d))
        with (receivingPrimingReport d).
      destruct (eventIsReported eventDict); reflexivity.
    + intros Hnone. apply Forall_cons in Hnone as [Hstart Hnone].
      destruct (Hestimate Hnone) as (Hold & Hcandidates & Horigin).
      change (estimatedStartTime (set_estimatedStartTime estimate1 d)) with estimate1
        in Hold, Horigin.
      subst estimate1. rewrite Hstart in Hold, Horigin.
      repeat split.
      * intros t Ht. rewrite Ht in Hold.
        destruct (startTimeOfEvent now eventDict) as [candidate|].
        -- destruct (candidate <? t) eqn:Hlt;
             [apply Z.ltb_lt in Hlt | apply Z.ltb_ge in Hlt];
             destruct (Hold _ eq_refl) as (t' & Ht' & Hle); exists t'; split; auto; lia.
        -- apply Hold. reflexivity.
      * intros e t He Hc. apply elem_of_cons in He as [->|He];
          [|apply (Hcandidates e t He Hc)].
        rewrite Hc in Hold.
        destruct (estimatedStartTime d) as [old|].
        -- destruct (t <? old) eqn:Hlt;
             [apply Z.ltb_lt in Hlt | apply Z.ltb_ge in Hlt];
             destruct (Hold _ eq_refl) as (t' & Ht' & Hle); exists t'; split; auto; lia.
        -- apply Hold. reflexivity.
      * intros t' Ht'. destruct (Horigin t' Ht') as [Hfirst|(e & He & Hc)].
        -- destruct (startTimeOfEvent now eventDict) as [candidate|] eqn:Hc.
           ++ destruct (estimatedStartTime d) as [old|].
              ** destruct (candidate <? old); injection Hfirst as <-;
                   [right; exists eventDict; split; [left|exact Hc] | left; reflexivity].
              ** injection Hfirst as <-. right. exists eventDict. split; [left|exact Hc].
           ++ left. exact Hfirst.
        -- right. exists e. split; [right; exact He | exact Hc].
Qed.

(** X23.  An event report hands on the events that carry an event
    time type and, when that type is the system up-time, an up-time value,
    in the order of the report and tagged as historical exactly when the
    device is receiving a priming report; the other events are dropped.
    With a delegate they are dispatched in one callback, behind the events
    kept from earlier reports, and nothing is kept; the callback is made
    even when there is no event to hand on.  Without a delegate nothing is
    dispatched and the events are kept, behind the ones kept before. *)
Theorem events_are_kept_until_a_delegate_takes_them (now : NSDate)
    (eventReport : list MTREventReport) (d : MTRDevice) :
  let r := _handleEventReport now eventReport d in
  let report :=
    default [] (unreportedEvents d)
    ++ (withIsHistorical (receivingPrimingReport d)
          <$> List.filter eventIsReported eventReport) in
  if weakDelegate d
  then effects r = [dispatch_async_delegateQueue (device_receivedEventReport report)]
       /\ unreportedEvents (device_after r) = None
  else effects r = [] /\ unreportedEvents (device_after r) = Some report.
Proof.
  cbv zeta. unfold _handleEventReport.
  destruct (eventReportLoop_spec now eventReport d) as (estimate & Hloop & _).
  autorewrite with run. rewrite Hloop.
  change (result (?a, ?b, ?c)) with a. change (device_after (?a, ?b, ?c)) with b.
  change (effects (?a, ?b, ?c)) with c.
  change (weakDelegate (set_estimatedStartTime estimate d)) with (weakDelegate d).
  destruct (weakDelegate d); autorewrite with run; split; reflexivity.
Qed.

(** X24.  Over an event report without StartUp events the
    estimated start time is the earliest of the estimate held before and of
    the start times the events stamped with the system up-time point to: it
    is not later than any of them, and it is one of them. *)
Theorem start_time_estimate_is_the_earliest_candidate (now : NSDate)
    (eventReport : list MTREventReport) (d : MTRDevice)
    (Hnone : Forall (fun e => isStartUpEvent e = false) eventReport) :
  let d' := exec (_handleEventReport now eventReport) d in
  (forall t, estimatedStartTime d = Some t ->
     exists t', estimatedStartTime d' = Some t' /\ t' <= t)
  /\ (forall e t, e ∈ eventReport -> startTimeOfEvent now e = Some t ->
        exists t', estimatedStartTime d' = Some t' /\ t' <= t)
  /\ (forall t', estimatedStartTime d' = Some t' ->
        estimatedStartTime d = Some t'
        \/ exists e, e ∈ eventReport /\ startTimeOfEvent now e = Some t').
Proof.
  cbv zeta.
  destruct (eventReportLoop_spec now eventReport d) as (estimate & Hloop & Hestimate).
  assert (Hafter : estimatedStartTime (exec (_handleEventReport now eventReport) d)
                   = estimate).
  { unfold exec, _handleEventReport.
    autorewrite with run. rewrite Hloop.
    change (result (?a, ?b, ?c)) with a. change (device_after (?a, ?b, ?c)) with b.
    change (weakDelegate (set_estimatedStartTime estimate d)) with (weakDelegate d).
    destruct (weakDelegate d); autorewrite with run; reflexivity. }
  rewrite Hafter. apply Hestimate. exact Hnone.
Qed.

End Events.

Lemma start_time_estimate_is_the_earliest_candidate_witness :
  exists t', estimatedStartTime
               (exec (_handleEventReport (K := MatterConstants) 100000
                        [mkEventReport (mkEventPath 1 6 0) None (Some 0) (Some 40) None])
                  deviceWithDelegate) = Some t'
             /\ t' <= 60000.
Proof.
  refine (proj1 (proj2 (start_time_estimate_is_the_earliest_candidate
                          (K := MatterConstants) 100000
                          [mkEventReport (mkEventPath 1 6 0) None (Some 0) (Some 40) None]
                          deviceWithDelegate _))
            (mkEventReport (mkEventPath 1 6 0) None (Some 0) (Some 40) None) 60000 _ _).
  - repeat constructor.
  - left.
  - reflexivity.
Defined.
(** ** Expected values of a command that fails *)

(** The entry [_setExpectedValue] leaves at its path. *)
Lemma _setExpectedValue_lookup (value : option MTRDeviceDataValueDictionary)
    (path : MTRAttributePath) (expirationTime : NSDate) (g : Z) (d : MTRDevice) :
  expectedValueCache (exec (_setExpectedValue value path expirationTime g) d) !! path
  = match value with
    | Some v => Some (mkExpectedValue expirationTime v g)
    | None =>
        match expectedValueCache d !! path with
        | Some ev =>
            if bool_decide (MTRDeviceExpectedValueFieldIDIndex ev = g)
               && negb (_attributeDataValue_isEqualToDataValue
                          (Some (MTRDeviceExpectedValueFieldValueIndex ev))
                          (result (_cachedAttributeValueForPath path d)))
            then None else Some ev
        | None => None
        end
    end.
Proof.
  destruct value as [v|].
  - destruct (_setExpectedValue_run (Some v) path expirationTime g d)
      as (out & cache & paged & Hrun & _ & Hsame).
    unfold exec. rewrite Hrun. apply Hsame. reflexivity.
  - unfold exec, _setExpectedValue.
    destruct (_cachedAttributeValueForPath_run path d) as (cached & paged & Hrun).
    unfold_m. cbn. rewrite Hrun.
    destruct (expectedValueCache d !! path) as [ev|] eqn:Hev; cbn.
    + destruct (bool_decide (MTRDeviceExpectedValueFieldIDIndex ev = g)); cbn.
      * rewrite Hrun. cbn.
        destruct (_attributeDataValue_isEqualToDataValue
                    (Some (MTRDeviceExpectedValueFieldValueIndex ev)) cached); cbn.
        -- exact Hev.
        -- split_tests; apply lookup_delete_eq.
      * exact Hev.
    + rewrite Hrun. cbn. exact Hev.
Qed.

Lemma _setExpectedValue_other (value : option MTRDeviceDataValueDictionary)
    (path p : MTRAttributePath) (expirationTime : NSDate) (g : Z) (d : MTRDevice) :
  p <> path ->
  expectedValueCache (exec (_setExpectedValue value path expirationTime g) d) !! p
  = expectedValueCache d !! p.
Proof.
  intros Hne.
  destruct (_setExpectedValue_run value path expirationTime g d)
    as (out & cache & paged & Hrun & Hother & _).
  unfold exec. rewrite Hrun. apply Hother. exact Hne.
Qed.

Lemma _setExpectedValue_owned (value : option MTRDeviceDataValueDictionary)
    (path p : MTRAttributePath) (expirationTime : NSDate) (g : Z) (d : MTRDevice) :
  absentOrOwnedBy g (expectedValueCache d !! p) ->
  absentOrOwnedBy g
    (expectedValueCache (exec (_setExpectedValue value path expirationTime g) d) !! p).
Proof.
  intros Hinv. destruct (decide (p = path)) as [->|Hne].
  - rewrite _setExpectedValue_lookup. destruct value as [v|].
    + right. eexists. split; reflexivity.
    + destruct Hinv as [-> | (ev & -> & Hid)]; [left; reflexivity|].
      destruct (_ && _); [left; reflexivity | right; eauto].
  - rewrite _setExpectedValue_other by exact Hne. exact Hinv.
Qed.

Lemma setExpectedValuesLoop_owned (values : list MTRAttributeResponseValue)
    (expirationTime : NSDate) (g : Z) (p : MTRAttributePath) :
  forall d : MTRDevice,
    absentOrOwnedBy g (expectedValueCache d !! p) ->
    absentOrOwnedBy g
      (expectedValueCache (exec (setExpectedValuesLoop values expirationTime g) d) !! p)
    /\ (p ∉ MTRAttributePathKey <$> values ->
        expectedValueCache (exec (setExpectedValuesLoop values expirationTime g) d) !! p
        = expectedValueCache d !! p).
Proof.
  induction values as [|first rest IH]; intros d Hinv.
  - split; [exact Hinv | reflexivity].
  - cbn [setExpectedValuesLoop]. unfold exec. rewrite !device_after_bind. cbv beta.
    pose proof (_setExpectedValue_owned (rv_data first) (MTRAttributePathKey first) p
                  expirationTime g d Hinv) as Hstep.
    unfold exec in Hstep.
    set (d1 := device_after (_setExpectedValue (rv_data first) (MTRAttributePathKey first)
                               expirationTime g d)) in *.
    destruct (IH d1 Hstep) as [Hafter Hother]. unfold exec in Hafter, Hother.
    autorewrite with run. split; [exact Hafter|].
    intros Hp. rewrite fmap_cons, not_elem_of_cons in Hp. destruct Hp as [Hne Hp].
    rewrite (Hother Hp). subst d1.
    apply (_setExpectedValue_other (rv_data first) (MTRAttributePathKey first) p
             expirationTime g d Hne).
Qed.

Lemma checkExpired_owned (now : NSDate) (g : Z) (p : MTRAttributePath) (d : MTRDevice) :
  absentOrOwnedBy g (expectedValueCache d !! p) ->
  absentOrOwnedBy g (expectedValueCache (exec (_checkExpiredExpectedValues now) d) !! p)
  /\ (expectedValueCache d !! p = None ->
      expectedValueCache (exec (_checkExpiredExpectedValues now) d) !! p = None).
Proof.
  intros Hinv.
  destruct (_checkExpiredExpectedValues_run now d) as (cache & paged & out & Hrun & Hkept).
  unfold exec. rewrite Hrun.
  change (expectedValueCache (device_after (tt, set_persistedClusterData paged
                                                  (set_expectedValueCache cache d), out)))
    with cache.
  rewrite Hkept. split.
  - destruct Hinv as [-> | (ev & -> & Hid)]; [left; reflexivity|].
    destruct (NSOrderedDescending _ _); [left; reflexivity | right; eauto].
  - intros ->. reflexivity.
Qed.

(** After [setExpectedValues] an attribute that had no expected value has
    none, or one under the id the call took; it has none when the call does
    not name it. *)
Lemma setExpectedValues_owned (values : list MTRAttributeResponseValue)
    (interval : Z) (now : NSDate) (p : MTRAttributePath) (d : MTRDevice) :
  expectedValueCache d !! p = None ->
  let d' := exec (setExpectedValues values interval now) d in
  absentOrOwnedBy (expectedValueNextID d) (expectedValueCache d' !! p)
  /\ (p ∉ MTRAttributePathKey <$> values -> expectedValueCache d' !! p = None).
Proof.
  intros Hnone. cbv zeta.
  unfold exec, setExpectedValues, _getAttributesToReportWithNewExpectedValues.
  rewrite !device_after_bind. cbv beta.
  change (device_after (get expectedValueNextID d)) with d.
  change (result (get expectedValueNextID d)) with (expectedValueNextID d).
  change (device_after (modify ?f d)) with (f d).
  set (g := expectedValueNextID d).
  set (d1 := set_expectedValueNextID (wrap64 (g + 1)) d).
  assert (Hstart : absentOrOwnedBy g (expectedValueCache d1 !! p))
    by (left; exact Hnone).
  destruct (setExpectedValuesLoop_owned values (now + interval) g p d1 Hstart)
    as [Hloop Hother].
  unfold exec in Hloop, Hother.
  set (d2 := device_after (setExpectedValuesLoop values (now + interval) g d1)) in *.
  autorewrite with run.
  assert (Hreport : forall entries e, device_after (_reportAttributes entries e) = e).
  { intros entries e. destruct (_reportAttributes_run entries e) as (out & Hrun).
    rewrite Hrun. reflexivity. }
  rewrite Hreport.
  destruct (checkExpired_owned now g p d2 Hloop) as [Hswept Hgone].
  unfold exec in Hswept, Hgone.
  split; [exact Hswept|].
  intros Hp. apply Hgone. rewrite (Hother Hp). exact Hnone.
Qed.

Lemma _removeExpectedValueForAttributePath_lookup (path p : MTRAttributePath) (g : Z)
    (d : MTRDevice) :
  expectedValueCache (exec (_removeExpectedValueForAttributePath path g) d) !! p
  = if bool_decide (p = path)
    then match expectedValueCache d !! p with
         | Some ev =>
             if bool_decide (MTRDeviceExpectedValueFieldIDIndex ev = g)
                && negb (_attributeDataValue_isEqualToDataValue
                           (Some (MTRDeviceExpectedValueFieldValueIndex ev))
                           (result (_cachedAttributeValueForPath p d)))
             then None else Some ev
         | None => None
         end
    else expectedValueCache d !! p.
Proof.
  assert (Hafter : exec (_removeExpectedValueForAttributePath path g) d
                   = exec (_setExpectedValue None path 0 g) d).
  { unfold exec, _removeExpectedValueForAttributePath. rewrite device_after_bind. cbv beta.
    destruct (shouldReportValue _); [|reflexivity].
    cbn [when].
    destruct (_reportAttributes_run
                [mkResponseValue path
                   (attributeValueToReport (result (_setExpectedValue None path 0 g d)))
                   None (previousValue (result (_setExpectedValue None path 0 g d)))]
                (device_after (_setExpectedValue None path 0 g d))) as (out & Hrun).
    rewrite Hrun. reflexivity. }
  rewrite Hafter.
  destruct (decide (p = path)) as [->|Hne].
  - rewrite bool_decide_eq_true_2 by reflexivity.
    apply (_setExpectedValue_lookup None path 0 g d).
  - rewrite bool_decide_eq_false_2 by exact Hne. apply _setExpectedValue_other. exact Hne.
Qed.

(** The removal loop of a failed command: at a listed path, an entry under
    the id of the command goes away unless its value equals the cached
    one. *)
Lemma removeExpectedValuesForAttributePaths_lookup (paths : list MTRAttributePath) (g : Z)
    (p : MTRAttributePath) :
  forall d : MTRDevice,
    store_equiv d (exec (removeExpectedValuesForAttributePaths paths g) d)
    /\ expectedValueCache (exec (removeExpectedValuesForAttributePaths paths g) d) !! p
       = if bool_decide (p ∈ paths)
         then match expectedValueCache d !! p with
              | Some ev =>
                  if bool_decide (MTRDeviceExpectedValueFieldIDIndex ev = g)
                     && negb (_attributeDataValue_isEqualToDataValue
                                (Some (MTRDeviceExpectedValueFieldValueIndex ev))
                                (result (_cachedAttributeValueForPath p d)))
                  then None else Some ev
              | None => None
              end
         else expectedValueCache d !! p.
Proof.
  unfold removeExpectedValuesForAttributePaths.
  induction paths as [|path rest IH]; intros d.
  - split; [apply store_equiv_refl|].
    rewrite bool_decide_eq_false_2 by apply not_elem_of_nil. reflexivity.
  - cbn [for_each]. unfold exec. rewrite !device_after_bind. cbv beta.
    pose proof (_removeExpectedValueForAttributePath_store path g d) as Hstore1.
    pose proof (_removeExpectedValueForAttributePath_lookup path p g d) as Hstep.
    unfold exec in Hstep.
    set (d1 := device_after (_removeExpectedValueForAttributePath path g d)) in *.
    destruct (IH d1) as [Hstore2 Hrest]. unfold exec in Hstore2, Hrest.
    split; [eapply store_equiv_trans; eassumption|].
    rewrite Hrest, Hstep.
    rewrite (_cachedAttributeValueForPath_result_store_equiv p d d1 Hstore1).
    destruct (decide (p = path)) as [->|Hne].
    + rewrite (bool_decide_eq_true_2 (path = path)) by reflexivity.
      rewrite (bool_decide_eq_true_2 (path ∈ path :: rest)) by (left).
      destruct (expectedValueCache d !! path) as [ev|];
        [|destruct (bool_decide (path ∈ rest)); reflexivity].
      destruct (bool_decide (MTRDeviceExpectedValueFieldIDIndex ev = g)
                && negb (_attributeDataValue_isEqualToDataValue
                           (Some (MTRDeviceExpectedValueFieldValueIndex ev))
                           (result (_cachedAttributeValueForPath path d)))) eqn:Hgoes.
      * destruct (bool_decide (path ∈ rest)); reflexivity.
      * rewrite Hgoes. destruct (bool_decide (path ∈ rest)); reflexivity.
    + rewrite (bool_decide_eq_false_2 (p = path)) by exact Hne.
      assert (Hin : bool_decide (p ∈ path :: rest) = bool_decide (p ∈ rest)).
      { apply bool_decide_ext. rewrite elem_of_cons. tauto. }
      rewrite Hin. reflexivity.
Qed.

(** The request an invoke captures and the device it leaves. *)
Lemma _invokeCommandWithEndpointID_run {K : MTRConstants} (endpointID clusterID commandID : Z)
    (commandFields : NSDictionary)
    (expectedValues : option (list MTRAttributeResponseValue))
    (expectedValueInterval timeout serverSideProcessingTimeout : option Z)
    (now : NSDate) (d : MTRDevice) :
  let r := _invokeCommandWithEndpointID endpointID clusterID commandID commandFields
             expectedValues expectedValueInterval timeout serverSideProcessingTimeout
             now d in
  let kept := (invokeExpectedValues expectedValues expectedValueInterval).1 in
  let interval := (invokeExpectedValues expectedValues expectedValueInterval).2 in
  let installed :=
    match kept with
    | Some values => exec (setExpectedValues values (default 0 interval) now) d
    | None => d
    end in
  inv_expectedValues (result r) = kept
  /\ inv_attributePaths (result r)
     = match kept with
       | Some values => Some (MTRAttributePathKey <$> values)
       | None => None
       end
  /\ (is_Some kept -> inv_expectedValueID (result r) = expectedValueNextID d)
  /\ device_after r
     = set_asyncWorkQueue (asyncWorkQueue installed ++ [InvokeWorkItem (result r)]) installed.
Proof.
  cbv zeta. unfold _invokeCommandWithEndpointID, enqueueWorkItem.
  destruct (invokeExpectedValues expectedValues expectedValueInterval) as [kept interval].
  cbn [fst snd]. destruct kept as [values|].
  - destruct (setExpectedValues_run values (default 0 interval) now d)
      as (cache & paged & out & Hset & _).
    autorewrite with run. unfold exec. rewrite Hset.
    repeat split.
  - autorewrite with run. repeat split. intros [? [=]].
Qed.

Lemma workDone_device {K : MTRConstants} (request : InvokeRequest)
    (values : option (list MTRAttributeResponseValue)) (error : option NSError)
    (d : MTRDevice) :
  exec (workDone request values error) d
  = match error, inv_expectedValues request with
    | Some _, Some _ =>
        exec (removeExpectedValuesForAttributePaths
                (default [] (inv_attributePaths request)) (inv_expectedValueID request)) d
    | _, _ => d
    end.
Proof.
  unfold exec, workDone. rewrite !device_after_bind. cbv beta.
  change (device_after (emit ?e ?x)) with x.
  destruct error as [err|]; [destruct (inv_expectedValues request)|]; reflexivity.
Qed.

(** X25.  A command is invoked on a device that holds no expected
    value for an attribute, and it fails for good: with an error other than
    Busy, or with retries used up.  Afterwards a read of the attribute
    answers with the value of the read cache, or with an expected value the
    command installed that compares equal to it: the failure leaves no
    read answering with a value that differs from the read cache. *)
Theorem failed_command_leaves_reads_on_cached_values {K : MTRConstants}
    (endpointID clusterID commandID : Z) (commandFields : NSDictionary)
    (expectedValues : option (list MTRAttributeResponseValue))
    (expectedValueInterval timeout serverSideProcessingTimeout : option Z)
    (now : NSDate) (retryCount : Z) (values : option (list MTRAttributeResponseValue))
    (error : NSError) (p : MTRAttributePath) (params : option MTRReadParams)
    (later : NSDate) (d : MTRDevice)
    (Hnone : expectedValueCache d !! p = None)
    (Hfinal : error <> MTRInteractionError Status_Busy \/ 5 <= retryCount) :
  let invoked := _invokeCommandWithEndpointID endpointID clusterID commandID commandFields
                   expectedValues expectedValueInterval timeout serverSideProcessingTimeout
                   now d in
  let d' := exec (invokeCompletion (result invoked) retryCount values (Some error))
              (device_after invoked) in
  readValue p params later d' = result (_cachedAttributeValueForPath p d)
  \/ _attributeDataValue_isEqualToDataValue (readValue p params later d')
       (result (_cachedAttributeValueForPath p d)) = true.
Proof.
  cbv zeta.
  destruct (_invokeCommandWithEndpointID_run endpointID clusterID commandID commandFields
              expectedValues expectedValueInterval timeout serverSideProcessingTimeout now d)
    as (Hkept & Hpaths & Hid & Hdevice).
  cbv zeta in Hkept, Hpaths, Hid, Hdevice.
  set (invoked := _invokeCommandWithEndpointID endpointID clusterID commandID commandFields
                    expectedValues expectedValueInterval timeout
                    serverSideProcessingTimeout now d) in *.
  set (kept := (invokeExpectedValues expectedValues expectedValueInterval).1) in *.
  set (interval := (invokeExpectedValues expectedValues expectedValueInterval).2) in *.
  assert (Hdone : exec (invokeCompletion (result invoked) retryCount values (Some error))
                    (device_after invoked)
                  = exec (workDone (result invoked) values (Some error))
                      (device_after invoked)).
  { unfold invokeCompletion. destruct error as [[]|]; try reflexivity.
    destruct Hfinal as [Hne|Hretry]; [congruence|].
    replace (retryCount <? 5) with false by (symmetry; apply Z.ltb_ge; exact Hretry).
    reflexivity. }
  rewrite Hdone, workDone_device, Hkept, Hdevice.
  destruct kept as [expected|].
  - (* expected values were installed *)
    rewrite Hpaths.
    rewrite (Hid ltac:(eexists; reflexivity)). cbn [default from_option id].
    set (g := expectedValueNextID d).
    set (d1 := exec (setExpectedValues expected (default 0 interval) now) d) in *.
    set (d2 := set_asyncWorkQueue (asyncWorkQueue d1 ++ [InvokeWorkItem (result invoked)]) d1).
    destruct (setExpectedValues_owned expected (default 0 interval) now p d Hnone)
      as [Howned Hother].
    cbv zeta in Howned, Hother. fold d1 g in Howned, Hother.
    pose proof (setExpectedValues_store expected (default 0 interval) now d) as Hstore1.
    fold (exec (setExpectedValues expected (default 0 interval) now) d) in Hstore1.
    fold d1 in Hstore1.
    assert (Hstore2 : store_equiv d1 d2) by (apply store_equiv_same_store; repeat split).
    destruct (removeExpectedValuesForAttributePaths_lookup
                (MTRAttributePathKey <$> expected) g p d2) as [Hstore3 Hlookup].
    set (d3 := exec (removeExpectedValuesForAttributePaths
                       (MTRAttributePathKey <$> expected) g) d2) in *.
    assert (Hcached : forall e, store_equiv d e ->
               result (_cachedAttributeValueForPath p e)
               = result (_cachedAttributeValueForPath p d))
      by (intros e He; apply _cachedAttributeValueForPath_result_store_equiv; exact He).
    assert (Hd2 : store_equiv d d2) by (eapply store_equiv_trans; eassumption).
    assert (Hd3 : store_equiv d d3) by (eapply store_equiv_trans; eassumption).
    change (expectedValueCache d2 !! p) with (expectedValueCache d1 !! p) in Hlookup.
    rewrite readValue_spec, Hlookup, (Hcached d3 Hd3), (Hcached d2 Hd2).
    destruct (bool_decide (p ∈ MTRAttributePathKey <$> expected)) eqn:Hin.
    + destruct Howned as [-> | (ev & -> & Hev)]; [left; reflexivity|].
      rewrite (bool_decide_eq_true_2 _ Hev). cbn [andb].
      destruct (_attributeDataValue_isEqualToDataValue
                  (Some (MTRDeviceExpectedValueFieldValueIndex ev))
                  (result (_cachedAttributeValueForPath p d))) eqn:Hsame; cbn [negb].
      * destruct (bool_decide (later <= _)); [right; exact Hsame | left; reflexivity].
      * left. reflexivity.
    + apply bool_decide_eq_false_1 in Hin. rewrite (Hother Hin). left. reflexivity.
  - (* no expected values were installed *)
    set (d2 := set_asyncWorkQueue (asyncWorkQueue d ++ [InvokeWorkItem (result invoked)]) d).
    assert (Hd2 : store_equiv d d2) by (apply store_equiv_same_store; repeat split).
    rewrite readValue_spec.
    change (expectedValueCache d2 !! p) with (expectedValueCache d !! p). rewrite Hnone.
    left. apply _cachedAttributeValueForPath_result_store_equiv. exact Hd2.
Qed.

Lemma failed_command_leaves_reads_on_cached_values_witness :
  readValue (K := MatterConstants) onOffPath None 20
    (exec (invokeCompletion
             (result (_invokeCommandWithEndpointID (K := MatterConstants) 1 6 1 emptyStructure
                        (Some [onOffTrueExpected]) (Some 5000) None None 10
                        deviceWithDelegate))
             0 None (Some (MTRInteractionError Status_Timeout)))
       (device_after (_invokeCommandWithEndpointID (K := MatterConstants) 1 6 1 emptyStructure
                        (Some [onOffTrueExpected]) (Some 5000) None None 10
                        deviceWithDelegate)))
  = result (_cachedAttributeValueForPath onOffPath deviceWithDelegate)
  \/ _attributeDataValue_isEqualToDataValue
       (readValue (K := MatterConstants) onOffPath None 20
          (exec (invokeCompletion
                   (result (_invokeCommandWithEndpointID (K := MatterConstants) 1 6 1
                              emptyStructure (Some [onOffTrueExpected]) (Some 5000) None None
                              10 deviceWithDelegate))
                   0 None (Some (MTRInteractionError Status_Timeout)))
             (device_after (_invokeCommandWithEndpointID (K := MatterConstants) 1 6 1
                              emptyStructure (Some [onOffTrueExpected]) (Some 5000) None None
                              10 deviceWithDelegate))))
       (result (_cachedAttributeValueForPath onOffPath deviceWithDelegate)) = true.
Proof.
  apply (failed_command_leaves_reads_on_cached_values (K := MatterConstants) 1 6 1
           emptyStructure (Some [onOffTrueExpected]) (Some 5000) None None 10 0 None
           (MTRInteractionError Status_Timeout) onOffPath None 20 deviceWithDelegate).
  - reflexivity.
  - left. discriminate.
Defined.
(** ** Reads that go to the device *)

(** Data entries leave the expected values alone. *)
Lemma _getAttributesToReportWithReportedValues_expectedValueCache {K : MTRConstants}
    (now : NSDate) (batch : list MTRAttributeResponseValue) :
  forall d : MTRDevice,
    Forall (fun entry => MTRErrorKey entry = None) batch ->
    expectedValueCache (device_after (_getAttributesToReportWithReportedValues now batch d))
    = expectedValueCache d.
Proof.
  induction batch as [|entry rest IH]; intros d Hdata; [reflexivity|].
  apply Forall_cons in Hdata as [Hnone Hdata].
  cbn [_getAttributesToReportWithReportedValues]. autorewrite with run.
  rewrite (IH _ Hdata).
  destruct (reportedValueStep_spec now entry d) as (_ & _ & Hspec).
  rewrite Hnone in Hspec.
  destruct (rv_data entry); cbv zeta in Hspec; apply Hspec.
Qed.

(** X26.  The values a read work item gets from the device are
    ingested like an attribute report, also when the read is to be retried.
    For values without errors that name no attribute twice and carry a type
    tag, a read of an attribute among them that has no expected value
    answers afterwards with a value equal to the one received.  The work
    item asks for a retry when the read failed and was retried less than
    twice, and completes otherwise; whatever else is dispatched is for the
    delegate. *)
Theorem values_read_from_the_device_are_read_afterwards {K : MTRConstants}
    (retryCount : Z) (values : list MTRAttributeResponseValue) (error : option NSError)
    (now : NSDate) (d : MTRDevice)
    (Hnodup : NoDup (MTRAttributePathKey <$> values))
    (Htyped : Forall typedDataEntry values) :
  let r := readCompletion retryCount (Some values) error now d in
  (forall entry value params later,
     entry ∈ values ->
     rv_data entry = Some value ->
     expectedValueCache d !! MTRAttributePathKey entry = None ->
     _attributeDataValue_isEqualToDataValue (Some (incomingValue value))
       (readValue (MTRAttributePathKey entry) params later (device_after r)) = true)
  /\ exists callbacks,
       Forall is_delegate_call callbacks
       /\ effects r
          = callbacks
            ++ [workCompletion (if bool_decide (is_Some error) && (retryCount <? 2)
                                then MTRAsyncWorkNeedsRetry else MTRAsyncWorkComplete)].
Proof.
  cbv zeta. unfold readCompletion, _handleAttributeReport.
  assert (Hreport : forall entries e,
             device_after (_reportAttributes entries e) = e
             /\ Forall is_delegate_call (effects (_reportAttributes entries e))).
  { intros entries e. unfold _reportAttributes. destruct entries; [split; [reflexivity|constructor]|].
    autorewrite with run. destruct (weakDelegate e); cbn [when]; autorewrite with run;
      split; try reflexivity; repeat constructor. }
  destruct (ingested_batch_is_settled now values d Hnodup Htyped) as [_ Hsettled].
  cbv zeta in Hsettled.
  destruct (_getAttributesToReportWithReportedValues_spec now values d) as (Hquiet & _).
  assert (Hexpected :
            expectedValueCache
              (device_after (_getAttributesToReportWithReportedValues now values d))
            = expectedValueCache d).
  { apply _getAttributesToReportWithReportedValues_expectedValueCache.
    eapply Forall_impl; [exact Htyped|]. intros e [He _]. exact He. }
  set (d1 := device_after (_getAttributesToReportWithReportedValues now values d)) in *.
  set (entries := result (_getAttributesToReportWithReportedValues now values d)) in *.
  destruct (Hreport entries d1) as [Hsame Hcallbacks].
  assert (Hdevice :
            device_after
              (((attributesToReport <- _getAttributesToReportWithReportedValues now values ;;
                 _reportAttributes attributesToReport) ;;;
                (if bool_decide (is_Some error) && (retryCount <? 2)
                 then emit (workCompletion MTRAsyncWorkNeedsRetry)
                 else emit (workCompletion MTRAsyncWorkComplete))) d)
            = d1).
  { rewrite !device_after_bind. cbv beta. fold d1 entries. rewrite Hsame.
    destruct (_ && _); reflexivity. }
  rewrite Hdevice. split.
  - intros entry value params later Hin Hvalue Hnone.
    rewrite readValue_spec, Hexpected, Hnone.
    rewrite Forall_forall in Hsettled.
    destruct (Hsettled entry Hin) as [_ Hequal]. apply Hequal. exact Hvalue.
  - exists (effects (_reportAttributes entries d1)). split; [exact Hcallbacks|].
    rewrite !effects_bind. cbv beta. fold d1 entries. rewrite Hquiet.
    rewrite !device_after_bind. cbv beta. fold d1 entries.
    cbn [app]. destruct (_ && _); reflexivity.
Qed.

Lemma values_read_from_the_device_are_read_afterwards_witness :
  _attributeDataValue_isEqualToDataValue (Some (incomingValue booleanTrue))
    (readValue (K := MatterConstants) onOffPath None 50
       (device_after
          (readCompletion (K := MatterConstants) 0
             (Some [mkResponseValue onOffPath (Some booleanTrue) None None]) None 20
             deviceWithDelegate)))
  = true.
Proof.
  refine (proj1 (values_read_from_the_device_are_read_afterwards (K := MatterConstants) 0
                   [mkResponseValue onOffPath (Some booleanTrue) None None] None 20
                   deviceWithDelegate _ _)
            (mkResponseValue onOffPath (Some booleanTrue) None None) booleanTrue None 50
            _ _ _).
  - apply NoDup_cons. split; [apply not_elem_of_nil | apply NoDup_nil_2].
  - repeat constructor. intros value [= <-]. eexists. reflexivity.
  - left.
  - reflexivity.
  - reflexivity.
Defined.
(** ** From a report to storage *)

Lemma changes_are_dirty_refl (d : MTRDevice) : changes_are_dirty d d.
Proof. split; auto. Qed.

Lemma changes_are_dirty_trans (a b c : MTRDevice) :
  changes_are_dirty a b -> changes_are_dirty b c -> changes_are_dirty a c.
Proof.
  intros [Hkeep1 Hab] [Hkeep2 Hbc]. split; [auto|].
  intros clusterPath.
  destruct (Hbc clusterPath) as [Hsame2|Hdirty]; [|right; exact Hdirty].
  destruct (Hab clusterPath) as [Hsame1|Hdirty]; [left; congruence|].
  right. apply Hkeep2. exact Hdirty.
Qed.

Lemma changes_are_dirty_store_equiv (d d' : MTRDevice) :
  store_equiv d d' -> changes_are_dirty d d'.
Proof.
  intros [Hdirty Hlookup]. split.
  - intros clusterPath. unfold isDirty. rewrite Hdirty. auto.
  - intros clusterPath. left. apply Hlookup.
Qed.

Lemma markClusterDataToPersist_dirty (clusterPath : MTRClusterPath)
    (clusterData : MTRDeviceClusterData) :
  preserves changes_are_dirty (markClusterDataToPersist clusterPath clusterData).
Proof.
  intros d. split.
  - intros other [data Hdata]. unfold isDirty, markClusterDataToPersist, modify, device_after.
    cbn [fst snd clusterDataToPersist set_clusterDataToPersist mbind option_bind].
    destruct (decide (other = clusterPath)) as [->|Hne].
    + rewrite lookup_insert_eq. eauto.
    + rewrite lookup_insert_ne by congruence.
      destruct (clusterDataToPersist d) as [dirty|]; [|discriminate].
      cbn in *. rewrite Hdata. eauto.
  - intros other. destruct (decide (other = clusterPath)) as [->|Hne].
    + right. apply (markClusterDataToPersist_lookup clusterPath clusterData d).
    + left. apply (markClusterDataToPersist_other clusterPath other clusterData d Hne).
Qed.

Ltac dirty_kept :=
  pose proof changes_are_dirty_refl as Hrefl;
  pose proof changes_are_dirty_trans as Htrans;
  preserves_steps;
  try match goal with
      | |- preserves _ (modify _) =>
          apply preserves_modify; intros ?; apply changes_are_dirty_store_equiv,
            store_equiv_same_store; repeat split
      end;
  auto.

Lemma _clusterDataForPath_dirty (clusterPath : MTRClusterPath) :
  preserves changes_are_dirty (_clusterDataForPath clusterPath).
Proof.
  intros d. apply changes_are_dirty_store_equiv, _clusterDataForPath_store_equiv.
Qed.

Lemma _cachedAttributeValueForPath_dirty (path : MTRAttributePath) :
  preserves changes_are_dirty (_cachedAttributeValueForPath path).
Proof.
  intros d. apply changes_are_dirty_store_equiv, _cachedAttributeValueForPath_store_equiv.
Qed.

Lemma _setCachedAttributeValue_dirty (value : option MTRDeviceDataValueDictionary)
    (path : MTRAttributePath) :
  preserves changes_are_dirty (_setCachedAttributeValue value path).
Proof.
  unfold _setCachedAttributeValue.
  pose proof _clusterDataForPath_dirty. pose proof markClusterDataToPersist_dirty.
  dirty_kept.
Qed.

Lemma _noteDataVersion_dirty (dataVersion : Z) (clusterPath : MTRClusterPath) :
  preserves changes_are_dirty (_noteDataVersion dataVersion clusterPath).
Proof.
  unfold _noteDataVersion.
  pose proof _clusterDataForPath_dirty. pose proof markClusterDataToPersist_dirty.
  dirty_kept.
Qed.

Section Persistence.

Context {K : MTRConstants}.

Lemma reportedValueStep_dirty (now : NSDate) (entry : MTRAttributeResponseValue) :
  preserves changes_are_dirty (reportedValueStep now entry).
Proof.
  unfold reportedValueStep, reportedErrorStep, reportedDataStep, updateReadCache,
    notePrimingSignal, noteUpTimeAttribute, noteSystemUpTime.
  pose proof _cachedAttributeValueForPath_dirty. pose proof _setCachedAttributeValue_dirty.
  pose proof _noteDataVersion_dirty. cbv zeta. dirty_kept.
Qed.

Lemma _getAttributesToReportWithReportedValues_dirty (now : NSDate)
    (batch : list MTRAttributeResponseValue) :
  preserves changes_are_dirty (_getAttributesToReportWithReportedValues now batch).
Proof.
  pose proof reportedValueStep_dirty.
  induction batch as [|entry rest IH]; cbn [_getAttributesToReportWithReportedValues];
    dirty_kept.
Qed.

Lemma _handleAttributeReport_dirty (now : NSDate) (batch : list MTRAttributeResponseValue) :
  preserves changes_are_dirty (_handleAttributeReport now batch).
Proof.
  unfold _handleAttributeReport.
  pose proof _getAttributesToReportWithReportedValues_dirty.
  assert (Hreport : forall entries, preserves changes_are_dirty (_reportAttributes entries)).
  { intros entries d. apply changes_are_dirty_store_equiv, _reportAttributes_store. }
  dirty_kept.
Qed.

Lemma _handleAttributeReport_controllerDataStore (now : NSDate)
    (batch : list MTRAttributeResponseValue) :
  preserves (fun d d' => controllerDataStore d' = controllerDataStore d)
    (_handleAttributeReport now batch).
Proof.
  assert (Hrefl : forall d : MTRDevice, controllerDataStore d = controllerDataStore d)
    by reflexivity.
  assert (Htrans : forall a b c : MTRDevice,
             controllerDataStore b = controllerDataStore a ->
             controllerDataStore c = controllerDataStore b ->
             controllerDataStore c = controllerDataStore a) by (intros; congruence).
  assert (Hlookup : forall clusterPath,
             preserves (fun d d' => controllerDataStore d' = controllerDataStore d)
               (_clusterDataForPath clusterPath)).
  { intros clusterPath d. destruct (_clusterDataForPath_run clusterPath d)
      as (r & paged & Hrun). rewrite Hrun. reflexivity. }
  assert (Hloop : forall batch,
             preserves (fun d d' => controllerDataStore d' = controllerDataStore d)
               (_getAttributesToReportWithReportedValues now batch)).
  { clear batch. intros batch.
    induction batch as [|entry rest IH]; cbn [_getAttributesToReportWithReportedValues];
      [preserves_steps|].
    unfold reportedValueStep, reportedErrorStep, reportedDataStep, updateReadCache,
      notePrimingSignal, noteUpTimeAttribute, noteSystemUpTime, _cachedAttributeValueForPath,
      _setCachedAttributeValue, _noteDataVersion, markClusterDataToPersist.
    cbv zeta. preserves_steps.
    all: try (apply preserves_modify; intros ?; reflexivity).
    all: first [apply Hlookup | exact IH]. }
  unfold _handleAttributeReport, _reportAttributes. preserves_steps.
  all: first [apply Hloop | apply preserves_ret; assumption].
Qed.

(** X27.  On a device with a data store, an attribute report
    followed by the end of the report leaves in storage every cached value
    the report changed: for an attribute whose cached value differs after
    the report, the stored data of its cluster holds the new value (no value
    when the report removed it). *)
Theorem reported_changes_reach_storage (now : NSDate)
    (batch : list MTRAttributeResponseValue) (path : MTRAttributePath) (d : MTRDevice)
    (Hstore : is_Some (controllerDataStore d))
    (Hchanged : result (_cachedAttributeValueForPath path
                          (exec (_handleAttributeReport now batch) d))
                <> result (_cachedAttributeValueForPath path d)) :
  let d1 := exec (_handleAttributeReport now batch) d in
  let d2 := exec _handleReportEnd d1 in
  exists clusterData,
    controllerDataStore d2 ≫= (.!! clusterPathOf path) = Some clusterData
    /\ attributes clusterData !! attribute path
       = result (_cachedAttributeValueForPath path d1)
    /\ result (_cachedAttributeValueForPath path d2)
       = result (_cachedAttributeValueForPath path d1).
Proof.
  cbv zeta.
  destruct (_handleAttributeReport_dirty now batch d) as [_ Hdirty].
  fold (exec (_handleAttributeReport now batch) d) in Hdirty.
  set (d1 := exec (_handleAttributeReport now batch) d) in *.
  destruct (Hdirty (clusterPathOf path)) as [Hsame|[clusterData Hdata]].
  { exfalso. apply Hchanged. rewrite !_cachedAttributeValueForPath_result, Hsame.
    reflexivity. }
  assert (Hstore1 : is_Some (controllerDataStore d1)).
  { pose proof (_handleAttributeReport_controllerDataStore now batch d) as Hkept.
    fold (exec (_handleAttributeReport now batch) d) in Hkept. fold d1 in Hkept.
    rewrite Hkept. exact Hstore. }
  destruct (_handleReportEnd_flush d1) as (Hlookups & _ & Hstored & _).
  destruct (Hstored Hstore1 (clusterPathOf path) clusterData Hdata) as (Hin & _).
  exists clusterData. split; [exact Hin|].
  assert (Hcached : result (_cachedAttributeValueForPath path d1)
                    = attributes clusterData !! attribute path).
  { rewrite _cachedAttributeValueForPath_result, _clusterDataForPath_result, Hdata.
    reflexivity. }
  split; [symmetry; exact Hcached|].
  rewrite !_cachedAttributeValueForPath_result, Hlookups. reflexivity.
Qed.

End Persistence.

Lemma reported_changes_reach_storage_witness :
  exists clusterData,
    controllerDataStore
      (exec _handleReportEnd
         (exec (_handleAttributeReport (K := MatterConstants) 20 [onOffTrueAtVersion 7])
            (initWithNodeID (Some ∅) false)))
    ≫= (.!! clusterPathOf onOffPath) = Some clusterData
    /\ attributes clusterData !! attribute onOffPath
       = result (_cachedAttributeValueForPath onOffPath
                   (exec (_handleAttributeReport (K := MatterConstants) 20
                            [onOffTrueAtVersion 7])
                      (initWithNodeID (Some ∅) false))).
Proof.
  destruct (reported_changes_reach_storage (K := MatterConstants) 20 [onOffTrueAtVersion 7]
              onOffPath (initWithNodeID (Some ∅) false))
    as (clusterData & Hstored & Hvalue & _).
  - eexists. reflexivity.
  - intros Hsame. vm_compute in Hsame. discriminate Hsame.
  - exists clusterData. split; [exact Hstored | exact Hvalue].
Defined.
(** ** Changes of the device configuration *)

Ltac flag_steps :=
  run_steps (quiet_keeping_nil deviceConfigurationChanged)
    (quiet_keeping_app deviceConfigurationChanged) frame_leaf.

Lemma _clusterDataForPath_flag (clusterPath : MTRClusterPath) (d : MTRDevice) :
  run_ok (quiet_keeping deviceConfigurationChanged) (_clusterDataForPath clusterPath) d.
Proof.
  destruct (_clusterDataForPath_run clusterPath d) as (r & paged & Hrun).
  unfold run_ok. rewrite Hrun. split; reflexivity.
Qed.

Lemma _cachedAttributeValueForPath_flag (path : MTRAttributePath) (d : MTRDevice) :
  run_ok (quiet_keeping deviceConfigurationChanged) (_cachedAttributeValueForPath path) d.
Proof.
  pose proof _clusterDataForPath_flag.
  unfold _cachedAttributeValueForPath. flag_steps.
Qed.

Lemma _setCachedAttributeValue_flag (value : option MTRDeviceDataValueDictionary)
    (path : MTRAttributePath) (d : MTRDevice) :
  run_ok (quiet_keeping deviceConfigurationChanged) (_setCachedAttributeValue value path) d.
Proof.
  pose proof _clusterDataForPath_flag.
  unfold _setCachedAttributeValue, markClusterDataToPersist. flag_steps.
Qed.

Lemma _noteDataVersion_flag (dataVersion : Z) (clusterPath : MTRClusterPath) (d : MTRDevice) :
  run_ok (quiet_keeping deviceConfigurationChanged) (_noteDataVersion dataVersion clusterPath) d.
Proof.
  pose proof _clusterDataForPath_flag.
  unfold _noteDataVersion, markClusterDataToPersist. flag_steps.
Qed.

Section Configuration.

Context {K : MTRConstants}.

Lemma notePrimingSignal_flag (attributePath : MTRAttributePath) (d : MTRDevice) :
  run_ok (quiet_keeping deviceConfigurationChanged) (notePrimingSignal attributePath) d.
Proof. unfold notePrimingSignal. flag_steps. Qed.

Lemma noteUpTimeAttribute_flag (now : NSDate) (attributePath : MTRAttributePath)
    (attributeDataValue : MTRDeviceDataValueDictionary) (d : MTRDevice) :
  run_ok (quiet_keeping deviceConfigurationChanged)
    (noteUpTimeAttribute now attributePath attributeDataValue) d.
Proof.
  unfold noteUpTimeAttribute, noteSystemUpTime, when. destruct (_ && _); flag_steps.
Qed.

Lemma reportedErrorStep_flag (entry : MTRAttributeResponseValue) (d : MTRDevice) :
  run_ok (quiet_keeping deviceConfigurationChanged) (reportedErrorStep entry) d.
Proof.
  pose proof _cachedAttributeValueForPath_flag. pose proof _setCachedAttributeValue_flag.
  unfold reportedErrorStep. flag_steps.
Qed.

(** The cache update of the data branch raises the flag for an attribute
    that affects the device configuration. *)
Lemma updateReadCache_flag (dataVersion : option Z) (attributePath : MTRAttributePath)
    (attributeDataValue : MTRDeviceDataValueDictionary) (d : MTRDevice) :
  deviceConfigurationChanged
    (exec (updateReadCache dataVersion attributePath attributeDataValue) d)
  = deviceConfigurationChanged d || _attributeAffectsDeviceConfiguration attributePath.
Proof.
  unfold exec, updateReadCache. rewrite !device_after_bind. cbv beta.
  set (d1 := device_after (match dataVersion with
                           | Some n => _noteDataVersion n (clusterPathOf attributePath)
                           | None => ret tt
                           end d)).
  assert (H1 : deviceConfigurationChanged d1 = deviceConfigurationChanged d).
  { subst d1. destruct dataVersion as [n|]; [|reflexivity].
    apply (_noteDataVersion_flag n (clusterPathOf attributePath) d). }
  destruct (_setCachedAttributeValue_flag (Some attributeDataValue) attributePath d1)
    as [_ H2].
  set (d2 := device_after (_setCachedAttributeValue (Some attributeDataValue)
                             attributePath d1)) in *.
  change (result (get deviceConfigurationChanged d2)) with (deviceConfigurationChanged d2).
  change (device_after (get deviceConfigurationChanged d2)) with d2.
  rewrite <- H1, <- H2.
  destruct (deviceConfigurationChanged d2) eqn:Hflag; cbn [negb when orb].
  - exact Hflag.
  - reflexivity.
Qed.

(** One entry of an attribute report and the flag. *)
Lemma reportedValueStep_flag (now : NSDate) (entry : MTRAttributeResponseValue)
    (d : MTRDevice) :
  deviceConfigurationChanged (exec (reportedValueStep now entry) d)
  = match MTRErrorKey entry, rv_data entry with
    | None, Some value =>
        deviceConfigurationChanged d
        || (negb (_attributeDataValue_isEqualToDataValue (Some (incomingValue value))
                    (result (_cachedAttributeValueForPath (MTRAttributePathKey entry) d)))
            && _attributeAffectsDeviceConfiguration (MTRAttributePathKey entry))
    | _, _ => deviceConfigurationChanged d
    end.
Proof.
  unfold exec, reportedValueStep.
  destruct (notePrimingSignal_flag (MTRAttributePathKey entry) d) as [_ H0].
  pose proof (notePrimingSignal_store (MTRAttributePathKey entry) d) as Hstore.
  set (d0 := device_after (notePrimingSignal (MTRAttributePathKey entry) d)) in *.
  destruct (MTRErrorKey entry) as [error|].
  - rewrite device_after_bind. fold d0.
    destruct (reportedErrorStep_flag entry d0) as [_ H1]. congruence.
  - destruct (rv_data entry) as [value|]; [|reflexivity].
    rewrite device_after_bind. fold d0.
    unfold reportedDataStep. cbv zeta.
    change (match MTRDataVersionKey value with
            | Some _ => _dataValueWithoutDataVersion value
            | None => value
            end) with (incomingValue value).
    rewrite !device_after_bind. cbv beta.
    rewrite (_cachedAttributeValueForPath_result_store_equiv _ _ _ Hstore).
    destruct (_cachedAttributeValueForPath_flag (MTRAttributePathKey entry) d0) as [_ H1].
    set (d1 := device_after (_cachedAttributeValueForPath (MTRAttributePathKey entry) d0))
      in *.
    set (changed := negb (_attributeDataValue_isEqualToDataValue (Some (incomingValue value))
                            (result (_cachedAttributeValueForPath
                                       (MTRAttributePathKey entry) d)))).
    set (d2 := device_after
                 (when changed
                    (updateReadCache (MTRDataVersionKey value) (MTRAttributePathKey entry)
                       (incomingValue value)) d1)).
    change (device_after (get ?f d2)) with d2.
    destruct (noteUpTimeAttribute_flag now (MTRAttributePathKey entry) (incomingValue value)
                d2) as [_ H3].
    autorewrite with run.
    transitivity (deviceConfigurationChanged d2); [exact H3|]. subst d2.
    destruct changed; cbn [when andb].
    + pose proof (updateReadCache_flag (MTRDataVersionKey value) (MTRAttributePathKey entry)
                    (incomingValue value) d1) as H2.
      unfold exec in H2. rewrite H2. congruence.
    + autorewrite with run. rewrite orb_false_r. congruence.
Qed.

(** What the end of a report dispatches, and where it leaves the flag. *)
Lemma _handleReportEnd_effects (d : MTRDevice) :
  effects (_handleReportEnd d)
  = (if deviceConfigurationChanged d && weakDelegate d
     then [dispatch_async_delegateQueue deviceConfigurationChanged_] else [])
  /\ deviceConfigurationChanged (exec _handleReportEnd d) = false.
Proof.
  unfold exec, _handleReportEnd.
  set (d0 := set_estimatedStartTimeFromGeneralDiagnosticsUpTime None
               (set_receivingPrimingReport false (set_receivingReport false d))).
  set (flush := fun d : MTRDevice =>
                  match controllerDataStore d, clusterDataToPersist d with
                  | Some stored, Some dirty =>
                      if bool_decide (size dirty = 0%nat) then d
                      else
                        set_clusterDataToPersist None
                          (set_persistedClusters (dom dirty ∪ persistedClusters d)
                             (set_persistedClusterData ((dirty ∪.) <$> persistedClusterData d)
                                (set_controllerDataStore (Some (dirty ∪ stored)) d)))
                  | _, _ => d
                  end).
  set (tail := (changed <- get deviceConfigurationChanged ;;
                when changed
                  (delegate <- get weakDelegate ;;
                   when delegate
                     (emit (dispatch_async_delegateQueue deviceConfigurationChanged_)) ;;;
                   modify (set_deviceConfigurationChanged false)))).
  assert (Hrun : device_after
                   ((modify (set_receivingReport false) ;;;
                     modify (set_receivingPrimingReport false) ;;;
                     modify (set_estimatedStartTimeFromGeneralDiagnosticsUpTime None) ;;;
                     modify flush ;;; tail) d)
                 = device_after (tail (flush d0)))
    by (rewrite !device_after_bind; reflexivity).
  assert (Hout : effects
                   ((modify (set_receivingReport false) ;;;
                     modify (set_receivingPrimingReport false) ;;;
                     modify (set_estimatedStartTimeFromGeneralDiagnosticsUpTime None) ;;;
                     modify flush ;;; tail) d)
                 = effects (tail (flush d0)))
    by (rewrite !effects_bind; reflexivity).
  rewrite Hrun, Hout. clear Hrun Hout.
  assert (Hflag : deviceConfigurationChanged (flush d0) = deviceConfigurationChanged d
                  /\ weakDelegate (flush d0) = weakDelegate d).
  { subst flush. cbv beta.
    destruct (controllerDataStore d0); [|split; reflexivity].
    destruct (clusterDataToPersist d0); [|split; reflexivity].
    destruct (bool_decide _); split; reflexivity. }
  destruct Hflag as [Hflag Hdelegate]. rewrite <- Hflag, <- Hdelegate.
  generalize (flush d0). intros e. subst tail.
  rewrite effects_bind, device_after_bind. cbv beta.
  change (result (get deviceConfigurationChanged e)) with (deviceConfigurationChanged e).
  change (device_after (get deviceConfigurationChanged e)) with e.
  change (effects (get deviceConfigurationChanged e)) with (@nil Effect).
  destruct (deviceConfigurationChanged e) eqn:Hchanged; unfold when; cbn [andb app].
  - rewrite !effects_bind, !device_after_bind. cbv beta.
    change (result (get weakDelegate e)) with (weakDelegate e).
    destruct (weakDelegate e); split; reflexivity.
  - split; [reflexivity | exact Hchanged].
Qed.

Lemma reportedValueStep_configuration (now : NSDate) (entry : MTRAttributeResponseValue)
    (d : MTRDevice) :
  configuration_changes_flagged d (exec (reportedValueStep now entry) d).
Proof.
  pose proof (reportedValueStep_flag now entry d) as Hflag.
  destruct (reportedValueStep_spec now entry d) as (_ & _ & Hspec).
  cbv zeta in Hspec. unfold exec in *.
  set (d' := device_after (reportedValueStep now entry d)) in *.
  destruct (MTRErrorKey entry) as [error|]; [|destruct (rv_data entry) as [value|]].
  - destruct Hspec as (_ & _ & Hcached). split; [congruence|].
    intros path _. rewrite Hcached. destruct (bool_decide _); auto.
  - destruct Hspec as (_ & _ & Hcached). split.
    + intros Hraised. rewrite Hflag, Hraised. reflexivity.
    + intros path Haffects. rewrite Hcached, Hflag.
      destruct (negb _); cbn [andb]; [|auto].
      destruct (bool_decide (path = MTRAttributePathKey entry)) eqn:Hpath; [|auto].
      apply bool_decide_eq_true_1 in Hpath. subst path.
      rewrite Haffects, orb_true_r. auto.
  - destruct Hspec as (_ & _ & Hcached). split; [congruence|].
    intros path _. rewrite Hcached. auto.
Qed.

Lemma _getAttributesToReportWithReportedValues_configuration (now : NSDate)
    (batch : list MTRAttributeResponseValue) :
  forall d : MTRDevice,
    configuration_changes_flagged d
      (exec (_getAttributesToReportWithReportedValues now batch) d).
Proof.
  induction batch as [|entry rest IH]; intros d.
  - split; [auto|]. intros path _. left. reflexivity.
  - unfold exec. cbn [_getAttributesToReportWithReportedValues].
    rewrite !device_after_bind. cbv beta.
    destruct (reportedValueStep_configuration now entry d) as [Hraised Hvalues].
    unfold exec in Hraised, Hvalues.
    set (d1 := device_after (reportedValueStep now entry d)) in *.
    destruct (IH d1) as [Hraised' Hvalues']. unfold exec in Hraised', Hvalues'.
    set (d2 := device_after (_getAttributesToReportWithReportedValues now rest d1)) in *.
    change (device_after (ret ?x d2)) with d2.
    split; [auto|].
    intros path Haffects.
    destruct (Hvalues' path Haffects) as [Hsame | [Hnone | Hflag]]; [|auto|auto].
    rewrite Hsame.
    destruct (Hvalues path Haffects) as [Hsame1 | [Hnone1 | Hflag1]]; auto.
Qed.

(** Entries for attributes that do not affect the device configuration
    leave the flag as it is. *)
Lemma _getAttributesToReportWithReportedValues_flag (now : NSDate)
    (batch : list MTRAttributeResponseValue) :
  forall d : MTRDevice,
    Forall (fun entry =>
              _attributeAffectsDeviceConfiguration (MTRAttributePathKey entry) = false) batch ->
    deviceConfigurationChanged (exec (_getAttributesToReportWithReportedValues now batch) d)
    = deviceConfigurationChanged d.
Proof.
  induction batch as [|entry rest IH]; intros d Hbatch; [reflexivity|].
  apply Forall_cons in Hbatch as [Hentry Hrest].
  unfold exec. cbn [_getAttributesToReportWithReportedValues].
  rewrite !device_after_bind. cbv beta.
  pose proof (reportedValueStep_flag now entry d) as Hflag. unfold exec in Hflag.
  set (d1 := device_after (reportedValueStep now entry d)) in *.
  pose proof (IH d1 Hrest) as Hloop. unfold exec in Hloop.
  set (d2 := device_after (_getAttributesToReportWithReportedValues now rest d1)) in *.
  change (device_after (ret ?x d2)) with d2.
  rewrite Hloop, Hflag, Hentry.
  destruct (MTRErrorKey entry); [reflexivity|].
  destruct (rv_data entry); [|reflexivity].
  rewrite andb_false_r, orb_false_r. reflexivity.
Qed.

Lemma _handleAttributeReport_device (now : NSDate) (batch : list MTRAttributeResponseValue)
    (d : MTRDevice) :
  exec (_handleAttributeReport now batch) d
  = exec (_getAttributesToReportWithReportedValues now batch) d.
Proof.
  unfold exec, _handleAttributeReport. rewrite device_after_bind. cbv beta.
  destruct (_reportAttributes_run
              (result (_getAttributesToReportWithReportedValues now batch d))
              (device_after (_getAttributesToReportWithReportedValues now batch d)))
    as [out Hrun].
  rewrite Hrun. reflexivity.
Qed.

(** X28.  A change of the device configuration is announced at the end
    of the report, not when the attribute report is ingested.  When the
    report has left a value in the read cache for an attribute that affects
    the device configuration (parts list, server list or device type list
    of the descriptor cluster, or accepted command list, attribute list,
    cluster revision or feature map of any cluster) and the cache did not
    hold that value before, the end of the report dispatches the
    [deviceConfigurationChanged:] callback, and only that, when a delegate
    is set.  A report with no entry for such an attribute leads to no
    callback at its end when none was outstanding.  The end of the report
    takes the flag down, so that a report end that follows at once
    dispatches nothing. *)
Theorem configuration_change_is_announced_at_report_end (now : NSDate)
    (batch : list MTRAttributeResponseValue) (d : MTRDevice) :
  let d1 := exec (_handleAttributeReport now batch) d in
  let announcement := dispatch_async_delegateQueue deviceConfigurationChanged_ in
  (announcement ∉ effects (_handleAttributeReport now batch d))
  /\ (forall path value,
        _attributeAffectsDeviceConfiguration path = true ->
        result (_cachedAttributeValueForPath path d1) = Some value ->
        result (_cachedAttributeValueForPath path d) <> Some value ->
        effects (_handleReportEnd d1) = if weakDelegate d then [announcement] else [])
  /\ (deviceConfigurationChanged d = false ->
      Forall (fun entry =>
                _attributeAffectsDeviceConfiguration (MTRAttributePathKey entry) = false)
        batch ->
      effects (_handleReportEnd d1) = [])
  /\ effects (_handleReportEnd (exec _handleReportEnd d1)) = [].
Proof.
  cbv zeta. rewrite _handleAttributeReport_device.
  destruct (_getAttributesToReportWithReportedValues_spec now batch d)
    as (Hout & Hdelegate & _).
  cbv zeta in Hout, Hdelegate.
  destruct (_getAttributesToReportWithReportedValues_configuration now batch d)
    as [_ Hvalues].
  pose proof (_getAttributesToReportWithReportedValues_flag now batch d) as Hquiet.
  unfold exec in Hvalues, Hquiet |- *.
  set (d1 := device_after (_getAttributesToReportWithReportedValues now batch d)) in *.
  split; [|split; [|split]].
  - unfold _handleAttributeReport. rewrite effects_bind, Hout. cbn [app]. fold d1.
    unfold _reportAttributes.
    destruct (result (_getAttributesToReportWithReportedValues now batch d));
      [apply not_elem_of_nil|].
    rewrite effects_bind. cbv beta.
    change (result (get weakDelegate d1)) with (weakDelegate d1).
    destruct (weakDelegate d1); cbn; [|apply not_elem_of_nil].
    intros Hin. apply list_elem_of_singleton in Hin. discriminate.
  - intros path value Haffects Hnew Hold.
    destruct (_handleReportEnd_effects d1) as [Hend _]. rewrite Hend, Hdelegate.
    destruct (Hvalues path Haffects) as [Hsame | [Hnone | Hflag]].
    + congruence.
    + congruence.
    + rewrite Hflag. reflexivity.
  - intros Hdown Hbatch.
    destruct (_handleReportEnd_effects d1) as [Hend _]. rewrite Hend.
    rewrite (Hquiet Hbatch), Hdown. reflexivity.
  - destruct (_handleReportEnd_effects d1) as [_ Hdown].
    destruct (_handleReportEnd_effects (exec _handleReportEnd d1)) as [Hend _].
    unfold exec in Hdown, Hend |- *. rewrite Hend, Hdown. reflexivity.
Qed.

End Configuration.
(** ** Reads after operations on the expected values *)

(** C1. After any sequence of expected-value insertions, removals and
    expiry sweeps, [readAttribute] for a path answers with the expected
    value stored for the path if there is one and its expiration time has
    not passed, else with the value the read cache holds for the path,
    else with nothing.  The value the read cache holds is the value under
    the attribute id in the cluster data of the store (data to persist,
    else persisted data in memory, else storage); the operations do not
    change it, and it is the value last given to
    [-_setCachedAttributeValue:forPath:] when the sequence started from
    there. *)
Theorem read_returns_expected_else_cached {K : MTRConstants}
    (d0 : MTRDevice) (ops : list ExpectedValueOperation)
    (endpointID clusterID attributeID : Z) (params : option MTRReadParams) (now : NSDate) :
  let d := runOperations ops d0 in
  let path := mkAttributePath endpointID clusterID attributeID in
  let cached := readCacheValue path d in
  result (readAttributeWithEndpointID endpointID clusterID attributeID params now d)
  = match expectedValueCache d !! path with
    | Some expected =>
        if bool_decide (now <= MTRDeviceExpectedValueFieldExpirationTimeIndex expected)
        then Some (MTRDeviceExpectedValueFieldValueIndex expected)
        else cached
    | None => cached
    end
  /\ cached = readCacheValue path d0
  /\ forall (value : option MTRDeviceDataValueDictionary) (before : MTRDevice),
       d0 = exec (_setCachedAttributeValue value path) before -> cached = value.
Proof.
  intros d path cached.
  assert (Hkept : cached = readCacheValue path d0).
  { subst cached.
    rewrite <- !_cachedAttributeValueForPath_readCacheValue.
    apply _cachedAttributeValueForPath_result_store_equiv, runOperations_store. }
  split; [|split; [exact Hkept|]].
  - subst cached. rewrite <- _cachedAttributeValueForPath_readCacheValue.
    apply readAttribute_value.
  - intros value before Hset. rewrite Hkept, Hset.
    rewrite <- _cachedAttributeValueForPath_readCacheValue.
    rewrite _setCachedAttributeValue_cached.
    rewrite bool_decide_eq_true_2 by reflexivity. reflexivity.
Qed.

(** ** Events of a priming batch *)

(** C9. Once an attribute whose path has the Changes Omitted quality is
    processed while a report batch is being received, the device has its
    receiving-priming-report flag raised, whatever reachability state the
    batch's report begin found.  An event report processed later in the
    batch hands on the events of the report that carry an event time (and
    an up-time value when the time is the system up-time), in the order of
    the report, each tagged [isHistorical = YES]; with a delegate installed
    they are dispatched in one callback behind the events kept from
    earlier reports, without a delegate they are kept behind those. *)
Theorem changes_omitted_attribute_marks_batch_as_priming {K : MTRConstants}
    (d0 : MTRDevice) (before after : list ReportCallback)
    (now : NSDate) (attributeReport : list MTRAttributeResponseValue)
    (eventTime : NSDate) (eventReport : list MTREventReport) :
  carriesChangesOmittedAttribute attributeReport ->
  let d1 := runCallbacks before (exec _handleReportBegin d0) in
  let d2 := exec (_handleAttributeReport now attributeReport) d1 in
  let d3 := runCallbacks after d2 in
  let added := result (eventReportLoop eventTime eventReport d3) in
  let report := default [] (unreportedEvents d3) ++ added in
  receivingPrimingReport d2 = true
  /\ added = withIsHistorical true <$> List.filter eventIsReported eventReport
  /\ Forall (fun e => MTREventIsHistoricalKey e = Some true) added
  /\ (weakDelegate d3 = true ->
      effects (_handleEventReport eventTime eventReport d3)
      = [dispatch_async_delegateQueue (device_receivedEventReport report)])
  /\ (weakDelegate d3 = false ->
      effects (_handleEventReport eventTime eventReport d3) = []
      /\ unreportedEvents (exec (_handleEventReport eventTime eventReport) d3)
         = Some report).
Proof.
  intros Hcarries d1 d2 d3 added report.
  assert (Hbegin : receivingReport (exec _handleReportBegin d0) = true).
  { unfold exec, _handleReportBegin, _changeState. unfold_m. split_tests; reflexivity. }
  assert (H1 : receivingReport d1 = true).
  { subst d1. rewrite (proj1 (runCallbacks_flags before _)). exact Hbegin. }
  assert (H2 : receivingPrimingReport d2 = true)
    by (apply _handleAttributeReport_raises; assumption).
  assert (H3 : receivingPrimingReport d3 = true)
    by (apply (proj2 (runCallbacks_flags after d2)); exact H2).
  destruct (eventReportLoop_spec eventTime eventReport d3) as (estimate & Hloop & _).
  rewrite H3 in Hloop.
  assert (Hadded : added = withIsHistorical true <$> List.filter eventIsReported eventReport)
    by (subst added; rewrite Hloop; reflexivity).
  split; [exact H2|]. split; [exact Hadded|]. split.
  { rewrite Hadded. apply Forall_fmap, Forall_forall. intros e _. reflexivity. }
  subst report. rewrite Hadded. clear Hadded. subst added.
  unfold exec, _handleEventReport.
  split; intros Hdelegate.
  - autorewrite with run. rewrite Hloop.
    change (result (?a, ?b, ?c)) with a. change (device_after (?a, ?b, ?c)) with b.
    change (effects (?a, ?b, ?c)) with c.
    change (weakDelegate (set_estimatedStartTime estimate d3)) with (weakDelegate d3).
    rewrite Hdelegate. autorewrite with run. reflexivity.
  - autorewrite with run. rewrite Hloop.
    change (result (?a, ?b, ?c)) with a. change (device_after (?a, ?b, ?c)) with b.
    change (effects (?a, ?b, ?c)) with c.
    change (weakDelegate (set_estimatedStartTime estimate d3)) with (weakDelegate d3).
    rewrite Hdelegate. autorewrite with run. split; reflexivity.
Qed.

(** A second batch on a device that is already Reachable: report begin
    leaves the priming flag down, the up-time attribute raises it, and the
    event that follows reaches the delegate tagged as historical. *)
Lemma changes_omitted_attribute_marks_batch_as_priming_witness :
  let afterBegin := exec _handleReportBegin deviceWithOnOffTrue in
  let afterAttributes :=
    exec (_handleAttributeReport (K := MatterConstants) 50 [upTimeReport]) afterBegin in
  carriesChangesOmittedAttribute (K := MatterConstants) [upTimeReport]
  /\ state deviceWithOnOffTrue = MTRDeviceStateReachable
  /\ receivingPrimingReport afterBegin = false
  /\ receivingPrimingReport afterAttributes = true
  /\ result (eventReportLoop (K := MatterConstants) 60 [someEvent] afterAttributes)
     = [withIsHistorical true someEvent]
  /\ effects (_handleEventReport (K := MatterConstants) 60 [someEvent] afterAttributes)
     = [dispatch_async_delegateQueue
          (device_receivedEventReport [withIsHistorical true someEvent])].
Proof.
  cbv zeta.
  assert (H : carriesChangesOmittedAttribute (K := MatterConstants) [upTimeReport]).
  { exists upTimeReport. split; [apply list_elem_of_singleton; reflexivity|].
    split; [reflexivity|]. left. eexists. reflexivity. }
  split; [exact H|]. split; [reflexivity|]. split; [reflexivity|].
  assert (Hdelegate : weakDelegate
                        (exec (_handleAttributeReport (K := MatterConstants) 50 [upTimeReport])
                           (exec _handleReportBegin deviceWithOnOffTrue)) = true)
    by (vm_compute; reflexivity).
  destruct (changes_omitted_attribute_marks_batch_as_priming (K := MatterConstants)
              deviceWithOnOffTrue [] [] 50 [upTimeReport] 60 [someEvent] H)
    as (Hflag & Hadded & _ & Hdispatched & _).
  split; [exact Hflag|]. split.
  - etransitivity; [exact Hadded|]. vm_compute. reflexivity.
  - etransitivity; [exact (Hdispatched Hdelegate)|]. vm_compute. reflexivity.
Defined.
